(** * virtinst/xmlbuilder.py: the XML property engine

    A shallow embedding of [XMLProperty], [XMLChildProperty], [_XMLState]
    and [XMLBuilder], and the properties of staging, emission and reset
    that the specification states about them.

    Python values are an inductive type, the ordered property store is an
    association list, documents live in a store indexed by handles, and
    methods are computations in a state-and-exception monad over the
    instance and the document store. *)

From Stdlib Require Import List String Ascii ZArith Bool Arith Lia.
From Stdlib Require Import DecimalString DecimalNat Permutation Sorted.
Import ListNotations.
Open Scope string_scope.
#[local] Set Warnings "-register-all".

(** ** Python values and exceptions *)

(** The values a scalar property holds: [None], booleans, integers and
    text. *)
Inductive pyval : Type :=
| VNone
| VBool (b : bool)
| VInt (z : Z)
| VStr (s : string).

Inductive exn : Type :=
| RuntimeError (msg : string)
| ValueError (msg : string)
| TypeError (msg : string)
| KeyError (key : string)
| AttributeError (msg : string)
| RecursionError
| Raised (tag : string).

Definition result (A : Type) : Type := (exn + A)%type.

Module Py.

(** [bool(v)] *)
Definition truthy (v : pyval) : bool :=
  match v with
  | VNone => false
  | VBool b => b
  | VInt z => negb (Z.eqb z 0)
  | VStr s => negb (String.eqb s EmptyString)
  end.

Definition int_of_bool (b : bool) : Z := if b then 1%Z else 0%Z.

(** [a == b]: booleans compare as the integers 0 and 1. *)
Definition eq (a b : pyval) : bool :=
  match a, b with
  | VNone, VNone => true
  | VBool x, VBool y => Bool.eqb x y
  | VBool x, VInt y => Z.eqb (int_of_bool x) y
  | VInt x, VBool y => Z.eqb x (int_of_bool y)
  | VInt x, VInt y => Z.eqb x y
  | VStr x, VStr y => String.eqb x y
  | _, _ => false
  end.

Definition is_none (v : pyval) : bool :=
  match v with VNone => true | _ => false end.

(** [str(v)] *)
Definition str (v : pyval) : string :=
  match v with
  | VNone => "None"
  | VBool true => "True"
  | VBool false => "False"
  | VInt z => NilZero.string_of_int (Z.to_int z)
  | VStr s => s
  end.

(** *** Text helpers *)

Definition startswith (s p : string) : bool := String.prefix p s.

Fixpoint contains (needle hay : string) : bool :=
  String.prefix needle hay ||
  match hay with
  | EmptyString => false
  | String _ rest => contains needle rest
  end.

Fixpoint last_char (s : string) : option ascii :=
  match s with
  | EmptyString => None
  | String c EmptyString => Some c
  | String _ rest => last_char rest
  end.

(** [s[:-1]] *)
Fixpoint drop_last (s : string) : string :=
  match s with
  | EmptyString => EmptyString
  | String _ EmptyString => EmptyString
  | String c rest => String c (drop_last rest)
  end.

Definition newline : ascii := "010"%char.

Definition endswith_char (s : string) (c : ascii) : bool :=
  match last_char s with
  | Some c' => Ascii.eqb c c'
  | None => false
  end.

Fixpoint drop (n : nat) (s : string) : string :=
  match n, s with
  | O, _ => s
  | S n', String _ rest => drop n' rest
  | S _, EmptyString => EmptyString
  end.

(** [s.replace(old, new)] for a non-empty [old]: matches are taken left to
    right and do not overlap. [skip] counts the characters of a match that
    are still to be passed over. *)
Fixpoint replace_from (old new s : string) (skip : nat) : string :=
  match s with
  | EmptyString => EmptyString
  | String c rest =>
      match skip with
      | S k => replace_from old new rest k
      | O =>
          if String.prefix old s
          then new ++ replace_from old new rest (String.length old - 1)
          else String c (replace_from old new rest 0)
      end
  end.

Definition replace (old new s : string) : string := replace_from old new s 0.

(** *** [int(text, base)] *)

(** The white space that [int] passes over around a number, on code
    points below 256: tab, line feed, vertical tab, form feed, carriage
    return and space, and above 127 the next-line and no-break space
    characters, which the conversion of a text that is not ASCII turns into
    spaces first. The separators 28 to 31 are white space for
    [str.isspace] but not for [int]. *)
Definition is_space (c : ascii) : bool :=
  let n := nat_of_ascii c in
  ((9 <=? n)%nat && (n <=? 13)%nat) || (n =? 32)%nat
  || (n =? 133)%nat || (n =? 160)%nat.

Definition is_digit (c : ascii) : bool :=
  let n := nat_of_ascii c in (48 <=? n)%nat && (n <=? 57)%nat.

Definition digit_value (c : ascii) : option Z :=
  let n := nat_of_ascii c in
  if (48 <=? n)%nat && (n <=? 57)%nat then Some (Z.of_nat (n - 48))
  else if (97 <=? n)%nat && (n <=? 122)%nat then Some (Z.of_nat (n - 87))
  else if (65 <=? n)%nat && (n <=? 90)%nat then Some (Z.of_nat (n - 55))
  else None.

Fixpoint lstrip (l : list ascii) : list ascii :=
  match l with
  | c :: rest => if is_space c then lstrip rest else l
  | [] => []
  end.

Definition strip (l : list ascii) : list ascii :=
  rev (lstrip (rev (lstrip l))).

(** Digits in [base], single underscores allowed between two digits.
    [acc] is the value read so far, [after_digit] tells whether the
    previous character was a digit. *)
Fixpoint digits (base : Z) (l : list ascii) (acc : Z) (after_digit : bool)
  : option Z :=
  match l with
  | [] => if after_digit then Some acc else None
  | c :: rest =>
      if Ascii.eqb c "_"%char
      then if after_digit then digits base rest acc false else None
      else match digit_value c with
           | Some d =>
               if (d <? base)%Z then digits base rest (acc * base + d)%Z true
               else None
           | None => None
           end
  end.

(** After the sign: with base 16 a leading [0x] or [0X] is passed over,
    and one underscore may follow it. *)
Definition unprefixed (base : Z) (l : list ascii) : list ascii :=
  if (base =? 16)%Z then
    match l with
    | "0"%char :: c :: rest =>
        if Ascii.eqb c "x"%char || Ascii.eqb c "X"%char
        then match rest with
             | "_"%char :: rest' => rest'
             | _ => rest
             end
        else l
    | _ => l
    end
  else l.

Definition magnitude (base : Z) (l : list ascii) : option Z :=
  digits base (unprefixed base l) 0 false.

Definition int_of_text (base : Z) (s : string) : option Z :=
  match strip (list_ascii_of_string s) with
  | "-"%char :: rest => option_map Z.opp (magnitude base rest)
  | "+"%char :: rest => magnitude base rest
  | l => magnitude base l
  end.

(** [intkwargs = {}; if "0x" in str(val): intkwargs["base"] = 16;
    int(val, **intkwargs)] *)
Definition int_autobase (v : pyval) : result pyval :=
  let hex := contains "0x" (str v) in
  match v with
  | VStr s =>
      match int_of_text (if hex then 16 else 10) s with
      | Some z => inr (VInt z)
      | None => inl (ValueError "invalid literal for int()")
      end
  | VInt z =>
      if hex then inl (TypeError "int() cannot convert non-string with explicit base")
      else inr (VInt z)
  | VBool b =>
      if hex then inl (TypeError "int() cannot convert non-string with explicit base")
      else inr (VInt (int_of_bool b))
  | VNone => inl (TypeError "int() argument must be a string or a number")
  end.

End Py.

(** ** The ordered property store

    [collections.OrderedDict]: an association list in insertion order, each
    key bound once. *)
Module OD.
Section Dict.
Context {V : Type}.

Definition t : Type := list (string * V).

Definition keys (d : t) : list string := map fst d.

Fixpoint mem (k : string) (d : t) : bool :=
  match d with
  | [] => false
  | (k', _) :: rest => String.eqb k k' || mem k rest
  end.

(** [d.get(k)] *)
Fixpoint get (k : string) (d : t) : option V :=
  match d with
  | [] => None
  | (k', v) :: rest => if String.eqb k k' then Some v else get k rest
  end.

(** [del d[k]] *)
Fixpoint del (k : string) (d : t) : t :=
  match d with
  | [] => []
  | (k', v) :: rest =>
      if String.eqb k k' then del k rest else (k', v) :: del k rest
  end.

(** [d[k] = v]: a bound key keeps its place, a new key goes last. *)
Fixpoint set (k : string) (v : V) (d : t) : t :=
  match d with
  | [] => [(k, v)]
  | (k', v') :: rest =>
      if String.eqb k k' then (k, v) :: rest else (k', v') :: set k v rest
  end.

Definition wf (d : t) : Prop := NoDup (keys d).
End Dict.
Arguments t : clear implicits.
End OD.

(** ** Instances *)

(** [_XMLState]: the position of an instance and its document handle.
    [xmlapi] is a handle into the document store. *)
Record XMLState : Type := mkXMLState {
  _root_name : string;
  _namespace : string;
  _relative_object_xpath : string;
  _parent_xpath : string;
  xmlapi : nat;
  is_build : bool
}.

(** What a key of the property store is bound to: a staged scalar, the one
    object of a singular child property, or the list of a plural one. *)
Inductive propval (B : Type) : Type :=
| PVal (v : pyval)
| PObj (o : B)
| PList (l : list B).
Arguments PVal {B} v.
Arguments PObj {B} o.
Arguments PList {B} l.

(** An [XMLBuilder] object: its class (by name), [_propstore] and
    [_xmlstate]. Child objects are held in the property store. *)
Inductive XMLBuilder : Type :=
  mkXMLBuilder (cls : string)
               (_propstore : OD.t (propval XMLBuilder))
               (_xmlstate : XMLState).

Definition cls (b : XMLBuilder) : string :=
  match b with mkXMLBuilder c _ _ => c end.
Definition _propstore (b : XMLBuilder) : OD.t (propval XMLBuilder) :=
  match b with mkXMLBuilder _ ps _ => ps end.
Definition _xmlstate (b : XMLBuilder) : XMLState :=
  match b with mkXMLBuilder _ _ st => st end.

Definition with_propstore (b : XMLBuilder) (ps : OD.t (propval XMLBuilder))
  : XMLBuilder :=
  mkXMLBuilder (cls b) ps (_xmlstate b).
Definition with_xmlstate (b : XMLBuilder) (st : XMLState) : XMLBuilder :=
  mkXMLBuilder (cls b) (_propstore b) st.

(** ** Descriptors and classes *)

(** [XMLProperty]. [_propname] is the attribute name the class binds the
    descriptor to. A callback gets the instance it is called for; it may
    raise. [_default_name] is [VNone] when there is no sentinel. *)
Record XMLProperty : Type := mkXMLProperty {
  _propname : string;
  _xpath : string;
  _is_bool : bool;
  _is_int : bool;
  _is_yesno : bool;
  _is_onoff : bool;
  _do_abspath : bool;
  _validate_cb : option (XMLBuilder -> pyval -> option exn);
  _convert_value_for_setter_cb : option (XMLBuilder -> pyval -> result pyval);
  _default_cb : option (XMLBuilder -> result pyval);
  _default_name : pyval
}.

Record XMLChildProperty : Type := mkXMLChildProperty {
  child_propname : string;
  child_class : string;
  is_single : bool;
  relative_xpath : string
}.

(** What a class declares: [XML_NAME], [_XML_PROP_ORDER], and the two tables
    of [_XMLPropertyCache], in dictionary order. *)
Record XMLBuilderClass : Type := mkXMLBuilderClass {
  XML_NAME : string;
  _XML_PROP_ORDER : list string;
  _all_xml_props : list XMLProperty;
  _all_child_props : list XMLChildProperty
}.

(** The classes of the program, and [os.path.abspath]. *)
Class Env : Type := {
  class_of : string -> XMLBuilderClass;
  os_path_abspath : string -> string
}.

Definition in_xmlprops (c : XMLBuilderClass) (key : string) : bool :=
  existsb (fun p => String.eqb key (_propname p)) (_all_xml_props c).

Definition in_childprops (c : XMLBuilderClass) (key : string) : bool :=
  existsb (fun p => String.eqb key (child_propname p)) (_all_child_props c).

Definition find_xmlprop (c : XMLBuilderClass) (key : string) : option XMLProperty :=
  find (fun p => String.eqb key (_propname p)) (_all_xml_props c).

Definition find_childprop (c : XMLBuilderClass) (key : string)
  : option XMLChildProperty :=
  find (fun p => String.eqb key (child_propname p)) (_all_child_props c).

(** [sum([int(bool(i)) for i in [is_bool, is_int, is_yesno, is_onoff]])] *)
Definition converter_options (is_bool is_int is_yesno is_onoff : bool) : nat :=
  list_sum (map Nat.b2n [is_bool; is_int; is_yesno; is_onoff]).

(** [XMLProperty.__init__] *)
Definition XMLProperty__init__ (propname xpath : string)
    (set_converter : option (XMLBuilder -> pyval -> result pyval))
    (validate_cb : option (XMLBuilder -> pyval -> option exn))
    (is_bool is_int is_yesno is_onoff : bool)
    (default_cb : option (XMLBuilder -> result pyval))
    (default_name : pyval) (do_abspath : bool) : result XMLProperty :=
  if String.eqb xpath EmptyString
  then inl (RuntimeError "XMLProperty: xpath must be passed.")
  else if (1 <? converter_options is_bool is_int is_yesno is_onoff)%nat
  then inl (RuntimeError "Conflict property converter options.")
  else if Py.truthy default_name
          && negb (match default_cb with Some _ => true | None => false end)
  then inl (RuntimeError "default_name requires default_cb.")
  else inr {| _propname := propname; _xpath := xpath;
              _is_bool := is_bool; _is_int := is_int;
              _is_yesno := is_yesno; _is_onoff := is_onoff;
              _do_abspath := do_abspath;
              _validate_cb := validate_cb;
              _convert_value_for_setter_cb := set_converter;
              _default_cb := default_cb;
              _default_name := default_name |}.

(** [self._default_name and val == self._default_name] *)
Definition is_default_name (p : XMLProperty) (val : pyval) : bool :=
  Py.truthy (_default_name p) && Py.eq val (_default_name p).

(** [XMLProperty._convert_get_value] *)
Definition _convert_get_value (p : XMLProperty) (val : pyval) : result pyval :=
  if is_default_name p val then inr val
  else if _is_bool p then inr (VBool (Py.truthy val))
  else if _is_int p && negb (Py.is_none val) then Py.int_autobase val
  else if _is_yesno p && negb (Py.is_none val)
  then inr (VBool (Py.eq val (VStr "yes")))
  else if _is_onoff p && negb (Py.is_none val)
  then inr (VBool (Py.eq val (VStr "on")))
  else inr val.

(** [os.path.abspath(val)] *)
Definition abspath `{Env} (val : pyval) : result pyval :=
  match val with
  | VStr s => inr (VStr (os_path_abspath s))
  | _ => inl (TypeError "expected str, bytes or os.PathLike object")
  end.

(** [XMLProperty._convert_set_value] *)
Definition _convert_set_value `{Env} (p : XMLProperty) (xmlbuilder : XMLBuilder)
    (val : pyval) : result pyval :=
  let converted :=
    if is_default_name p val then
      match _default_cb p with
      | Some cb => cb xmlbuilder
      | None => inl (TypeError "'NoneType' object is not callable")
      end
    else if _do_abspath p && negb (Py.is_none val) then abspath val
    else if _is_onoff p && negb (Py.is_none val)
    then inr (VStr (if Py.truthy val then "on" else "off"))
    else if _is_yesno p && negb (Py.is_none val)
    then inr (VStr (if Py.truthy val then "yes" else "no"))
    else if _is_int p && negb (Py.is_none val) then Py.int_autobase val
    else inr val in
  match converted with
  | inl e => inl e
  | inr v =>
      match _convert_value_for_setter_cb p with
      | Some cb => cb xmlbuilder v
      | None => inr v
      end
  end.

(** ** [_XMLState]: path arithmetic *)

(** [x or d] on text *)
Definition str_or (x d : string) : string :=
  if String.eqb x EmptyString then d else x.

Definition _join_xpath (x1 x2 : string) : string :=
  let x1 := if Py.endswith_char x1 "/"%char then Py.drop_last x1 else x1 in
  let x2 := if Py.startswith x2 "." then Py.drop 1 x2 else x2 in
  x1 ++ x2.

Definition abs_xpath (st : XMLState) : string :=
  _join_xpath (str_or (_parent_xpath st) ".")
              (str_or (_relative_object_xpath st) ".").

Definition make_abs_xpath (st : XMLState) (xpath : string) : string :=
  _join_xpath (str_or (abs_xpath st) ".") xpath.

Definition set_relative_object_xpath (st : XMLState) (xpath : option string)
  : XMLState :=
  {| _root_name := _root_name st; _namespace := _namespace st;
     _relative_object_xpath :=
       match xpath with Some x => x | None => EmptyString end;
     _parent_xpath := _parent_xpath st;
     xmlapi := xmlapi st; is_build := is_build st |}.

Definition set_parent_xpath (st : XMLState) (xpath : option string) : XMLState :=
  {| _root_name := _root_name st; _namespace := _namespace st;
     _relative_object_xpath := _relative_object_xpath st;
     _parent_xpath := match xpath with Some x => x | None => EmptyString end;
     xmlapi := xmlapi st; is_build := is_build st |}.

Definition set_xmlapi (st : XMLState) (api : nat) : XMLState :=
  {| _root_name := _root_name st; _namespace := _namespace st;
     _relative_object_xpath := _relative_object_xpath st;
     _parent_xpath := _parent_xpath st;
     xmlapi := api; is_build := is_build st |}.

Definition set_is_build (st : XMLState) (flag : bool) : XMLState :=
  {| _root_name := _root_name st; _namespace := _namespace st;
     _relative_object_xpath := _relative_object_xpath st;
     _parent_xpath := _parent_xpath st;
     xmlapi := xmlapi st; is_build := flag |}.

(** ** State and exceptions

    A method is a computation on a state that may raise. The state outlives
    an exception, as the effects of a Python call do. *)
Definition M (S A : Type) : Type := S -> S * result A.

Definition ret {S A} (a : A) : M S A := fun s => (s, inr a).

Definition raise {S A} (e : exn) : M S A := fun s => (s, inl e).

Definition bind {S A B} (c : M S A) (k : A -> M S B) : M S B :=
  fun s =>
    match c s with
    | (s', inr a) => k a s'
    | (s', inl e) => (s', inl e)
    end.

Definition lift {S A} (r : result A) : M S A := fun s => (s, r).

Definition gets {S A} (f : S -> A) : M S A := fun s => (s, inr (f s)).

Definition modify {S} (f : S -> S) : M S unit := fun s => (f s, inr tt).

Declare Scope monad_scope.
Delimit Scope monad_scope with monad.
Notation "x <- c ;; k" := (bind c (fun x => k))
  (at level 61, c at next level, right associativity) : monad_scope.
Notation "c ;; k" := (bind c (fun _ => k))
  (at level 61, right associativity) : monad_scope.
Open Scope monad_scope.

(** [try: c finally: fin] *)
Definition try_finally {S A} (c : M S A) (fin : M S unit) : M S A :=
  fun s =>
    match c s with
    | (s1, r) =>
        match fin s1 with
        | (s2, inr _) => (s2, r)
        | (s2, inl e) => (s2, inl e)
        end
    end.

(** [for x in l: body(x)] *)
Fixpoint for_each {S X} (l : list X) (body : X -> M S unit) : M S unit :=
  match l with
  | [] => ret tt
  | x :: rest => body x ;; for_each rest body
  end.

(** ** The document adapter

    Modelled from the spec: the Document Adapter ([virtinst/xmlapi.py],
    which is not among the sources), by the contract the engine consumes:
    read, write, count, clear_node, remove_node, render, duplicate, and the
    constructor from text, which may fail. *)
Class XMLAPI (doc : Type) : Type := {
  XMLAPI__init__ : string -> result doc;
  copy_api : doc -> doc;
  get_xpath_content : doc -> string -> bool -> pyval;
  set_xpath_content : doc -> string -> pyval -> doc;
  count : doc -> string -> nat;
  node_clear : doc -> string -> doc;
  node_force_remove : doc -> string -> doc;
  api_get_xml : doc -> string -> string
}.

(** [l[i] = x] on a list; nothing changes out of range. *)
Fixpoint list_set {A} (l : list A) (i : nat) (x : A) : list A :=
  match l, i with
  | [], _ => []
  | _ :: rest, O => x :: rest
  | y :: rest, S i' => y :: list_set rest i' x
  end.

(** [del l[i]] *)
Fixpoint list_del {A} (l : list A) (i : nat) : list A :=
  match l, i with
  | [], _ => []
  | _ :: rest, O => rest
  | y :: rest, S i' => y :: list_del rest i'
  end.

(** [list.remove(k)]: the first occurrence goes. *)
Fixpoint remove_first (k : string) (l : list string) : list string :=
  match l with
  | [] => []
  | x :: rest => if String.eqb k x then rest else x :: remove_first k rest
  end.

Definition mem_str (k : string) (l : list string) : bool :=
  existsb (String.eqb k) l.

(** [sorted(l)] on text: insertion in code point order. *)
Fixpoint insert_sorted (k : string) (l : list string) : list string :=
  match l with
  | [] => [k]
  | x :: rest =>
      if String.leb k x then k :: l else x :: insert_sorted k rest
  end.

Definition sorted (l : list string) : list string :=
  fold_right insert_sorted [] l.

(** ["[%d]" % n] *)
Definition idxstr (n : nat) : string :=
  "[" ++ NilZero.string_of_uint (Nat.to_uint n) ++ "]".

(** ** Emission order *)

(** One step of [for key in reversed(self._XML_PROP_ORDER)]. *)
Definition prefer (c : XMLBuilderClass) (key : string) (do_order : list string)
  : list string :=
  if mem_str key do_order then key :: remove_first key do_order
  else if in_childprops c key then key :: do_order
  else do_order.

(** One step of [for key in sorted(list(childprops.keys()))]. *)
Definition append_missing (do_order : list string) (key : string) : list string :=
  if mem_str key do_order then do_order else do_order ++ [key].

(** The list [do_order] of [_do_add_parse_bits], from the keys of the
    property store. *)
Definition do_order (c : XMLBuilderClass) (propstore_keys : list string)
  : list string :=
  let staged := filter (fun p => negb (in_childprops c p)) propstore_keys in
  let preferred := fold_right (prefer c) staged (_XML_PROP_ORDER c) in
  fold_left append_missing
            (sorted (map child_propname (_all_child_props c)))
            preferred.

(** [self._propstore = origpropstore], where [origpropstore] is the shallow
    copy taken earlier: the keys and scalars of the copy, and the child
    objects it shares with the current store in the state they are in now. *)
Definition shallow_restore (orig cur : OD.t (propval XMLBuilder))
  : OD.t (propval XMLBuilder) :=
  map (fun kv =>
         match snd kv, OD.get (fst kv) cur with
         | PObj _, Some (PObj o) => (fst kv, PObj o)
         | PList _, Some (PList l) => (fst kv, PList l)
         | v, _ => (fst kv, v)
         end) orig.

(** ** The engine *)
Section Engine.
Context {doc : Type} `{XMLAPI doc} `{Env}.

(** The state a method runs on: [self] and the document store. *)
Definition world : Type := (XMLBuilder * list doc)%type.

Definition get_self : M world XMLBuilder := gets fst.

Definition set_self_propstore (ps : OD.t (propval XMLBuilder)) : M world unit :=
  modify (fun s => (with_propstore (fst s) ps, snd s)).

Definition set_self_xmlstate (st : XMLState) : M world unit :=
  modify (fun s => (with_xmlstate (fst s) st, snd s)).

(** A call on the document [self._xmlstate.xmlapi] that returns a value. *)
Definition api_read {A} (f : doc -> A) : M world A :=
  fun s =>
    match nth_error (snd s) (xmlapi (_xmlstate (fst s))) with
    | Some d => (s, inr (f d))
    | None => (s, inl (AttributeError "xmlapi"))
    end.

(** A call on the document [self._xmlstate.xmlapi] that changes it. *)
Definition api_write (f : doc -> doc) : M world unit :=
  fun s =>
    let h := xmlapi (_xmlstate (fst s)) in
    match nth_error (snd s) h with
    | Some d => ((fst s, list_set (snd s) h (f d)), inr tt)
    | None => (s, inl (AttributeError "xmlapi"))
    end.

(** A new document object in the store; its handle is returned. *)
Definition alloc (d : doc) : M world nat :=
  fun s => ((fst s, (snd s ++ [d])%list), inr (List.length (snd s))).

(** *** [XMLProperty] *)

(** [XMLProperty._default_get_value] *)
Definition _default_get_value (p : XMLProperty) : M world (bool * pyval) :=
  xmlbuilder <- get_self ;;
  if negb (is_build (_xmlstate xmlbuilder)) then ret (false, VInt (-1))
  else if OD.mem (_propname p) (_propstore xmlbuilder) then ret (false, VInt (-1))
  else match _default_cb p with
       | None => ret (false, VInt (-1))
       | Some cb =>
           if Py.truthy (_default_name p) then ret (true, _default_name p)
           else v <- lift (cb xmlbuilder) ;; ret (true, v)
       end.

(** [XMLProperty._nonxml_fset] *)
Definition _nonxml_fset (p : XMLProperty) (val : pyval) : M world unit :=
  xmlbuilder <- get_self ;;
  let propstore := _propstore xmlbuilder in
  let propstore :=
    if OD.mem (_propname p) propstore then OD.del (_propname p) propstore
    else propstore in
  set_self_propstore (OD.set (_propname p) (PVal val) propstore).

(** [xmlbuilder._propstore.get(self.propname, None)], read as a scalar. *)
Definition propstore_scalar (p : XMLProperty) (xmlbuilder : XMLBuilder)
  : result pyval :=
  match OD.get (_propname p) (_propstore xmlbuilder) with
  | None => inr VNone
  | Some (PVal v) => inr v
  | Some _ => inl (TypeError "not a scalar")
  end.

(** [XMLProperty._nonxml_fget] *)
Definition _nonxml_fget (p : XMLProperty) : M world pyval :=
  d <- _default_get_value p ;;
  if fst d then ret (snd d)
  else xmlbuilder <- get_self ;; lift (propstore_scalar p xmlbuilder).

(** [XMLProperty._get_xml] *)
Definition _get_xml (p : XMLProperty) : M world pyval :=
  xmlbuilder <- get_self ;;
  let xpath := make_abs_xpath (_xmlstate xmlbuilder) (_xpath p) in
  api_read (fun d => get_xpath_content d xpath (_is_bool p)).

(** [XMLProperty.getter] *)
Definition getter (p : XMLProperty) : M world pyval :=
  xmlbuilder <- get_self ;;
  val <- (if OD.mem (_propname p) (_propstore xmlbuilder)
             || is_build (_xmlstate xmlbuilder)
          then _nonxml_fget p
          else _get_xml p) ;;
  lift (_convert_get_value p val).

(** [XMLProperty.setter] *)
Definition setter (p : XMLProperty) (val : pyval) (validate : bool)
  : M world unit :=
  xmlbuilder <- get_self ;;
  match (if validate then _validate_cb p else None) with
  | Some cb =>
      match cb xmlbuilder val with
      | Some e => raise e
      | None => ret tt
      end
  | None => ret tt
  end ;;
  v <- lift (_convert_set_value p xmlbuilder val) ;;
  _nonxml_fset p v.

(** [XMLProperty._set_default] *)
Definition _set_default (p : XMLProperty) : M world unit :=
  d <- _default_get_value p ;;
  if fst d then setter p (snd d) false else ret tt.

(** [XMLProperty.clear] *)
Definition XMLProperty_clear (p : XMLProperty) : M world unit :=
  xmlbuilder <- get_self ;;
  if OD.mem (_propname p) (_propstore xmlbuilder) then setter p VNone true
  else ret tt.

(** [XMLProperty._set_xml], on what the property store holds for the key. *)
Definition _set_xml (p : XMLProperty) (setval : propval XMLBuilder)
  : M world unit :=
  xmlbuilder <- get_self ;;
  let xpath := make_abs_xpath (_xmlstate xmlbuilder) (_xpath p) in
  match setval with
  | PVal v => api_write (fun d => set_xpath_content d xpath v)
  | _ => raise (TypeError "not a scalar")
  end.

(** *** [XMLChildProperty] *)

(** [XMLChildProperty._get] *)
Definition XMLChildProperty_get (cp : XMLChildProperty)
  : M world (propval XMLBuilder) :=
  xmlbuilder <- get_self ;;
  match OD.get (child_propname cp) (_propstore xmlbuilder) with
  | Some v => ret v
  | None =>
      if is_single cp then raise (KeyError (child_propname cp))
      else set_self_propstore
             (OD.set (child_propname cp) (PList []) (_propstore xmlbuilder)) ;;
           ret (PList [])
  end.

(** [util.listify(getattr(self, propname))]: the objects a loop over a child
    property visits. A key that holds something else than its property
    declares fails as the first use of such a value does. *)
Definition getattr_children (cp : XMLChildProperty) : M world (list XMLBuilder) :=
  v <- XMLChildProperty_get cp ;;
  if is_single cp then
    match v with
    | PObj o => ret [o]
    | PList l => ret l
    | PVal VNone => ret []
    | PVal _ => raise (AttributeError "not an XMLBuilder")
    end
  else
    match v with
    | PList l => ret l
    | PVal (VStr EmptyString) => ret []
    | PVal (VStr _) => raise (AttributeError "not an XMLBuilder")
    | _ => raise (TypeError "object is not iterable")
    end.

Definition child_at (v : propval XMLBuilder) (i : nat) : option XMLBuilder :=
  match v with
  | PObj o => match i with O => Some o | S _ => None end
  | PList l => nth_error l i
  | PVal _ => None
  end.

Definition put_child (v : propval XMLBuilder) (i : nat) (o : XMLBuilder)
  : propval XMLBuilder :=
  match v with
  | PObj _ => PObj o
  | PList l => PList (list_set l i o)
  | PVal x => PVal x
  end.

(** A method call on the [i]-th object held under [key]: the call runs on
    that object and the store, and the object stays where it is, in the
    state the call leaves it in. *)
Definition with_child {A} (key : string) (i : nat) (call : M world A)
  : M world A :=
  fun s =>
    match OD.get key (_propstore (fst s)) with
    | None => (s, inl (KeyError key))
    | Some v =>
        match child_at v i with
        | None => (s, inl (AttributeError "not an XMLBuilder"))
        | Some o =>
            match call (o, snd s) with
            | ((o', h'), r) =>
                ((with_propstore (fst s)
                    (OD.set key (put_child v i o') (_propstore (fst s))), h'),
                 r)
            end
        end
    end.

(** [for obj in util.listify(getattr(self, propname)): call(obj)] *)
Definition for_children (cp : XMLChildProperty) (call : M world unit)
  : M world unit :=
  objs <- getattr_children cp ;;
  for_each (seq 0 (List.length objs))
           (fun i => with_child (child_propname cp) i call).

(** *** [XMLBuilder]: emission *)

(** The loop [for key in do_order] of [_do_add_parse_bits]; [flush_child]
    is [obj._add_parse_bits]. *)
Definition emit_key (c : XMLBuilderClass) (flush_child : nat -> M world unit)
    (key : string) : M world unit :=
  match find_xmlprop c key with
  | Some p =>
      xmlbuilder <- get_self ;;
      match OD.get key (_propstore xmlbuilder) with
      | Some setval => _set_xml p setval
      | None => raise (KeyError key)
      end
  | None =>
      match find_childprop c key with
      | Some cp =>
          objs <- getattr_children cp ;;
          for_each (seq 0 (List.length objs))
            (fun i =>
               xmlbuilder <- get_self ;;
               with_child key i (flush_child (xmlapi (_xmlstate xmlbuilder))))
      | None => ret tt
      end
  end.

(** [XMLBuilder._do_add_parse_bits] *)
Definition _do_add_parse_bits (flush_child : nat -> M world unit)
  : M world unit :=
  self <- get_self ;;
  let c := class_of (cls self) in
  for_each (_all_xml_props c) _set_default ;;
  self <- get_self ;;
  for_each (do_order c (OD.keys (_propstore self))) (emit_key c flush_child).

(** The [finally] clause of [_add_parse_bits]. *)
Definition restore (origapi : nat) (origpropstore : OD.t (propval XMLBuilder))
  : M world unit :=
  modify (fun s =>
            (mkXMLBuilder (cls (fst s))
               (shallow_restore origpropstore (_propstore (fst s)))
               (set_xmlapi (_xmlstate (fst s)) origapi),
             snd s)).

(** [XMLBuilder._add_parse_bits]. [depth] bounds the nesting of calls;
    exceeding it raises [RecursionError]. *)
Fixpoint _add_parse_bits (depth : nat) (api : nat) : M world unit :=
  match depth with
  | O => raise RecursionError
  | S depth' =>
      self <- get_self ;;
      let origpropstore := _propstore self in
      let origapi := xmlapi (_xmlstate self) in
      try_finally
        (set_self_xmlstate (set_xmlapi (_xmlstate self) api) ;;
         _do_add_parse_bits (_add_parse_bits depth'))
        (restore origapi origpropstore)
  end.

(** [if ret and not ret.endswith("\n"): ret += "\n"] *)
Definition end_with_newline (ret : string) : string :=
  if negb (String.eqb ret EmptyString) && negb (Py.endswith_char ret Py.newline)
  then ret ++ String Py.newline EmptyString
  else ret.

(** [XMLBuilder.get_xml]. In build mode the copy is a new object of the
    store for the time of the call: once [_add_parse_bits] has put the
    handles back nothing refers to it, and it is dropped on return. *)
Definition get_xml (depth : nat) : M world string :=
  fun s =>
    let self := fst s in
    if is_build (_xmlstate self) then
      match nth_error (snd s) (xmlapi (_xmlstate self)) with
      | None => (s, inl (AttributeError "xmlapi"))
      | Some d =>
          let api := List.length (snd s) in
          match _add_parse_bits depth api (self, (snd s ++ [copy_api d])%list) with
          | ((self', h'), r) =>
              let s' := (self', firstn (List.length (snd s)) h') in
              match r, nth_error h' api with
              | inl e, _ => (s', inl e)
              | inr _, None => (s', inl (AttributeError "xmlapi"))
              | inr _, Some d' =>
                  (s', inr (end_with_newline
                              (api_get_xml d' (make_abs_xpath (_xmlstate self') "."))))
              end
          end
      end
    else
      (_add_parse_bits depth (xmlapi (_xmlstate self)) ;;
       self' <- get_self ;;
       xml <- api_read (fun d => api_get_xml d (make_abs_xpath (_xmlstate self') ".")) ;;
       ret (end_with_newline xml)) s.

(** *** [XMLBuilder]: positions and documents of a subtree *)

(** The second argument of [_set_xpaths]: left at its default [-1], or a
    path (possibly [None]). *)
Inductive relarg : Type :=
| Unchanged
| Rel (xpath : option string).

(** [XMLBuilder._set_xpaths] *)
Fixpoint _set_xpaths (depth : nat) (parent_xpath : option string)
    (relative_object_xpath : relarg) : M world unit :=
  match depth with
  | O => raise RecursionError
  | S depth' =>
      self <- get_self ;;
      set_self_xmlstate (set_parent_xpath (_xmlstate self) parent_xpath) ;;
      match relative_object_xpath with
      | Unchanged => ret tt
      | Rel x =>
          self <- get_self ;;
          set_self_xmlstate (set_relative_object_xpath (_xmlstate self) x)
      end ;;
      self <- get_self ;;
      for_each (_all_child_props (class_of (cls self)))
        (fun cp =>
           objs <- getattr_children cp ;;
           for_each (seq 0 (List.length objs))
             (fun i =>
                self <- get_self ;;
                with_child (child_propname cp) i
                  (_set_xpaths depth' (Some (abs_xpath (_xmlstate self)))
                               Unchanged)))
  end.

(** [typecount[class_type] += 1], from 0 when the class is new. *)
Fixpoint count_incr (k : string) (typecount : list (string * nat))
  : list (string * nat) :=
  match typecount with
  | [] => [(k, 1)]
  | (k', n) :: rest =>
      if String.eqb k k' then (k', S n) :: rest
      else (k', n) :: count_incr k rest
  end.

Fixpoint count_get (k : string) (typecount : list (string * nat)) : nat :=
  match typecount with
  | [] => 0
  | (k', n) :: rest => if String.eqb k k' then n else count_get k rest
  end.

(** A loop that carries a local variable. *)
Fixpoint fold_m {S X A} (l : list X) (acc : A) (body : A -> X -> M S A)
  : M S A :=
  match l with
  | [] => ret acc
  | x :: rest => acc' <- body acc x ;; fold_m rest acc' body
  end.

(** [XMLChildProperty.get_prop_xpath] *)
Definition get_prop_xpath (cp : XMLChildProperty) (obj_class : string) : string :=
  relative_xpath cp ++ "/" ++ XML_NAME (class_of obj_class).

(** [XMLBuilder._set_child_xpaths] *)
Definition _set_child_xpaths (depth : nat) : M world unit :=
  self <- get_self ;;
  fold_m (_all_child_props (class_of (cls self))) []
    (fun typecount cp =>
       objs <- getattr_children cp ;;
       fold_m (combine (seq 0 (List.length objs)) objs) typecount
         (fun typecount io =>
            let class_type := cls (snd io) in
            let typecount :=
              if is_single cp then typecount
              else count_incr class_type typecount in
            let idx :=
              if is_single cp then EmptyString
              else idxstr (count_get class_type typecount) in
            let prop_path := get_prop_xpath cp class_type in
            self <- get_self ;;
            with_child (child_propname cp) (fst io)
              (_set_xpaths depth (Some (abs_xpath (_xmlstate self)))
                           (Rel (Some (prop_path ++ idx)))) ;;
            ret typecount)) ;;
  ret tt.

(** [_XMLState.parse] *)
Definition XMLState_parse (parsexml : option string)
    (parentxmlstate : option XMLState) : M world unit :=
  self <- get_self ;;
  let st := _xmlstate self in
  match parentxmlstate with
  | Some pst =>
      set_self_xmlstate
        (set_xmlapi (set_is_build st (is_build pst || is_build st)) (xmlapi pst))
  | None =>
      let stub := "<" ++ _root_name st ++ _namespace st ++ "/>" in
      let text :=
        match parsexml with
        | None => stub
        | Some x =>
            if String.eqb x EmptyString then stub
            else if negb (String.eqb (_namespace st) EmptyString)
                    && negb (Py.contains "xmlns" x)
            then Py.replace ("<" ++ _root_name st)
                            ("<" ++ _root_name st ++ _namespace st) x
            else x
        end in
      d <- lift (XMLAPI__init__ text) ;;
      h <- alloc d ;;
      set_self_xmlstate (set_xmlapi st h)
  end.

(** [XMLBuilder._parse_with_children] *)
Fixpoint _parse_with_children (depth : nat) (parsexml : option string)
    (parentxmlstate : option XMLState) : M world unit :=
  match depth with
  | O => raise RecursionError
  | S depth' =>
      XMLState_parse parsexml parentxmlstate ;;
      self <- get_self ;;
      for_each (_all_child_props (class_of (cls self)))
        (fun cp =>
           objs <- getattr_children cp ;;
           for_each (seq 0 (List.length objs))
             (fun i =>
                self <- get_self ;;
                with_child (child_propname cp) i
                  (_parse_with_children depth' None (Some (_xmlstate self)))))
  end.

(** [XMLBuilder._find_child_prop] *)
Definition _find_child_prop (c : XMLBuilderClass) (child_class_name : string)
  : result XMLChildProperty :=
  match find (fun cp => negb (is_single cp)
                        && String.eqb child_class_name (child_class cp))
             (_all_child_props c) with
  | Some cp => inr cp
  | None => inl (RuntimeError
                   "programming error: Didn't find child property for child_class")
  end.

(** A method call on an object that is not held by [self]. *)
Definition on_object {A} (obj : XMLBuilder) (call : M world A)
  : M world (XMLBuilder * A) :=
  fun s =>
    match call (obj, snd s) with
    | ((obj', h'), inr a) => ((fst s, h'), inr (obj', a))
    | ((_, h'), inl e) => ((fst s, h'), inl e)
    end.

(** [XMLBuilder.remove_child(obj)], for the object [obj] that is the
    [i]-th of the list held under [key]. An object is in one list only, so
    [list.remove(obj)] on the list of another property raises. The object,
    as the call leaves it, is returned. *)
Definition remove_child (depth : nat) (key : string) (i : nat)
  : M world XMLBuilder :=
  self <- get_self ;;
  match OD.get key (_propstore self) with
  | Some (PList l) =>
      match nth_error l i with
      | Some obj =>
          xmlprop <- lift (_find_child_prop (class_of (cls self)) (cls obj)) ;;
          held <- XMLChildProperty_get xmlprop ;;
          match held with
          | PList l' =>
              if String.eqb (child_propname xmlprop) key then
                self <- get_self ;;
                set_self_propstore
                  (OD.set key (PList (list_del l' i)) (_propstore self))
              else raise (ValueError "list.remove(x): x not in list")
          | _ => raise (AttributeError "remove")
          end ;;
          let xpath := abs_xpath (_xmlstate obj) in
          r <- on_object obj (get_xml depth) ;;
          let xml := snd r in
          r <- on_object (fst r) (_set_xpaths depth None (Rel None)) ;;
          r <- on_object (fst r) (_parse_with_children depth (Some xml) None) ;;
          api_write (fun d => node_force_remove d xpath) ;;
          _set_child_xpaths depth ;;
          ret (fst r)
      | None => raise (ValueError "list.remove(x): x not in list")
      end
  | _ => raise (ValueError "list.remove(x): x not in list")
  end.

(** [XMLChildProperty.clear]; [clear_child] is [XMLBuilder.clear] of the one
    object of a singular property. For a plural property the loop runs over
    a copy of the list, and each call takes its object out of the list: the
    object of each round is the first of the list as it is then. *)
Definition XMLChildProperty_clear (depth : nat) (clear_child : M world unit)
    (cp : XMLChildProperty) : M world unit :=
  held <- XMLChildProperty_get cp ;;
  if is_single cp then
    match held with
    | PObj _ => with_child (child_propname cp) 0 clear_child
    | PList _ =>
        self <- get_self ;;
        set_self_propstore
          (OD.set (child_propname cp) (PList []) (_propstore self))
    | PVal _ => raise (AttributeError "clear")
    end
  else
    match held with
    | PList l =>
        for_each l (fun _ => remove_child depth (child_propname cp) 0 ;; ret tt)
    | PVal (VStr EmptyString) => ret tt
    | PVal (VStr _) =>
        raise (RuntimeError
                 "programming error: Didn't find child property for child_class")
    | _ => raise (TypeError "object is not subscriptable")
    end.

(** [re.match("^.*\[\d+\]$", xpath)]: [.] is any character but a newline,
    and [$] is the end of the text or the place before a newline that ends
    it. *)
Fixpoint take_digits (l : list ascii) : list ascii * list ascii :=
  match l with
  | c :: rest =>
      if Py.is_digit c
      then let (ds, tl) := take_digits rest in (c :: ds, tl)
      else ([], l)
  | [] => ([], [])
  end.

Definition is_child_xpath (xpath : string) : bool :=
  let backwards := rev (list_ascii_of_string xpath) in
  let backwards :=
    match backwards with
    | c :: rest => if Ascii.eqb c Py.newline then rest else backwards
    | [] => []
    end in
  match backwards with
  | "]"%char :: rest =>
      match take_digits rest with
      | (_ :: _, "["%char :: before) =>
          forallb (fun c => negb (Ascii.eqb c Py.newline)) before
      | _ => false
      end
  | _ => false
  end.

(** [XMLBuilder.clear], first part: every descriptor is cleared, the
    scalar ones first. [clear_child] is [XMLBuilder.clear] of the object of
    a singular property. *)
Definition clear_props (depth : nat) (clear_child : M world unit) : M world unit :=
  self <- get_self ;;
  let c := class_of (cls self) in
  for_each (_all_xml_props c) XMLProperty_clear ;;
  for_each (_all_child_props c) (XMLChildProperty_clear depth clear_child).

(** [XMLBuilder.clear], second part: the node of the instance is blanked
    or removed. *)
Definition clear_node (leave_stub : bool) : M world unit :=
  self <- get_self ;;
  let xpath := abs_xpath (_xmlstate self) in
  if is_child_xpath xpath || leave_stub
  then api_write (fun d => node_clear d xpath)
  else api_write (fun d => node_force_remove d xpath).

(** [XMLBuilder.clear] *)
Fixpoint clear (depth : nat) (leave_stub : bool) : M world unit :=
  match depth with
  | O => raise RecursionError
  | S depth' =>
      clear_props depth' (clear depth' false) ;;
      clear_node leave_stub
  end.

End Engine.

(** ** A document adapter to run the engine on *)

Module TreeDoc.

(** Modelled from the spec: the Document Adapter ([virtinst/xmlapi.py],
    which is not among the sources), as a tree of elements addressed by
    paths of the form [./devices/disk[2]/source/@file]: path-indexed read
    and write, count, clear_node, remove_node, render and duplicate. A
    write of a value stores its text [str(value)]; a write of [None]
    removes the content and the elements it leaves empty; a write of [True]
    makes the element, of [False] removes it. *)
Inductive node : Type :=
  Node (tag : string) (attrs : list (string * string)) (text : string)
       (children : list node).

Definition tag_of (n : node) : string :=
  match n with Node t _ _ _ => t end.
Definition attrs_of (n : node) : list (string * string) :=
  match n with Node _ a _ _ => a end.
Definition text_of (n : node) : string :=
  match n with Node _ _ x _ => x end.
Definition children_of (n : node) : list node :=
  match n with Node _ _ _ c => c end.

(** The document: its root element, if it still has one. *)
Definition doc : Type := option node.

Inductive step : Type :=
| Child (tag : string) (index : option nat)
| Attr (name : string).

Fixpoint split_on (sep : ascii) (l cur : list ascii) : list (list ascii) :=
  match l with
  | [] => [rev cur]
  | c :: rest =>
      if Ascii.eqb c sep then rev cur :: split_on sep rest []
      else split_on sep rest (c :: cur)
  end.

Fixpoint span_until (stop : ascii) (l : list ascii) : list ascii * list ascii :=
  match l with
  | [] => ([], [])
  | c :: rest =>
      if Ascii.eqb c stop then ([], l)
      else let (a, b) := span_until stop rest in (c :: a, b)
  end.

Definition nat_of_digits (ds : list ascii) : nat :=
  fold_left (fun acc c => 10 * acc + (nat_of_ascii c - 48)) ds 0.

Definition parse_step (seg : list ascii) : step :=
  match seg with
  | "@"%char :: name => Attr (string_of_list_ascii name)
  | _ =>
      let (name, rest) := span_until "["%char seg in
      match rest with
      | _ :: r =>
          Child (string_of_list_ascii name)
                (Some (nat_of_digits (fst (take_digits r))))
      | [] => Child (string_of_list_ascii name) None
      end
  end.

(** The steps of a path below the root [.]. *)
Definition parse_xpath (xpath : string) : list step :=
  match split_on "/"%char (list_ascii_of_string xpath) [] with
  | _ :: rest => map parse_step rest
  | [] => []
  end.

(** The place of a step among the children of that tag, from 0; [name]
    alone is the first one; [name[0]] is no place. *)
Definition place (index : option nat) : option nat :=
  match index with
  | None => Some 0
  | Some 0 => None
  | Some (S k) => Some k
  end.

Fixpoint nth_tag (tag : string) (k : nat) (l : list node) : option node :=
  match l with
  | [] => None
  | n :: rest =>
      if String.eqb (tag_of n) tag then
        match k with
        | O => Some n
        | S k' => nth_tag tag k' rest
        end
      else nth_tag tag k rest
  end.

(** Replace ([Some]) or delete ([None]) the [k]-th child of a tag. *)
Fixpoint alter_nth_tag (tag : string) (k : nat) (f : node -> option node)
    (l : list node) : list node :=
  match l with
  | [] => []
  | n :: rest =>
      if String.eqb (tag_of n) tag then
        match k with
        | O => match f n with Some n' => n' :: rest | None => rest end
        | S k' => n :: alter_nth_tag tag k' f rest
        end
      else n :: alter_nth_tag tag k f rest
  end.

Fixpoint assoc_get (k : string) (l : list (string * string)) : option string :=
  match l with
  | [] => None
  | (k', v) :: rest => if String.eqb k k' then Some v else assoc_get k rest
  end.

Fixpoint assoc_set (k v : string) (l : list (string * string))
  : list (string * string) :=
  match l with
  | [] => [(k, v)]
  | (k', v') :: rest =>
      if String.eqb k k' then (k, v) :: rest else (k', v') :: assoc_set k v rest
  end.

Fixpoint assoc_del (k : string) (l : list (string * string))
  : list (string * string) :=
  match l with
  | [] => []
  | (k', v') :: rest =>
      if String.eqb k k' then rest else (k', v') :: assoc_del k rest
  end.

Inductive target : Type :=
| TNode (n : node)
| TAttr (value : string).

Fixpoint find (steps : list step) (n : node) : option target :=
  match steps with
  | [] => Some (TNode n)
  | Attr a :: _ => option_map TAttr (assoc_get a (attrs_of n))
  | Child tag index :: rest =>
      match place index with
      | Some k =>
          match nth_tag tag k (children_of n) with
          | Some c => find rest c
          | None => None
          end
      | None => None
      end
  end.

(** Set the content at a path, making the elements that are missing. *)
Fixpoint write (steps : list step) (v : string) (n : node) : node :=
  match steps with
  | [] => Node (tag_of n) (attrs_of n) v (children_of n)
  | Attr a :: _ =>
      Node (tag_of n) (assoc_set a v (attrs_of n)) (text_of n) (children_of n)
  | Child tag index :: rest =>
      let k := match place index with Some k => k | None => 0 end in
      match nth_tag tag k (children_of n) with
      | Some _ =>
          Node (tag_of n) (attrs_of n) (text_of n)
               (alter_nth_tag tag k (fun c => Some (write rest v c)) (children_of n))
      | None =>
          Node (tag_of n) (attrs_of n) (text_of n)
               (children_of n ++ [write rest v (Node tag [] EmptyString [])])%list
      end
  end.

(** Make the element at a path if it is missing. *)
Fixpoint make_stub (steps : list step) (n : node) : node :=
  match steps with
  | [] => n
  | Attr a :: _ =>
      match assoc_get a (attrs_of n) with
      | Some _ => n
      | None =>
          Node (tag_of n) (assoc_set a EmptyString (attrs_of n)) (text_of n)
               (children_of n)
      end
  | Child tag index :: rest =>
      let k := match place index with Some k => k | None => 0 end in
      match nth_tag tag k (children_of n) with
      | Some _ =>
          Node (tag_of n) (attrs_of n) (text_of n)
               (alter_nth_tag tag k (fun c => Some (make_stub rest c)) (children_of n))
      | None =>
          Node (tag_of n) (attrs_of n) (text_of n)
               (children_of n ++ [make_stub rest (Node tag [] EmptyString [])])%list
      end
  end.

Definition is_empty (n : node) : bool :=
  match n with
  | Node _ [] EmptyString [] => true
  | _ => false
  end.

(** Remove the content at a path, and the elements on the path that this
    leaves empty. The result is [None] when the element itself is left
    empty. *)
Fixpoint unset (steps : list step) (n : node) : option node :=
  let keep n' := if is_empty n' then None else Some n' in
  match steps with
  | [] => keep (Node (tag_of n) (attrs_of n) EmptyString (children_of n))
  | Attr a :: _ =>
      keep (Node (tag_of n) (assoc_del a (attrs_of n)) (text_of n) (children_of n))
  | Child tag index :: rest =>
      match place index with
      | Some k =>
          match nth_tag tag k (children_of n) with
          | Some _ =>
              keep (Node (tag_of n) (attrs_of n) (text_of n)
                         (alter_nth_tag tag k (unset rest) (children_of n)))
          | None => Some n
          end
      | None => Some n
      end
  end.

(** Apply [f] to the element at a path; [None] deletes it. *)
Fixpoint alter (steps : list step) (f : node -> option node) (n : node)
  : option node :=
  match steps with
  | [] => f n
  | Attr a :: _ =>
      Some (Node (tag_of n) (assoc_del a (attrs_of n)) (text_of n) (children_of n))
  | Child tag index :: rest =>
      match place index with
      | Some k =>
          Some (Node (tag_of n) (attrs_of n) (text_of n)
                     (alter_nth_tag tag k (alter rest f) (children_of n)))
      | None => Some n
      end
  end.

Definition render_attr (kv : string * string) : string :=
  " " ++ fst kv ++ "='" ++ snd kv ++ "'".

Fixpoint render (n : node) : string :=
  match n with
  | Node tag attrs text children =>
      "<" ++ tag ++ String.concat EmptyString (map render_attr attrs) ++
      match text, children with
      | EmptyString, [] => "/>"
      | _, _ =>
          ">" ++ text ++ String.concat EmptyString (map render children)
          ++ "</" ++ tag ++ ">"
      end
  end.

Fixpoint count_tag (tag : string) (l : list node) : nat :=
  match l with
  | [] => 0
  | n :: rest =>
      (if String.eqb (tag_of n) tag then 1 else 0) + count_tag tag rest
  end.

Fixpoint split_last {A} (l : list A) : option (list A * A) :=
  match l with
  | [] => None
  | [x] => Some ([], x)
  | x :: rest =>
      match split_last rest with
      | Some (init, y) => Some (x :: init, y)
      | None => None
      end
  end.

Definition count_nodes (d : doc) (xpath : string) : nat :=
  match d with
  | None => 0
  | Some root =>
      match split_last (parse_xpath xpath) with
      | None => 1
      | Some (init, Child tag None) =>
          match find init root with
          | Some (TNode parent) => count_tag tag (children_of parent)
          | _ => 0
          end
      | Some _ =>
          match find (parse_xpath xpath) root with
          | Some _ => 1
          | None => 0
          end
      end
  end.

Definition read (d : doc) (xpath : string) (is_bool : bool) : pyval :=
  match d with
  | None => VNone
  | Some root =>
      match find (parse_xpath xpath) root with
      | None => VNone
      | Some t =>
          if is_bool then VBool true
          else match t with
               | TNode n => VStr (text_of n)
               | TAttr v => VStr v
               end
      end
  end.

Definition remove_node (d : doc) (xpath : string) : doc :=
  match d with
  | None => None
  | Some root => alter (parse_xpath xpath) (fun _ => None) root
  end.

(** A node with its content blanked. *)
Definition blank (n : node) : option node :=
  Some (Node (tag_of n) [] EmptyString []).

Definition clear_node (d : doc) (xpath : string) : doc :=
  match d with
  | None => None
  | Some root => alter (parse_xpath xpath) blank root
  end.

Definition write_content (d : doc) (xpath : string) (setval : pyval) : doc :=
  match d with
  | None => None
  | Some root =>
      match setval with
      | VBool false => remove_node d xpath
      | VNone =>
          match unset (parse_xpath xpath) root with
          | Some root' => Some root'
          | None => Some (Node (tag_of root) [] EmptyString [])
          end
      | VBool true => Some (make_stub (parse_xpath xpath) root)
      | _ => Some (write (parse_xpath xpath) (Py.str setval) root)
      end
  end.

Definition render_at (d : doc) (xpath : string) : string :=
  match d with
  | None => EmptyString
  | Some root =>
      match find (parse_xpath xpath) root with
      | Some (TNode n) => render n
      | _ => EmptyString
      end
  end.

(** The constructor from text: elements, attributes in single or double
    quotes, text before the first child element. *)
Fixpoint skip_ws (l : list ascii) : list ascii :=
  match l with
  | c :: rest => if Py.is_space c then skip_ws rest else l
  | [] => []
  end.

Definition is_name_char (c : ascii) : bool :=
  negb (Py.is_space c || Ascii.eqb c ">"%char || Ascii.eqb c "/"%char
        || Ascii.eqb c "="%char || Ascii.eqb c "<"%char).

Fixpoint span_name (l : list ascii) : list ascii * list ascii :=
  match l with
  | [] => ([], [])
  | c :: rest =>
      if is_name_char c
      then let (a, b) := span_name rest in (c :: a, b)
      else ([], l)
  end.

Definition dquote : ascii := "034"%char.

Fixpoint parse_attrs (fuel : nat) (l : list ascii)
    (acc : list (string * string))
  : option (list (string * string) * list ascii) :=
  match fuel with
  | O => None
  | S fuel' =>
      match skip_ws l with
      | (">"%char :: _) as l' => Some (rev acc, l')
      | ("/"%char :: _) as l' => Some (rev acc, l')
      | l' =>
          match span_name l' with
          | ((_ :: _) as name, "="%char :: q :: rest) =>
              if Ascii.eqb q "'"%char || Ascii.eqb q dquote then
                match span_until q rest with
                | (value, _ :: rest') =>
                    parse_attrs fuel' rest'
                      ((string_of_list_ascii name, string_of_list_ascii value)
                         :: acc)
                | _ => None
                end
              else None
          | _ => None
          end
      end
  end.

Fixpoint parse_node (fuel : nat) (l : list ascii) : option (node * list ascii) :=
  match fuel with
  | O => None
  | S fuel' =>
      match skip_ws l with
      | "<"%char :: rest =>
          match span_name rest with
          | ((_ :: _) as name, rest1) =>
              match parse_attrs fuel' rest1 [] with
              | Some (attrs, "/"%char :: ">"%char :: rest2) =>
                  Some (Node (string_of_list_ascii name) attrs EmptyString [],
                        rest2)
              | Some (attrs, ">"%char :: rest2) =>
                  let (text, rest3) := span_until "<"%char rest2 in
                  let text :=
                    match skip_ws text with [] => [] | _ => text end in
                  match parse_children fuel' rest3 [] with
                  | Some (children, rest4) =>
                      Some (Node (string_of_list_ascii name) attrs
                                 (string_of_list_ascii text) children, rest4)
                  | None => None
                  end
              | _ => None
              end
          | _ => None
          end
      | _ => None
      end
  end
with parse_children (fuel : nat) (l : list ascii) (acc : list node)
  : option (list node * list ascii) :=
  match fuel with
  | O => None
  | S fuel' =>
      match snd (span_until "<"%char l) with
      | "<"%char :: "/"%char :: rest =>
          match span_until ">"%char rest with
          | (_, _ :: rest') => Some (rev acc, rest')
          | _ => None
          end
      | ("<"%char :: _) as l' =>
          match parse_node fuel' l' with
          | Some (c, rest) => parse_children fuel' rest (c :: acc)
          | None => None
          end
      | _ => None
      end
  end.

Definition parse (text : string) : result doc :=
  let l := list_ascii_of_string text in
  match parse_node (S (List.length l)) l with
  | Some (root, rest) =>
      match skip_ws rest with
      | [] => inr (Some root)
      | _ => inl (Raised "XML parse error")
      end
  | None => inl (Raised "XML parse error")
  end.

#[export] Instance api : XMLAPI doc := {
  XMLAPI__init__ := parse;
  copy_api := fun d => d;
  get_xpath_content := read;
  set_xpath_content := write_content;
  count := count_nodes;
  node_clear := clear_node;
  node_force_remove := remove_node;
  api_get_xml := render_at
}.

End TreeDoc.

(** ** A small program to run the engine on

    Three classes in the style of the ones built on the engine: a domain
    with a name, a memory size, one [cpu] block and a list of disks. *)
Module Demo.

Definition plain (propname xpath : string) : XMLProperty :=
  {| _propname := propname; _xpath := xpath;
     _is_bool := false; _is_int := false; _is_yesno := false;
     _is_onoff := false; _do_abspath := false;
     _validate_cb := None; _convert_value_for_setter_cb := None;
     _default_cb := None; _default_name := VNone |}.

Definition with_kind (p : XMLProperty) (is_bool is_int is_yesno is_onoff : bool)
  : XMLProperty :=
  {| _propname := _propname p; _xpath := _xpath p;
     _is_bool := is_bool; _is_int := is_int; _is_yesno := is_yesno;
     _is_onoff := is_onoff; _do_abspath := _do_abspath p;
     _validate_cb := _validate_cb p;
     _convert_value_for_setter_cb := _convert_value_for_setter_cb p;
     _default_cb := _default_cb p; _default_name := _default_name p |}.

Definition with_default (p : XMLProperty) (cb : XMLBuilder -> result pyval)
    (default_name : pyval) : XMLProperty :=
  {| _propname := _propname p; _xpath := _xpath p;
     _is_bool := _is_bool p; _is_int := _is_int p; _is_yesno := _is_yesno p;
     _is_onoff := _is_onoff p; _do_abspath := _do_abspath p;
     _validate_cb := _validate_cb p;
     _convert_value_for_setter_cb := _convert_value_for_setter_cb p;
     _default_cb := Some cb; _default_name := default_name |}.

Definition with_validate (p : XMLProperty)
    (cb : XMLBuilder -> pyval -> option exn) : XMLProperty :=
  {| _propname := _propname p; _xpath := _xpath p;
     _is_bool := _is_bool p; _is_int := _is_int p; _is_yesno := _is_yesno p;
     _is_onoff := _is_onoff p; _do_abspath := _do_abspath p;
     _validate_cb := Some cb;
     _convert_value_for_setter_cb := _convert_value_for_setter_cb p;
     _default_cb := _default_cb p; _default_name := _default_name p |}.

(** A name must not be empty. *)
Definition validate_name (_ : XMLBuilder) (val : pyval) : option exn :=
  if Py.truthy val then None else Some (ValueError "A name must be specified.").

Definition name : XMLProperty := with_validate (plain "name" "./name") validate_name.
Definition memory : XMLProperty :=
  with_kind (plain "memory" "./memory") false true false false.
Definition description : XMLProperty := plain "description" "./description".
Definition type_ : XMLProperty :=
  with_default (plain "type" "./@type") (fun _ => inr (VStr "kvm")) VNone.
Definition autostart : XMLProperty :=
  with_default (with_kind (plain "autostart" "./autostart/@enabled")
                          false false true false)
               (fun _ => inr (VBool true)) VNone.

Definition model : XMLProperty := plain "model" "./model".
Definition sockets : XMLProperty :=
  with_kind (plain "sockets" "./topology/@sockets") false true false false.

Definition path : XMLProperty := plain "path" "./source/@file".
Definition bus : XMLProperty :=
  with_default (plain "bus" "./target/@bus") (fun _ => inr (VStr "virtio"))
               (VStr "default").
Definition port : XMLProperty :=
  with_kind (plain "port" "./address/@port") false true false false.
Definition readonly : XMLProperty :=
  with_default (with_kind (plain "readonly" "./readonly") true false false false)
               (fun _ => inr VNone) VNone.

Definition Guest : XMLBuilderClass :=
  {| XML_NAME := "domain";
     _XML_PROP_ORDER := ["type"; "name"; "cpu"];
     _all_xml_props := [autostart; description; memory; name; type_];
     _all_child_props :=
       [ {| child_propname := "disks"; child_class := "Disk";
            is_single := false; relative_xpath := "./devices" |};
         {| child_propname := "cpu"; child_class := "CPU";
            is_single := true; relative_xpath := "." |} ] |}.

Definition CPU : XMLBuilderClass :=
  {| XML_NAME := "cpu"; _XML_PROP_ORDER := [];
     _all_xml_props := [model; sockets]; _all_child_props := [] |}.

Definition Disk : XMLBuilderClass :=
  {| XML_NAME := "disk"; _XML_PROP_ORDER := [];
     _all_xml_props := [bus; path; port; readonly]; _all_child_props := [] |}.

Definition Other : XMLBuilderClass :=
  {| XML_NAME := "other"; _XML_PROP_ORDER := [];
     _all_xml_props := []; _all_child_props := [] |}.

#[export] Instance env : Env := {
  class_of := fun c =>
    if String.eqb c "Guest" then Guest
    else if String.eqb c "CPU" then CPU
    else if String.eqb c "Disk" then Disk
    else Other;
  os_path_abspath := fun s =>
    if Py.startswith s "/" then s else "/root/" ++ s
}.

Definition state_at (root parent relative : string) (api : nat) (build : bool)
  : XMLState :=
  {| _root_name := root; _namespace := EmptyString;
     _relative_object_xpath := relative; _parent_xpath := parent;
     xmlapi := api; is_build := build |}.

(** A domain built from scratch: the document of a new root is
    [<domain/>]. *)
Definition new_cpu (api : nat) (build : bool) : XMLBuilder :=
  mkXMLBuilder "CPU" [] (state_at "cpu" "." "./cpu" api build).

Definition new_guest : XMLBuilder :=
  mkXMLBuilder "Guest" [("cpu", PObj (new_cpu 0 true))]
               (state_at "domain" EmptyString EmptyString 0 true).

Definition new_docs : list TreeDoc.doc :=
  [Some (TreeDoc.Node "domain" [] EmptyString [])].

(** The same domain with a name, a description and a memory size staged,
    and a model staged on its [cpu]. *)
Definition staged_cpu : XMLBuilder :=
  mkXMLBuilder "CPU" [("model", PVal (VStr "host"))]
               (state_at "cpu" "." "./cpu" 0 true).

Definition staged_guest : XMLBuilder :=
  mkXMLBuilder "Guest"
    [("cpu", PObj staged_cpu);
     ("description", PVal (VStr "d"));
     ("name", PVal (VStr "vm"));
     ("memory", PVal (VInt 16))]
    (state_at "domain" EmptyString EmptyString 0 true).

(** A disk built from scratch. *)
Definition new_disk : XMLBuilder :=
  mkXMLBuilder "Disk" [] (state_at "disk" EmptyString EmptyString 0 true).

Definition new_disk_docs : list TreeDoc.doc :=
  [Some (TreeDoc.Node "disk" [] EmptyString [])].

(** A domain parsed from a document with two disks. *)
Definition parsed_text : string :=
  "<domain type='kvm'><name>vm1</name><devices><disk><source file='/a.img'/><address port='0x10'/></disk><disk><source file='/b.img'/></disk></devices></domain>".

Definition parsed_root : TreeDoc.node :=
  TreeDoc.Node "domain" [("type", "kvm")] EmptyString
    [TreeDoc.Node "name" [] "vm1" [];
     TreeDoc.Node "devices" [] EmptyString
       [TreeDoc.Node "disk" [] EmptyString
          [TreeDoc.Node "source" [("file", "/a.img")] EmptyString [];
           TreeDoc.Node "address" [("port", "0x10")] EmptyString []];
        TreeDoc.Node "disk" [] EmptyString
          [TreeDoc.Node "source" [("file", "/b.img")] EmptyString []]]].

Definition parsed_docs : list TreeDoc.doc := [Some parsed_root].

Definition parsed_disk (i : nat) : XMLBuilder :=
  mkXMLBuilder "Disk" []
    (state_at "disk" "." ("./devices/disk" ++ idxstr i) 0 false).

Definition parsed_guest : XMLBuilder :=
  mkXMLBuilder "Guest"
    [("disks", PList [parsed_disk 1; parsed_disk 2]);
     ("cpu", PObj (new_cpu 0 false))]
    (state_at "domain" EmptyString EmptyString 0 false).

(** A description is staged, then a memory size, then the description
    again. *)
Definition stage_twice {doc : Type} `{XMLAPI doc}
  : M (world (doc:=doc)) unit :=
  setter description (VStr "first") true ;;
  setter memory (VInt 1) true ;;
  setter description (VStr "second") true.

End Demo.

(** The record of writes: a document that is the list of the writes it
    received, to observe the order of an emission. *)
Module WriteLog.

(** Modelled from the spec: the Document Adapter ([virtinst/xmlapi.py],
    which is not among the sources), reduced to its write operation: the
    document is the list of the paths and values written, in order. *)
Definition doc : Type := list (string * pyval).

#[export] Instance api : XMLAPI doc := {
  XMLAPI__init__ := fun _ => inr [];
  copy_api := fun d => d;
  get_xpath_content := fun _ _ _ => VNone;
  set_xpath_content := fun d xpath setval => (d ++ [(xpath, setval)])%list;
  count := fun _ _ => 0;
  node_clear := fun d _ => d;
  node_force_remove := fun d _ => d;
  api_get_xml := fun _ _ => EmptyString
}.

End WriteLog.

(** The order of [sorted] on text. *)
Definition str_le (a b : string) : Prop := String.leb a b = true.

(** The elements of a list, each at its first occurrence. *)
Fixpoint uniq (l : list string) : list string :=
  match l with
  | [] => []
  | x :: rest => x :: filter (fun y => negb (String.eqb x y)) (uniq rest)
  end.

(** ** Invariants of the state *)

(** A computation keeps an invariant of the state, whether it returns or
    raises. *)
Definition stable {doc A : Type} (I : XMLBuilder * list doc -> Prop)
    (c : M (XMLBuilder * list doc) A) : Prop :=
  forall s, I s -> I (fst (c s)).

(** The class and the position of [self]: what no step of the first part
    of [clear] changes. *)
Definition at_place {doc : Type} (c0 : string) (st : XMLState)
    (s : XMLBuilder * list doc) : Prop :=
  cls (fst s) = c0 /\ _xmlstate (fst s) = st.

(** ** Well-formed instances and the invariant of an emission *)

(** Every property store of the tree is a dictionary: a key is bound
    once. *)
Inductive wf_builder : XMLBuilder -> Prop :=
| wf_mk c ps st :
    OD.wf ps ->
    Forall (fun kv => wf_propval (snd kv)) ps ->
    wf_builder (mkXMLBuilder c ps st)
with wf_propval : propval XMLBuilder -> Prop :=
| wf_pval v : wf_propval (PVal v)
| wf_pobj o : wf_builder o -> wf_propval (PObj o)
| wf_plist l : Forall wf_builder l -> wf_propval (PList l).

(** [h'] is [h] but for the document at [api]. *)
Definition frame {doc : Type} (api : nat) (h h' : list doc) : Prop :=
  List.length h' = List.length h /\
  forall i, i <> api -> nth_error h' i = nth_error h i.

(** The child objects of [cur] are those that [orig] holds under the same
    key. *)
Definition agree (orig cur : OD.t (propval XMLBuilder)) : Prop :=
  forall k,
    (forall o', OD.get k cur = Some (PObj o') ->
                forall o, In (k, PObj o) orig -> o' = o) /\
    (forall l', OD.get k cur = Some (PList l') ->
                forall l, In (k, PList l) orig -> l' = l).

(** What holds of the state all along [_do_add_parse_bits], for an
    instance of class [c0] at [st] that entered it with the store [orig]
    and the documents [h0]. *)
Definition flush_inv {doc : Type} (good : XMLBuilder -> Prop)
    (c0 : string) (st : XMLState)
    (orig : OD.t (propval XMLBuilder)) (h0 : list doc)
    (s : XMLBuilder * list doc) : Prop :=
  cls (fst s) = c0 /\ _xmlstate (fst s) = st /\
  agree orig (_propstore (fst s)) /\
  (forall k, OD.mem k orig = true -> OD.mem k (_propstore (fst s)) = true) /\
  (forall k v i o, OD.get k (_propstore (fst s)) = Some v ->
                   child_at v i = Some o -> good o) /\
  frame (xmlapi st) h0 (snd s).

(** The height of the tree of objects under an instance. *)
Fixpoint height (b : XMLBuilder) : nat :=
  match b with
  | mkXMLBuilder _ ps _ =>
      S (fold_right
           (fun kv acc =>
              Nat.max
                match snd kv with
                | PVal _ => 0
                | PObj o => height o
                | PList l => fold_right (fun o acc' => Nat.max (height o) acc') 0 l
                end
                acc)
           0 ps)
  end.

(** ** Identity of an instance *)

(** [XMLBuilder.get_xml_id] *)
Definition get_xml_id (self : XMLBuilder) : string := abs_xpath (_xmlstate self).

(** [text.rsplit(sep, 1)[1]]: what follows the last [sep], if there is
    one. *)
Fixpoint after_last (sep : ascii) (l : list ascii) : option (list ascii) :=
  match l with
  | [] => None
  | c :: rest =>
      match after_last sep rest with
      | Some tl => Some tl
      | None => if Ascii.eqb c sep then Some rest else None
      end
  end.

Fixpoint lstrip_char (c : ascii) (l : list ascii) : list ascii :=
  match l with
  | x :: rest => if Ascii.eqb x c then lstrip_char c rest else l
  | [] => []
  end.

(** [text.strip(c)] for one character [c] *)
Definition strip_char (c : ascii) (l : list ascii) : list ascii :=
  rev (lstrip_char c (rev (lstrip_char c l))).

(** [XMLBuilder.get_xml_idx] *)
Definition get_xml_idx (self : XMLBuilder) : result Z :=
  let xpath := abs_xpath (_xmlstate self) in
  if negb (Py.contains "[" xpath) then inr 0%Z
  else
    match after_last "["%char (list_ascii_of_string xpath) with
    | None => inl (Raised "IndexError")
    | Some tl =>
        match Py.int_of_text 10 (string_of_list_ascii (strip_char "]"%char tl)) with
        | Some z => inr (z - 1)%Z
        | None => inl (ValueError "invalid literal for int()")
        end
    end.

(** ** Construction of an instance *)

(** Modelled from the spec: the namespace-prefix to URI table of the
    Document Adapter ([XMLAPI.NAMESPACES]; [virtinst/xmlapi.py] is not among
    the sources). *)
Class Namespaces : Type := {
  NAMESPACES : string -> option string
}.

(** The class attribute [_XML_SANITIZE], by class. *)
Class Sanitize : Type := {
  _XML_SANITIZE : string -> bool
}.

(** [c in string.printable] *)
Definition printable (c : ascii) : bool :=
  let n := nat_of_ascii c in
  ((32 <=? n)%nat && (n <=? 126)%nat) || ((9 <=? n)%nat && (n <=? 13)%nat).

(** The branch [if self._XML_SANITIZE] of [XMLBuilder.__init__]: the
    characters outside ASCII go, then the ones that are not printable. Of
    [None] there is nothing to encode. *)
Definition sanitize (parsexml : option string) : result (option string) :=
  match parsexml with
  | None => inl (AttributeError "'NoneType' object has no attribute 'encode'")
  | Some x =>
      let ascii_only :=
        filter (fun c => (nat_of_ascii c <? 128)%nat) (list_ascii_of_string x) in
      inr (Some (string_of_list_ascii (filter printable ascii_only)))
  end.

(** [text.split(sep)[0]] *)
Fixpoint split_first (sep : ascii) (s : string) : string :=
  match s with
  | EmptyString => EmptyString
  | String c rest =>
      if Ascii.eqb c sep then EmptyString else String c (split_first sep rest)
  end.

(** The [_namespace] that [_XMLState.__init__] computes from the root
    name. *)
Definition namespace_of `{Namespaces} (root_name : string) : result string :=
  if Py.contains ":" root_name then
    let ns := split_first ":"%char root_name in
    match NAMESPACES ns with
    | Some uri => inr (" xmlns:" ++ ns ++ "='" ++ uri ++ "'")
    | None => inl (KeyError ns)
    end
  else inr EmptyString.

(** [not parsexml] *)
Definition no_text (parsexml : option string) : bool :=
  match parsexml with
  | None => true
  | Some x => String.eqb x EmptyString
  end.

(** [_XMLState.__init__], up to the call of [parse]: the state with no
    document yet. The handle is set by [parse] on every path that returns;
    until then the field holds no handle of the store. *)
Definition XMLState_blank `{Namespaces} (root_name : string)
    (parsexml : option string) (parentxmlstate : option XMLState)
    (relative_object_xpath : option string) : result XMLState :=
  match namespace_of root_name with
  | inl e => inl e
  | inr namespace =>
      inr {| _root_name := root_name;
             _namespace := namespace;
             _relative_object_xpath :=
               match relative_object_xpath with
               | Some x => x
               | None => EmptyString
               end;
             _parent_xpath :=
               match parentxmlstate with
               | Some pst => abs_xpath pst
               | None => EmptyString
               end;
             xmlapi := 0;
             is_build :=
               no_text parsexml
               && match parentxmlstate with Some _ => false | None => true end |}
  end.

(** The first element of a list that occurs earlier in it. *)
Fixpoint first_duplicate (l seen : list string) : option string :=
  match l with
  | [] => None
  | x :: rest =>
      if mem_str x seen then Some x
      else first_duplicate rest (seen ++ [x])%list
  end.

(** [XMLBuilder._validate_xmlbuilder]. The check is made once per class
    and its success recorded on the class; the tables of a class do not
    change, so the check gives the same each time. *)
Definition _validate_xmlbuilder (c : XMLBuilderClass) : result unit :=
  match List.find (fun key => negb (in_xmlprops c key) && negb (in_childprops c key))
                  (_XML_PROP_ORDER c) with
  | Some key =>
      inl (RuntimeError
             ("programming error: key '" ++ key
              ++ "' must be xml prop or child prop"))
  | None =>
      match first_duplicate (map child_class (_all_child_props c)) [] with
      | Some k =>
          inl (RuntimeError
                 ("programming error: can't register duplicate child_classs="
                  ++ k))
      | None => inr tt
      end
  end.

Section Construction.
Context {doc : Type} `{XMLAPI doc} `{Env} `{Namespaces} `{Sanitize}.

(** A call that works on the document store only. *)
Definition in_store {A} (c : M (list doc) A) : M (world (doc:=doc)) A :=
  fun s => match c (snd s) with (h', r) => ((fst s, h'), r) end.

(** The body of a constructor: it runs on the object that is being made,
    which is the result. *)
Definition making (self : XMLBuilder) (body : M (world (doc:=doc)) unit)
  : M (list doc) XMLBuilder :=
  fun h =>
    match body (self, h) with
    | ((self', h'), inr _) => (h', inr self')
    | ((_, h'), inl e) => (h', inl e)
    end.

(** [XMLChildProperty.set] *)
Definition XMLChildProperty_set (cp : XMLChildProperty) (obj : XMLBuilder)
  : M (world (doc:=doc)) unit :=
  xmlbuilder <- get_self ;;
  set_self_propstore
    (OD.set (child_propname cp) (PObj obj) (_propstore xmlbuilder)).

(** [XMLChildProperty.append] *)
Definition XMLChildProperty_append (cp : XMLChildProperty) (newobj : XMLBuilder)
  : M (world (doc:=doc)) unit :=
  held <- XMLChildProperty_get cp ;;
  match held with
  | PList l =>
      xmlbuilder <- get_self ;;
      set_self_propstore
        (OD.set (child_propname cp) (PList (l ++ [newobj])%list)
                (_propstore xmlbuilder))
  | _ => raise (AttributeError "append")
  end.

(** [XMLBuilder._initial_child_parse]; [new] is the constructor, called as
    [child_class(self.conn, parentxmlstate=..., relative_object_xpath=...)]. *)
Definition _initial_child_parse
    (new : string -> option XMLState -> option string -> M (list doc) XMLBuilder)
  : M (world (doc:=doc)) unit :=
  self <- get_self ;;
  for_each (_all_child_props (class_of (cls self)))
    (fun xmlprop =>
       let child_class := child_class xmlprop in
       let prop_path := get_prop_xpath xmlprop child_class in
       self <- get_self ;;
       if is_single xmlprop then
         obj <- in_store (new child_class (Some (_xmlstate self)) (Some prop_path)) ;;
         XMLChildProperty_set xmlprop obj
       else if is_build (_xmlstate self) then ret tt
       else
         nodecount <- api_read (fun d =>
                         count d (make_abs_xpath (_xmlstate self) prop_path)) ;;
         for_each (seq 0 nodecount)
           (fun idx =>
              self <- get_self ;;
              obj <- in_store
                       (new child_class (Some (_xmlstate self))
                            (Some (prop_path ++ idxstr (idx + 1)))) ;;
              XMLChildProperty_append xmlprop obj)).

(** [XMLBuilder.__init__] of the class named [c]. The connection is handed
    on to the child objects and not used otherwise; it is left out. [depth]
    bounds the nesting of constructor calls; exceeding it raises
    [RecursionError]. *)
Fixpoint XMLBuilder__init__ (depth : nat) (c : string)
    (parsexml : option string) (parentxmlstate : option XMLState)
    (relative_object_xpath : option string) : M (list doc) XMLBuilder :=
  match depth with
  | O => raise RecursionError
  | S depth' =>
      parsexml <- lift (if _XML_SANITIZE c then sanitize parsexml
                        else inr parsexml) ;;
      st <- lift (XMLState_blank (XML_NAME (class_of c)) parsexml
                                 parentxmlstate relative_object_xpath) ;;
      making (mkXMLBuilder c [] st)
        (XMLState_parse parsexml parentxmlstate ;;
         lift (_validate_xmlbuilder (class_of c)) ;;
         _initial_child_parse
           (fun child_class pst rel =>
              XMLBuilder__init__ depth' child_class None pst rel))
  end.

End Construction.

(** ** Paths without a line break *)

(** The first argument of a join, as the join uses it: without the slash
    it may end with. *)
Definition slashless (x1 : string) : string :=
  if Py.endswith_char x1 "/"%char then Py.drop_last x1 else x1.

(** No character of a path is a newline. *)
Definition no_newline (s : string) : bool :=
  forallb (fun c => negb (Ascii.eqb c Py.newline)) (list_ascii_of_string s).

(** ** Instances that match their class *)

Fixpoint distinct_names (l : list string) : bool :=
  match l with
  | [] => true
  | x :: rest => negb (mem_str x rest) && distinct_names rest
  end.

(** The two tables of a class come from the attributes of the class: a
    name is bound once, to a scalar descriptor or to a child descriptor. *)
Definition class_ok (c : XMLBuilderClass) : bool :=
  forallb (fun p => negb (in_childprops c (_propname p))) (_all_xml_props c)
  && distinct_names (map child_propname (_all_child_props c)).

(** What the property store holds for a child descriptor: the object of a
    singular one, the list of a plural one, or nothing yet for a plural
    one. *)
Definition kind_ok (cp : XMLChildProperty) (held : option (propval XMLBuilder))
  : Prop :=
  match held with
  | Some (PObj _) => is_single cp = true
  | Some (PList _) => is_single cp = false
  | Some (PVal _) => False
  | None => is_single cp = false
  end.

(** Every object of the tree holds objects under the names of its child
    descriptors, as they declare, and scalars under other names. *)
Inductive typed `{Env} : XMLBuilder -> Prop :=
| typed_mk c ps st :
    class_ok (class_of c) = true ->
    Forall (fun cp => kind_ok cp (OD.get (child_propname cp) ps))
           (_all_child_props (class_of c)) ->
    Forall (fun kv => typed_propval (in_childprops (class_of c) (fst kv)) (snd kv))
           ps ->
    typed (mkXMLBuilder c ps st)
with typed_propval `{Env} : bool -> propval XMLBuilder -> Prop :=
| typed_pval v : typed_propval false (PVal v)
| typed_pobj o : typed o -> typed_propval true (PObj o)
| typed_plist l : Forall typed l -> typed_propval true (PList l).

(** Nothing is staged in the tree of an instance, and no default applies
    to it: each object is in parse mode or of a class without default
    callbacks. *)
Inductive quiet `{Env} : XMLBuilder -> Prop :=
| quiet_mk c ps st :
    is_build st = false
    \/ Forall (fun p => _default_cb p = None) (_all_xml_props (class_of c)) ->
    Forall (fun kv => quiet_propval (snd kv)) ps ->
    quiet (mkXMLBuilder c ps st)
with quiet_propval `{Env} : propval XMLBuilder -> Prop :=
| quiet_pobj o : quiet o -> quiet_propval (PObj o)
| quiet_plist l : Forall quiet l -> quiet_propval (PList l).

(** ** What a constructor returns *)

(** The text that [_XMLState.parse] hands to the adapter for a root: the
    stub of the root element when no text is passed, and the text with the
    namespace declaration put in when the root name has a namespace that the
    text does not declare. *)
Definition initial_text (st : XMLState) (parsexml : option string) : string :=
  let stub := "<" ++ _root_name st ++ _namespace st ++ "/>" in
  match parsexml with
  | None => stub
  | Some x =>
      if String.eqb x EmptyString then stub
      else if negb (String.eqb (_namespace st) EmptyString)
              && negb (Py.contains "xmlns" x)
      then Py.replace ("<" ++ _root_name st)
                      ("<" ++ _root_name st ++ _namespace st) x
      else x
  end.

Section Built.
Context {doc : Type} `{XMLAPI doc} `{Env} `{Namespaces}.

(** An object of the class of a child descriptor, attached to the
    instance at [st]: it is at the path of the descriptor followed by
    [idx], under the position of the instance, on the document and in the
    mode of the instance. *)
Definition placed (st : XMLState) (cp : XMLChildProperty) (idx : string)
    (o : XMLBuilder) : Prop :=
  cls o = child_class cp /\
  _root_name (_xmlstate o) = XML_NAME (class_of (child_class cp)) /\
  namespace_of (XML_NAME (class_of (child_class cp)))
  = inr (_namespace (_xmlstate o)) /\
  _relative_object_xpath (_xmlstate o)
  = get_prop_xpath cp (child_class cp) ++ idx /\
  _parent_xpath (_xmlstate o) = abs_xpath st /\
  xmlapi (_xmlstate o) = xmlapi st /\
  is_build (_xmlstate o) = is_build st.

(** The tree of objects that the constructor makes over the document [d]:
    under each singular child descriptor one object, under each plural one
    as many objects as [d] has nodes at the path of the descriptor, numbered
    from 1, and none in build mode; nothing else is in a property store. *)
Inductive built (d : doc) : XMLBuilder -> Prop :=
| built_mk c ps st :
    OD.wf ps ->
    (forall k, OD.mem k ps = true -> in_childprops (class_of c) k = true) ->
    Forall (fun cp => built_held d st cp (OD.get (child_propname cp) ps))
           (_all_child_props (class_of c)) ->
    built d (mkXMLBuilder c ps st)
with built_held (d : doc)
  : XMLState -> XMLChildProperty -> option (propval XMLBuilder) -> Prop :=
| held_single st cp o :
    is_single cp = true -> placed st cp EmptyString o -> built d o ->
    built_held d st cp (Some (PObj o))
| held_unbuilt st cp :
    is_single cp = false -> is_build st = true ->
    built_held d st cp None
| held_none st cp :
    is_single cp = false -> is_build st = false ->
    count d (make_abs_xpath st (get_prop_xpath cp (child_class cp))) = 0 ->
    built_held d st cp None
| held_list st cp l :
    is_single cp = false -> is_build st = false ->
    List.length l
    = count d (make_abs_xpath st (get_prop_xpath cp (child_class cp))) ->
    l <> [] ->
    (forall i o, nth_error l i = Some o -> placed st cp (idxstr (i + 1)) o) ->
    Forall (built d) l ->
    built_held d st cp (Some (PList l)).

End Built.

(** The small program, continued: one namespace is declared, and one
    class asks for sanitized text. *)
Module DemoData.

#[export] Instance namespaces : Namespaces := {
  NAMESPACES := fun ns =>
    if String.eqb ns "qemu"
    then Some "http://libvirt.org/schemas/domain/qemu/1.0"
    else None
}.

#[export] Instance sanitized : Sanitize := {
  _XML_SANITIZE := fun c => String.eqb c "Other"
}.

(** The depth of nesting of the classes. *)
Definition rank (c : string) : nat := if String.eqb c "Guest" then 1 else 0.

End DemoData.

(** ** Walks over the tree of an instance *)

(** Two values of a property store, the objects of the second related by
    [R] to the objects of the first, place by place. *)
Inductive held_rel (R : XMLBuilder -> XMLBuilder -> Prop)
  : propval XMLBuilder -> propval XMLBuilder -> Prop :=
| rel_pval v : held_rel R (PVal v) (PVal v)
| rel_pobj o o' : R o o' -> held_rel R (PObj o) (PObj o')
| rel_plist l l' : Forall2 R l l' -> held_rel R (PList l) (PList l').

(** What a walk makes of the value under the name of a child descriptor:
    the objects are as [R] says, and a list that was never read is there,
    empty. *)
Definition key_rel (R : XMLBuilder -> XMLBuilder -> Prop)
    (before after : option (propval XMLBuilder)) : Prop :=
  match before, after with
  | Some v, Some v' => held_rel R v v'
  | None, Some v' => v' = PList []
  | _, None => False
  end.

(** The position that [_set_xpaths] gives to the instance it is called
    on. *)
Definition moved (st : XMLState) (parent_xpath : option string)
    (relative_object_xpath : relarg) : XMLState :=
  let st := set_parent_xpath st parent_xpath in
  match relative_object_xpath with
  | Unchanged => st
  | Rel x => set_relative_object_xpath st x
  end.

(** Every object of the tree has the position of its holder for parent
    path. *)
Inductive linked : XMLBuilder -> Prop :=
| linked_mk c ps st :
    Forall (fun kv => linked_val st (snd kv)) ps ->
    linked (mkXMLBuilder c ps st)
with linked_val : XMLState -> propval XMLBuilder -> Prop :=
| linked_pval st v : linked_val st (PVal v)
| linked_pobj st o :
    _parent_xpath (_xmlstate o) = abs_xpath st -> linked o ->
    linked_val st (PObj o)
| linked_plist st l :
    Forall (fun o => _parent_xpath (_xmlstate o) = abs_xpath st) l ->
    Forall linked l ->
    linked_val st (PList l).

(** A property holds of every object of the tree. *)
Inductive everywhere (P : XMLBuilder -> Prop) : XMLBuilder -> Prop :=
| everywhere_mk c ps st :
    P (mkXMLBuilder c ps st) ->
    Forall (fun kv => everywhere_val P (snd kv)) ps ->
    everywhere P (mkXMLBuilder c ps st)
with everywhere_val (P : XMLBuilder -> Prop) : propval XMLBuilder -> Prop :=
| everywhere_pval v : everywhere_val P (PVal v)
| everywhere_pobj o : everywhere P o -> everywhere_val P (PObj o)
| everywhere_plist l : Forall (everywhere P) l -> everywhere_val P (PList l).

(** What [_set_xpaths] makes of an instance: the same class, the position
    moved, and a tree that is well formed, matches its classes, is no
    higher, and is linked. *)
Definition repositioned `{Env} (parent_xpath : option string)
    (relative_object_xpath : relarg) (o o' : XMLBuilder) : Prop :=
  cls o' = cls o /\
  _xmlstate o' = moved (_xmlstate o) parent_xpath relative_object_xpath /\
  wf_builder o' /\ typed o' /\ height o' <= height o /\ linked o'.

(** What [_parse_with_children] makes of an instance that is given the
    state [pst] of its holder: the same class and position, on the document
    of the holder, in build mode when the holder is, every object of its
    tree on that document. *)
Definition rehomed `{Env} (pst : XMLState) (o o' : XMLBuilder) : Prop :=
  cls o' = cls o /\
  _xmlstate o'
  = set_xmlapi (set_is_build (_xmlstate o)
                             (is_build pst || is_build (_xmlstate o)))
               (xmlapi pst) /\
  wf_builder o' /\ typed o' /\ height o' <= height o /\
  everywhere (fun x => xmlapi (_xmlstate x) = xmlapi pst) o' /\
  (linked o -> linked o').

(** What [_set_child_xpaths] makes of the value under a child descriptor
    of an instance at [st]: the one object of a singular descriptor is
    moved to the path of the descriptor, the object at place [j] of the
    list of a plural one to that path followed by the index [j + 1], and a
    list that was never read is there, empty. *)
Definition numbered `{Env} (st : XMLState) (cp : XMLChildProperty)
    (before after : option (propval XMLBuilder)) : Prop :=
  match before, after with
  | Some (PObj o), Some (PObj o') =>
      repositioned (Some (abs_xpath st))
                   (Rel (Some (get_prop_xpath cp (cls o)))) o o'
  | Some (PList l), Some (PList l') =>
      List.length l' = List.length l /\
      forall j o o',
        nth_error l j = Some o -> nth_error l' j = Some o' ->
        repositioned (Some (abs_xpath st))
                     (Rel (Some (get_prop_xpath cp (child_class cp)
                                 ++ idxstr (j + 1)))) o o'
  | None, Some (PList []) => True
  | _, _ => False
  end.

(** The objects of the list of each plural child descriptor are of the
    class of the descriptor. *)
Definition homogeneous `{Env} (b : XMLBuilder) : Prop :=
  forall cp l,
    In cp (_all_child_props (class_of (cls b))) ->
    OD.get (child_propname cp) (_propstore b) = Some (PList l) ->
    Forall (fun o => cls o = child_class cp) l.

(** ** Attaching an object *)

(** Modelled from the spec: the operation of the Document Adapter that
    splices rendered text into the document at a path ([node_add_xml];
    [virtinst/xmlapi.py] is not among the sources). [xml_indent] is
    [util.xml_indent] ([virtinst/util.py] is not among the sources either):
    a function of the text and of the indent, of which nothing is
    assumed. *)
Class Splice (doc : Type) : Type := {
  node_add_xml : doc -> string -> string -> doc;
  xml_indent : string -> nat -> string
}.

(** The characters before the last [sep] of a text that has one. *)
Fixpoint before_last (sep : ascii) (l : list ascii) : option (list ascii) :=
  match l with
  | [] => None
  | c :: rest =>
      match before_last sep rest with
      | Some pre => Some (c :: pre)
      | None => if Ascii.eqb c sep then Some [] else None
      end
  end.

(** [s.rsplit(sep, 1)[0]] for a one-character [sep] *)
Definition rsplit_head (sep : ascii) (s : string) : string :=
  match before_last sep (list_ascii_of_string s) with
  | Some pre => string_of_list_ascii pre
  | None => s
  end.

(** [s.count(c)] for a one-character [c] *)
Definition count_char (c : ascii) (s : string) : nat :=
  List.length (filter (Ascii.eqb c) (list_ascii_of_string s)).

Section Attach.
Context {doc : Type} `{XMLAPI doc} `{Env} `{Splice doc}.

(** [XMLBuilder.add_child(obj)], for an object [obj] that the instance
    does not hold. Once appended, [obj] is the last object of the list of
    [xmlprop], and [_set_child_xpaths] keeps the lists in order: what the
    source then reads of [obj] and calls on it is read of and called on that
    object. The object, as the call leaves it, is returned. *)
Definition add_child (depth : nat) (obj : XMLBuilder)
  : M (world (doc:=doc)) XMLBuilder :=
  self <- get_self ;;
  xmlprop <- lift (_find_child_prop (class_of (cls self)) (cls obj)) ;;
  r <- on_object obj (get_xml depth) ;;
  let xml := snd r in
  XMLChildProperty_append xmlprop (fst r) ;;
  _set_child_xpaths depth ;;
  self <- get_self ;;
  let i :=
    match OD.get (child_propname xmlprop) (_propstore self) with
    | Some (PList l) => List.length l - 1
    | _ => 0
    end in
  st <- with_child (child_propname xmlprop) i
          (gets (fun s => _xmlstate (fst s))) ;;
  (if negb (is_build st) then
     let use_xpath := rsplit_head "/"%char (abs_xpath st) in
     let indent := 2 * count_char "/"%char (abs_xpath st) in
     api_write (fun d => node_add_xml d (xml_indent xml indent) use_xpath)
   else ret tt) ;;
  self <- get_self ;;
  with_child (child_propname xmlprop) i
    (_parse_with_children depth None (Some (_xmlstate self)) ;; get_self).

End Attach.

Section NewChild.
Context {doc : Type} `{XMLAPI doc} `{Env} `{Splice doc}
        `{Namespaces} `{Sanitize}.

(** [_XMLChildList.new] of the list of the descriptor [cp]: the
    constructor of the child class, called with the connection only. *)
Definition XMLChildList_new (depth : nat) (cp : XMLChildProperty)
  : M (list doc) XMLBuilder :=
  XMLBuilder__init__ depth (child_class cp) None None None.

(** [_XMLChildList.add_new] *)
Definition XMLChildList_add_new (depth : nat) (cp : XMLChildProperty)
  : M (world (doc:=doc)) XMLBuilder :=
  obj <- in_store (XMLChildList_new depth cp) ;;
  add_child depth obj.

End NewChild.

(** ** A splice to run [add_child] with *)

Module DemoSplice.

(** The fragment, parsed, goes last among the children of the node at the
    path. The trees of [TreeDoc] keep no white space: the indent leaves a
    text as it is. *)
Definition add_node (d : TreeDoc.doc) (xml xpath : string) : TreeDoc.doc :=
  match d, TreeDoc.parse xml with
  | Some root, inr (Some n) =>
      TreeDoc.alter (TreeDoc.parse_xpath xpath)
        (fun parent =>
           Some (TreeDoc.Node (TreeDoc.tag_of parent) (TreeDoc.attrs_of parent)
                              (TreeDoc.text_of parent)
                              (TreeDoc.children_of parent ++ [n])))
        root
  | _, _ => d
  end.

#[export] Instance splice : Splice TreeDoc.doc := {
  node_add_xml := add_node;
  xml_indent := fun xml _ => xml
}.

(** A disk parsed from a text of its own, the document at the handle
    [api], and a disk built from scratch there. *)
Definition loose_disk (api : nat) (build : bool) : XMLBuilder :=
  mkXMLBuilder "Disk" [] (Demo.state_at "disk" EmptyString EmptyString api build).

Definition loose_disk_doc : TreeDoc.doc :=
  Some (TreeDoc.Node "disk" [] EmptyString
          [TreeDoc.Node "source" [("file", "/c.img")] EmptyString []]).

End DemoSplice.

(** ** What an emission writes *)

(** The definitions of this part are not translations of the source: they
    say what an emission is to write, to be compared with
    [_add_parse_bits], which is the source's. *)

(** The order of emission as the specification describes it, in three
    parts: the names of the priority list that are staged scalars or child
    properties, in the order of that list; then the other staged scalars, in
    the order of the property store; then the other child properties, sorted
    by name. It is compared with [do_order], the list the source builds. *)
Definition emission_keys (c : XMLBuilderClass) (keys : list string)
  : list string :=
  let staged := filter (fun k => negb (in_childprops c k)) keys in
  let order := _XML_PROP_ORDER c in
  let children := sorted (map child_propname (_all_child_props c)) in
  (uniq (filter (fun k => mem_str k staged || in_childprops c k) order)
   ++ filter (fun k => negb (mem_str k order)) staged
   ++ uniq (filter (fun k => negb (mem_str k order)) children))%list.

(** The objects that a property store holds under a key. *)
Definition held_objects (held : option (propval XMLBuilder))
  : list XMLBuilder :=
  match held with
  | Some (PObj o) => [o]
  | Some (PList l) => l
  | _ => []
  end.

Section Written.
Context {doc : Type} `{XMLAPI doc} `{Env}.

(** A document after a sequence of writes, each of a value at a path. *)
Definition apply_writes (d : doc) (ws : list (string * pyval)) : doc :=
  fold_left (fun d w => set_xpath_content d (fst w) (snd w)) ws d.

(** The instance as the loop of [_do_add_parse_bits] over [do_order] finds
    it: on the document [api], with the defaults of its class staged by the
    loop over [_set_default] that comes first. No document is read for
    that. *)
Definition at_emission (api : nat) (b : XMLBuilder) : XMLBuilder :=
  fst (fst (for_each (_all_xml_props (class_of (cls b))) _set_default
              (with_xmlstate b (set_xmlapi (_xmlstate b) api),
               ([] : list doc)))).

(** What the emission writes for one key of [do_order], on the instance
    [self] as the loop finds it: for a scalar descriptor the staged value at
    the path of the descriptor; for a child descriptor what the emissions
    of the objects held write ([W] gives that of one object), one object
    after the other; nothing for another key. *)
Definition key_writes (W : XMLBuilder -> list (string * pyval))
    (self : XMLBuilder) (key : string) : list (string * pyval) :=
  match find_xmlprop (class_of (cls self)) key with
  | Some p =>
      match OD.get key (_propstore self) with
      | Some (PVal v) => [(make_abs_xpath (_xmlstate self) (_xpath p), v)]
      | _ => []
      end
  | None =>
      match find_childprop (class_of (cls self)) key with
      | Some _ => flat_map W (held_objects (OD.get key (_propstore self)))
      | None => []
      end
  end.

(** The writes expected of the emission of an instance on the document
    [api], in the order of [emission_keys]; nothing when [depth] is
    exhausted, where [_add_parse_bits] raises. *)
Fixpoint writes (depth api : nat) (b : XMLBuilder) : list (string * pyval) :=
  match depth with
  | O => []
  | S depth' =>
      let self := at_emission api b in
      flat_map (key_writes (writes depth' api) self)
               (emission_keys (class_of (cls self)) (OD.keys (_propstore self)))
  end.

End Written.

(** * Properties *)

(** ** The ordered property store *)
Module ODFacts.
Section Dict.
Context {V : Type}.
Implicit Types (d : OD.t V) (k : string) (v : V).

Lemma mem_get k d : OD.mem k d = true <-> exists v, OD.get k d = Some v.
Proof.
  induction d as [|[k' v'] d IH]; simpl.
  - split; [discriminate | intros [v Hv]; discriminate].
  - destruct (String.eqb k k').
    + split; [eauto | reflexivity].
    + exact IH.
Qed.

Lemma mem_false_get k d : OD.mem k d = false <-> OD.get k d = None.
Proof.
  induction d as [|[k' v'] d IH]; simpl.
  - split; reflexivity.
  - destruct (String.eqb k k'); [split; discriminate | exact IH].
Qed.

Lemma mem_keys k d : OD.mem k d = true <-> In k (OD.keys d).
Proof.
  induction d as [|[k' v'] d IH]; simpl.
  - split; [discriminate | tauto].
  - destruct (String.eqb_spec k k') as [->|Hne]; simpl.
    + split; auto.
    + rewrite IH. split; [auto | intros [E|E]; [congruence | exact E]].
Qed.

Lemma del_absent k d : OD.mem k d = false -> OD.del k d = d.
Proof.
  induction d as [|[k' v'] d IH]; simpl; [reflexivity|].
  destruct (String.eqb k k'); simpl; [discriminate|].
  intros E. now rewrite IH.
Qed.

Lemma mem_del k k' d : OD.mem k (OD.del k' d) = negb (String.eqb k k') && OD.mem k d.
Proof.
  induction d as [|[k0 v0] d IH]; simpl.
  - now rewrite andb_false_r.
  - destruct (String.eqb_spec k' k0) as [->|Hne]; simpl.
    + rewrite IH. destruct (String.eqb k k0); reflexivity.
    + rewrite IH. destruct (String.eqb_spec k k0) as [->|Hne'].
      * apply not_eq_sym in Hne. apply String.eqb_neq in Hne.
        now rewrite Hne.
      * reflexivity.
Qed.

Lemma get_del_ne k k' d : k <> k' -> OD.get k (OD.del k' d) = OD.get k d.
Proof.
  intros Hne. induction d as [|[k0 v0] d IH]; simpl; [reflexivity|].
  destruct (String.eqb_spec k' k0) as [->|Hne0]; simpl.
  - apply String.eqb_neq in Hne. now rewrite Hne.
  - now rewrite IH.
Qed.

Lemma get_del_eq k d : OD.get k (OD.del k d) = None.
Proof.
  apply mem_false_get. rewrite mem_del, String.eqb_refl. reflexivity.
Qed.

Lemma get_set_eq k v d : OD.get k (OD.set k v d) = Some v.
Proof.
  induction d as [|[k0 v0] d IH]; simpl.
  - now rewrite String.eqb_refl.
  - destruct (String.eqb k k0) eqn:E; simpl.
    + now rewrite String.eqb_refl.
    + now rewrite E.
Qed.

Lemma get_set_ne k k' v d : k <> k' -> OD.get k (OD.set k' v d) = OD.get k d.
Proof.
  intros Hne. induction d as [|[k0 v0] d IH]; simpl.
  - apply String.eqb_neq in Hne. now rewrite Hne.
  - destruct (String.eqb_spec k' k0) as [->|Hne0]; simpl.
    + apply String.eqb_neq in Hne. now rewrite Hne.
    + now rewrite IH.
Qed.

Lemma mem_set k k' v d : OD.mem k (OD.set k' v d) = String.eqb k k' || OD.mem k d.
Proof.
  destruct (String.eqb_spec k k') as [->|Hne]; simpl.
  - apply mem_get. exists v. apply get_set_eq.
  - destruct (OD.mem k d) eqn:E.
    + apply mem_get. apply mem_get in E. destruct E as [w Hw]. exists w.
      now rewrite get_set_ne.
    + apply mem_false_get. apply mem_false_get in E. now rewrite get_set_ne.
Qed.

(** Writing back what is there changes nothing. *)
Lemma set_same k v d : OD.get k d = Some v -> OD.set k v d = d.
Proof.
  induction d as [|[k0 v0] d IH]; simpl; [discriminate|].
  destruct (String.eqb_spec k k0) as [->|Hne].
  - intros [= ->]. reflexivity.
  - intros E. now rewrite IH.
Qed.

Lemma set_absent k v d : OD.mem k d = false -> OD.set k v d = (d ++ [(k, v)])%list.
Proof.
  induction d as [|[k0 v0] d IH]; simpl; [reflexivity|].
  destruct (String.eqb k k0); simpl; [discriminate|].
  intros E. now rewrite IH.
Qed.

Lemma keys_del k d : OD.keys (OD.del k d) = filter (fun x => negb (String.eqb k x)) (OD.keys d).
Proof.
  induction d as [|[k0 v0] d IH]; simpl; [reflexivity|].
  destruct (String.eqb k k0); simpl; now rewrite IH.
Qed.

(** Staging: the key leaves its place and goes last. *)
Lemma keys_restage k v d :
  OD.keys (OD.set k v (OD.del k d))
  = (filter (fun x => negb (String.eqb k x)) (OD.keys d) ++ [k])%list.
Proof.
  rewrite set_absent.
  - unfold OD.keys. rewrite map_app. simpl. fold (OD.keys (OD.del k d)).
    now rewrite keys_del.
  - rewrite mem_del, String.eqb_refl. reflexivity.
Qed.
End Dict.
End ODFacts.

(** ** Construction of a scalar descriptor *)

(** C8. [XMLProperty.__init__] with two or more of [is_bool], [is_int],
    [is_yesno], [is_onoff] set raises a [RuntimeError] (the one on
    conflicting converter options whenever an xpath is passed, the one on
    the missing xpath otherwise); with at most one set it does not raise the
    error on conflicting converter options. *)
Theorem XMLProperty_init_conflict
    (propname xpath : string)
    (set_converter : option (XMLBuilder -> pyval -> result pyval))
    (validate_cb : option (XMLBuilder -> pyval -> option exn))
    (is_bool is_int is_yesno is_onoff : bool)
    (default_cb : option (XMLBuilder -> result pyval))
    (default_name : pyval) (do_abspath : bool) :
  let made := XMLProperty__init__ propname xpath set_converter validate_cb
                is_bool is_int is_yesno is_onoff default_cb default_name
                do_abspath in
  (1 < converter_options is_bool is_int is_yesno is_onoff ->
   (exists msg, made = inl (RuntimeError msg)) /\
   (xpath <> EmptyString ->
    made = inl (RuntimeError "Conflict property converter options."))) /\
  (converter_options is_bool is_int is_yesno is_onoff <= 1 ->
   made <> inl (RuntimeError "Conflict property converter options.")).
Proof.
  cbv zeta. unfold XMLProperty__init__. split.
  - intros Hmany. apply Nat.ltb_lt in Hmany. rewrite Hmany.
    destruct (String.eqb_spec xpath EmptyString) as [->|Hx].
    + split; [eauto | congruence].
    + split; [eauto | reflexivity].
  - intros Hfew. apply Nat.ltb_ge in Hfew. rewrite Hfew.
    destruct (String.eqb xpath EmptyString); [discriminate|].
    destruct (Py.truthy default_name && _); discriminate.
Qed.

Lemma XMLProperty_init_conflict_witness :
  (exists msg,
      XMLProperty__init__ "port" "./@port" None None false true true false
                          None VNone false = inl (RuntimeError msg)) /\
  XMLProperty__init__ "port" "./@port" None None false true false false
                      None VNone false
  <> inl (RuntimeError "Conflict property converter options.").
Proof.
  split.
  - apply (XMLProperty_init_conflict "port" "./@port" None None
             false true true false None VNone false).
    vm_compute. lia.
  - apply (XMLProperty_init_conflict "port" "./@port" None None
             false true false false None VNone false).
    vm_compute. lia.
Defined.

(** What a descriptor that [__init__] returned is made of. *)
Lemma XMLProperty_init_inv
    propname xpath set_converter validate_cb is_bool is_int is_yesno is_onoff
    default_cb default_name do_abspath p :
  XMLProperty__init__ propname xpath set_converter validate_cb
    is_bool is_int is_yesno is_onoff default_cb default_name do_abspath = inr p ->
  p = {| _propname := propname; _xpath := xpath;
         _is_bool := is_bool; _is_int := is_int;
         _is_yesno := is_yesno; _is_onoff := is_onoff;
         _do_abspath := do_abspath;
         _validate_cb := validate_cb;
         _convert_value_for_setter_cb := set_converter;
         _default_cb := default_cb;
         _default_name := default_name |} /\
  converter_options is_bool is_int is_yesno is_onoff <= 1.
Proof.
  unfold XMLProperty__init__.
  destruct (String.eqb xpath EmptyString); [discriminate|].
  destruct (1 <? converter_options is_bool is_int is_yesno is_onoff)%nat eqn:E;
    [discriminate|].
  destruct (Py.truthy default_name && _); [discriminate|].
  intros [= <-]. apply Nat.ltb_ge in E. auto.
Qed.

(** With [is_int] set, no other kind is. *)
Lemma only_int (is_bool is_yesno is_onoff : bool) :
  converter_options is_bool true is_yesno is_onoff <= 1 ->
  is_bool = false /\ is_yesno = false /\ is_onoff = false.
Proof.
  unfold converter_options.
  destruct is_bool, is_yesno, is_onoff; simpl; intros; auto; lia.
Qed.

(** ** Python values *)

Lemma py_eq_refl (v : pyval) : Py.eq v v = true.
Proof.
  destruct v; simpl; auto using Bool.eqb_reflx, Z.eqb_refl, String.eqb_refl.
Qed.

Lemma last_char_app (s : string) (c : ascii) :
  Py.last_char (s ++ String c EmptyString) = Some c.
Proof.
  induction s as [|a s IH]; simpl; [reflexivity|].
  rewrite IH. destruct s; reflexivity.
Qed.

Lemma end_with_newline_adds (text : string) :
  text <> EmptyString -> Py.endswith_char text Py.newline = false ->
  end_with_newline text = text ++ String Py.newline EmptyString.
Proof.
  intros Hne Hend. unfold end_with_newline. rewrite Hend.
  apply String.eqb_neq in Hne. now rewrite Hne.
Qed.

Lemma end_with_newline_keeps (text : string) :
  text = EmptyString \/ Py.endswith_char text Py.newline = true ->
  end_with_newline text = text.
Proof.
  unfold end_with_newline. intros [-> | ->]; [reflexivity|].
  now rewrite andb_false_r.
Qed.

Lemma end_with_newline_ends (text : string) :
  text <> EmptyString ->
  Py.endswith_char (end_with_newline text) Py.newline = true.
Proof.
  intros Hne. destruct (Py.endswith_char text Py.newline) eqn:Hend.
  - rewrite end_with_newline_keeps by auto. exact Hend.
  - rewrite end_with_newline_adds by assumption.
    unfold Py.endswith_char. rewrite last_char_app. apply Ascii.eqb_refl.
Qed.

(** Unfolding the plumbing of a computation applied to a state. *)
Ltac run :=
  cbv beta iota zeta
      delta [bind ret raise lift gets modify get_self set_self_propstore
             set_self_xmlstate];
  cbn [fst snd orb andb negb].

(** Case analysis on what the goal branches on. *)
Ltac break_goal :=
  match goal with
  | |- context [match ?x with _ => _ end] =>
      lazymatch x with
      | context [match _ with _ => _ end] => fail
      | _ => destruct x eqn:?
      end
  end.

Ltac crunch := repeat (run; break_goal); run.

(** ** Reading and staging a scalar *)
Section ScalarFacts.
Context {doc : Type} `{XMLAPI doc} `{Env}.
Implicit Types (b : XMLBuilder) (h : list doc) (p : XMLProperty).

(** The getter leaves the instance and the documents as they are. *)
Lemma getter_reads_only p b h : exists r, getter p (b, h) = ((b, h), r).
Proof.
  unfold getter, _nonxml_fget, _default_get_value, _get_xml, api_read.
  crunch; eauto.
Qed.

(** C5 (amended). For a descriptor made with [is_int=True], the read
    conversion hands back, as it is, a text that equals a truthy sentinel
    [default_name] of the descriptor, and parses any other text as [int]
    does, in base 16 when it contains [0x] and in base 10 otherwise, which
    raises [ValueError] when the text is not a number in that base: [0x10]
    reads as 16 and [10] as 10 unless they are the sentinel; and that
    conversion is what the getter of an instance in parse mode applies to
    the text the document holds. *)
Theorem getter_int_autobase
    propname xpath set_converter validate_cb is_bool is_yesno is_onoff
    default_cb default_name do_abspath p (text : string) :
  XMLProperty__init__ propname xpath set_converter validate_cb
    is_bool true is_yesno is_onoff default_cb default_name do_abspath = inr p ->
  _convert_get_value p (VStr text)
  = (if is_default_name p (VStr text) then inr (VStr text)
     else match Py.int_of_text
                  (if Py.contains "0x" text then 16%Z else 10%Z) text with
          | Some z => inr (VInt z)
          | None => inl (ValueError "invalid literal for int()")
          end)
  /\ (is_default_name p (VStr "0x10") = false ->
      _convert_get_value p (VStr "0x10") = inr (VInt 16))
  /\ (is_default_name p (VStr "10") = false ->
      _convert_get_value p (VStr "10") = inr (VInt 10))
  /\ forall b h d,
       is_build (_xmlstate b) = false ->
       OD.mem (_propname p) (_propstore b) = false ->
       nth_error h (xmlapi (_xmlstate b)) = Some d ->
       get_xpath_content d (make_abs_xpath (_xmlstate b) (_xpath p)) false
       = VStr text ->
       getter p (b, h) = ((b, h), _convert_get_value p (VStr text)).
Proof.
  intros Hinit.
  apply XMLProperty_init_inv in Hinit. destruct Hinit as [Hp Hone].
  apply only_int in Hone. destruct Hone as (-> & -> & ->).
  assert (Hb : _is_bool p = false) by now rewrite Hp.
  assert (Hint : _is_int p = true) by now rewrite Hp.
  assert (Hconv : forall t, is_default_name p (VStr t) = false ->
                            _convert_get_value p (VStr t)
                            = Py.int_autobase (VStr t)).
  { intros t Ht. unfold _convert_get_value. now rewrite Ht, Hb, Hint. }
  split; [|split; [|split]].
  - destruct (is_default_name p (VStr text)) eqn:Hsentinel.
    + unfold _convert_get_value. now rewrite Hsentinel.
    + now rewrite Hconv.
  - intros Hs. now rewrite Hconv.
  - intros Hs. now rewrite Hconv.
  - intros b h d Hparse Hunset Hdoc Hread.
    unfold getter, _get_xml, api_read. run.
    rewrite Hunset, Hparse. run. rewrite Hdoc, Hb, Hread. reflexivity.
Qed.

(** What a call of the setter does to the state. *)
Lemma setter_effect p (val : pyval) (validate : bool) b h :
  exists b' r,
    setter p val validate (b, h) = ((b', h), r) /\
    cls b' = cls b /\ _xmlstate b' = _xmlstate b /\
    match r with
    | inr _ =>
        exists v, _convert_set_value p b val = inr v /\
                  _propstore b'
                  = OD.set (_propname p) (PVal v)
                           (OD.del (_propname p) (_propstore b))
    | inl _ => b' = b
    end.
Proof.
  unfold setter. run.
  assert (Hstage : forall v,
             _convert_set_value p b val = inr v ->
             exists b' r,
               (match _convert_set_value p b val with
                | inl e => ((b, h), inl e)
                | inr a => _nonxml_fset p a (b, h)
                end) = ((b', h), r) /\
               cls b' = cls b /\ _xmlstate b' = _xmlstate b /\
               match r with
               | inr _ =>
                   exists v, _convert_set_value p b val = inr v /\
                             _propstore b'
                             = OD.set (_propname p) (PVal v)
                                      (OD.del (_propname p) (_propstore b))
               | inl _ => b' = b
               end).
  { intros v Hv. rewrite Hv.
    unfold _nonxml_fset. run. eexists _, (inr tt). split; [reflexivity|].
    split; [reflexivity|]. split; [reflexivity|].
    exists v. split; [reflexivity|]. simpl.
    destruct (OD.mem (_propname p) (_propstore b)) eqn:E; [reflexivity|].
    now rewrite ODFacts.del_absent. }
  assert (Hfail : forall e,
             _convert_set_value p b val = inl e ->
             exists b' r,
               (match _convert_set_value p b val with
                | inl e => ((b, h), inl e)
                | inr a => _nonxml_fset p a (b, h)
                end) = ((b', h), r) /\
               cls b' = cls b /\ _xmlstate b' = _xmlstate b /\
               match r with
               | inr _ =>
                   exists v, _convert_set_value p b val = inr v /\
                             _propstore b'
                             = OD.set (_propname p) (PVal v)
                                      (OD.del (_propname p) (_propstore b))
               | inl _ => b' = b
               end).
  { intros e He. rewrite He. exists b, (inl e). auto. }
  assert (Hconv : exists b' r,
             (match _convert_set_value p b val with
              | inl e => ((b, h), inl e)
              | inr a => _nonxml_fset p a (b, h)
              end) = ((b', h), r) /\
             cls b' = cls b /\ _xmlstate b' = _xmlstate b /\
             match r with
             | inr _ =>
                 exists v, _convert_set_value p b val = inr v /\
                           _propstore b'
                           = OD.set (_propname p) (PVal v)
                                    (OD.del (_propname p) (_propstore b))
             | inl _ => b' = b
             end).
  { destruct (_convert_set_value p b val) as [e|v] eqn:E; eauto. }
  destruct (if validate then _validate_cb p else None) as [cb|]; run;
    [|exact Hconv].
  destruct (cb b val) as [e|]; run; [|exact Hconv].
  exists b, (inl e). auto.
Qed.

(** C2. The setter leaves every document of the store as it is, and the
    class and the position of the instance too. When it returns, the
    property store holds the converted value under the name of the
    descriptor, staged last; when it raises, the instance is unchanged. *)
Theorem setter_only_stages p (val : pyval) (validate : bool) b h :
  exists b' r,
    setter p val validate (b, h) = ((b', h), r) /\
    cls b' = cls b /\ _xmlstate b' = _xmlstate b /\
    match r with
    | inr _ =>
        exists v, _convert_set_value p b val = inr v /\
                  _propstore b'
                  = OD.set (_propname p) (PVal v)
                           (OD.del (_propname p) (_propstore b))
    | inl _ => b' = b
    end.
Proof.
  destruct (setter_effect p val validate b h) as (b' & r & Hrun & Hplace).
  exists b', r. split; [exact Hrun | exact Hplace].
Qed.

(** C7. When the validation callback of a descriptor rejects the value
    passed to the setter, with validation on, the setter raises the error of
    the callback and the instance and the documents are as before: nothing
    is staged. *)
Theorem setter_rejected p (val : pyval) b h
    (cb : XMLBuilder -> pyval -> option exn) (e : exn) :
  _validate_cb p = Some cb -> cb b val = Some e ->
  setter p val true (b, h) = ((b, h), inl e).
Proof.
  intros Hcb Hrej.
  unfold setter. run. now rewrite Hcb, Hrej.
Qed.

(** C4 (amended). Let a descriptor have a default callback and no staged
    value on an instance. In build mode its getter returns the sentinel
    [default_name] when one is registered, and otherwise the computed
    default passed through the read conversion of the descriptor, which is
    the computed default itself when the descriptor has no conversion kind.
    In parse mode the default is not consulted: [_default_get_value] says
    that there is none, [_set_default] does nothing, and the getter returns
    the conversion of what the document holds. In both modes the getter
    changes neither the instance nor a document. (Descriptors of the yes/no
    and on/off kinds are left out.) *)
Theorem getter_default p (cb : XMLBuilder -> result pyval) b h :
  _default_cb p = Some cb ->
  OD.mem (_propname p) (_propstore b) = false ->
  _is_yesno p = false -> _is_onoff p = false ->
  (is_build (_xmlstate b) = true ->
   getter p (b, h)
   = ((b, h),
      if Py.truthy (_default_name p) then inr (_default_name p)
      else match cb b with
           | inr v => _convert_get_value p v
           | inl e => inl e
           end)
   /\ (Py.truthy (_default_name p) = false ->
       _is_bool p = false -> _is_int p = false ->
       forall v, cb b = inr v -> getter p (b, h) = ((b, h), inr v)))
  /\ (is_build (_xmlstate b) = false ->
      _default_get_value p (b, h) = ((b, h), inr (false, VInt (-1)))
      /\ _set_default p (b, h) = ((b, h), inr tt)
      /\ getter p (b, h)
         = ((b, h),
            match nth_error h (xmlapi (_xmlstate b)) with
            | Some d =>
                _convert_get_value p
                  (get_xpath_content d
                     (make_abs_xpath (_xmlstate b) (_xpath p)) (_is_bool p))
            | None => inl (AttributeError "xmlapi")
            end)).
Proof.
  intros Hcb Hunset Hyesno Honoff. split.
  - intros Hbuild.
    assert (Hget : getter p (b, h)
                   = ((b, h),
                      if Py.truthy (_default_name p) then inr (_default_name p)
                      else match cb b with
                           | inr v => _convert_get_value p v
                           | inl e => inl e
                           end)).
    { unfold getter, _nonxml_fget, _default_get_value.
      destruct (Py.truthy (_default_name p)) eqn:Hname;
        repeat (progress (run; rewrite ?Hunset, ?Hbuild, ?Hcb, ?Hname)).
      - unfold _convert_get_value, is_default_name.
        now rewrite Hname, py_eq_refl.
      - destruct (cb b); reflexivity. }
    split; [exact Hget|].
    intros Hname Hbool Hint v Hv. rewrite Hget, Hname, Hv.
    unfold _convert_get_value, is_default_name.
    now rewrite Hname, Hbool, Hint, Hyesno, Honoff.
  - intros Hparse.
    assert (Hnone : _default_get_value p (b, h)
                    = ((b, h), inr (false, VInt (-1)))).
    { unfold _default_get_value.
      repeat (progress (run; rewrite ?Hparse)). reflexivity. }
    split; [exact Hnone|]. split.
    + unfold _set_default. unfold bind at 1. rewrite Hnone. reflexivity.
    + unfold getter, _get_xml, api_read.
      repeat (progress (run; rewrite ?Hunset, ?Hparse)).
      destruct (nth_error h (xmlapi (_xmlstate b))); reflexivity.
Qed.

End ScalarFacts.

(** ** Emission order *)
Section OrderFacts.

Lemma mem_str_In (k : string) (l : list string) : mem_str k l = true <-> In k l.
Proof.
  unfold mem_str. rewrite existsb_exists. split.
  - intros [x [Hin Heq]]. apply String.eqb_eq in Heq. now subst.
  - intros Hin. exists k. split; [exact Hin | apply String.eqb_refl].
Qed.

Lemma mem_str_not_In (k : string) (l : list string) :
  mem_str k l = false <-> ~ In k l.
Proof.
  rewrite <- mem_str_In. destruct (mem_str k l); split; congruence.
Qed.

Lemma filter_ne_notin (x : string) (l : list string) :
  ~ In x l -> filter (fun y => negb (String.eqb x y)) l = l.
Proof.
  induction l as [|y l IH]; simpl; [reflexivity|].
  intros Hnot. destruct (String.eqb_spec x y) as [->|Hne]; simpl.
  - exfalso. apply Hnot. now left.
  - rewrite IH; [reflexivity|]. intros Hin. apply Hnot. now right.
Qed.

(** On a list without repetition, [list.remove] is a filter. *)
Lemma remove_first_filter (x : string) (l : list string) :
  NoDup l -> remove_first x l = filter (fun y => negb (String.eqb x y)) l.
Proof.
  induction 1 as [|y l Hnot Hnd IH]; simpl; [reflexivity|].
  destruct (String.eqb_spec x y) as [->|Hne]; simpl.
  - now rewrite filter_ne_notin.
  - now rewrite IH.
Qed.

Lemma filter_filter (f g : string -> bool) (l : list string) :
  filter f (filter g l) = filter (fun x => g x && f x) l.
Proof.
  induction l as [|y l IH]; simpl; [reflexivity|].
  destruct (g y); simpl; [destruct (f y); simpl|]; now rewrite IH.
Qed.

Lemma uniq_In (x : string) (l : list string) : In x (uniq l) <-> In x l.
Proof.
  induction l as [|y l IH]; simpl; [tauto|].
  rewrite filter_In, IH. destruct (String.eqb_spec y x) as [->|Hne]; simpl.
  - tauto.
  - split; [tauto|]. intros [E|Hin]; [congruence | auto].
Qed.

Lemma uniq_NoDup (l : list string) : NoDup (uniq l).
Proof.
  induction l as [|y l IH]; simpl; constructor.
  - rewrite filter_In, String.eqb_refl. simpl. intros [_ E]. discriminate.
  - now apply NoDup_filter.
Qed.

Lemma uniq_filter (f : string -> bool) (l : list string) :
  uniq (filter f l) = filter f (uniq l).
Proof.
  induction l as [|y l IH]; simpl; [reflexivity|].
  destruct (f y) eqn:E; simpl.
  - rewrite IH, !filter_filter. f_equal. apply filter_ext.
    intros z. apply andb_comm.
  - rewrite IH, filter_filter.
    rewrite <- (filter_ne_notin y (filter f (uniq l))).
    + rewrite filter_filter. apply filter_ext. intros z. apply andb_comm.
    + rewrite filter_In. intros [_ E']. congruence.
Qed.

Lemma uniq_id (l : list string) : NoDup l -> uniq l = l.
Proof.
  induction 1 as [|y l Hnot Hnd IH]; simpl; [reflexivity|].
  rewrite IH. now rewrite filter_ne_notin.
Qed.

Variable c : XMLBuilderClass.

(** The loop over the reversed priority list. *)
Lemma preferred_order (order staged : list string) :
  NoDup staged ->
  (forall k, In k staged -> in_childprops c k = false) ->
  fold_right (prefer c) staged order
  = (uniq (filter (fun k => mem_str k staged || in_childprops c k) order)
     ++ filter (fun k => negb (mem_str k order)) staged)%list.
Proof.
  intros Hnd Hscalar. induction order as [|x order IH]; simpl.
  - clear. induction staged as [|y l IH]; simpl; congruence.
  - rewrite IH. clear IH.
    remember (uniq (filter (fun k => mem_str k staged || in_childprops c k) order))
      as P eqn:HP.
    remember (filter (fun k => negb (mem_str k order)) staged) as S eqn:HS0.
    assert (HinP : forall y, In y P <->
                             In y order /\ mem_str y staged || in_childprops c y = true).
    { intros y. rewrite HP. split.
      - intros Hy. apply -> uniq_In in Hy. now apply filter_In in Hy.
      - intros Hy. apply uniq_In. now apply filter_In. }
    assert (HinS : forall y, In y S <-> In y staged /\ ~ In y order).
    { intros y. rewrite HS0, filter_In, negb_true_iff, mem_str_not_In. tauto. }
    assert (HndPS : NoDup (P ++ S)).
    { apply NoDup_app.
      - rewrite HP. apply uniq_NoDup.
      - rewrite HS0. now apply NoDup_filter.
      - intros y Hy Hy'. apply HinP in Hy. apply HinS in Hy'. tauto. }
    assert (HS : filter (fun k => negb (String.eqb k x || mem_str k order)) staged
                 = filter (fun y => negb (String.eqb x y)) S).
    { rewrite HS0, filter_filter. apply filter_ext. intros z.
      rewrite (String.eqb_sym z x).
      destruct (String.eqb x z), (mem_str z order); reflexivity. }
    rewrite HS. unfold prefer.
    destruct (mem_str x staged || in_childprops c x) eqn:Helig; simpl;
      rewrite <- ?HP.
    + assert (Hgoal : (x :: filter (fun y => negb (String.eqb x y)) (P ++ S))%list
                      = (x :: filter (fun y => negb (String.eqb x y)) P
                           ++ filter (fun y => negb (String.eqb x y)) S)%list).
      { now rewrite filter_app. }
      destruct (mem_str x (P ++ S)) eqn:Hmem.
      * rewrite remove_first_filter by exact HndPS. exact Hgoal.
      * apply mem_str_not_In in Hmem.
        destruct (in_childprops c x) eqn:Hchild.
        -- rewrite <- Hgoal. now rewrite filter_ne_notin.
        -- exfalso. rewrite orb_false_r in Helig. apply Hmem.
           apply in_or_app. apply mem_str_In in Helig.
           destruct (in_dec string_dec x order) as [Hord|Hord].
           ++ left. apply HinP. split; [exact Hord|].
              apply orb_true_iff. left. now apply mem_str_In.
           ++ right. apply HinS. tauto.
    + apply orb_false_iff in Helig. destruct Helig as [Hst Hchild].
      apply mem_str_not_In in Hst.
      assert (Hmem : mem_str x (P ++ S) = false).
      { apply mem_str_not_In. intros Hin. apply in_app_or in Hin.
        destruct Hin as [Hin|Hin].
        - apply HinP in Hin. destruct Hin as [_ Hin].
          apply orb_true_iff in Hin. destruct Hin as [Hin|Hin].
          + apply mem_str_In in Hin. tauto.
          + congruence.
        - apply HinS in Hin. tauto. }
      rewrite Hmem, Hchild. f_equal. symmetry. apply filter_ne_notin.
      intros Hin. apply HinS in Hin. tauto.
Qed.

(** The loop over the sorted child names. *)
Lemma appended_missing (names acc : list string) :
  fold_left append_missing names acc
  = (acc ++ uniq (filter (fun k => negb (mem_str k acc)) names))%list.
Proof.
  revert acc. induction names as [|k names IH]; intros acc; simpl.
  - now rewrite app_nil_r.
  - unfold append_missing at 2. destruct (mem_str k acc) eqn:Hmem; simpl.
    + apply IH.
    + rewrite IH, <- app_assoc. simpl. do 2 f_equal.
      rewrite <- uniq_filter, filter_filter. f_equal. apply filter_ext.
      intros z. unfold mem_str. rewrite existsb_app. simpl.
      rewrite orb_false_r, (String.eqb_sym z k).
      now rewrite negb_orb.
Qed.

Lemma insert_sorted_perm (k : string) (l : list string) :
  Permutation (k :: l) (insert_sorted k l).
Proof.
  induction l as [|x l IH]; simpl; [apply Permutation_refl|].
  destruct (String.leb k x); [apply Permutation_refl|].
  eapply Permutation_trans; [apply perm_swap|]. now apply perm_skip.
Qed.

Lemma sorted_perm (l : list string) : Permutation l (sorted l).
Proof.
  induction l as [|x l IH]; simpl; [constructor|].
  eapply Permutation_trans; [|apply insert_sorted_perm]. now apply perm_skip.
Qed.

Lemma str_le_trans (a b d : string) : str_le a b -> str_le b d -> str_le a d.
Proof.
  unfold str_le, String.leb. intros Hab Hbd.
  destruct (String.compare a b) eqn:E1; try discriminate;
    destruct (String.compare b d) eqn:E2; try discriminate.
  - apply String.compare_eq_iff in E1. subst. now rewrite E2.
  - apply String.compare_eq_iff in E1. subst. now rewrite E2.
  - apply String.compare_eq_iff in E2. subst. now rewrite E1.
  - assert (E3 : String.compare a d = Lt).
    { revert b d E1 E2. induction a as [|x a IH]; intros [|y b] [|z d]; simpl;
        try discriminate; try reflexivity.
      destruct (Ascii.compare x y) eqn:Cxy; try discriminate;
        destruct (Ascii.compare y z) eqn:Cyz; try discriminate; intros E1 E2.
      - apply Ascii.compare_eq_iff in Cxy, Cyz. subst.
        assert (Hzz : Ascii.compare z z = Eq).
        { unfold Ascii.compare. apply N.compare_refl. }
        rewrite Hzz. eapply IH; eauto.
      - apply Ascii.compare_eq_iff in Cxy. subst. now rewrite Cyz.
      - apply Ascii.compare_eq_iff in Cyz. subst. now rewrite Cxy.
      - assert (Hxz : Ascii.compare x z = Lt).
        { unfold Ascii.compare in *. rewrite N.compare_lt_iff in *. lia. }
        now rewrite Hxz. }
    now rewrite E3.
Qed.

Lemma insert_sorted_sorted (k : string) (l : list string) :
  StronglySorted str_le l -> StronglySorted str_le (insert_sorted k l).
Proof.
  induction 1 as [|x l Hs IH Hall]; simpl.
  - constructor; constructor.
  - destruct (String.leb k x) eqn:E.
    + constructor; [now constructor|]. constructor; [exact E|].
      eapply Forall_impl; [|exact Hall]. intros y Hy.
      eapply str_le_trans; eauto.
    + constructor; [exact IH|].
      assert (Hxk : str_le x k).
      { destruct (String.leb_total k x) as [E'|E']; [congruence | exact E']. }
      eapply Permutation_Forall; [apply insert_sorted_perm|].
      constructor; assumption.
Qed.

(** [sorted] sorts: its result is in order and has the elements of its
    argument. *)
Lemma sorted_sorted (l : list string) :
  StronglySorted str_le (sorted l) /\ Permutation l (sorted l).
Proof.
  split; [|apply sorted_perm].
  induction l as [|x l IH]; simpl; [constructor|].
  now apply insert_sorted_sorted.
Qed.

Lemma in_childprops_In (k : string) :
  in_childprops c k = true <-> In k (map child_propname (_all_child_props c)).
Proof.
  unfold in_childprops. rewrite existsb_exists, in_map_iff. split.
  - intros [cp [Hin Heq]]. apply String.eqb_eq in Heq. eauto.
  - intros [cp [Heq Hin]]. exists cp. split; [exact Hin|].
    subst. apply String.eqb_refl.
Qed.

(** The list [do_order], in three parts. *)
Lemma do_order_parts (keys : list string) :
  NoDup keys ->
  let staged := filter (fun k => negb (in_childprops c k)) keys in
  let order := _XML_PROP_ORDER c in
  let children := sorted (map child_propname (_all_child_props c)) in
  do_order c keys
  = (uniq (filter (fun k => mem_str k staged || in_childprops c k) order)
     ++ filter (fun k => negb (mem_str k order)) staged
     ++ uniq (filter (fun k => negb (mem_str k order)) children))%list.
Proof.
  intros Hnd staged order children. unfold do_order.
  fold staged. fold order. fold children.
  assert (Hscalar : forall k, In k staged -> in_childprops c k = false).
  { intros k Hin. unfold staged in Hin. apply filter_In in Hin.
    destruct Hin as [_ Hin]. now apply negb_true_iff in Hin. }
  rewrite (preferred_order order staged)
    by (try exact Hscalar; unfold staged; now apply NoDup_filter).
  rewrite appended_missing, <- app_assoc. do 3 f_equal.
  apply filter_ext_in. intros k Hk. f_equal.
  assert (Hchild : in_childprops c k = true).
  { apply in_childprops_In. eapply Permutation_in; [|exact Hk].
    apply Permutation_sym. apply sorted_perm. }
  destruct (mem_str k order) eqn:Hord.
  - apply mem_str_In. apply in_or_app. left. apply uniq_In. apply filter_In.
    split; [now apply mem_str_In|]. rewrite Hchild. apply orb_true_r.
  - apply mem_str_not_In. intros Hin. apply in_app_or in Hin.
    destruct Hin as [Hin|Hin].
    + apply -> uniq_In in Hin. apply filter_In in Hin. destruct Hin as [Hin _].
      apply mem_str_In in Hin. congruence.
    + apply filter_In in Hin. destruct Hin as [Hin _].
      apply Hscalar in Hin. congruence.
Qed.

End OrderFacts.

(** ** Emission leaves the instance as it was *)
Section StoreFacts.
Context {A : Type}.
Implicit Types (l : list A).

Lemma list_set_length l i x : List.length (list_set l i x) = List.length l.
Proof.
  revert i. induction l as [|y l IH]; intros [|i]; simpl; auto.
Qed.

Lemma list_set_other l i j x :
  j <> i -> nth_error (list_set l i x) j = nth_error l j.
Proof.
  revert i j. induction l as [|y l IH]; intros [|i] [|j] Hne; simpl;
    try reflexivity; try congruence.
  apply IH. congruence.
Qed.

Lemma list_set_same l i x : nth_error l i = Some x -> list_set l i x = l.
Proof.
  revert i. induction l as [|y l IH]; intros [|i]; simpl; try discriminate.
  - now intros [= ->].
  - intros E. now rewrite IH.
Qed.

Lemma frame_refl api l : frame api l l.
Proof. split; auto. Qed.

Lemma frame_trans api l1 l2 l3 : frame api l1 l2 -> frame api l2 l3 -> frame api l1 l3.
Proof.
  intros [Hl1 Hn1] [Hl2 Hn2]. split; [congruence|].
  intros i Hi. rewrite Hn2, Hn1; auto.
Qed.

Lemma frame_set api l x : frame api l (list_set l api x).
Proof.
  split; [apply list_set_length|]. intros i Hi. now apply list_set_other.
Qed.

(** The documents before a new one are those of the store it was added
    to. *)
Lemma frame_fresh l l' x :
  frame (List.length l) (l ++ [x]) l' -> firstn (List.length l) l' = l.
Proof.
  intros [Hlen Hnth]. rewrite length_app in Hlen. simpl in Hlen.
  assert (Hpre : forall i, i < List.length l -> nth_error l' i = nth_error l i).
  { intros i Hi. rewrite Hnth by lia. now apply nth_error_app1. }
  clear Hnth. revert l' Hlen Hpre.
  induction l as [|y l IH]; intros l' Hlen Hpre; simpl; [reflexivity|].
  destruct l' as [|y' l']; simpl in *; [lia|].
  f_equal.
  - specialize (Hpre 0 ltac:(lia)). simpl in Hpre. congruence.
  - apply IH; [lia|]. intros i Hi. apply (Hpre (S i)). lia.
Qed.

End StoreFacts.

Section RestoreFacts.
Implicit Types (orig cur : OD.t (propval XMLBuilder)).

Lemma get_of_In {V : Type} (d : OD.t V) k v :
  NoDup (OD.keys d) -> In (k, v) d -> OD.get k d = Some v.
Proof.
  induction d as [|[k0 v0] d IH]; simpl; [tauto|].
  intros Hnd [E|Hin].
  - injection E as -> ->. now rewrite String.eqb_refl.
  - inversion Hnd as [|? ? Hnot Hnd']; subst.
    destruct (String.eqb_spec k k0) as [->|Hne].
    + exfalso. apply Hnot. change k0 with (fst (k0, v)). now apply in_map.
    + now apply IH.
Qed.

Lemma In_of_get {V : Type} (d : OD.t V) k v : OD.get k d = Some v -> In (k, v) d.
Proof.
  induction d as [|[k0 v0] d IH]; simpl; [discriminate|].
  destruct (String.eqb_spec k k0) as [->|Hne].
  - intros [= ->]. now left.
  - intros E. right. now apply IH.
Qed.

Lemma agree_init orig : NoDup (OD.keys orig) -> agree orig orig.
Proof.
  intros Hnd k. split.
  - intros o' Hget o Hin. apply (get_of_In _ _ _ Hnd) in Hin. congruence.
  - intros l' Hget l Hin. apply (get_of_In _ _ _ Hnd) in Hin. congruence.
Qed.

Lemma agree_restore orig cur : agree orig cur -> shallow_restore orig cur = orig.
Proof.
  intros Hag. unfold shallow_restore.
  rewrite <- (map_id orig) at 2. apply map_ext_in.
  intros [k v] Hin. simpl. destruct (Hag k) as [Hobj Hlist].
  destruct v as [x|o|l]; [reflexivity| |].
  - destruct (OD.get k cur) as [[x'|o'|l']|] eqn:E; try reflexivity.
    now rewrite (Hobj o' eq_refl o Hin).
  - destruct (OD.get k cur) as [[x'|o'|l']|] eqn:E; try reflexivity.
    now rewrite (Hlist l' eq_refl l Hin).
Qed.

(** Staging a scalar keeps the child objects. *)
Lemma agree_stage orig cur k v :
  agree orig cur -> agree orig (OD.set k (PVal v) (OD.del k cur)).
Proof.
  intros Hag k'. destruct (Hag k') as [Hobj Hlist].
  destruct (String.eqb_spec k' k) as [->|Hne].
  - rewrite ODFacts.get_set_eq. split; discriminate.
  - rewrite ODFacts.get_set_ne, ODFacts.get_del_ne by assumption.
    split; assumption.
Qed.

(** So does the empty list that reading a plural property leaves under a
    key that was not bound. *)
Lemma agree_new_list orig cur k :
  agree orig cur ->
  (forall k', OD.mem k' orig = true -> OD.mem k' cur = true) ->
  OD.get k cur = None ->
  agree orig (OD.set k (PList []) cur).
Proof.
  intros Hag Hsub Hnone k'. destruct (Hag k') as [Hobj Hlist].
  destruct (String.eqb_spec k' k) as [->|Hne].
  - rewrite ODFacts.get_set_eq. split; [discriminate|].
    intros l' _ l Hin. exfalso.
    apply ODFacts.mem_false_get in Hnone.
    rewrite Hsub in Hnone; [discriminate|].
    apply ODFacts.mem_keys. change k with (fst (k, PList l)). now apply in_map.
  - rewrite ODFacts.get_set_ne by assumption. split; assumption.
Qed.

Lemma put_child_same (v : propval XMLBuilder) i o :
  child_at v i = Some o -> put_child v i o = v.
Proof.
  destruct v as [x|o'|l]; simpl; try discriminate.
  - destruct i; [|discriminate]. now intros [= ->].
  - intros E. now rewrite list_set_same.
Qed.

Lemma wf_child (v : propval XMLBuilder) i o :
  wf_propval v -> child_at v i = Some o -> wf_builder o.
Proof.
  intros Hwf. inversion Hwf as [x|o' Ho|l Hl]; subst; simpl; try discriminate.
  - destruct i; [|discriminate]. now intros [= <-].
  - intros E. apply nth_error_In in E. rewrite Forall_forall in Hl. auto.
Qed.

Lemma set_xmlapi_back st api : set_xmlapi (set_xmlapi st api) (xmlapi st) = st.
Proof. destruct st; reflexivity. Qed.

End RestoreFacts.

Section FlushFacts.
Context {doc : Type} `{XMLAPI doc} `{Env}.
Implicit Types (b : XMLBuilder) (h : list doc) (p : XMLProperty)
         (s : world (doc:=doc)).

Lemma stable_for_each {X} (I : world (doc:=doc) -> Prop) (l : list X)
    (body : X -> M world unit) :
  (forall x, stable I (body x)) -> stable I (for_each l body).
Proof.
  intros Hbody. induction l as [|x l IH]; intros s Hs; simpl.
  - exact Hs.
  - unfold bind. specialize (Hbody x s Hs).
    destruct (body x s) as [s1 [e|u]]; simpl in *; [exact Hbody|].
    now apply IH.
Qed.

Lemma with_propstore_same b : with_propstore b (_propstore b) = b.
Proof. destruct b; reflexivity. Qed.

Lemma default_get_value_reads p b h :
  exists r, _default_get_value p (b, h) = ((b, h), r).
Proof. unfold _default_get_value. crunch; eauto. Qed.

(** [_set_default] stages a scalar or does nothing. *)
Lemma set_default_effect p b h :
  exists b' r,
    _set_default p (b, h) = ((b', h), r) /\
    cls b' = cls b /\ _xmlstate b' = _xmlstate b /\
    (b' = b \/
     exists v, _propstore b'
               = OD.set (_propname p) (PVal v)
                        (OD.del (_propname p) (_propstore b))).
Proof.
  unfold _set_default. unfold bind at 1.
  destruct (default_get_value_reads p b h) as [r ->].
  destruct r as [e|[[|] val]]; cbn [fst snd]; unfold ret; eauto 10.
  destruct (setter_effect p val false b h) as (b' & r & -> & Hc & Hst & Hr).
  exists b', r. repeat split; try assumption.
  destruct r as [e|u]; [now left|]. right.
  destruct Hr as (v & _ & Hr). eauto.
Qed.

(** Two loops whose bodies do the same on the states of an invariant do
    the same on them. *)
Lemma for_each_agree {X} (I : world (doc:=doc) -> Prop) (l : list X)
    (body1 body2 : X -> M world unit) :
  (forall x, stable I (body1 x)) ->
  (forall x s, I s -> body1 x s = body2 x s) ->
  forall s, I s -> for_each l body1 s = for_each l body2 s.
Proof.
  intros Hstable Hsame. induction l as [|x l IH]; intros s Hs; [reflexivity|].
  cbn [for_each]. unfold bind. rewrite <- (Hsame x s Hs).
  pose proof (Hstable x s Hs) as Hs1.
  destruct (body1 x s) as [s1 [e|u]]; [reflexivity|]. now apply IH.
Qed.

Section Invariant.
Variables (good : XMLBuilder -> Prop)
          (c0 : string) (st : XMLState) (orig : OD.t (propval XMLBuilder))
          (h0 : list doc).

Let I := flush_inv good c0 st orig h0.

Lemma inv_stage b b' h k v :
  I (b, h) -> cls b' = cls b -> _xmlstate b' = _xmlstate b ->
  _propstore b' = OD.set k (PVal v) (OD.del k (_propstore b)) ->
  I (b', h).
Proof.
  intros (Hc & Hst & Hag & Hsub & Hwf & Hfr) Hc' Hst' Hps.
  unfold I, flush_inv in *. cbn [fst snd] in *. rewrite Hc', Hst', Hps.
  refine (conj Hc (conj Hst (conj _ (conj _ (conj _ Hfr))))).
  - now apply agree_stage.
  - intros k' Hk'. rewrite ODFacts.mem_set, ODFacts.mem_del.
    destruct (String.eqb k' k); [reflexivity|]. simpl. auto.
  - intros k' v' i o. destruct (String.eqb_spec k' k) as [->|Hne].
    + rewrite ODFacts.get_set_eq. intros [= <-]. discriminate.
    + rewrite ODFacts.get_set_ne, ODFacts.get_del_ne by assumption. apply Hwf.
Qed.

Lemma inv_new_list b h k :
  I (b, h) -> OD.get k (_propstore b) = None ->
  I (with_propstore b (OD.set k (PList []) (_propstore b)), h).
Proof.
  intros (Hc & Hst & Hag & Hsub & Hwf & Hfr) Hnone.
  unfold I, flush_inv in *. destruct b as [c ps st']. cbn in *.
  refine (conj Hc (conj Hst (conj _ (conj _ (conj _ Hfr))))).
  - now apply agree_new_list.
  - intros k' Hk'. rewrite ODFacts.mem_set. rewrite (Hsub k' Hk').
    apply orb_true_r.
  - intros k' v' i o. destruct (String.eqb_spec k' k) as [->|Hne].
    + rewrite ODFacts.get_set_eq. intros [= <-]. simpl.
      destruct i; discriminate.
    + rewrite ODFacts.get_set_ne by assumption. apply Hwf.
Qed.

Lemma inv_docs b h h' : I (b, h) -> frame (xmlapi st) h h' -> I (b, h').
Proof.
  intros (Hc & Hst & Hag & Hsub & Hwf & Hfr) Hfr'.
  unfold I, flush_inv. cbn [fst snd] in *.
  refine (conj Hc (conj Hst (conj Hag (conj Hsub (conj Hwf _))))).
  apply (frame_trans _ _ _ _ Hfr Hfr').
Qed.

Lemma set_default_stable p : stable I (_set_default p).
Proof.
  intros [b h] Hs.
  destruct (set_default_effect p b h) as (b' & r & -> & Hc & Hst & [->|[v Hps]]);
    cbn [fst]; [exact Hs|].
  eapply inv_stage; eauto.
Qed.

Lemma child_get_stable cp : stable I (XMLChildProperty_get cp).
Proof.
  intros [b h] Hs. unfold XMLChildProperty_get. run.
  destruct (OD.get (child_propname cp) (_propstore b)) eqn:E; run;
    [exact Hs|].
  destruct (is_single cp); run; [exact Hs|]. now apply inv_new_list.
Qed.

Lemma getattr_children_stable cp : stable I (getattr_children cp).
Proof.
  intros s Hs. unfold getattr_children. unfold bind.
  pose proof (child_get_stable cp s Hs) as Hs'.
  destruct (XMLChildProperty_get cp s) as [s1 [e|v]]; cbn [fst] in *;
    [exact Hs'|].
  destruct (is_single cp); destruct v as [[| | |[|]]| |]; exact Hs'.
Qed.

(** A call on a child that leaves the child as it was, and writes to the
    document of the instance only, keeps the invariant. *)
Lemma with_child_stable {A} key i (call : M world A) :
  (forall o h, good o ->
               exists h' r, call (o, h) = ((o, h'), r) /\ frame (xmlapi st) h h') ->
  stable I (with_child key i call).
Proof.
  intros Hcall [b h] Hs. unfold with_child. cbn [fst snd].
  destruct (OD.get key (_propstore b)) as [v|] eqn:Hget; [|exact Hs].
  destruct (child_at v i) as [o|] eqn:Hchild; [|exact Hs].
  assert (Hwf : good o).
  { destruct Hs as (_ & _ & _ & _ & Hwf & _). eapply Hwf; eassumption. }
  destruct (Hcall o h Hwf) as (h' & r & -> & Hfr). cbn [fst].
  rewrite (put_child_same v i o Hchild), (ODFacts.set_same _ _ _ Hget).
  rewrite with_propstore_same. eapply inv_docs; eauto.
Qed.

Lemma set_xml_stable p setval : stable I (_set_xml p setval).
Proof.
  intros [b h] Hs. unfold _set_xml, api_write. run.
  destruct setval as [v| |]; run; try exact Hs.
  destruct (nth_error h (xmlapi (_xmlstate b))) eqn:E; cbn [fst]; [|exact Hs].
  eapply inv_docs; [exact Hs|].
  destruct Hs as (_ & Hst & _). cbn [fst] in Hst. rewrite Hst.
  apply frame_set.
Qed.

Lemma emit_key_stable (c : XMLBuilderClass) (flush_child : nat -> M world unit) key :
  (forall o h, good o ->
               exists h' r, flush_child (xmlapi st) (o, h) = ((o, h'), r)
                            /\ frame (xmlapi st) h h') ->
  stable I (emit_key c flush_child key).
Proof.
  intros Hchild s Hs. unfold emit_key.
  destruct (find_xmlprop c key) as [p|].
  - run. destruct (OD.get key (_propstore (fst s))); [|exact Hs].
    now apply set_xml_stable.
  - destruct (find_childprop c key) as [cp|]; [|exact Hs].
    unfold bind at 1.
    pose proof (getattr_children_stable cp s Hs) as Hs'.
    destruct (getattr_children cp s) as [s1 [e|objs]]; cbn [fst] in *;
      [exact Hs'|].
    apply stable_for_each; [|exact Hs'].
    intros i s2 Hs2. run.
    assert (Hst : _xmlstate (fst s2) = st) by apply Hs2.
    rewrite Hst. now apply with_child_stable.
Qed.

Lemma do_add_parse_bits_stable (flush_child : nat -> M world unit) :
  (forall o h, good o ->
               exists h' r, flush_child (xmlapi st) (o, h) = ((o, h'), r)
                            /\ frame (xmlapi st) h h') ->
  stable I (_do_add_parse_bits flush_child).
Proof.
  intros Hchild s Hs. unfold _do_add_parse_bits. run.
  pose proof (stable_for_each I (_all_xml_props (class_of (cls (fst s))))
                _set_default set_default_stable s Hs) as Hs1.
  destruct (for_each (_all_xml_props (class_of (cls (fst s)))) _set_default s)
    as [s1 [e|u]]; cbn [fst] in *; [exact Hs1|].
  apply stable_for_each; [|exact Hs1].
  intros key. now apply emit_key_stable.
Qed.

(** Two emissions whose calls on the child objects do the same do the
    same. *)
Lemma do_add_parse_bits_agree (flush1 flush2 : nat -> M world unit) :
  (forall o h, good o ->
               exists h' r, flush1 (xmlapi st) (o, h) = ((o, h'), r)
                            /\ frame (xmlapi st) h h') ->
  (forall o h, good o -> flush1 (xmlapi st) (o, h) = flush2 (xmlapi st) (o, h)) ->
  forall s, I s -> _do_add_parse_bits flush1 s = _do_add_parse_bits flush2 s.
Proof.
  intros Hspec Hsame s Hs. unfold _do_add_parse_bits. run.
  pose proof (stable_for_each I (_all_xml_props (class_of (cls (fst s))))
                _set_default set_default_stable s Hs) as Hs1.
  destruct (for_each (_all_xml_props (class_of (cls (fst s)))) _set_default s)
    as [s1 [e|u]]; [reflexivity|].
  cbn [fst] in Hs1. apply (for_each_agree I); [| |exact Hs1].
  - intros key. now apply emit_key_stable.
  - intros key s2 Hs2. unfold emit_key.
    destruct (find_xmlprop _ key); [reflexivity|].
    destruct (find_childprop _ key) as [cp|]; [|reflexivity].
    unfold bind at 1 3.
    pose proof (getattr_children_stable cp s2 Hs2) as Hs3.
    destruct (getattr_children cp s2) as [s3 [e|objs]]; [reflexivity|].
    cbn [fst] in Hs3. apply (for_each_agree I); [| |exact Hs3].
    + intros i s4 Hs4. run.
      assert (Hst : _xmlstate (fst s4) = st) by apply Hs4.
      rewrite Hst. now apply with_child_stable.
    + intros i s4 Hs4. run. unfold with_child.
      assert (Hst : _xmlstate (fst s4) = st) by apply Hs4.
      rewrite Hst.
      destruct (OD.get key (_propstore (fst s4))) as [v|] eqn:Hget;
        [|reflexivity].
      destruct (child_at v i) as [o|] eqn:Hchild; [|reflexivity].
      destruct Hs4 as (_ & _ & _ & _ & Hgood & _).
      now rewrite (Hsame o (snd s4) (Hgood _ _ _ _ Hget Hchild)).
Qed.

End Invariant.

(** [_add_parse_bits] hands the instance back as it received it, and
    writes to the document at [api] only. *)
Lemma add_parse_bits_restores depth api b h :
  wf_builder b ->
  exists h' r, _add_parse_bits depth api (b, h) = ((b, h'), r) /\ frame api h h'.
Proof.
  revert api b h. induction depth as [|depth IH]; intros api b h Hwf.
  - exists h, (inl RecursionError). split; [reflexivity | apply frame_refl].
  - cbn [_add_parse_bits]. unfold try_finally, restore. run.
    set (st := set_xmlapi (_xmlstate b) api).
    assert (Hinv : flush_inv wf_builder (cls b) st (_propstore b) h
                             (with_xmlstate b st, h)).
    { inversion Hwf as [c ps st0 Hnd Hall]; subst. unfold flush_inv. cbn.
      refine (conj eq_refl (conj eq_refl (conj _ (conj _ (conj _ _))))).
      - now apply agree_init.
      - auto.
      - intros k v i o Hget Hchild. apply In_of_get in Hget.
        rewrite Forall_forall in Hall. eapply wf_child; [|exact Hchild].
        apply (Hall _ Hget).
      - apply frame_refl. }
    pose proof (do_add_parse_bits_stable wf_builder (cls b) st (_propstore b) h
                  (_add_parse_bits depth)
                  (fun o h1 Ho => IH (xmlapi st) o h1 Ho)
                  _ Hinv) as Hout.
    destruct (_do_add_parse_bits (_add_parse_bits depth) (with_xmlstate b st, h))
      as [[b2 h2] r]. cbn [fst snd] in *.
    destruct Hout as (Hc & Hst & Hag & _ & _ & Hfr). cbn [fst snd] in *.
    exists h2, r. split; [|exact Hfr].
    rewrite Hc, Hst, (agree_restore _ _ Hag). unfold st.
    rewrite set_xmlapi_back. destruct b; reflexivity.
Qed.

(** *** Enough depth *)

Lemma height_child c ps st k (v : propval XMLBuilder) i o :
  In (k, v) ps -> child_at v i = Some o ->
  height o < height (mkXMLBuilder c ps st).
Proof.
  intros Hin Hchild. cbn [height]. apply Nat.lt_succ_r.
  induction ps as [|kv ps IH]; [destruct Hin|].
  cbn [fold_right]. destruct Hin as [->|Hin]; [|specialize (IH Hin); lia].
  cbn [snd]. apply Nat.le_trans with (2 := Nat.le_max_l _ _).
  destruct v as [x|o'|l]; cbn [child_at] in Hchild; try discriminate.
  - destruct i; [|discriminate]. injection Hchild as ->. apply Nat.le_refl.
  - clear -Hchild. revert i Hchild.
    induction l as [|y l IHl]; intros [|i] Hchild; cbn in Hchild;
      try discriminate; cbn [fold_right].
    + injection Hchild as ->. apply Nat.le_max_l.
    + specialize (IHl i Hchild). lia.
Qed.

(** Past the height of the tree, the depth allowed does not matter. *)
Lemma add_parse_bits_depth depth1 depth2 api b h :
  wf_builder b -> height b <= depth1 -> height b <= depth2 ->
  _add_parse_bits depth1 api (b, h) = _add_parse_bits depth2 api (b, h).
Proof.
  revert depth2 api b h.
  induction depth1 as [|depth1 IH]; intros depth2 api b h Hwf H1 H2.
  { destruct b; cbn [height] in H1; lia. }
  destruct depth2 as [|depth2]; [destruct b; cbn [height] in H2; lia|].
  cbn [_add_parse_bits]. unfold try_finally. run.
  set (st := set_xmlapi (_xmlstate b) api).
  set (good := fun o => wf_builder o /\ height o <= depth1 /\ height o <= depth2).
  assert (Hinv : flush_inv good (cls b) st (_propstore b) h
                           (with_xmlstate b st, h)).
  { inversion Hwf as [c ps st0 Hnd Hall]; subst. unfold flush_inv. cbn.
    refine (conj eq_refl (conj eq_refl (conj _ (conj _ (conj _ _))))).
    - now apply agree_init.
    - auto.
    - intros k v i o Hget Hchild. apply In_of_get in Hget.
      pose proof (height_child c _ st0 _ _ _ _ Hget Hchild) as Hlt.
      split; [|lia].
      rewrite Forall_forall in Hall. eapply wf_child; [|exact Hchild].
      apply (Hall _ Hget).
    - apply frame_refl. }
  rewrite (do_add_parse_bits_agree good (cls b) st (_propstore b) h
             (_add_parse_bits depth1) (_add_parse_bits depth2)); [reflexivity| | |exact Hinv].
  - intros o h1 [Ho _]. now apply add_parse_bits_restores.
  - intros o h1 (Ho & Ho1 & Ho2). now apply IH.
Qed.

Lemma get_xml_depth depth1 depth2 b h :
  wf_builder b -> height b <= depth1 -> height b <= depth2 ->
  get_xml depth1 (b, h) = get_xml depth2 (b, h).
Proof.
  intros Hwf H1 H2. unfold get_xml. cbn [fst snd].
  destruct (is_build (_xmlstate b)).
  - destruct (nth_error h (xmlapi (_xmlstate b))); [|reflexivity].
    now rewrite (add_parse_bits_depth depth1 depth2).
  - unfold bind at 1 3. now rewrite (add_parse_bits_depth depth1 depth2).
Qed.

End FlushFacts.


(** ** Rendering *)
Section GetXmlFacts.
Context {doc : Type} `{XMLAPI doc} `{Env}.
Implicit Types (b : XMLBuilder) (h : list doc).

(** C3. For an instance in build mode, [get_xml] hands back the instance
    as it was (property store, position and document handle, of the
    instance and of the objects under it) and the documents of the store as
    they were; so two calls in a row return the same: the same text, or the
    same error. A depth that is at least the height of the tree of objects
    is enough: what is returned does not depend on it. *)
Theorem get_xml_build_idempotent depth b h :
  wf_builder b -> is_build (_xmlstate b) = true ->
  exists r,
    get_xml depth (b, h) = ((b, h), r) /\
    (first <- get_xml depth ;; second <- get_xml depth ;; ret (first, second))
      (b, h)
    = ((b, h), match r with
               | inr text => inr (text, text)
               | inl e => inl e
               end) /\
    (height b <= depth ->
     forall depth', height b <= depth' -> get_xml depth' (b, h) = ((b, h), r)).
Proof.
  intros Hwf Hbuild.
  assert (Hone : exists r, get_xml depth (b, h) = ((b, h), r)).
  { unfold get_xml. cbn [fst snd]. rewrite Hbuild.
    destruct (nth_error h (xmlapi (_xmlstate b))) as [d|]; [|eauto].
    destruct (add_parse_bits_restores depth (List.length h) b
                (h ++ [copy_api d]) Hwf) as (h' & r & -> & Hfr).
    rewrite (frame_fresh _ _ _ Hfr).
    destruct r as [e|u]; [eauto|].
    destruct (nth_error h' (List.length h)); eauto. }
  destruct Hone as [r Hr]. exists r. split; [exact Hr|]. split.
  - unfold bind. rewrite Hr. destruct r as [e|text]; [reflexivity|].
    rewrite Hr. reflexivity.
  - intros Hdepth depth' Hdepth'. rewrite <- Hr. now apply get_xml_depth.
Qed.

(** C10. The text that [get_xml] returns is the rendering of the adapter,
    with one newline added when that rendering is not empty and does not
    end with a newline, and as it is otherwise: a returned text that is not
    empty ends with a newline. *)
Theorem get_xml_trailing_newline depth b h s' (out : string) :
  get_xml depth (b, h) = (s', inr out) ->
  exists d,
    let rendered := api_get_xml d (make_abs_xpath (_xmlstate (fst s')) ".") in
    out = end_with_newline rendered /\
    (rendered <> EmptyString -> Py.endswith_char rendered Py.newline = false ->
     out = rendered ++ String Py.newline EmptyString) /\
    (rendered = EmptyString \/ Py.endswith_char rendered Py.newline = true ->
     out = rendered) /\
    (out <> EmptyString -> Py.endswith_char out Py.newline = true).
Proof.
  intros Hget.
  assert (Hout : exists d,
             out = end_with_newline
                     (api_get_xml d (make_abs_xpath (_xmlstate (fst s')) "."))).
  { unfold get_xml in Hget. cbn [fst snd] in Hget.
    destruct (is_build (_xmlstate b)).
    - destruct (nth_error h (xmlapi (_xmlstate b))) as [d|]; [|discriminate].
      destruct (_add_parse_bits depth (List.length h) (b, (h ++ [copy_api d])%list))
        as [[self' h'] [e|u]]; [discriminate|].
      destruct (nth_error h' (List.length h)) as [d'|]; [|discriminate].
      injection Hget as <- <-. exists d'. reflexivity.
    - unfold bind in Hget.
      destruct (_add_parse_bits depth (xmlapi (_xmlstate b)) (b, h))
        as [[self' h'] [e|u]]; [discriminate|].
      unfold get_self, gets, api_read, ret in Hget. cbn [fst snd] in Hget.
      destruct (nth_error h' (xmlapi (_xmlstate self'))) as [d'|];
        [|discriminate].
      injection Hget as <- <-. exists d'. reflexivity. }
  destruct Hout as [d Hout]. exists d. cbv zeta.
  set (rendered := api_get_xml d (make_abs_xpath (_xmlstate (fst s')) ".")) in *.
  split; [exact Hout|]. split; [|split].
  - intros Hne Hend. rewrite Hout. now apply end_with_newline_adds.
  - intros Hkeep. rewrite Hout. now apply end_with_newline_keeps.
  - intros Hne. rewrite Hout. apply end_with_newline_ends.
    intros Hempty. apply Hne. rewrite Hout, Hempty. reflexivity.
Qed.

End GetXmlFacts.

(** ** Positions that end with an index *)

Lemma list_ascii_app (s1 s2 : string) :
  list_ascii_of_string (s1 ++ s2)
  = (list_ascii_of_string s1 ++ list_ascii_of_string s2)%list.
Proof. induction s1 as [|c s1 IH]; simpl; congruence. Qed.

Lemma digits_of_uint (d : Decimal.uint) :
  forallb Py.is_digit (list_ascii_of_string (NilEmpty.string_of_uint d)) = true.
Proof.
  induction d; cbn [NilEmpty.string_of_uint list_ascii_of_string forallb];
    try reflexivity; rewrite IHd; reflexivity.
Qed.

Lemma digits_of_nat (n : nat) :
  let ds := list_ascii_of_string (NilZero.string_of_uint (Nat.to_uint n)) in
  forallb Py.is_digit ds = true /\ ds <> [].
Proof.
  cbv zeta. unfold NilZero.string_of_uint.
  destruct (Nat.to_uint n) as [|d|d|d|d|d|d|d|d|d|d] eqn:E;
    (split; [try reflexivity; apply digits_of_uint | discriminate]).
Qed.

Lemma forallb_rev {A} (f : A -> bool) (l : list A) :
  forallb f (rev l) = forallb f l.
Proof.
  induction l as [|x l IH]; simpl; [reflexivity|].
  rewrite forallb_app, IH. simpl. rewrite andb_true_r. apply andb_comm.
Qed.

Lemma take_digits_all (ds rest : list ascii) (c : ascii) :
  forallb Py.is_digit ds = true -> Py.is_digit c = false ->
  take_digits (ds ++ c :: rest) = (ds, c :: rest).
Proof.
  intros Hds Hc. induction ds as [|x ds IH]; simpl.
  - now rewrite Hc.
  - simpl in Hds. apply andb_true_iff in Hds. destruct Hds as [Hx Hds].
    now rewrite Hx, IH.
Qed.

(** The position that [_set_child_xpaths] gives to an object of a plural
    property, a path followed by [idxstr n], ends with an index. *)
Lemma is_child_xpath_indexed (path : string) (n : nat) :
  forallb (fun c => negb (Ascii.eqb c Py.newline)) (list_ascii_of_string path)
  = true ->
  is_child_xpath (path ++ idxstr n) = true.
Proof.
  intros Hpath. unfold is_child_xpath, idxstr.
  rewrite !list_ascii_app. cbn [list_ascii_of_string].
  rewrite !rev_app_distr. cbn [rev app].
  destruct (digits_of_nat n) as [Hds Hne].
  set (ds := list_ascii_of_string (NilZero.string_of_uint (Nat.to_uint n))) in *.
  change (Ascii.eqb "]"%char Py.newline) with false. cbv iota.
  rewrite <- app_assoc. cbn [app].
  rewrite take_digits_all;
    [| now rewrite forallb_rev | reflexivity].
  destruct (rev ds) as [|x l] eqn:E.
  - exfalso. apply Hne. rewrite <- (rev_involutive ds), E. reflexivity.
  - now rewrite forallb_rev.
Qed.

(** A position whose last character is neither a closing bracket nor a
    newline does not. *)
Lemma is_child_xpath_plain (xpath : string) (c : ascii) (before : list ascii) :
  rev (list_ascii_of_string xpath) = c :: before ->
  Ascii.eqb c Py.newline = false -> Ascii.eqb c "]"%char = false ->
  is_child_xpath xpath = false.
Proof.
  intros Hrev Hnl Hbr. unfold is_child_xpath. rewrite Hrev, Hnl.
  destruct c as [[|] [|] [|] [|] [|] [|] [|] [|]]; try reflexivity;
    discriminate.
Qed.

(** ** Reset *)
Section ClearFacts.
Context {doc : Type} `{XMLAPI doc} `{Env}.
Implicit Types (b : XMLBuilder) (h : list doc).

Lemma stable_bind {A B} (I : world (doc:=doc) -> Prop) (c : M world A)
    (k : A -> M world B) :
  stable I c -> (forall a, stable I (k a)) -> stable I (bind c k).
Proof.
  intros Hc Hk s Hs. unfold bind. specialize (Hc s Hs).
  destruct (c s) as [s1 [e|a]]; cbn [fst] in *; [exact Hc|].
  now apply Hk.
Qed.

Lemma stable_ret {A} (I : world (doc:=doc) -> Prop) (a : A) : stable I (ret a).
Proof. intros s Hs. exact Hs. Qed.

Lemma stable_raise {A} (I : world (doc:=doc) -> Prop) (e : exn) :
  stable I (raise (A:=A) e).
Proof. intros s Hs. exact Hs. Qed.

Lemma stable_lift {A} (I : world (doc:=doc) -> Prop) (r : result A) :
  stable I (lift r).
Proof. intros s Hs. exact Hs. Qed.

Lemma stable_get_self (I : world (doc:=doc) -> Prop) : stable I get_self.
Proof. intros s Hs. exact Hs. Qed.

Lemma stable_fold_m {X A} (I : world (doc:=doc) -> Prop) (l : list X) (acc : A)
    (body : A -> X -> M world A) :
  (forall a x, stable I (body a x)) -> stable I (fold_m l acc body).
Proof.
  intros Hbody. revert acc. induction l as [|x l IH]; intros acc; simpl.
  - apply stable_ret.
  - apply stable_bind; [apply Hbody | intros a; apply IH].
Qed.

Section Place.
Variables (c0 : string) (st : XMLState).
Let J := at_place (doc:=doc) c0 st.

Lemma place_set_propstore ps : stable J (set_self_propstore ps).
Proof. intros [b h] Hs. exact Hs. Qed.

Lemma place_api_write f : stable J (api_write f).
Proof.
  intros [b h] Hs. unfold api_write. cbn [fst snd].
  destruct (nth_error h (xmlapi (_xmlstate b))); exact Hs.
Qed.

Lemma place_with_child {A} key i (call : M world A) :
  stable J (with_child key i call).
Proof.
  intros [b h] Hs. unfold with_child. cbn [fst snd].
  destruct (OD.get key (_propstore b)) as [v|]; [|exact Hs].
  destruct (child_at v i) as [o|]; [|exact Hs].
  destruct (call (o, h)) as [[o' h'] r]. exact Hs.
Qed.

Lemma place_on_object {A} obj (call : M world A) : stable J (on_object obj call).
Proof.
  intros [b h] Hs. unfold on_object. cbn [fst snd].
  destruct (call (obj, h)) as [[o' h'] [e|a]]; exact Hs.
Qed.

Ltac place_step :=
  match goal with
  | |- stable _ (bind _ _) => apply stable_bind; [|intros ?]
  | |- stable _ (ret _) => apply stable_ret
  | |- stable _ (raise _) => apply stable_raise
  | |- stable _ (lift _) => apply stable_lift
  | |- stable _ get_self => apply stable_get_self
  | |- stable _ (for_each _ _) => apply stable_for_each; intros ?
  | |- stable _ (fold_m _ _ _) => apply stable_fold_m; intros ? ?
  | |- stable _ (with_child _ _ _) => apply place_with_child
  | |- stable _ (on_object _ _) => apply place_on_object
  | |- stable _ (set_self_propstore _) => apply place_set_propstore
  | |- stable _ (api_write _) => apply place_api_write
  | |- stable _ (match ?x with _ => _ end) => destruct x
  end.

Lemma place_child_get cp : stable J (XMLChildProperty_get cp).
Proof. unfold XMLChildProperty_get. repeat place_step. Qed.

Lemma place_getattr_children cp : stable J (getattr_children cp).
Proof.
  unfold getattr_children. apply stable_bind; [apply place_child_get|].
  intros v. repeat place_step.
Qed.

Lemma place_setter p val validate : stable J (setter p val validate).
Proof.
  intros [b h] [Hc Hst].
  destruct (setter_effect p val validate b h) as (b' & r & -> & Hc' & Hst' & _).
  cbn [fst] in *. split; cbn [fst]; congruence.
Qed.

Lemma place_property_clear p : stable J (XMLProperty_clear p).
Proof.
  unfold XMLProperty_clear. apply stable_bind; [apply stable_get_self|].
  intros self. destruct (OD.mem _ _); [apply place_setter | apply stable_ret].
Qed.

Lemma place_set_child_xpaths depth : stable J (_set_child_xpaths depth).
Proof.
  unfold _set_child_xpaths. apply stable_bind; [apply stable_get_self|].
  intros self. apply stable_bind; [|intros; apply stable_ret].
  apply stable_fold_m. intros typecount cp.
  apply stable_bind; [apply place_getattr_children|]. intros objs.
  repeat place_step.
Qed.

Lemma place_remove_child depth key i : stable J (remove_child depth key i).
Proof.
  unfold remove_child. apply stable_bind; [apply stable_get_self|].
  intros self.
  destruct (OD.get key (_propstore self)) as [[v|o|l]|];
    try apply stable_raise.
  destruct (nth_error l i) as [obj|]; [|apply stable_raise].
  apply stable_bind; [apply stable_lift|]. intros xmlprop.
  apply stable_bind; [apply place_child_get|]. intros held.
  apply stable_bind; [repeat place_step|]. intros _.
  apply stable_bind; [apply place_on_object|]. intros r1.
  apply stable_bind; [apply place_on_object|]. intros r2.
  apply stable_bind; [apply place_on_object|]. intros r3.
  apply stable_bind; [apply place_api_write|]. intros _.
  apply stable_bind; [apply place_set_child_xpaths|]. intros _.
  apply stable_ret.
Qed.

Lemma place_child_clear depth clear_child cp :
  stable J (XMLChildProperty_clear depth clear_child cp).
Proof.
  unfold XMLChildProperty_clear.
  apply stable_bind; [apply place_child_get|]. intros held.
  destruct (is_single cp).
  - repeat place_step.
  - destruct held as [[| | |[|]]| |l]; try apply stable_raise;
      try apply stable_ret.
    apply stable_for_each. intros _.
    apply stable_bind; [apply place_remove_child | intros; apply stable_ret].
Qed.

Lemma place_clear_props depth clear_child : stable J (clear_props depth clear_child).
Proof.
  unfold clear_props. apply stable_bind; [apply stable_get_self|].
  intros self. apply stable_bind.
  - apply stable_for_each. intros p. apply place_property_clear.
  - intros _. apply stable_for_each. intros cp. apply place_child_clear.
Qed.

End Place.

End ClearFacts.

(** ** Writing an integer *)

Lemma no_hex_in_digits (d : Decimal.uint) :
  Py.contains "0x" (NilEmpty.string_of_uint d) = false.
Proof.
  induction d as [|d IH|d IH|d IH|d IH|d IH|d IH|d IH|d IH|d IH|d IH];
    try reflexivity;
    try (cbn [NilEmpty.string_of_uint Py.contains]; rewrite IH; reflexivity).
  cbn [NilEmpty.string_of_uint Py.contains]. rewrite IH.
  destruct d; reflexivity.
Qed.

(** The text of an integer holds no [0x]. *)
Lemma no_hex_in_str_int (z : Z) : Py.contains "0x" (Py.str (VInt z)) = false.
Proof.
  assert (Huint : forall d, Py.contains "0x" (NilZero.string_of_uint d) = false).
  { intros d. unfold NilZero.string_of_uint.
    destruct d; try reflexivity; apply no_hex_in_digits. }
  unfold Py.str, NilZero.string_of_int.
  destruct (Z.to_int z) as [d|d]; [apply Huint|].
  cbn [Py.contains]. rewrite Huint. reflexivity.
Qed.

Lemma int_autobase_int (z : Z) : Py.int_autobase (VInt z) = inr (VInt z).
Proof. unfold Py.int_autobase. now rewrite no_hex_in_str_int. Qed.

(** ** Blanking and removing a node of the tree document *)

(** Blanking the [k]-th child of a tag keeps every child of that tag at
    its place. *)
Lemma blank_keeps_places (tag : string) (k j : nat) (l : list TreeDoc.node) :
  j <> k ->
  TreeDoc.nth_tag tag j (TreeDoc.alter_nth_tag tag k TreeDoc.blank l)
  = TreeDoc.nth_tag tag j l.
Proof.
  revert k j. induction l as [|n l IH]; intros k j Hne; simpl; [reflexivity|].
  destruct (String.eqb (TreeDoc.tag_of n) tag) eqn:Etag.
  - destruct k as [|k].
    + simpl. rewrite Etag. destruct j; [congruence | reflexivity].
    + simpl. rewrite Etag. destruct j; [reflexivity|]. apply IH. congruence.
  - simpl. rewrite Etag. now apply IH.
Qed.

Lemma blank_keeps_count (tag tag' : string) (k : nat) (l : list TreeDoc.node) :
  TreeDoc.count_tag tag' (TreeDoc.alter_nth_tag tag k TreeDoc.blank l)
  = TreeDoc.count_tag tag' l.
Proof.
  revert k. induction l as [|n l IH]; intros k; simpl; [reflexivity|].
  destruct (String.eqb (TreeDoc.tag_of n) tag) eqn:Etag.
  - destruct k as [|k]; simpl; [reflexivity | now rewrite IH].
  - simpl. now rewrite IH.
Qed.

(** Removing it moves the later ones down by one. *)
Lemma remove_shifts_places (tag : string) (k j : nat) (l : list TreeDoc.node) :
  k <= j ->
  TreeDoc.nth_tag tag j (TreeDoc.alter_nth_tag tag k (fun _ => None) l)
  = TreeDoc.nth_tag tag (S j) l.
Proof.
  revert k j. induction l as [|n l IH]; intros k j Hle; simpl; [reflexivity|].
  destruct (String.eqb (TreeDoc.tag_of n) tag) eqn:Etag.
  - destruct k as [|k]; [reflexivity|].
    simpl. rewrite Etag. destruct j as [|j]; [lia|]. apply IH. lia.
  - simpl. rewrite Etag. now apply IH.
Qed.

(** ** Reading what was staged *)
Section StagedReads.
Context {doc : Type} `{XMLAPI doc} `{Env}.
Implicit Types (b : XMLBuilder) (h : list doc) (p : XMLProperty).

(** A staged value is what the getter converts, in either mode. *)
Lemma getter_staged p b h (v : pyval) :
  OD.get (_propname p) (_propstore b) = Some (PVal v) ->
  getter p (b, h) = ((b, h), _convert_get_value p v).
Proof.
  intros Hget.
  assert (Hmem : OD.mem (_propname p) (_propstore b) = true).
  { apply ODFacts.mem_get. eauto. }
  unfold getter, _nonxml_fget, _default_get_value, propstore_scalar.
  repeat (progress (run; rewrite ?Hmem, ?Hget)).
  destruct (negb (is_build (_xmlstate b))); run; rewrite ?Hget; reflexivity.
Qed.

(** What a successful call of the setter leaves under the key. *)
Lemma setter_stages p (val : pyval) (validate : bool) b h b1 h1 :
  setter p val validate (b, h) = ((b1, h1), inr tt) ->
  h1 = h /\
  exists v, _convert_set_value p b val = inr v /\
            OD.get (_propname p) (_propstore b1) = Some (PVal v).
Proof.
  intros Hset.
  destruct (setter_effect p val validate b h) as (b' & r & Hrun & _ & _ & Hr).
  rewrite Hrun in Hset. injection Hset as Hb Hh Hres. subst b' r.
  split; [congruence|].
  destruct Hr as (v & Hv & Hps). exists v. split; [exact Hv|].
  rewrite Hps. apply ODFacts.get_set_eq.
Qed.

(** X1. When the setter returns, the getter called next returns the
    read conversion of the value that the write conversion produced: the
    staged value is what is read, in build mode and in parse mode, whatever
    the document holds and whatever default is registered. *)
Theorem setter_then_getter p (val : pyval) (validate : bool) b h b1 h1 :
  setter p val validate (b, h) = ((b1, h1), inr tt) ->
  exists v, _convert_set_value p b val = inr v /\
            getter p (b1, h1) = ((b1, h1), _convert_get_value p v).
Proof.
  intros Hset. destruct (setter_stages _ _ _ _ _ _ _ Hset) as (_ & v & Hv & Hget).
  exists v. split; [exact Hv|]. now apply getter_staged.
Qed.

End StagedReads.

Section RoundTrips.
Context {doc : Type} `{XMLAPI doc} `{Env}.
Implicit Types (b : XMLBuilder) (h : list doc) (p : XMLProperty).

(** The setter returns when the validation passes and the conversion
    does. *)
Lemma setter_accepts p (val v : pyval) (validate : bool) b h :
  (forall cb, _validate_cb p = Some cb -> cb b val = None) ->
  _convert_set_value p b val = inr v ->
  setter p val validate (b, h)
  = ((with_propstore b (OD.set (_propname p) (PVal v)
                               (OD.del (_propname p) (_propstore b))), h),
     inr tt).
Proof.
  intros Hok Hconv. unfold setter. run.
  destruct validate; destruct (_validate_cb p) as [cb|] eqn:E;
    try rewrite (Hok cb eq_refl); run; rewrite Hconv;
    unfold _nonxml_fset; run;
    (destruct (OD.mem (_propname p) (_propstore b)) eqn:Em;
     [reflexivity | now rewrite ODFacts.del_absent]).
Qed.


(** An empty key removal followed by a binding binds. *)
Lemma staged_after p (v : pyval) b :
  OD.get (_propname p)
         (_propstore (with_propstore b (OD.set (_propname p) (PVal v)
                                         (OD.del (_propname p) (_propstore b)))))
  = Some (PVal v).
Proof. cbn. apply ODFacts.get_set_eq. Qed.

(** X2. For a descriptor made with [is_yesno] or [is_onoff], no
    set converter, no sentinel and no path normalisation, writing a value
    other than [None] that the validation accepts stages the text [yes] or
    [no] ([on] or [off]) by the truth of the value, and the getter then
    returns that truth value as a boolean. *)
Theorem flag_round_trip
    propname xpath validate_cb (is_yesno is_onoff : bool) default_cb p
    (val : pyval) b h :
  XMLProperty__init__ propname xpath None validate_cb
    false false is_yesno is_onoff default_cb VNone false = inr p ->
  is_yesno || is_onoff = true ->
  val <> VNone ->
  (forall cb, validate_cb = Some cb -> cb b val = None) ->
  exists b1,
    setter p val true (b, h) = ((b1, h), inr tt) /\
    OD.get propname (_propstore b1)
    = Some (PVal (VStr (if is_onoff
                        then if Py.truthy val then "on" else "off"
                        else if Py.truthy val then "yes" else "no"))) /\
    getter p (b1, h) = ((b1, h), inr (VBool (Py.truthy val))).
Proof.
  intros Hinit Hkind Hval Hok.
  apply XMLProperty_init_inv in Hinit. destruct Hinit as [Hp Hone].
  assert (Hnone : Py.is_none val = false) by (destruct val; cbn; congruence).
  set (text := if is_onoff
               then if Py.truthy val then "on" else "off"
               else if Py.truthy val then "yes" else "no").
  assert (Hconv : _convert_set_value p b val = inr (VStr text)).
  { subst p. unfold _convert_set_value, is_default_name, text. cbn.
    rewrite Hnone. cbn.
    destruct is_onoff; [reflexivity|].
    destruct is_yesno; [reflexivity | discriminate]. }
  assert (Hread : _convert_get_value p (VStr text) = inr (VBool (Py.truthy val))).
  { subst p. unfold _convert_get_value, is_default_name, text. cbn.
    destruct is_yesno, is_onoff; try discriminate;
      try (unfold converter_options in Hone; cbn in Hone; lia);
      cbn; destruct (Py.truthy val); reflexivity. }
  assert (Hname : _propname p = propname) by now subst p.
  assert (Hcb : _validate_cb p = validate_cb) by now subst p.
  eexists. split.
  - apply setter_accepts; [|exact Hconv].
    intros cb Hsome. apply Hok. congruence.
  - rewrite <- Hname. split; [apply staged_after|].
    rewrite <- Hread. apply getter_staged. apply staged_after.
Qed.

(** The conversion to an integer gives an integer, which it keeps. *)
Lemma int_autobase_fixed (val v : pyval) :
  Py.int_autobase val = inr v -> Py.int_autobase v = inr v.
Proof.
  unfold Py.int_autobase at 1.
  destruct val as [|x|z|s].
  - discriminate.
  - destruct (Py.contains _ _); [discriminate|].
    intros [= <-]. apply int_autobase_int.
  - destruct (Py.contains _ _); [discriminate|].
    intros [= <-]. apply int_autobase_int.
  - destruct (Py.int_of_text _ _); [|discriminate].
    intros [= <-]. apply int_autobase_int.
Qed.

(** X3. For a descriptor made with [is_int], no set converter, no
    sentinel and no path normalisation, writing a value that converts to an
    integer (a text in base 10, or in base 16 when it contains [0x]; an
    integer; a boolean) stages that integer, and the getter then returns
    it. *)
Theorem int_round_trip
    propname xpath validate_cb default_cb p (val v : pyval) b h :
  XMLProperty__init__ propname xpath None validate_cb
    false true false false default_cb VNone false = inr p ->
  Py.int_autobase val = inr v ->
  (forall cb, validate_cb = Some cb -> cb b val = None) ->
  exists b1,
    setter p val true (b, h) = ((b1, h), inr tt) /\
    OD.get propname (_propstore b1) = Some (PVal v) /\
    getter p (b1, h) = ((b1, h), inr v).
Proof.
  intros Hinit Hint Hok.
  apply XMLProperty_init_inv in Hinit. destruct Hinit as [Hp _].
  assert (Hnone : Py.is_none val = false) by (destruct val; [discriminate|..]; reflexivity).
  assert (Hvnone : Py.is_none v = false).
  { apply int_autobase_fixed in Hint. destruct v; [discriminate|..]; reflexivity. }
  assert (Hconv : _convert_set_value p b val = inr v).
  { subst p. unfold _convert_set_value, is_default_name. cbn.
    rewrite Hnone. cbn. now rewrite Hint. }
  assert (Hread : _convert_get_value p v = inr v).
  { subst p. unfold _convert_get_value, is_default_name. cbn.
    rewrite Hvnone. cbn. now apply int_autobase_fixed in Hint. }
  assert (Hname : _propname p = propname) by now subst p.
  assert (Hcb : _validate_cb p = validate_cb) by now subst p.
  eexists. split.
  - apply setter_accepts; [|exact Hconv].
    intros cb Hsome. apply Hok. congruence.
  - rewrite <- Hname. split; [apply staged_after|].
    rewrite <- Hread. apply getter_staged. apply staged_after.
Qed.

(** X4. For a descriptor made with no conversion kind, no set
    converter, no sentinel and no path normalisation, the getter returns
    the value that was written, [None] included, in either mode. *)
Theorem plain_round_trip
    propname xpath validate_cb default_cb p (val : pyval) b h :
  XMLProperty__init__ propname xpath None validate_cb
    false false false false default_cb VNone false = inr p ->
  (forall cb, validate_cb = Some cb -> cb b val = None) ->
  exists b1,
    setter p val true (b, h) = ((b1, h), inr tt) /\
    OD.get propname (_propstore b1) = Some (PVal val) /\
    getter p (b1, h) = ((b1, h), inr val).
Proof.
  intros Hinit Hok.
  apply XMLProperty_init_inv in Hinit. destruct Hinit as [Hp _].
  assert (Hconv : _convert_set_value p b val = inr val) by now subst p.
  assert (Hread : _convert_get_value p val = inr val) by now subst p.
  assert (Hname : _propname p = propname) by now subst p.
  assert (Hcb : _validate_cb p = validate_cb) by now subst p.
  eexists. split.
  - apply setter_accepts; [|exact Hconv].
    intros cb Hsome. apply Hok. congruence.
  - rewrite <- Hname. split; [apply staged_after|].
    rewrite <- Hread. apply getter_staged. apply staged_after.
Qed.

(** [None] is no sentinel. *)
Lemma none_is_no_sentinel p : is_default_name p VNone = false.
Proof.
  unfold is_default_name. destruct (_default_name p) as [|x|z|s]; cbn;
    try reflexivity; now rewrite andb_false_r.
Qed.

(** X5. [XMLProperty.clear] on a staged field, when the descriptor has
    no set converter and its validation accepts [None], keeps the key in
    the property store, bound to [None]; the getter then returns [None]
    ([False] for a descriptor of the boolean kind), not the default and not
    what the document holds, and the documents are untouched. *)
Theorem property_clear_reads_none p b h :
  OD.mem (_propname p) (_propstore b) = true ->
  _convert_value_for_setter_cb p = None ->
  (forall cb, _validate_cb p = Some cb -> cb b VNone = None) ->
  exists b1,
    XMLProperty_clear p (b, h) = ((b1, h), inr tt) /\
    OD.get (_propname p) (_propstore b1) = Some (PVal VNone) /\
    getter p (b1, h)
    = ((b1, h), inr (if _is_bool p then VBool false else VNone)).
Proof.
  intros Hmem Hcb Hok.
  assert (Hconv : _convert_set_value p b VNone = inr VNone).
  { unfold _convert_set_value. rewrite none_is_no_sentinel, Hcb. cbn.
    now rewrite !andb_false_r. }
  assert (Hread : _convert_get_value p VNone
                  = inr (if _is_bool p then VBool false else VNone)).
  { unfold _convert_get_value. rewrite none_is_no_sentinel. cbn.
    rewrite !andb_false_r. destruct (_is_bool p); reflexivity. }
  eexists. split.
  - unfold XMLProperty_clear. run. rewrite Hmem.
    apply setter_accepts; [exact Hok | exact Hconv].
  - split; [apply staged_after|].
    rewrite <- Hread. apply getter_staged. apply staged_after.
Qed.

End RoundTrips.

(** X6. [XMLProperty.__init__] raises on an empty xpath before any other
    check; with an xpath and at most one conversion kind it raises when a
    sentinel [default_name] comes without a default callback; and it
    returns a descriptor exactly when the xpath is not empty, at most one
    conversion kind is set, and a sentinel comes with a default
    callback. *)
Theorem XMLProperty_init_ok
    (propname xpath : string)
    (set_converter : option (XMLBuilder -> pyval -> result pyval))
    (validate_cb : option (XMLBuilder -> pyval -> option exn))
    (is_bool is_int is_yesno is_onoff : bool)
    (default_cb : option (XMLBuilder -> result pyval))
    (default_name : pyval) (do_abspath : bool) :
  let made := XMLProperty__init__ propname xpath set_converter validate_cb
                is_bool is_int is_yesno is_onoff default_cb default_name
                do_abspath in
  (xpath = EmptyString ->
   made = inl (RuntimeError "XMLProperty: xpath must be passed.")) /\
  (xpath <> EmptyString ->
   converter_options is_bool is_int is_yesno is_onoff <= 1 ->
   Py.truthy default_name = true -> default_cb = None ->
   made = inl (RuntimeError "default_name requires default_cb.")) /\
  ((exists p, made = inr p) <->
   xpath <> EmptyString /\
   converter_options is_bool is_int is_yesno is_onoff <= 1 /\
   (Py.truthy default_name = true -> exists cb, default_cb = Some cb)).
Proof.
  cbv zeta. unfold XMLProperty__init__.
  destruct (String.eqb_spec xpath EmptyString) as [->|Hx].
  { split; [reflexivity|]. split; [congruence|].
    split; [intros [p Hp]; discriminate | intros [Hne _]; congruence]. }
  split; [congruence|].
  destruct (1 <? converter_options is_bool is_int is_yesno is_onoff)%nat eqn:E.
  { apply Nat.ltb_lt in E. split; [intros; lia|].
    split; [intros [p Hp]; discriminate | intros (_ & Hle & _); lia]. }
  apply Nat.ltb_ge in E.
  destruct (Py.truthy default_name) eqn:Ht; destruct default_cb as [cb|]; cbn.
  - split; [discriminate|]. split; eauto.
  - split; [reflexivity|].
    split; [intros [p Hp]; discriminate|].
    intros (_ & _ & Hcb). destruct (Hcb eq_refl) as [cb Hsome]. discriminate.
  - split; [discriminate|]. split; [|eauto].
    intros _. repeat split; auto. discriminate.
  - split; [discriminate|]. split; [|eauto].
    intros _. repeat split; auto. discriminate.
Qed.

(** ** Positions *)

Lemma str_or_nonempty (x d : string) : x <> EmptyString -> str_or x d = x.
Proof.
  intros Hne. unfold str_or. apply String.eqb_neq in Hne. now rewrite Hne.
Qed.

Lemma app_nonempty (a t : string) : t <> EmptyString -> a ++ t <> EmptyString.
Proof. destruct a; [auto | discriminate]. Qed.

Lemma last_char_app_nonempty (a t : string) :
  t <> EmptyString -> Py.last_char (a ++ t) = Py.last_char t.
Proof.
  intros Hne. induction a as [|c a IH]; [reflexivity|].
  cbn [append Py.last_char]. rewrite IH.
  destruct (a ++ t) eqn:E; [|reflexivity].
  exfalso. now apply (app_nonempty a t).
Qed.

Lemma endswith_app (a t : string) (c : ascii) :
  t <> EmptyString -> Py.endswith_char (a ++ t) c = Py.endswith_char t c.
Proof.
  intros Hne. unfold Py.endswith_char. now rewrite last_char_app_nonempty.
Qed.

Lemma startswith_dot (tail : string) : Py.startswith (String "."%char tail) "." = true.
Proof. destruct tail; reflexivity. Qed.

Lemma app_assoc_str (a b c : string) : (a ++ b) ++ c = a ++ b ++ c.
Proof. induction a as [|x a IH]; cbn; congruence. Qed.


Lemma join_dotted (x1 tail : string) :
  _join_xpath x1 (String "."%char tail) = slashless x1 ++ tail.
Proof. unfold _join_xpath. now rewrite startswith_dot. Qed.

(** X7. At the root of a document (no parent path, no relative path) the
    position of an instance is [.], and the absolute path of a descriptor
    path that starts with [.] is that path itself. *)
Theorem make_abs_xpath_root (st : XMLState) (tail : string) :
  _parent_xpath st = EmptyString -> _relative_object_xpath st = EmptyString ->
  abs_xpath st = "." /\
  make_abs_xpath st (String "."%char tail) = String "."%char tail.
Proof.
  intros Hp Hr. unfold make_abs_xpath, abs_xpath. rewrite Hp, Hr.
  split; [reflexivity|]. cbn [str_or String.eqb]. rewrite join_dotted. reflexivity.
Qed.

(** X8. For an object placed under a parent at a relative path
    [./tail] that does not end with a slash, the position of the object is
    the absolute path of [./tail] from the parent, and the absolute path of
    a descriptor path [./x] from the object is the absolute path of
    [./tail/x] from the parent: paths compose along the tree. *)
Theorem make_abs_xpath_nested (pst cst : XMLState) (tail x : string) :
  _parent_xpath cst = abs_xpath pst ->
  _relative_object_xpath cst = String "."%char tail ->
  tail <> EmptyString -> Py.endswith_char tail "/"%char = false ->
  abs_xpath cst = make_abs_xpath pst (String "."%char tail) /\
  make_abs_xpath cst (String "."%char x)
  = make_abs_xpath pst (String "."%char (tail ++ x)).
Proof.
  intros Hp Hr Hne Hend.
  assert (Habs : abs_xpath cst = slashless (str_or (abs_xpath pst) ".") ++ tail).
  { unfold abs_xpath at 1. rewrite Hp, Hr.
    change (str_or (String "."%char tail) ".") with (String "."%char tail).
    apply join_dotted. }
  split.
  - rewrite Habs. unfold make_abs_xpath. now rewrite join_dotted.
  - unfold make_abs_xpath. rewrite !join_dotted, Habs.
    rewrite str_or_nonempty by now apply app_nonempty.
    unfold slashless at 1. rewrite endswith_app by assumption.
    rewrite Hend. apply app_assoc_str.
Qed.

(** ** The index of a position *)

Lemma contains_app (needle a r : string) :
  Py.contains needle r = true -> Py.contains needle (a ++ r) = true.
Proof.
  intros Hr. induction a as [|c a IH]; [exact Hr|].
  cbn [append Py.contains]. rewrite IH. apply orb_true_r.
Qed.

Lemma after_last_none (sep : ascii) (l : list ascii) :
  forallb (fun c => negb (Ascii.eqb c sep)) l = true -> after_last sep l = None.
Proof.
  induction l as [|c l IH]; [reflexivity|].
  cbn [forallb after_last]. intros Hall. apply andb_true_iff in Hall.
  destruct Hall as [Hc Hl]. rewrite (IH Hl).
  apply negb_true_iff in Hc. now rewrite Hc.
Qed.

Lemma after_last_app (sep : ascii) (a tl : list ascii) :
  forallb (fun c => negb (Ascii.eqb c sep)) tl = true ->
  after_last sep (a ++ sep :: tl) = Some tl.
Proof.
  intros Htl. induction a as [|c a IH].
  - cbn [app after_last]. rewrite (after_last_none _ _ Htl).
    now rewrite Ascii.eqb_refl.
  - cbn [app after_last]. now rewrite IH.
Qed.

Lemma digit_not (c x : ascii) :
  Py.is_digit c = true -> Py.is_digit x = false -> Ascii.eqb c x = false.
Proof.
  intros Hc Hx. destruct (Ascii.eqb_spec c x) as [->|]; congruence.
Qed.

Lemma digit_not_space (c : ascii) : Py.is_digit c = true -> Py.is_space c = false.
Proof.
  unfold Py.is_digit, Py.is_space. cbv zeta. intros Hd.
  apply andb_true_iff in Hd. destruct Hd as [H1 H2].
  apply Nat.leb_le in H1, H2.
  repeat match goal with
         | |- context [(?a <=? ?b)%nat] => destruct (Nat.leb_spec a b)
         | |- context [(?a =? ?b)%nat] => destruct (Nat.eqb_spec a b)
         end; cbn; try reflexivity; lia.
Qed.

Lemma lstrip_char_digits (x : ascii) (ds rest : list ascii) :
  Py.is_digit x = false -> ds <> [] -> forallb Py.is_digit ds = true ->
  lstrip_char x (ds ++ rest) = (ds ++ rest)%list.
Proof.
  intros Hx Hne Hds. destruct ds as [|c ds]; [congruence|].
  cbn in Hds. apply andb_true_iff in Hds. destruct Hds as [Hc _].
  cbn [app lstrip_char]. now rewrite (digit_not c x).
Qed.

Lemma strip_char_digits (x : ascii) (ds : list ascii) :
  Py.is_digit x = false -> ds <> [] -> forallb Py.is_digit ds = true ->
  strip_char x (ds ++ [x]) = ds.
Proof.
  intros Hx Hne Hds. unfold strip_char.
  rewrite lstrip_char_digits by assumption.
  rewrite rev_app_distr. cbn [rev app lstrip_char]. rewrite Ascii.eqb_refl.
  rewrite <- (app_nil_r (rev ds)).
  rewrite lstrip_char_digits.
  - rewrite app_nil_r. apply rev_involutive.
  - exact Hx.
  - intros E. apply Hne. rewrite <- (rev_involutive ds), E. reflexivity.
  - now rewrite forallb_rev.
Qed.

Lemma strip_digits (ds : list ascii) :
  ds <> [] -> forallb Py.is_digit ds = true -> Py.strip ds = ds.
Proof.
  intros Hne Hds.
  assert (Hl : forall l, l <> [] -> forallb Py.is_digit l = true -> Py.lstrip l = l).
  { intros [|c l] Hn Hl; [congruence|]. cbn in Hl.
    apply andb_true_iff in Hl. destruct Hl as [Hc _].
    cbn [Py.lstrip]. now rewrite digit_not_space. }
  unfold Py.strip. rewrite (Hl ds) by assumption.
  rewrite Hl.
  - apply rev_involutive.
  - intros E. apply Hne. rewrite <- (rev_involutive ds), E. reflexivity.
  - now rewrite forallb_rev.
Qed.

(** The digits of a number in base 10 are read as that number. *)
Lemma digits_value (d : Decimal.uint) (a : nat) :
  Py.digits 10 (list_ascii_of_string (NilEmpty.string_of_uint d)) (Z.of_nat a) true
  = Some (Z.of_nat (Nat.of_uint_acc d a)).
Proof.
  revert a. induction d; intros a;
    cbn [NilEmpty.string_of_uint list_ascii_of_string Py.digits Nat.of_uint_acc];
    try reflexivity;
    match goal with
    | |- context [Ascii.eqb ?c "_"%char] =>
        change (Ascii.eqb c "_"%char) with false; cbv iota;
        let v := eval vm_compute in (Py.digit_value c) in
        change (Py.digit_value c) with v; cbv iota beta
    end;
    match goal with
    | |- context [(?x <? 10)%Z] => change (x <? 10)%Z with true; cbv iota
    end;
    rewrite <- IHd; f_equal; rewrite Nat.tail_mul_spec; lia.
Qed.

Lemma digits_value_first (d : Decimal.uint) :
  d <> Decimal.Nil ->
  Py.digits 10 (list_ascii_of_string (NilEmpty.string_of_uint d)) 0 false
  = Some (Z.of_nat (Nat.of_uint d)).
Proof.
  intros Hne. unfold Nat.of_uint.
  destruct d; [congruence|..];
    cbn [NilEmpty.string_of_uint list_ascii_of_string Py.digits Nat.of_uint_acc];
    match goal with
    | |- context [Ascii.eqb ?c "_"%char] =>
        change (Ascii.eqb c "_"%char) with false; cbv iota;
        let v := eval vm_compute in (Py.digit_value c) in
        change (Py.digit_value c) with v; cbv iota beta
    end;
    match goal with
    | |- context [(?x <? 10)%Z] => change (x <? 10)%Z with true; cbv iota
    end;
    rewrite <- digits_value; f_equal.
Qed.

(** [int(str(n))] is [n]. *)
Lemma int_of_nat_text (n : nat) :
  Py.int_of_text 10 (NilZero.string_of_uint (Nat.to_uint n)) = Some (Z.of_nat n).
Proof.
  destruct (digits_of_nat n) as [Hds Hne]. cbv zeta in Hds, Hne.
  unfold Py.int_of_text. rewrite strip_digits by assumption.
  assert (Hmag : Py.magnitude 10
                   (list_ascii_of_string (NilZero.string_of_uint (Nat.to_uint n)))
                 = Some (Z.of_nat n)).
  { unfold Py.magnitude, Py.unprefixed. cbn [Z.eqb Pos.eqb].
    rewrite <- (DecimalNat.Unsigned.of_to n) at 2.
    unfold NilZero.string_of_uint.
    destruct (Nat.to_uint n) eqn:E; try (apply digits_value_first; discriminate).
    reflexivity. }
  destruct (list_ascii_of_string (NilZero.string_of_uint (Nat.to_uint n)))
    as [|c l] eqn:E; [congruence|].
  cbn in Hds. apply andb_true_iff in Hds. destruct Hds as [Hc _].
  destruct c as [[|] [|] [|] [|] [|] [|] [|] [|]]; try discriminate Hc;
    exact Hmag.
Qed.

Lemma contains_bracket (n : nat) : Py.contains "[" (idxstr n) = true.
Proof.
  unfold idxstr. cbn [append Py.contains].
  destruct (NilZero.string_of_uint (Nat.to_uint n) ++ "]"); reflexivity.
Qed.

Lemma idxstr_nonempty (n : nat) : idxstr n <> EmptyString.
Proof. discriminate. Qed.

Lemma startswith_app (r t : string) :
  r <> EmptyString -> Py.startswith (r ++ t) "." = Py.startswith r ".".
Proof.
  destruct r as [|c r]; [congruence|]. intros _.
  unfold Py.startswith. cbn [append String.prefix].
  destruct (ascii_dec "."%char c); [|reflexivity].
  destruct r, t; reflexivity.
Qed.

Lemma drop_app (r t : string) :
  r <> EmptyString -> Py.drop 1 (r ++ t) = Py.drop 1 r ++ t.
Proof. destruct r; [congruence | reflexivity]. Qed.

(** The position of an object whose relative path ends with an index. *)
Lemma abs_xpath_indexed (st : XMLState) (rel : string) (n : nat) :
  _relative_object_xpath st = rel ++ idxstr n ->
  abs_xpath st = _join_xpath (str_or (_parent_xpath st) ".") rel ++ idxstr n.
Proof.
  intros Hrel. unfold abs_xpath. rewrite Hrel.
  rewrite (str_or_nonempty (rel ++ idxstr n))
    by (apply app_nonempty, idxstr_nonempty).
  unfold _join_xpath. rewrite app_assoc_str. f_equal.
  destruct rel as [|c rel]; [reflexivity|].
  rewrite startswith_app, drop_app by discriminate.
  destruct (Py.startswith (String c rel) "."); reflexivity.
Qed.

Lemma idxstr_chars (n : nat) :
  list_ascii_of_string (idxstr n)
  = ("["%char :: list_ascii_of_string (NilZero.string_of_uint (Nat.to_uint n))
       ++ ["]"%char])%list.
Proof. unfold idxstr. cbn [append list_ascii_of_string]. now rewrite list_ascii_app. Qed.

(** X9. For an instance whose relative path ends with the index
    [[n]], as [_initial_child_parse] and [_set_child_xpaths] write it,
    [get_xml_id] ends with that index and [get_xml_idx] returns [n - 1]. *)
Theorem get_xml_idx_rank (b : XMLBuilder) (rel : string) (n : nat) :
  _relative_object_xpath (_xmlstate b) = rel ++ idxstr n ->
  get_xml_id b = _join_xpath (str_or (_parent_xpath (_xmlstate b)) ".") rel
                 ++ idxstr n /\
  get_xml_idx b = inr (Z.of_nat n - 1)%Z.
Proof.
  intros Hrel. pose proof (abs_xpath_indexed _ _ _ Hrel) as Habs.
  split; [exact Habs|].
  unfold get_xml_idx. rewrite Habs.
  set (pre := _join_xpath _ rel).
  destruct (digits_of_nat n) as [Hds Hne]. cbv zeta in Hds, Hne.
  rewrite contains_app by apply contains_bracket. cbn [negb].
  rewrite list_ascii_app, idxstr_chars.
  rewrite after_last_app.
  - rewrite strip_char_digits by (try assumption; reflexivity).
    rewrite string_of_list_ascii_of_string, int_of_nat_text. reflexivity.
  - rewrite forallb_app. cbn. rewrite andb_true_r.
    apply forallb_forall. intros c Hc.
    rewrite forallb_forall in Hds. apply negb_true_iff.
    apply digit_not; [now apply Hds | reflexivity].
Qed.


Lemma no_newline_app (a t : string) :
  no_newline (a ++ t) = no_newline a && no_newline t.
Proof. unfold no_newline. now rewrite list_ascii_app, forallb_app. Qed.

Lemma no_newline_drop_last (s : string) :
  no_newline s = true -> no_newline (Py.drop_last s) = true.
Proof.
  unfold no_newline. induction s as [|c s IH]; [reflexivity|].
  cbn [list_ascii_of_string forallb]. intros Hs.
  apply andb_true_iff in Hs. destruct Hs as [Hc Hs].
  destruct s as [|c' s]; [reflexivity|].
  change (Py.drop_last (String c (String c' s)))
    with (String c (Py.drop_last (String c' s))).
  cbn [list_ascii_of_string forallb]. rewrite Hc. exact (IH Hs).
Qed.

Lemma no_newline_drop (s : string) :
  no_newline s = true -> no_newline (Py.drop 1 s) = true.
Proof.
  unfold no_newline. destruct s as [|c s]; [reflexivity|].
  cbn [list_ascii_of_string forallb Py.drop]. intros Hs.
  apply andb_true_iff in Hs. apply Hs.
Qed.

Lemma no_newline_join (x1 x2 : string) :
  no_newline x1 = true -> no_newline x2 = true ->
  no_newline (_join_xpath x1 x2) = true.
Proof.
  intros H1 H2. unfold _join_xpath. rewrite no_newline_app.
  apply andb_true_iff. split.
  - destruct (Py.endswith_char x1 "/"); [now apply no_newline_drop_last | exact H1].
  - destruct (Py.startswith x2 "."); [now apply no_newline_drop | exact H2].
Qed.

Section NumberedChild.
Context {doc : Type} `{XMLAPI doc} `{Env}.

(** X10. For an instance whose relative path ends with an index, the
    second part of [clear] blanks the node at the position of the instance
    in its document and never removes it, whatever [leave_stub] is. *)
Theorem clear_node_numbered (leave_stub : bool) (b : XMLBuilder) (h : list doc)
    (d : doc) (rel : string) (n : nat) :
  _relative_object_xpath (_xmlstate b) = rel ++ idxstr n ->
  no_newline (_parent_xpath (_xmlstate b)) = true -> no_newline rel = true ->
  nth_error h (xmlapi (_xmlstate b)) = Some d ->
  is_child_xpath (abs_xpath (_xmlstate b)) = true /\
  clear_node leave_stub (b, h)
  = ((b, list_set h (xmlapi (_xmlstate b))
                  (node_clear d (abs_xpath (_xmlstate b)))), inr tt).
Proof.
  intros Hrel Hp Hr Hd.
  assert (Hchild : is_child_xpath (abs_xpath (_xmlstate b)) = true).
  { rewrite (abs_xpath_indexed _ _ _ Hrel). apply is_child_xpath_indexed.
    apply no_newline_join; [|exact Hr].
    unfold str_or. destruct (String.eqb _ _); [reflexivity | exact Hp]. }
  split; [exact Hchild|].
  unfold clear_node, api_write. run. rewrite Hchild. cbn. now rewrite Hd.
Qed.

End NumberedChild.

Section ClearPolicy.
Context {doc : Type} `{XMLAPI doc} `{Env}.

(** C9 (amended). When [clear] returns, the clearing of the descriptors
    has returned, leaving class, position and handle of the instance as
    they were, and [clear] has ended with one call of the adapter on the
    document of the instance, at the position of the instance. That call is
    [node_clear], which blanks the node in place, when [leave_stub] is set,
    and also when the position ends with an index [[n]] (a relative path
    that ends with one, no line break in the paths); it is
    [node_force_remove], which removes the node, when [leave_stub] is not
    set and the position ends with a character other than a closing
    bracket. *)
Theorem clear_policy depth (leave_stub : bool) b (h : list doc) b1 h2 :
  clear (S depth) leave_stub (b, h) = ((b1, h2), inr tt) ->
  let xpath := abs_xpath (_xmlstate b) in
  let api := xmlapi (_xmlstate b) in
  exists h1 d,
    clear_props depth (clear depth false) (b, h) = ((b1, h1), inr tt)
    /\ cls b1 = cls b /\ _xmlstate b1 = _xmlstate b
    /\ nth_error h1 api = Some d
    /\ (leave_stub = true -> h2 = list_set h1 api (node_clear d xpath))
    /\ (forall rel n,
          _relative_object_xpath (_xmlstate b) = rel ++ idxstr n ->
          no_newline (_parent_xpath (_xmlstate b)) = true ->
          no_newline rel = true ->
          h2 = list_set h1 api (node_clear d xpath))
    /\ (forall c before,
          leave_stub = false ->
          rev (list_ascii_of_string xpath) = c :: before ->
          Ascii.eqb c "]"%char = false -> Ascii.eqb c Py.newline = false ->
          h2 = list_set h1 api (node_force_remove d xpath)).
Proof.
  intros Hclear xpath api.
  pose proof (place_clear_props (cls b) (_xmlstate b) depth (clear depth false)
                (b, h) (conj eq_refl eq_refl)) as Hplace.
  cbn [clear] in Hclear. unfold bind at 1 in Hclear.
  destruct (clear_props depth (clear depth false) (b, h))
    as [[b0 h1] [e|[]]] eqn:Hprops; [discriminate|].
  destruct Hplace as [Hc Hst]. cbn [fst] in Hc, Hst.
  unfold clear_node, api_write, bind, get_self, gets in Hclear.
  cbn [fst snd] in Hclear. rewrite Hst in Hclear. fold xpath api in Hclear.
  assert (Hdoc : exists d, nth_error h1 api = Some d).
  { destruct (nth_error h1 api) as [d|] eqn:E; [eauto|].
    destruct (is_child_xpath xpath || leave_stub); cbn [fst snd] in Hclear;
      rewrite Hst in Hclear; fold api in Hclear; rewrite E in Hclear;
      discriminate. }
  destruct Hdoc as [d Hdoc].
  assert (Hend : b1 = b0
                 /\ h2 = list_set h1 api
                           (if is_child_xpath xpath || leave_stub
                            then node_clear d xpath
                            else node_force_remove d xpath)).
  { destruct (is_child_xpath xpath || leave_stub); cbn [fst snd] in Hclear;
      rewrite Hst in Hclear; fold api in Hclear; rewrite Hdoc in Hclear;
      injection Hclear as <- <-; split; reflexivity. }
  destruct Hend as [-> Hh2].
  exists h1, d. split; [reflexivity|]. split; [exact Hc|]. split; [exact Hst|].
  split; [exact Hdoc|]. split; [|split].
  - intros ->. now rewrite orb_true_r in Hh2.
  - intros rel n Hrel Hp Hr.
    assert (Hchild : is_child_xpath xpath = true).
    { unfold xpath. rewrite (abs_xpath_indexed _ _ _ Hrel).
      apply is_child_xpath_indexed.
      apply no_newline_join; [|exact Hr].
      unfold str_or. destruct (String.eqb _ _); [reflexivity | exact Hp]. }
    now rewrite Hchild in Hh2.
  - intros c before -> Hrev Hbr Hnl.
    now rewrite (is_child_xpath_plain xpath c before Hrev Hnl Hbr) in Hh2.
Qed.

End ClearPolicy.



Section OrderComplete.
Variable c : XMLBuilderClass.

(** X11. The list [do_order] of [_do_add_parse_bits] has no duplicate,
    and it holds exactly the staged keys that are no child descriptor and
    the names of all child descriptors: each staged scalar and each child
    block is emitted once. *)
Theorem do_order_complete (keys : list string) :
  NoDup keys ->
  NoDup (do_order c keys) /\
  forall k, In k (do_order c keys)
            <-> (In k keys /\ in_childprops c k = false)
                \/ in_childprops c k = true.
Proof.
  intros Hnd. rewrite (do_order_parts c keys Hnd). cbv zeta.
  set (staged := filter (fun k => negb (in_childprops c k)) keys).
  set (order := _XML_PROP_ORDER c).
  set (children := sorted (map child_propname (_all_child_props c))).
  assert (Hstaged : forall k, In k staged <-> In k keys /\ in_childprops c k = false).
  { intros k. unfold staged. rewrite filter_In, negb_true_iff. tauto. }
  assert (Hchildren : forall k, In k children <-> in_childprops c k = true).
  { intros k. rewrite in_childprops_In. unfold children. split; intros Hin.
    - eapply Permutation_in; [apply Permutation_sym, sorted_perm | exact Hin].
    - eapply Permutation_in; [apply sorted_perm | exact Hin]. }
  set (first := uniq (filter (fun k => mem_str k staged || in_childprops c k) order)).
  set (second := filter (fun k => negb (mem_str k order)) staged).
  set (third := uniq (filter (fun k => negb (mem_str k order)) children)).
  assert (Hfirst : forall k, In k first
                             <-> In k order /\ (In k staged \/ in_childprops c k = true)).
  { intros k. unfold first. rewrite uniq_In, filter_In, orb_true_iff, mem_str_In.
    tauto. }
  assert (Hsecond : forall k, In k second <-> In k staged /\ ~ In k order).
  { intros k. unfold second. rewrite filter_In, negb_true_iff.
    rewrite <- mem_str_not_In. tauto. }
  assert (Hthird : forall k, In k third
                             <-> in_childprops c k = true /\ ~ In k order).
  { intros k. unfold third. rewrite uniq_In, filter_In, negb_true_iff.
    rewrite <- mem_str_not_In, Hchildren. tauto. }
  split.
  - apply NoDup_app; [apply uniq_NoDup | |].
    + apply NoDup_app; [|apply uniq_NoDup|].
      * unfold second, staged. now repeat apply NoDup_filter.
      * intros k H2 H3. apply Hsecond in H2. apply Hthird in H3.
        destruct H2 as [H2 _]. apply Hstaged in H2. destruct H2, H3. congruence.
    + intros k H1 H23. apply Hfirst in H1. apply in_app_or in H23.
      destruct H23 as [H2|H3]; [apply Hsecond in H2 | apply Hthird in H3]; tauto.
  - intros k. rewrite !in_app_iff, Hfirst, Hsecond, Hthird, <- Hstaged.
    destruct (in_dec string_dec k order); tauto.
Qed.

End OrderComplete.

(** ** Emission with nothing staged *)

Lemma remove_first_In (x k : string) (l : list string) :
  In k (remove_first x l) -> In k l.
Proof.
  induction l as [|y l IH]; cbn [remove_first]; [auto|].
  destruct (String.eqb x y); [now right|].
  intros [->|Hin]; [now left | right; auto].
Qed.

(** What [do_order] lists is a staged scalar or a child descriptor. *)
Lemma do_order_In (c : XMLBuilderClass) (keys : list string) (k : string) :
  In k (do_order c keys) ->
  (In k keys /\ in_childprops c k = false) \/ in_childprops c k = true.
Proof.
  unfold do_order.
  set (staged := filter (fun p => negb (in_childprops c p)) keys).
  assert (Hpref : forall order,
             In k (fold_right (prefer c) staged order) ->
             In k staged \/ in_childprops c k = true).
  { induction order as [|x order IH]; cbn [fold_right]; [auto|].
    unfold prefer at 1.
    destruct (mem_str x (fold_right (prefer c) staged order)) eqn:Hx.
    - intros [->|Hin].
      + apply IH. now apply mem_str_In.
      + apply IH. now apply remove_first_In in Hin.
    - destruct (in_childprops c x) eqn:Hc; [|exact IH].
      intros [->|Hin]; [now right | now apply IH]. }
  assert (Happ : forall names acc,
             In k (fold_left append_missing names acc) ->
             In k acc \/ In k names).
  { induction names as [|x names IH]; intros acc; cbn [fold_left]; [auto|].
    intros Hin. apply IH in Hin. destruct Hin as [Hin|Hin]; [|right; now right].
    unfold append_missing in Hin. destruct (mem_str x acc); [now left|].
    apply in_app_or in Hin. destruct Hin as [Hin|[->|[]]]; [now left|].
    right. now left. }
  intros Hin. apply Happ in Hin. destruct Hin as [Hin|Hin].
  - apply Hpref in Hin. destruct Hin as [Hin|Hin]; [left | now right].
    unfold staged in Hin. apply filter_In in Hin.
    rewrite negb_true_iff in Hin. exact Hin.
  - right. apply in_childprops_In.
    eapply Permutation_in; [apply Permutation_sym, sorted_perm | exact Hin].
Qed.

Lemma class_ok_scalar (c : XMLBuilderClass) (key : string) (p : XMLProperty) :
  class_ok c = true -> find_xmlprop c key = Some p -> in_childprops c key = false.
Proof.
  unfold class_ok, find_xmlprop. intros Hok Hfind.
  apply andb_true_iff in Hok. destruct Hok as [Hok _].
  apply find_some in Hfind. destruct Hfind as [Hin Heq].
  apply String.eqb_eq in Heq. subst key.
  rewrite forallb_forall in Hok. apply negb_true_iff. now apply Hok.
Qed.

Lemma find_childprop_some (c : XMLBuilderClass) (key : string) :
  in_childprops c key = true ->
  exists cp, find_childprop c key = Some cp /\ In cp (_all_child_props c)
             /\ child_propname cp = key.
Proof.
  unfold in_childprops, find_childprop. intros Hin.
  destruct (find _ (_all_child_props c)) as [cp|] eqn:Hfind.
  - apply find_some in Hfind. destruct Hfind as [Hcp Heq].
    apply String.eqb_eq in Heq. eauto.
  - apply existsb_exists in Hin. destruct Hin as [cp [Hcp Heq]].
    apply (find_none _ _ Hfind) in Hcp. cbv beta in Hcp. congruence.
Qed.

Lemma child_at_typed `{Env} (flag : bool) (v : propval XMLBuilder) i o :
  typed_propval flag v -> child_at v i = Some o -> typed o.
Proof.
  intros Hv. inversion Hv as [x|o' Ho|l Hl]; subst; cbn; try discriminate.
  - destruct i; [|discriminate]. now intros [= <-].
  - intros E. apply nth_error_In in E. rewrite Forall_forall in Hl. auto.
Qed.

Lemma child_at_quiet `{Env} (v : propval XMLBuilder) i o :
  quiet_propval v -> child_at v i = Some o -> quiet o.
Proof.
  intros Hv. inversion Hv as [o' Ho|l Hl]; subst; cbn.
  - destruct i; [|discriminate]. now intros [= <-].
  - intros E. apply nth_error_In in E. rewrite Forall_forall in Hl. auto.
Qed.

Section QuietFlush.
Context {doc : Type} `{XMLAPI doc} `{Env}.
Implicit Types (b : XMLBuilder) (s : world (doc:=doc)).

Lemma for_each_returns {X} (J : world (doc:=doc) -> Prop) (l : list X)
    (body : X -> M world unit) :
  (forall x s, In x l -> J s -> exists s', body x s = (s', inr tt) /\ J s') ->
  forall s, J s -> exists s', for_each l body s = (s', inr tt) /\ J s'.
Proof.
  induction l as [|x l IH]; intros Hbody s Hs; cbn [for_each].
  - exists s. split; [reflexivity | exact Hs].
  - unfold bind.
    destruct (Hbody x s (or_introl eq_refl) Hs) as (s1 & -> & Hs1).
    apply IH; [|exact Hs1]. intros y s2 Hy. apply Hbody. now right.
Qed.

Lemma for_each_same {X} (l : list X) (body : X -> M world unit) s :
  (forall x, In x l -> body x s = (s, inr tt)) -> for_each l body s = (s, inr tt).
Proof.
  intros Hbody.
  destruct (for_each_returns (fun s' => s' = s) l body) with (s := s)
    as (s' & Hrun & ->); [|reflexivity|exact Hrun].
  intros x s1 Hx ->. exists s. split; [now apply Hbody | reflexivity].
Qed.

Section QuietInvariant.
Variables (c0 : string) (st : XMLState) (h0 : list doc)
          (good : XMLBuilder -> Prop).
Hypothesis Hclass : class_ok (class_of c0) = true.
Hypothesis Hdefault :
  is_build st = false
  \/ Forall (fun p => _default_cb p = None) (_all_xml_props (class_of c0)).

Let J s : Prop :=
  snd s = h0 /\ cls (fst s) = c0 /\ _xmlstate (fst s) = st /\
  (forall cp, In cp (_all_child_props (class_of c0)) ->
              kind_ok cp (OD.get (child_propname cp) (_propstore (fst s)))) /\
  (forall k, OD.mem k (_propstore (fst s)) = true ->
             in_childprops (class_of c0) k = true) /\
  (forall k v i o, OD.get k (_propstore (fst s)) = Some v ->
                   child_at v i = Some o -> good o).

Lemma set_default_quiet p s :
  In p (_all_xml_props (class_of c0)) -> J s -> _set_default p s = (s, inr tt).
Proof.
  intros Hp (_ & _ & Hst & _). destruct s as [b h]. cbn [fst] in Hst.
  unfold _set_default, _default_get_value. run. rewrite Hst.
  destruct Hdefault as [Hparse|Hnone].
  - rewrite Hparse. reflexivity.
  - rewrite Forall_forall in Hnone. rewrite (Hnone p Hp).
    destruct (negb (is_build st)); [reflexivity|].
    destruct (OD.mem (_propname p) (_propstore b)); reflexivity.
Qed.

Lemma getattr_quiet cp s :
  In cp (_all_child_props (class_of c0)) -> J s ->
  exists s' objs v,
    getattr_children cp s = (s', inr objs) /\ J s' /\
    OD.get (child_propname cp) (_propstore (fst s')) = Some v /\
    forall i, i < List.length objs -> exists o, child_at v i = Some o.
Proof.
  intros Hcp Hs. pose proof Hs as (Hh & Hc & Hst & Hkind & Hkeys & Hgood).
  destruct s as [b h]. cbn [fst snd] in *.
  pose proof (Hkind cp Hcp) as Hk.
  unfold getattr_children, XMLChildProperty_get. run.
  destruct (OD.get (child_propname cp) (_propstore b)) as [[x|o|l]|] eqn:Hget;
    cbn in Hk; try contradiction; rewrite Hk; run.
  - exists (b, h), [o], (PObj o). repeat split; auto.
    intros [|i] Hi; cbn in Hi; [exists o; reflexivity | lia].
  - exists (b, h), l, (PList l). repeat split; auto.
    intros i Hi. cbn. destruct (nth_error l i) eqn:E; [eauto|].
    apply nth_error_None in E. lia.
  - eexists (_, h), [], (PList []). split; [reflexivity|].
    split; [|split; [cbn; apply ODFacts.get_set_eq | cbn; intros; lia]].
    unfold J. cbn. refine (conj Hh (conj Hc (conj Hst (conj _ (conj _ _))))).
    + intros cp' Hcp'. specialize (Hkind cp' Hcp').
      destruct (String.eqb_spec (child_propname cp') (child_propname cp)) as [E|E].
      * rewrite E, ODFacts.get_set_eq. rewrite E, Hget in Hkind. exact Hkind.
      * now rewrite ODFacts.get_set_ne.
    + intros k. rewrite ODFacts.mem_set. intros Hk'.
      apply orb_true_iff in Hk'. destruct Hk' as [Hk'|Hk']; [|auto].
      apply String.eqb_eq in Hk'. subst k.
      unfold in_childprops. apply existsb_exists. exists cp.
      split; [exact Hcp | apply String.eqb_refl].
    + intros k v i o. destruct (String.eqb_spec k (child_propname cp)) as [->|E].
      * rewrite ODFacts.get_set_eq. intros [= <-]. cbn. destruct i; discriminate.
      * rewrite ODFacts.get_set_ne by assumption. apply Hgood.
Qed.

Lemma with_child_quiet key i (call : M world unit) s :
  (forall o h, good o -> call (o, h) = ((o, h), inr tt)) ->
  J s ->
  (exists v o, OD.get key (_propstore (fst s)) = Some v /\ child_at v i = Some o) ->
  with_child key i call s = (s, inr tt).
Proof.
  intros Hcall Hs (v & o & Hget & Hchild).
  destruct Hs as (_ & _ & _ & _ & _ & Hgood). destruct s as [b h].
  cbn [fst snd] in *. unfold with_child. cbn [fst snd].
  rewrite Hget, Hchild, (Hcall o h (Hgood _ _ _ _ Hget Hchild)).
  rewrite (put_child_same v i o Hchild), (ODFacts.set_same _ _ _ Hget).
  now rewrite with_propstore_same.
Qed.

Lemma emit_key_quiet (flush_child : nat -> M world unit) key s :
  (forall api o h, good o -> flush_child api (o, h) = ((o, h), inr tt)) ->
  in_childprops (class_of c0) key = true -> J s ->
  exists s', emit_key (class_of c0) flush_child key s = (s', inr tt) /\ J s'.
Proof.
  intros Hflush Hkey Hs. unfold emit_key.
  destruct (find_xmlprop (class_of c0) key) as [p|] eqn:Hp.
  { apply (class_ok_scalar _ _ _ Hclass) in Hp. congruence. }
  destruct (find_childprop_some _ _ Hkey) as (cp & -> & Hcp & Hname).
  unfold bind at 1.
  destruct (getattr_quiet cp s Hcp Hs) as (s' & objs & v & -> & Hs' & Hget & Hat).
  exists s'. split; [|exact Hs'].
  apply for_each_same. intros i Hi. apply in_seq in Hi. run.
  apply with_child_quiet; [now apply Hflush | exact Hs' |].
  destruct (Hat i) as [o Ho]; [lia|]. exists v, o. split; [|exact Ho].
  now rewrite <- Hname.
Qed.

Lemma do_add_parse_bits_quiet (flush_child : nat -> M world unit) s :
  (forall api o h, good o -> flush_child api (o, h) = ((o, h), inr tt)) ->
  J s ->
  exists s', _do_add_parse_bits flush_child s = (s', inr tt) /\ J s'.
Proof.
  intros Hflush Hs. pose proof Hs as (_ & Hc & _ & _ & Hkeys & _).
  unfold _do_add_parse_bits. run. rewrite Hc.
  rewrite for_each_same by (intros p Hp; now apply set_default_quiet).
  run.
  apply for_each_returns; [|exact Hs].
  intros key s1 Hkey Hs1. apply emit_key_quiet; [exact Hflush | | exact Hs1].
  apply do_order_In in Hkey. destruct Hkey as [[Hkey Hscalar]|Hchild]; [|exact Hchild].
  apply ODFacts.mem_keys in Hkey. apply Hkeys in Hkey. congruence.
Qed.

End QuietInvariant.

(** With nothing staged and no default to apply, an emission returns and
    leaves the instance and every document as they were. *)
Lemma add_parse_bits_quiet depth api b (h : list doc) :
  wf_builder b -> typed b -> quiet b -> height b <= depth ->
  _add_parse_bits depth api (b, h) = ((b, h), inr tt).
Proof.
  revert api b h. induction depth as [|depth IH]; intros api b h Hwf Hty Hq Hd.
  { destruct b; cbn [height] in Hd; lia. }
  destruct (add_parse_bits_restores (S depth) api b h Hwf) as (h' & r & Hrun & _).
  rewrite Hrun. revert Hrun.
  cbn [_add_parse_bits]. unfold try_finally, restore. run.
  set (st := set_xmlapi (_xmlstate b) api).
  set (good := fun o => wf_builder o /\ typed o /\ quiet o /\ height o <= depth).
  destruct (do_add_parse_bits_quiet (cls b) st h good) with
    (flush_child := _add_parse_bits depth) (s := (with_xmlstate b st, h))
    as (s' & -> & Hs').
  - inversion Hty; subst. assumption.
  - inversion Hq as [c ps st0 Hdef Hall]; subst. cbn in st. exact Hdef.
  - intros api' o h1 (Ho1 & Ho2 & Ho3 & Ho4). now apply IH.
  - inversion Hwf as [c ps st0 Hnd Hwfall]; subst.
    inversion Hty as [c' ps' st' Hok Hkinds Htyall]; subst.
    inversion Hq as [c' ps' st' Hdef Hqall]; subst.
    rewrite Forall_forall in Hwfall, Htyall, Hqall, Hkinds.
    cbn. refine (conj eq_refl (conj eq_refl (conj eq_refl (conj _ (conj _ _))))).
    + exact Hkinds.
    + intros k Hk. apply ODFacts.mem_get in Hk. destruct Hk as [v Hv].
      apply In_of_get in Hv.
      specialize (Htyall _ Hv). specialize (Hqall _ Hv). cbn in Htyall, Hqall.
      inversion Hqall; subst; inversion Htyall; subst; congruence.
    + intros k v i o Hget Hchild. apply In_of_get in Hget.
      pose proof (height_child c _ st0 _ _ _ _ Hget Hchild) as Hlt.
      unfold good. split; [|split; [|split]].
      * eapply wf_child; [apply (Hwfall _ Hget) | exact Hchild].
      * eapply child_at_typed; [apply (Htyall _ Hget) | exact Hchild].
      * eapply child_at_quiet; [apply (Hqall _ Hget) | exact Hchild].
      * lia.
  - cbn [snd]. destruct Hs' as (Hh & _). intros [= _ <- <-].
    now rewrite Hh.
Qed.

End QuietFlush.

Section GetXmlMore.
Context {doc : Type} `{XMLAPI doc} `{Env}.

(** X12. In parse mode [get_xml], whether it returns or raises, leaves
    the instance as it was (the property store with what is staged, the
    position, the handle) and every document other than the one of the
    instance; the number of documents does not change. *)
Theorem get_xml_parse_keeps_staged depth (b : XMLBuilder) (h : list doc) :
  wf_builder b -> is_build (_xmlstate b) = false ->
  exists h' r,
    get_xml depth (b, h) = ((b, h'), r) /\
    frame (xmlapi (_xmlstate b)) h h'.
Proof.
  intros Hwf Hparse. unfold get_xml. cbn [fst snd]. rewrite Hparse.
  destruct (add_parse_bits_restores depth (xmlapi (_xmlstate b)) b h Hwf)
    as (h' & r & Hrun & Hfr).
  unfold bind at 1. rewrite Hrun.
  destruct r as [e|u]; [eauto|].
  unfold api_read. run.
  destruct (nth_error h' (xmlapi (_xmlstate b))); eauto.
Qed.

(** X13. With nothing staged in the tree of an instance and no default
    to apply (each object is in parse mode or of a class without default
    callbacks), [get_xml] writes nothing: it leaves the instance and all
    documents as they were and returns the rendering by the adapter of the
    document of the instance (of its copy, in build mode) at the position of
    the instance, ended with a newline. *)
Theorem get_xml_unstaged depth (b : XMLBuilder) (h : list doc) (d : doc) :
  wf_builder b -> typed b -> quiet b -> height b <= depth ->
  nth_error h (xmlapi (_xmlstate b)) = Some d ->
  get_xml depth (b, h)
  = ((b, h),
     inr (end_with_newline
            (api_get_xml (if is_build (_xmlstate b) then copy_api d else d)
                         (make_abs_xpath (_xmlstate b) ".")))).
Proof.
  intros Hwf Hty Hq Hd Hdoc. unfold get_xml. cbn [fst snd].
  destruct (is_build (_xmlstate b)).
  - rewrite Hdoc, add_parse_bits_quiet by assumption.
    rewrite nth_error_app2, Nat.sub_diag by apply Nat.le_refl. cbn [nth_error].
    rewrite firstn_app, Nat.sub_diag, firstn_all. cbn [firstn].
    now rewrite app_nil_r.
  - unfold bind at 1. rewrite add_parse_bits_quiet by assumption.
    unfold api_read. run. now rewrite Hdoc.
Qed.

End GetXmlMore.

(** ** Validation of a class *)

Lemma first_duplicate_none (l seen : list string) :
  first_duplicate l seen = None
  <-> NoDup l /\ forall x, In x l -> ~ In x seen.
Proof.
  revert seen. induction l as [|x l IH]; intros seen; cbn [first_duplicate].
  - split; [intros _; split; [constructor | intros x []] | reflexivity].
  - destruct (mem_str x seen) eqn:Hx.
    + split; [discriminate|]. intros [_ Hdis]. exfalso.
      apply (Hdis x (or_introl eq_refl)). now apply mem_str_In.
    + apply mem_str_not_In in Hx. rewrite IH. split.
      * intros [Hnd Hdis]. split.
        -- constructor; [|exact Hnd]. intros Hin.
           apply (Hdis x Hin). apply in_or_app. right. now left.
        -- intros y [<-|Hy]; [exact Hx|]. intros Hseen.
           apply (Hdis y Hy). apply in_or_app. now left.
      * intros [Hnd Hdis]. inversion Hnd as [|? ? Hnot Hnd']; subst.
        split; [exact Hnd'|]. intros y Hy Hin. apply in_app_or in Hin.
        destruct Hin as [Hin|[<-|[]]].
        -- apply (Hdis y (or_intror Hy) Hin).
        -- contradiction.
Qed.

(** X14. [_validate_xmlbuilder] accepts a class exactly when every key
    of [_XML_PROP_ORDER] names a scalar or a child descriptor of the class
    and no two child descriptors have the same child class; what it raises
    otherwise is a [RuntimeError]. *)
Theorem validate_xmlbuilder_ok (c : XMLBuilderClass) :
  (_validate_xmlbuilder c = inr tt
   <-> (forall key, In key (_XML_PROP_ORDER c) ->
                    in_xmlprops c key = true \/ in_childprops c key = true)
       /\ NoDup (map child_class (_all_child_props c)))
  /\ (forall e, _validate_xmlbuilder c = inl e -> exists msg, e = RuntimeError msg).
Proof.
  unfold _validate_xmlbuilder. split.
  - destruct (List.find _ (_XML_PROP_ORDER c)) as [key|] eqn:Hfind.
    + split; [discriminate|]. intros [Hall _]. exfalso.
      apply find_some in Hfind. destruct Hfind as [Hin Hbad].
      apply andb_true_iff in Hbad. rewrite !negb_true_iff in Hbad.
      destruct (Hall key Hin); destruct Hbad; congruence.
    + pose proof (find_none _ _ Hfind) as Hnone. cbv beta in Hnone.
      assert (Hall : forall key, In key (_XML_PROP_ORDER c) ->
                in_xmlprops c key = true \/ in_childprops c key = true).
      { intros key Hin. specialize (Hnone key Hin).
        apply andb_false_iff in Hnone. rewrite !negb_false_iff in Hnone.
        exact Hnone. }
      destruct (first_duplicate _ []) as [k|] eqn:Hdup.
      * split; [discriminate|]. intros [_ Hnd]. exfalso.
        assert (Hn : first_duplicate (map child_class (_all_child_props c)) []
                     = None).
        { apply first_duplicate_none. split; [exact Hnd | intros x _ []]. }
        congruence.
      * split; [|reflexivity]. intros _. split; [exact Hall|].
        now apply first_duplicate_none in Hdup.
  - intros e. destruct (List.find _ _); [intros [= <-]; eauto|].
    destruct (first_duplicate _ _); [intros [= <-]; eauto | discriminate].
Qed.

(** ** Construction *)

Lemma append_empty_r (s : string) : s ++ EmptyString = s.
Proof. induction s as [|c s IH]; cbn; congruence. Qed.

Lemma distinct_names_NoDup (l : list string) :
  distinct_names l = true <-> NoDup l.
Proof.
  induction l as [|x l IH]; cbn [distinct_names].
  - split; [constructor | reflexivity].
  - rewrite andb_true_iff, negb_true_iff, IH, mem_str_not_In. split.
    + intros [Hx Hl]. now constructor.
    + intros Hnd. inversion Hnd; subst. auto.
Qed.

Lemma set_set {V : Type} (k : string) (v1 v2 : V) (d : OD.t V) :
  OD.set k v2 (OD.set k v1 d) = OD.set k v2 d.
Proof.
  induction d as [|[k' v'] d IH]; cbn.
  - now rewrite String.eqb_refl.
  - destruct (String.eqb k k') eqn:E; cbn.
    + now rewrite String.eqb_refl.
    + now rewrite E, IH.
Qed.

Lemma wf_set_absent {V : Type} (k : string) (v : V) (d : OD.t V) :
  OD.wf d -> OD.mem k d = false -> OD.wf (OD.set k v d).
Proof.
  unfold OD.wf. intros Hwf Hk. rewrite ODFacts.set_absent by assumption.
  unfold OD.keys. rewrite map_app. cbn.
  apply NoDup_app; [exact Hwf | repeat constructor; intros [] |].
  intros x Hin [<-|[]].
  apply ODFacts.mem_keys in Hin. congruence.
Qed.

Section ConstructionFacts.
Context {doc : Type} `{XMLAPI doc} `{Env} `{Namespaces} `{Sanitize}.
Implicit Types (h : list doc) (st : XMLState).

Lemma XMLState_parse_child (parsexml : option string) (pst : XMLState)
    (b : XMLBuilder) h :
  XMLState_parse parsexml (Some pst) (b, h)
  = ((with_xmlstate b
        (set_xmlapi (set_is_build (_xmlstate b)
                                  (is_build pst || is_build (_xmlstate b)))
                    (xmlapi pst)), h), inr tt).
Proof. reflexivity. Qed.

Lemma XMLState_parse_root (parsexml : option string) (b : XMLBuilder) h :
  XMLState_parse parsexml None (b, h)
  = match XMLAPI__init__ (initial_text (_xmlstate b) parsexml) with
    | inr d =>
        ((with_xmlstate b (set_xmlapi (_xmlstate b) (List.length h)),
          (h ++ [d])%list), inr tt)
    | inl e => ((b, h), inl e)
    end.
Proof.
  unfold XMLState_parse, initial_text, alloc. run.
  destruct (XMLAPI__init__ _); reflexivity.
Qed.

Section Loop.
Variables (new : string -> option XMLState -> option string
                 -> M (list doc) XMLBuilder)
          (c : string) (st : XMLState) (h : list doc) (d : doc).
Hypothesis Hclass : class_ok (class_of c) = true.
Hypothesis Hdoc : nth_error h (xmlapi st) = Some d.
Hypothesis Hnew :
  forall cp idx, In cp (_all_child_props (class_of c)) ->
    exists o,
      new (child_class cp) (Some st)
          (Some (get_prop_xpath cp (child_class cp) ++ idx)) h
      = (h, inr o)
      /\ placed st cp idx o /\ built d o.

Let state (ps : OD.t (propval XMLBuilder)) : world (doc:=doc) :=
  (mkXMLBuilder c ps st, h).

(** The list under a plural descriptor while it is filled. *)
Let filling (name : string) (ps : OD.t (propval XMLBuilder))
    (l : list XMLBuilder) : OD.t (propval XMLBuilder) :=
  match l with
  | [] => ps
  | _ => OD.set name (PList l) ps
  end.

Lemma append_fills cp ps l o :
  is_single cp = false -> OD.mem (child_propname cp) ps = false ->
  XMLChildProperty_append cp o (state (filling (child_propname cp) ps l))
  = (state (filling (child_propname cp) ps (l ++ [o])), inr tt).
Proof.
  intros Hplural Habsent.
  unfold XMLChildProperty_append, XMLChildProperty_get, state. run.
  assert (Hfill : filling (child_propname cp) ps (l ++ [o])
                  = OD.set (child_propname cp) (PList (l ++ [o])) ps).
  { unfold filling. destruct (l ++ [o])%list eqn:E; [|reflexivity].
    now destruct l. }
  rewrite Hfill. destruct l as [|x l]; cbn [filling _propstore].
  - apply ODFacts.mem_false_get in Habsent. rewrite Habsent, Hplural. run.
    cbn. unfold with_propstore. cbn. now rewrite set_set.
  - rewrite ODFacts.get_set_eq. run. cbn. unfold with_propstore. cbn.
    now rewrite set_set.
Qed.

(** One round of the loop over the nodes of a plural descriptor. *)
Let fill_body (cp : XMLChildProperty) (idx : nat) : M (world (doc:=doc)) unit :=
  self <- get_self ;;
  obj <- in_store
           (new (child_class cp) (Some (_xmlstate self))
                (Some (get_prop_xpath cp (child_class cp) ++ idxstr (idx + 1)))) ;;
  XMLChildProperty_append cp obj.

Lemma fill_step cp ps l :
  In cp (_all_child_props (class_of c)) ->
  is_single cp = false -> OD.mem (child_propname cp) ps = false ->
  exists o,
    fill_body cp (List.length l) (state (filling (child_propname cp) ps l))
    = (state (filling (child_propname cp) ps (l ++ [o])), inr tt)
    /\ placed st cp (idxstr (List.length l + 1)) o /\ built d o.
Proof.
  intros Hcp Hplural Habsent.
  destruct (Hnew cp (idxstr (List.length l + 1)) Hcp) as (o & Hrun & Ho & Hbo).
  exists o. split; [|split; assumption].
  unfold fill_body, state. unfold bind at 1. unfold get_self, gets.
  cbn [fst snd]. unfold bind at 1. unfold in_store at 1. cbn [fst snd _xmlstate].
  rewrite Hrun. now apply append_fills.
Qed.

Lemma fill_loop cp ps :
  In cp (_all_child_props (class_of c)) ->
  is_single cp = false -> OD.mem (child_propname cp) ps = false ->
  forall r l,
    (forall i o, nth_error l i = Some o -> placed st cp (idxstr (i + 1)) o) ->
    Forall (built d) l ->
    exists l',
      for_each (seq (List.length l) r) (fill_body cp)
               (state (filling (child_propname cp) ps l))
      = (state (filling (child_propname cp) ps l'), inr tt)
      /\ List.length l' = List.length l + r
      /\ (forall i o, nth_error l' i = Some o -> placed st cp (idxstr (i + 1)) o)
      /\ Forall (built d) l'.
Proof.
  intros Hcp Hplural Habsent. induction r as [|r IH]; intros l Hplaced Hbuilt.
  - exists l. cbn. rewrite Nat.add_0_r. auto.
  - cbn [seq for_each]. unfold bind at 1.
    destruct (fill_step cp ps l Hcp Hplural Habsent) as (o & -> & Ho & Hbo).
    destruct (IH (l ++ [o])%list) as (l' & Hrun & Hlen & Hpl & Hb).
    + intros i o' Hi. destruct (Nat.lt_ge_cases i (List.length l)) as [Hlt|Hge].
      * rewrite nth_error_app1 in Hi by assumption. now apply Hplaced.
      * rewrite nth_error_app2 in Hi by assumption.
        destruct (i - List.length l) as [|k] eqn:E; cbn in Hi.
        -- injection Hi as <-. assert (i = List.length l) as -> by lia. exact Ho.
        -- destruct k; discriminate.
    + apply Forall_app. split; [exact Hbuilt | now repeat constructor].
    + rewrite length_app in Hrun, Hlen. cbn [List.length] in Hrun, Hlen.
      rewrite Nat.add_1_r in Hrun. exists l'. rewrite Hrun.
      split; [reflexivity|]. split; [lia|]. split; assumption.
Qed.

(** One round of the loop over the child descriptors. *)
Let parse_body (xmlprop : XMLChildProperty) : M (world (doc:=doc)) unit :=
  let child_class := child_class xmlprop in
  let prop_path := get_prop_xpath xmlprop child_class in
  self <- get_self ;;
  if is_single xmlprop then
    obj <- in_store (new child_class (Some (_xmlstate self)) (Some prop_path)) ;;
    XMLChildProperty_set xmlprop obj
  else if is_build (_xmlstate self) then ret tt
  else
    nodecount <- api_read (fun d =>
                    count d (make_abs_xpath (_xmlstate self) prop_path)) ;;
    for_each (seq 0 nodecount)
      (fun idx =>
         self <- get_self ;;
         obj <- in_store
                  (new child_class (Some (_xmlstate self))
                       (Some (prop_path ++ idxstr (idx + 1)))) ;;
         XMLChildProperty_append xmlprop obj).

(** What holds of the property store once the descriptors [done] have
    been gone through. *)
Let parsed (done : list XMLChildProperty) (ps : OD.t (propval XMLBuilder))
  : Prop :=
  OD.wf ps /\
  (forall k, OD.mem k ps = true -> In k (map child_propname done)) /\
  Forall (fun cp => built_held d st cp (OD.get (child_propname cp) ps)) done.

Lemma parse_step done cp rest ps :
  _all_child_props (class_of c) = (done ++ cp :: rest)%list ->
  parsed done ps ->
  exists ps',
    parse_body cp (state ps) = (state ps', inr tt)
    /\ parsed (done ++ [cp]) ps'.
Proof.
  intros Hcps (Hwf & Hkeys & Hheld).
  assert (Hcp : In cp (_all_child_props (class_of c))).
  { rewrite Hcps. apply in_or_app. right. now left. }
  assert (Hfresh : ~ In (child_propname cp) (map child_propname done)).
  { unfold class_ok in Hclass. apply andb_true_iff in Hclass.
    destruct Hclass as [_ Hnd]. apply distinct_names_NoDup in Hnd.
    rewrite Hcps, map_app in Hnd. cbn [map] in Hnd.
    apply NoDup_remove_2 in Hnd. intros Hin. apply Hnd.
    apply in_or_app. now left. }
  assert (Habsent : OD.mem (child_propname cp) ps = false).
  { destruct (OD.mem (child_propname cp) ps) eqn:E; [|reflexivity].
    exfalso. apply Hfresh. now apply Hkeys. }
  assert (Hnone : OD.get (child_propname cp) ps = None)
    by now apply ODFacts.mem_false_get.
  assert (Hold : forall ps',
             (forall k, k <> child_propname cp -> OD.get k ps' = OD.get k ps) ->
             Forall (fun cp' => built_held d st cp'
                                  (OD.get (child_propname cp') ps')) done).
  { intros ps' Hsame. rewrite Forall_forall in *. intros cp' Hin.
    rewrite Hsame; [now apply Hheld|].
    intros E. apply Hfresh. rewrite <- E. now apply in_map. }
  assert (Hnames : forall k v,
             OD.mem k (OD.set (child_propname cp) v ps) = true ->
             In k (map child_propname (done ++ [cp]))).
  { intros k v. rewrite ODFacts.mem_set, map_app, in_app_iff. cbn.
    intros Hk. apply orb_true_iff in Hk. destruct Hk as [Hk|Hk].
    - apply String.eqb_eq in Hk. auto.
    - left. now apply Hkeys. }
  unfold parse_body, state. cbv zeta. unfold bind at 1. unfold get_self, gets.
  cbn [fst snd _xmlstate].
  destruct (is_single cp) eqn:Hsingle.
  - (* a singular descriptor *)
    destruct (Hnew cp EmptyString Hcp) as (o & Hrun & Ho & Hbo).
    rewrite append_empty_r in Hrun.
    unfold bind at 1. unfold in_store at 1. cbn [fst snd]. rewrite Hrun.
    exists (OD.set (child_propname cp) (PObj o) ps). split; [reflexivity|].
    split; [now apply wf_set_absent|]. split; [intros k; apply Hnames|].
    apply Forall_app. split.
    + apply Hold. intros k Hk. now apply ODFacts.get_set_ne.
    + repeat constructor. rewrite ODFacts.get_set_eq. now constructor.
  - destruct (is_build st) eqn:Hbuild.
    + (* a plural descriptor, in build mode *)
      exists ps. split; [reflexivity|]. split; [exact Hwf|]. split.
      * intros k Hk. rewrite map_app, in_app_iff. left. now apply Hkeys.
      * apply Forall_app. split; [now apply Hold|].
        repeat constructor. rewrite Hnone. now apply held_unbuilt.
    + (* a plural descriptor, in parse mode *)
      unfold bind at 1. unfold api_read at 1. cbn [fst snd _xmlstate].
      rewrite Hdoc.
      set (n := count d (make_abs_xpath st (get_prop_xpath cp (child_class cp)))).
      destruct (fill_loop cp ps Hcp Hsingle Habsent n [])
        as (l & Hrun & Hlen & Hpl & Hb).
      { intros [|i] o Hi; discriminate. }
      { constructor. }
      cbn [List.length filling] in Hrun, Hlen.
      exists (filling (child_propname cp) ps l). split; [exact Hrun|].
      destruct l as [|o l]; cbn [filling].
      * split; [exact Hwf|]. split.
        -- intros k Hk. rewrite map_app, in_app_iff. left. now apply Hkeys.
        -- apply Forall_app. split; [now apply Hold|].
           repeat constructor. rewrite Hnone.
           apply held_none; [assumption..|]. fold n. cbn in Hlen. lia.
      * split; [now apply wf_set_absent|]. split; [intros k; apply Hnames|].
        apply Forall_app. split.
        -- apply Hold. intros k Hk. now apply ODFacts.get_set_ne.
        -- repeat constructor. rewrite ODFacts.get_set_eq.
           apply held_list; try assumption. discriminate.
Qed.

Lemma parse_loop rest :
  forall done ps,
    _all_child_props (class_of c) = (done ++ rest)%list ->
    parsed done ps ->
    exists ps',
      for_each rest parse_body (state ps) = (state ps', inr tt)
      /\ parsed (_all_child_props (class_of c)) ps'.
Proof.
  induction rest as [|cp rest IH]; intros done ps Hcps Hdone.
  - exists ps. split; [reflexivity|]. now rewrite Hcps, app_nil_r.
  - cbn [for_each]. unfold bind at 1.
    destruct (parse_step done cp rest ps Hcps Hdone) as (ps1 & -> & Hps1).
    apply (IH (done ++ [cp])%list); [|exact Hps1].
    now rewrite <- app_assoc.
Qed.

(** [_initial_child_parse] on the new object returns, and leaves it
    built. *)
Lemma initial_child_parse_builds :
  exists ps,
    _initial_child_parse new (state [])
    = (state ps, inr tt) /\ built d (mkXMLBuilder c ps st).
Proof.
  destruct (parse_loop (_all_child_props (class_of c)) [] []) as (ps & Hrun & Hps).
  - reflexivity.
  - split; [constructor|]. split; [discriminate | constructor].
  - exists ps. split; [exact Hrun|].
    destruct Hps as (Hwf & Hkeys & Hheld). constructor; [exact Hwf | | exact Hheld].
    intros k Hk. apply in_childprops_In. now apply Hkeys.
Qed.

End Loop.
Section Program.
Variable rank : string -> nat.
Hypothesis Hrank :
  forall c cp, In cp (_all_child_props (class_of c)) ->
               rank (child_class cp) < rank c.
Hypothesis Hok : forall c, class_ok (class_of c) = true.
Hypothesis Hvalid : forall c, _validate_xmlbuilder (class_of c) = inr tt.
Hypothesis Hns :
  forall c, exists ns, namespace_of (XML_NAME (class_of c)) = inr ns.
Hypothesis Hsan :
  forall c cp, In cp (_all_child_props (class_of c)) ->
               _XML_SANITIZE (child_class cp) = false.

(** The constructor of a child object returns, with the document store as
    it was. *)
Lemma init_child depth :
  forall cc p rel h d,
    rank cc < depth -> nth_error h (xmlapi p) = Some d ->
    _XML_SANITIZE cc = false ->
    exists o ns,
      XMLBuilder__init__ depth cc None (Some p) (Some rel) h = (h, inr o)
      /\ namespace_of (XML_NAME (class_of cc)) = inr ns
      /\ cls o = cc
      /\ _xmlstate o
         = {| _root_name := XML_NAME (class_of cc); _namespace := ns;
              _relative_object_xpath := rel; _parent_xpath := abs_xpath p;
              xmlapi := xmlapi p; is_build := is_build p |}
      /\ built d o.
Proof.
  induction depth as [|depth IH]; intros cc p rel h d Hd Hdoc Hclean; [lia|].
  destruct (Hns cc) as [ns Hnscc].
  cbn [XMLBuilder__init__]. unfold bind at 1. unfold lift at 1. rewrite Hclean.
  unfold bind at 1. unfold lift at 1. unfold XMLState_blank. rewrite Hnscc.
  unfold making. unfold bind at 1. rewrite XMLState_parse_child.
  unfold bind at 1. unfold lift at 1. rewrite Hvalid.
  unfold with_xmlstate, set_xmlapi, set_is_build.
  cbn [cls _propstore _xmlstate
       _root_name _namespace _relative_object_xpath _parent_xpath xmlapi
       is_build no_text andb orb].
  rewrite orb_false_r.
  set (st := {| _root_name := XML_NAME (class_of cc); _namespace := ns;
                _relative_object_xpath := rel; _parent_xpath := abs_xpath p;
                xmlapi := xmlapi p; is_build := is_build p |}).
  destruct (initial_child_parse_builds
              (fun child_class pst rel' =>
                 XMLBuilder__init__ depth child_class None pst rel')
              cc st h d (Hok cc) Hdoc) as (ps & -> & Hbuilt).
  - intros cp idx Hcp.
    destruct (IH (child_class cp) st
                 (get_prop_xpath cp (child_class cp) ++ idx) h d)
      as (o & ns' & Hrun & Hns' & Hc & Hst & Hb).
    + specialize (Hrank cc cp Hcp). lia.
    + exact Hdoc.
    + exact (Hsan cc cp Hcp).
    + exists o. split; [exact Hrun|]. split; [|exact Hb].
      unfold placed. rewrite Hst. cbn. repeat split; auto.
  - exists (mkXMLBuilder cc ps st), ns.
    split; [reflexivity|]. split; [reflexivity|]. split; [reflexivity|].
    split; [reflexivity | exact Hbuilt].
Qed.

(** The constructor of a root returns as soon as the adapter accepts
    the text. *)
Lemma init_root depth c (parsexml text : option string) h (d : doc) ns :
  rank c < depth ->
  (if _XML_SANITIZE c then sanitize parsexml else inr parsexml) = inr text ->
  namespace_of (XML_NAME (class_of c)) = inr ns ->
  let st := {| _root_name := XML_NAME (class_of c); _namespace := ns;
               _relative_object_xpath := EmptyString;
               _parent_xpath := EmptyString;
               xmlapi := List.length h; is_build := no_text text |} in
  XMLAPI__init__ (initial_text st text) = inr d ->
  exists ps,
    XMLBuilder__init__ depth c parsexml None None h
    = ((h ++ [d])%list, inr (mkXMLBuilder c ps st))
    /\ built d (mkXMLBuilder c ps st).
Proof.
  intros Hd Htext Hnsc st Hparse.
  destruct depth as [|depth]; [lia|].
  cbn [XMLBuilder__init__]. unfold bind at 1. unfold lift at 1. rewrite Htext.
  unfold bind at 1. unfold lift at 1. unfold XMLState_blank. rewrite Hnsc.
  unfold making. unfold bind at 1. rewrite XMLState_parse_root.
  cbn [_xmlstate].
  match goal with
  | |- context [XMLAPI__init__ ?t] =>
      replace (XMLAPI__init__ t) with (@inr exn doc d)
        by (symmetry; exact Hparse)
  end.
  unfold bind at 1. unfold lift at 1. rewrite Hvalid.
  unfold with_xmlstate, set_xmlapi.
  cbn [cls _propstore _xmlstate
       _root_name _namespace _relative_object_xpath _parent_xpath xmlapi
       is_build]. rewrite andb_true_r. fold st.
  destruct (initial_child_parse_builds
              (fun child_class pst rel' =>
                 XMLBuilder__init__ depth child_class None pst rel')
              c st (h ++ [d])%list d (Hok c)) as (ps & -> & Hbuilt).
  - unfold st. cbn [xmlapi]. rewrite nth_error_app2, Nat.sub_diag by lia.
    reflexivity.
  - intros cp idx Hcp.
    destruct (init_child depth (child_class cp) st
                (get_prop_xpath cp (child_class cp) ++ idx) (h ++ [d])%list d)
      as (o & ns' & Hrun & Hns' & Hc & Hst & Hb).
    + specialize (Hrank c cp Hcp). lia.
    + unfold st. cbn [xmlapi]. rewrite nth_error_app2, Nat.sub_diag by lia.
      reflexivity.
    + exact (Hsan c cp Hcp).
    + exists o. split; [exact Hrun|]. split; [|exact Hb].
      unfold placed. rewrite Hst. cbn. repeat split; auto.
  - exists ps. split; [reflexivity | exact Hbuilt].
Qed.

Lemma height_bound c ps st m :
  (forall k v i o, In (k, v) ps -> child_at v i = Some o -> height o <= m) ->
  height (mkXMLBuilder c ps st) <= S m.
Proof.
  intros Hch. cbn [height]. apply le_n_S.
  induction ps as [|[k v] ps IH]; cbn [fold_right snd]; [lia|].
  apply Nat.max_lub.
  - destruct v as [x|o|l]; [lia | |].
    + apply (Hch k (PObj o) 0 o); [now left | reflexivity].
    + assert (Hl : forall i o, nth_error l i = Some o -> height o <= m).
      { intros i o Hi. apply (Hch k (PList l) i o); [now left | exact Hi]. }
      clear -Hl. induction l as [|o l IHl]; cbn [fold_right]; [lia|].
      apply Nat.max_lub.
      * apply (Hl 0 o). reflexivity.
      * apply IHl. intros i o' Hi. apply (Hl (S i) o'). exact Hi.
  - apply IH. intros k' v' i o Hin. apply (Hch k' v' i o). now right.
Qed.

(** What is built is well formed, matches its class, is no higher than
    the nesting of its class and, in parse mode, has nothing to emit. *)
Lemma built_facts n :
  forall (d : doc) b,
    rank (cls b) < n -> built d b ->
    wf_builder b /\ typed b /\ height b <= S (rank (cls b))
    /\ (is_build (_xmlstate b) = false -> quiet b).
Proof.
  induction n as [|n IH]; intros d b Hn Hb; [lia|].
  inversion Hb as [c ps st Hwf Hkeys Hheld]; subst. cbn [cls _xmlstate] in *.
  rewrite Forall_forall in Hheld.
  (* what is held under a key *)
  assert (Hval : forall k v, In (k, v) ps ->
             in_childprops (class_of c) k = true /\
             exists cp, In cp (_all_child_props (class_of c)) /\
                        built_held d st cp (Some v)).
  { intros k v Hin. pose proof (get_of_In _ _ _ Hwf Hin) as Hget.
    assert (Hk : in_childprops (class_of c) k = true).
    { apply Hkeys. apply ODFacts.mem_get. eauto. }
    split; [exact Hk|].
    apply in_childprops_In in Hk. apply in_map_iff in Hk.
    destruct Hk as (cp & <- & Hcp). exists cp. split; [exact Hcp|].
    rewrite <- Hget. now apply Hheld. }
  (* the objects held *)
  assert (Hobj : forall k v i o, In (k, v) ps -> child_at v i = Some o ->
             (rank (cls o) < n /\ rank (cls o) < rank c) /\ built d o
             /\ is_build (_xmlstate o) = is_build st).
  { intros k v i o Hin Hat. destruct (Hval k v Hin) as (_ & cp & Hcp & Hh).
    specialize (Hrank c cp Hcp).
    inversion Hh as [st' cp' o' Hs Hpl Hbo| | |st' cp' l Hs Hp Hlen Hne Hpl Hbl];
      subst; cbn in Hat.
    - destruct i; [|discriminate]. injection Hat as <-.
      destruct Hpl as (Hc & _ & _ & _ & _ & _ & Hbuild).
      rewrite Hc. split; [lia|]. auto.
    - destruct (Hpl i o Hat) as (Hc & _ & _ & _ & _ & _ & Hbuild).
      rewrite Hc. split; [lia|]. split; [|exact Hbuild].
      rewrite Forall_forall in Hbl. apply Hbl. eapply nth_error_In; eauto. }
  split; [|split; [|split]].
  - constructor; [exact Hwf|]. apply Forall_forall. intros [k v] Hin. cbn [snd].
    destruct v as [x|o|l]; constructor.
    + destruct (Hobj k (PObj o) 0 o Hin eq_refl) as ([Hr Hrc] & Hbo & _).
      now apply (IH d o Hr Hbo).
    + apply Forall_forall. intros o Ho. apply In_nth_error in Ho.
      destruct Ho as [i Hi].
      destruct (Hobj k (PList l) i o Hin Hi) as ([Hr Hrc] & Hbo & _).
      now apply (IH d o Hr Hbo).
  - constructor; [apply Hok | |].
    + apply Forall_forall. intros cp Hcp. specialize (Hheld cp Hcp).
      inversion Hheld; subst; cbn; auto.
    + apply Forall_forall. intros [k v] Hin. cbn [fst snd].
      destruct (Hval k v Hin) as (-> & cp & Hcp & Hh).
      destruct v as [x|o|l]; [inversion Hh | |]; constructor.
      * destruct (Hobj k (PObj o) 0 o Hin eq_refl) as ([Hr Hrc] & Hbo & _).
        now apply (IH d o Hr Hbo).
      * apply Forall_forall. intros o Ho. apply In_nth_error in Ho.
        destruct Ho as [i Hi].
        destruct (Hobj k (PList l) i o Hin Hi) as ([Hr Hrc] & Hbo & _).
        now apply (IH d o Hr Hbo).
  - apply height_bound. intros k v i o Hin Hat.
    destruct (Hobj k v i o Hin Hat) as ([Hr Hrc] & Hbo & _).
    destruct (IH d o Hr Hbo) as (_ & _ & Hh & _). lia.
  - intros Hparse. constructor; [now left|].
    apply Forall_forall. intros [k v] Hin. cbn [snd].
    destruct (Hval k v Hin) as (_ & cp & Hcp & Hh).
    destruct v as [x|o|l]; [inversion Hh | |]; constructor.
    + destruct (Hobj k (PObj o) 0 o Hin eq_refl) as ([Hr Hrc] & Hbo & Hbuild).
      apply (IH d o Hr Hbo). congruence.
    + apply Forall_forall. intros o Ho. apply In_nth_error in Ho.
      destruct Ho as [i Hi].
      destruct (Hobj k (PList l) i o Hin Hi) as ([Hr Hrc] & Hbo & Hbuild).
      apply (IH d o Hr Hbo). congruence.
Qed.

(** X15. In a program whose classes nest to a finite depth, pass
    [_validate_xmlbuilder], bind each name to one descriptor, have a
    namespace for their root name when it asks for one, and do not sanitize
    the text of a child class, the constructor of a root returns as soon as
    the adapter accepts the text (the stub of the root when no text is
    given) and the depth allowed exceeds the nesting of the class. The new
    document goes last in the store and the instance holds its handle; the
    instance is at the root, in build mode exactly when no text was given,
    and its tree is the one described by [built]: one object under each
    singular child descriptor, one per node of the document under each
    plural one, none in build mode, nothing staged. *)
Theorem construction_returns depth c (parsexml text : option string)
    (h : list doc) (d : doc) ns :
  rank c < depth ->
  (if _XML_SANITIZE c then sanitize parsexml else inr parsexml) = inr text ->
  namespace_of (XML_NAME (class_of c)) = inr ns ->
  let st := {| _root_name := XML_NAME (class_of c); _namespace := ns;
               _relative_object_xpath := EmptyString;
               _parent_xpath := EmptyString;
               xmlapi := List.length h; is_build := no_text text |} in
  XMLAPI__init__ (initial_text st text) = inr d ->
  exists ps,
    XMLBuilder__init__ depth c parsexml None None h
    = ((h ++ [d])%list, inr (mkXMLBuilder c ps st))
    /\ built d (mkXMLBuilder c ps st).
Proof.
  intros Hd Htext Hnsc st Hparse.
  exact (init_root depth c parsexml text h d ns Hd Htext Hnsc Hparse).
Qed.

(** X16. Under the same conditions, for each child descriptor of the
    class the new root holds: for a singular descriptor one object of the
    child class at the path of the descriptor, on the document and in the
    mode of the root, its parent path the position of the root; for a plural
    descriptor nothing in build mode, and in parse mode as many objects as
    the adapter counts nodes at the path of the descriptor (no key at all
    when it counts none), the one at place [i] of the list at the path
    followed by the index [i + 1]. *)
Theorem constructed_children depth c (parsexml text : option string)
    (h : list doc) (d : doc) ns (cp : XMLChildProperty) :
  rank c < depth ->
  (if _XML_SANITIZE c then sanitize parsexml else inr parsexml) = inr text ->
  namespace_of (XML_NAME (class_of c)) = inr ns ->
  XMLAPI__init__
    (initial_text
       {| _root_name := XML_NAME (class_of c); _namespace := ns;
          _relative_object_xpath := EmptyString; _parent_xpath := EmptyString;
          xmlapi := List.length h; is_build := no_text text |} text) = inr d ->
  In cp (_all_child_props (class_of c)) ->
  exists b,
    XMLBuilder__init__ depth c parsexml None None h = ((h ++ [d])%list, inr b)
    /\ is_build (_xmlstate b) = no_text text
    /\ let st := _xmlstate b in
       let held := OD.get (child_propname cp) (_propstore b) in
       let n := count d (make_abs_xpath st (get_prop_xpath cp (child_class cp))) in
       if is_single cp then
         exists o, held = Some (PObj o) /\ placed st cp EmptyString o
       else if is_build st then held = None
       else match held with
            | None => n = 0
            | Some (PList l) =>
                List.length l = n /\ 0 < n /\
                forall i o, nth_error l i = Some o ->
                            placed st cp (idxstr (i + 1)) o
            | Some _ => False
            end.
Proof.
  intros Hd Htext Hnsc Hparse Hcp.
  destruct (init_root depth c parsexml text h d ns Hd Htext Hnsc Hparse)
    as (ps & Hrun & Hb).
  eexists. split; [exact Hrun|]. split; [reflexivity|].
  cbn [_xmlstate _propstore]. cbv zeta.
  inversion Hb as [c' ps' st' Hwf Hkeys Hheld]; subst.
  rewrite Forall_forall in Hheld. specialize (Hheld cp Hcp).
  inversion Hheld as [st' cp' o Hs Hpl Hbo
                     |st' cp' Hs Hbuild
                     |st' cp' Hs Hbuild Hcount
                     |st' cp' l Hs Hbuild Hlen Hne Hpl Hbl]; subst;
    rewrite Hs; cbn [is_build] in *; try rewrite Hbuild in *.
  - eauto.
  - reflexivity.
  - exact Hcount.
  - split; [exact Hlen|]. split; [|exact Hpl].
    rewrite <- Hlen. destruct l; [congruence | cbn; lia].
Qed.

(** X17. Under the same conditions, an instance constructed from a text
    and asked for its XML right away returns the rendering by the adapter of
    the document that the adapter made of the text, at [.], ended with a
    newline: nothing is written to the document, and the instance and the
    store are as the constructor left them. *)
Theorem parse_then_render depth depth' c (parsexml text : option string)
    (h : list doc) (d : doc) ns :
  rank c < depth -> rank c < depth' ->
  (if _XML_SANITIZE c then sanitize parsexml else inr parsexml) = inr text ->
  namespace_of (XML_NAME (class_of c)) = inr ns ->
  no_text text = false ->
  XMLAPI__init__
    (initial_text
       {| _root_name := XML_NAME (class_of c); _namespace := ns;
          _relative_object_xpath := EmptyString; _parent_xpath := EmptyString;
          xmlapi := List.length h; is_build := no_text text |} text) = inr d ->
  exists b,
    XMLBuilder__init__ depth c parsexml None None h = ((h ++ [d])%list, inr b)
    /\ get_xml depth' (b, (h ++ [d])%list)
       = ((b, (h ++ [d])%list), inr (end_with_newline (api_get_xml d "."))).
Proof.
  intros Hd Hd' Htext Hnsc Hgiven Hparse.
  destruct (init_root depth c parsexml text h d ns Hd Htext Hnsc Hparse)
    as (ps & Hrun & Hb).
  rewrite Hgiven in Hrun, Hb.
  eexists. split; [exact Hrun|].
  pose proof (fun Hlt => built_facts (S (rank c)) d _ Hlt Hb) as Hfacts.
  cbn [cls] in Hfacts.
  destruct (Hfacts (Nat.lt_succ_diag_r (rank c))) as (Hwf & Hty & Hh & Hq).
  cbn [cls _xmlstate is_build] in Hh, Hq. specialize (Hq eq_refl).
  unfold get_xml. cbn [fst snd _xmlstate is_build].
  unfold bind at 1.
  rewrite add_parse_bits_quiet by (try assumption; lia).
  unfold bind at 1. unfold get_self, gets. cbn [fst snd].
  unfold bind at 1. unfold api_read. cbn [fst snd _xmlstate xmlapi].
  rewrite nth_error_app2, Nat.sub_diag by lia. reflexivity.
Qed.

End Program.
End ConstructionFacts.

(** ** Calls on the objects an instance holds *)

Lemma bind_returns {S A B} (c : M S A) (k : A -> M S B) s s' a :
  c s = (s', inr a) -> (x <- c ;; k x) s = k a s'.
Proof. intros Hc. unfold bind. now rewrite Hc. Qed.

Lemma list_set_middle {A} (l1 l2 : list A) (x y : A) :
  list_set (l1 ++ x :: l2) (List.length l1) y = (l1 ++ y :: l2)%list.
Proof. induction l1 as [|a l1 IH]; cbn; [reflexivity | now rewrite IH]. Qed.

Lemma keys_set_present {V : Type} (k : string) (v : V) (d : OD.t V) :
  OD.mem k d = true -> OD.keys (OD.set k v d) = OD.keys d.
Proof.
  induction d as [|[k' v'] d IH]; cbn; [discriminate|].
  destruct (String.eqb_spec k k') as [->|Hne]; cbn; [reflexivity|].
  intros Hm. f_equal. now apply IH.
Qed.

Lemma wf_set {V : Type} (k : string) (v : V) (d : OD.t V) :
  OD.wf d -> OD.wf (OD.set k v d).
Proof.
  intros Hwf. destruct (OD.mem k d) eqn:E.
  - unfold OD.wf. now rewrite keys_set_present.
  - now apply wf_set_absent.
Qed.

Section Visit.
Context {doc : Type} `{XMLAPI doc} `{Env}.
Implicit Types (h : list doc) (ps : OD.t (propval XMLBuilder)).

Lemma with_child_step {A} key i (call : M world A) c ps st h
    (v : propval XMLBuilder) o o' h' (r : result A) :
  OD.get key ps = Some v -> child_at v i = Some o ->
  call (o, h) = ((o', h'), r) ->
  with_child key i call (mkXMLBuilder c ps st, h)
  = ((mkXMLBuilder c (OD.set key (put_child v i o') ps) st, h'), r).
Proof.
  intros Hget Hat Hcall. unfold with_child. cbn [fst snd _propstore].
  now rewrite Hget, Hat, Hcall.
Qed.

Section Children.
Variables (c : string) (st : XMLState) (h : list doc).
Variable call : M (world (doc:=doc)) unit.
Variable F : XMLBuilder -> M (world (doc:=doc)) unit.
Hypothesis HF : forall ps, F (mkXMLBuilder c ps st) = call.
Variables (Inv : XMLBuilder -> Prop) (R : XMLBuilder -> XMLBuilder -> Prop).
Hypothesis Hcall :
  forall o, Inv o -> exists o', call (o, h) = ((o', h), inr tt) /\ R o o'.

Let state ps : world (doc:=doc) := (mkXMLBuilder c ps st, h).

Let visit (key : string) (i : nat) : M (world (doc:=doc)) unit :=
  self <- get_self ;; with_child key i (F self).

Lemma visit_step key i ps (v : propval XMLBuilder) o o' :
  OD.get key ps = Some v -> child_at v i = Some o ->
  call (o, h) = ((o', h), inr tt) ->
  visit key i (state ps) = (state (OD.set key (put_child v i o') ps), inr tt).
Proof.
  intros Hget Hat Hrun. unfold visit, state. unfold bind at 1.
  unfold get_self, gets. cbn [fst snd]. rewrite HF.
  now apply (with_child_step key i call c ps st h v o o' h (inr tt)).
Qed.

(** The rounds of the loop over the objects of a list, from place
    [length seen] on. *)
Lemma visit_rest key ps (rest : list XMLBuilder) :
  Forall Inv rest ->
  forall seen,
    exists rest',
      for_each (seq (List.length seen) (List.length rest)) (visit key)
               (state (OD.set key (PList (seen ++ rest)) ps))
      = (state (OD.set key (PList (seen ++ rest')) ps), inr tt)
      /\ Forall2 R rest rest'.
Proof.
  induction 1 as [|o rest Ho Hrest IH]; intros seen.
  - exists []. split; [reflexivity | constructor].
  - destruct (Hcall o Ho) as (o' & Hrun & Hoo).
    destruct (IH (seen ++ [o'])%list) as (rest' & Hloop & Hrel).
    exists (o' :: rest'). split; [|now constructor].
    cbn [List.length seq for_each]. unfold bind at 1.
    rewrite (visit_step key (List.length seen) _ (PList (seen ++ o :: rest)) o o');
      [|apply ODFacts.get_set_eq
       |cbn [child_at]; rewrite nth_error_app2, Nat.sub_diag by lia; reflexivity
       |exact Hrun].
    cbn [put_child]. rewrite list_set_middle, set_set.
    rewrite length_app, Nat.add_1_r, <- app_assoc in Hloop. cbn [app] in Hloop.
    rewrite <- app_assoc in Hloop. exact Hloop.
Qed.

(** The walk over the objects under one child descriptor. *)
Let walk_body (cp : XMLChildProperty) : M (world (doc:=doc)) unit :=
  objs <- getattr_children cp ;;
  for_each (seq 0 (List.length objs))
    (fun i => self <- get_self ;; with_child (child_propname cp) i (F self)).

Lemma walk_step cp ps :
  kind_ok cp (OD.get (child_propname cp) ps) ->
  (forall v i o, OD.get (child_propname cp) ps = Some v ->
                 child_at v i = Some o -> Inv o) ->
  exists ps',
    walk_body cp (state ps) = (state ps', inr tt)
    /\ key_rel R (OD.get (child_propname cp) ps) (OD.get (child_propname cp) ps')
    /\ (forall k, k <> child_propname cp -> OD.get k ps' = OD.get k ps)
    /\ (OD.wf ps -> OD.wf ps').
Proof.
  intros Hkind Hinv. unfold walk_body.
  change (fun i => self <- get_self ;; with_child (child_propname cp) i (F self))
    with (visit (child_propname cp)).
  assert (Hobjs : forall objs,
             getattr_children cp (state ps)
             = (state ps, inr objs) ->
             (objs <- getattr_children cp ;;
              for_each (seq 0 (List.length objs)) (visit (child_propname cp)))
               (state ps)
             = for_each (seq 0 (List.length objs)) (visit (child_propname cp))
                        (state ps)).
  { intros objs Hobjs. unfold bind at 1. now rewrite Hobjs. }
  destruct (OD.get (child_propname cp) ps) as [[x|o|l]|] eqn:Hget;
    cbn in Hkind; try contradiction.
  - (* the object of a singular descriptor *)
    rewrite (Hobjs [o]);
      [|unfold getattr_children, XMLChildProperty_get, state; run;
        cbn [_propstore]; now rewrite Hget, Hkind].
    cbn [List.length seq for_each]. unfold bind at 1.
    destruct (Hcall o (Hinv _ 0 o eq_refl eq_refl)) as (o' & Hrun & Hoo).
    rewrite (visit_step _ 0 ps (PObj o) o o' Hget eq_refl Hrun).
    cbn [put_child]. exists (OD.set (child_propname cp) (PObj o') ps).
    split; [reflexivity|]. rewrite ODFacts.get_set_eq.
    split; [now constructor|]. split; [|apply wf_set].
    intros k Hk. now apply ODFacts.get_set_ne.
  - (* the list of a plural descriptor *)
    rewrite (Hobjs l);
      [|unfold getattr_children, XMLChildProperty_get, state; run;
        cbn [_propstore]; now rewrite Hget, Hkind].
    assert (Hall : Forall Inv l).
    { apply Forall_forall. intros o Ho. apply In_nth_error in Ho.
      destruct Ho as [i Hi]. now apply (Hinv (PList l) i o). }
    destruct (visit_rest (child_propname cp) ps l Hall []) as (l' & Hloop & Hrel).
    cbn [List.length app] in Hloop.
    rewrite (ODFacts.set_same _ _ _ Hget) in Hloop.
    exists (OD.set (child_propname cp) (PList l') ps).
    split; [exact Hloop|]. rewrite ODFacts.get_set_eq.
    split; [now constructor|]. split; [|apply wf_set].
    intros k Hk. now apply ODFacts.get_set_ne.
  - (* a plural descriptor that was never read *)
    exists (OD.set (child_propname cp) (PList []) ps).
    split; [unfold getattr_children, XMLChildProperty_get, state; run;
            cbn [_propstore]; now rewrite Hget, Hkind|].
    rewrite ODFacts.get_set_eq.
    split; [reflexivity|]. split; [|apply wf_set].
    intros k Hk. now apply ODFacts.get_set_ne.
Qed.

(** The walk over the objects under all child descriptors. *)
Lemma walk_loop (Hclass : class_ok (class_of c) = true) ps0 :
  (forall cp, In cp (_all_child_props (class_of c)) ->
              kind_ok cp (OD.get (child_propname cp) ps0)) ->
  (forall k v i o, OD.get k ps0 = Some v -> child_at v i = Some o -> Inv o) ->
  exists ps',
    for_each (_all_child_props (class_of c)) walk_body (state ps0)
    = (state ps', inr tt)
    /\ (forall k, in_childprops (class_of c) k = true ->
                  key_rel R (OD.get k ps0) (OD.get k ps'))
    /\ (forall k, in_childprops (class_of c) k = false ->
                  OD.get k ps' = OD.get k ps0)
    /\ (OD.wf ps0 -> OD.wf ps').
Proof.
  intros Hkinds Hinv.
  assert (Hnd : NoDup (map child_propname (_all_child_props (class_of c)))).
  { unfold class_ok in Hclass. apply andb_true_iff in Hclass.
    now apply distinct_names_NoDup. }
  assert (Hloop : forall rest done ps,
             _all_child_props (class_of c) = (done ++ rest)%list ->
             (forall k, In k (map child_propname done) ->
                        key_rel R (OD.get k ps0) (OD.get k ps)) ->
             (forall k, ~ In k (map child_propname done) ->
                        OD.get k ps = OD.get k ps0) ->
             (OD.wf ps0 -> OD.wf ps) ->
             exists ps',
               for_each rest walk_body (state ps) = (state ps', inr tt)
               /\ (forall k, In k (map child_propname
                                       (_all_child_props (class_of c))) ->
                             key_rel R (OD.get k ps0) (OD.get k ps'))
               /\ (forall k, ~ In k (map child_propname
                                         (_all_child_props (class_of c))) ->
                             OD.get k ps' = OD.get k ps0)
               /\ (OD.wf ps0 -> OD.wf ps')).
  { induction rest as [|cp rest IH]; intros done ps Hcps Hdone Hother Hwf.
    - exists ps. rewrite Hcps, app_nil_r. auto.
    - assert (Hcp : In cp (_all_child_props (class_of c))).
      { rewrite Hcps. apply in_or_app. right. now left. }
      assert (Hfresh : ~ In (child_propname cp) (map child_propname done)).
      { rewrite Hcps, map_app in Hnd. cbn [map] in Hnd.
        apply NoDup_remove_2 in Hnd. intros Hin. apply Hnd.
        apply in_or_app. now left. }
      destruct (walk_step cp ps) as (ps1 & Hrun & Hkey & Hne & Hwf1).
      + rewrite (Hother _ Hfresh). now apply Hkinds.
      + intros v i o Hget. rewrite (Hother _ Hfresh) in Hget.
        now apply (Hinv (child_propname cp) v i o).
      + cbn [for_each]. unfold bind at 1. rewrite Hrun.
        apply (IH (done ++ [cp])%list); [now rewrite <- app_assoc | | |auto].
        * intros k Hk. rewrite map_app in Hk. apply in_app_or in Hk.
          destruct Hk as [Hk|[<-|[]]].
          -- rewrite Hne; [now apply Hdone|]. intros ->. contradiction.
          -- rewrite <- (Hother _ Hfresh). exact Hkey.
        * intros k Hk. rewrite map_app in Hk.
          rewrite Hne; [apply Hother|].
          -- intros Hin. apply Hk. apply in_or_app. now left.
          -- intros ->. apply Hk. apply in_or_app. right. now left. }
  destruct (Hloop (_all_child_props (class_of c)) [] ps0 eq_refl)
    as (ps' & Hrun & Hkey & Hother & Hwf); auto.
  - intros k [].
  - exists ps'. split; [exact Hrun|]. split; [|split; [|exact Hwf]].
    + intros k Hk. apply Hkey. now apply in_childprops_In.
    + intros k Hk. apply Hother. intros Hin.
      apply in_childprops_In in Hin. congruence.
Qed.

End Children.
(** *** What a walk keeps *)

Lemma held_rel_child (R : XMLBuilder -> XMLBuilder -> Prop)
    (v v' : propval XMLBuilder) i o' :
  held_rel R v v' -> child_at v' i = Some o' ->
  exists o, child_at v i = Some o /\ R o o'.
Proof.
  intros Hrel. destruct Hrel as [x|o1 o1' Hoo|l l' Hll]; cbn.
  - discriminate.
  - destruct i; [|discriminate]. intros [= <-]. eauto.
  - revert i. induction Hll as [|a a' l l' Haa Hll IH]; intros [|i] Hi;
      cbn in *; try discriminate.
    + injection Hi as <-. eauto.
    + now apply IH.
Qed.

Section Walked.
Variables (c : string) (ps0 ps' : OD.t (propval XMLBuilder))
          (R : XMLBuilder -> XMLBuilder -> Prop).
Hypothesis Hchild :
  forall k, in_childprops (class_of c) k = true ->
            key_rel R (OD.get k ps0) (OD.get k ps').
Hypothesis Hother :
  forall k, in_childprops (class_of c) k = false -> OD.get k ps' = OD.get k ps0.
Hypothesis Hwf0 : OD.wf ps0.
Hypothesis Hwf' : OD.wf ps'.
Hypothesis Htyped0 :
  Forall (fun kv => typed_propval (in_childprops (class_of c) (fst kv)) (snd kv))
         ps0.

(** What is under a key after the walk. *)
Lemma walked_entry k v' :
  In (k, v') ps' ->
  (in_childprops (class_of c) k = false /\ exists x, v' = PVal x)
  \/ (in_childprops (class_of c) k = true
      /\ ((exists v, In (k, v) ps0 /\ held_rel R v v' /\ forall x, v <> PVal x)
          \/ v' = PList [])).
Proof.
  intros Hin. pose proof (get_of_In _ _ _ Hwf' Hin) as Hget.
  rewrite Forall_forall in Htyped0.
  destruct (in_childprops (class_of c) k) eqn:Hk.
  - right. split; [reflexivity|]. specialize (Hchild k Hk).
    rewrite Hget in Hchild. unfold key_rel in Hchild.
    destruct (OD.get k ps0) as [v|] eqn:Hget0; [|now right].
    left. exists v. apply In_of_get in Hget0. split; [exact Hget0|].
    split; [exact Hchild|]. intros x ->.
    specialize (Htyped0 _ Hget0). cbn in Htyped0. rewrite Hk in Htyped0.
    inversion Htyped0.
  - left. split; [reflexivity|]. rewrite (Hother k Hk) in Hget.
    apply In_of_get in Hget. specialize (Htyped0 _ Hget). cbn in Htyped0.
    rewrite Hk in Htyped0. inversion Htyped0. eauto.
Qed.

(** An object held after the walk is related to the one that was at its
    place. *)
Lemma walked_child k v' i o' :
  In (k, v') ps' -> child_at v' i = Some o' ->
  exists v o, In (k, v) ps0 /\ child_at v i = Some o /\ R o o'.
Proof.
  intros Hin Hat.
  destruct (walked_entry k v' Hin) as [[_ [x ->]]|[_ [(v & Hv & Hrel & _)| ->]]].
  - discriminate.
  - destruct (held_rel_child R v v' i o' Hrel Hat) as (o & Ho & Hoo). eauto.
  - destruct i; discriminate.
Qed.

Lemma walked_kinds cp :
  kind_ok cp (OD.get (child_propname cp) ps0) ->
  In cp (_all_child_props (class_of c)) ->
  kind_ok cp (OD.get (child_propname cp) ps').
Proof.
  intros Hkind Hcp.
  assert (Hk : in_childprops (class_of c) (child_propname cp) = true).
  { apply in_childprops_In. now apply in_map. }
  specialize (Hchild _ Hk). unfold key_rel in Hchild.
  destruct (OD.get (child_propname cp) ps0) as [v|];
    destruct (OD.get (child_propname cp) ps') as [v'|]; try contradiction.
  - destruct Hchild; exact Hkind.
  - subst v'. exact Hkind.
Qed.

Lemma walked_wf st :
  (forall o o', R o o' -> wf_builder o') ->
  Forall (fun kv => wf_propval (snd kv)) ps0 ->
  wf_builder (mkXMLBuilder c ps' st).
Proof.
  intros HR Hall. constructor; [exact Hwf'|].
  apply Forall_forall. intros [k v'] Hin. cbn [snd].
  destruct v' as [x|o'|l']; constructor.
  - destruct (walked_child k (PObj o') 0 o' Hin eq_refl) as (v & o & _ & _ & Hoo).
    now apply (HR o).
  - apply Forall_forall. intros o' Ho'. apply In_nth_error in Ho'.
    destruct Ho' as [i Hi].
    destruct (walked_child k (PList l') i o' Hin Hi) as (v & o & _ & _ & Hoo).
    now apply (HR o).
Qed.

Lemma walked_typed st :
  (forall o o', R o o' -> typed o') ->
  class_ok (class_of c) = true ->
  Forall (fun cp => kind_ok cp (OD.get (child_propname cp) ps0))
         (_all_child_props (class_of c)) ->
  typed (mkXMLBuilder c ps' st).
Proof.
  intros HR Hok Hkinds. constructor; [exact Hok| |].
  - rewrite Forall_forall in *. intros cp Hcp. apply walked_kinds; auto.
  - apply Forall_forall. intros [k v'] Hin. cbn [fst snd].
    destruct (walked_entry k v' Hin)
      as [[-> [x ->]]|[-> [(v & Hv & Hrel & Hnot)| ->]]].
    + constructor.
    + destruct Hrel as [x|o o' Hoo|l l' Hll].
      * now destruct (Hnot x).
      * constructor. now apply (HR o).
      * constructor. apply Forall_forall. intros o' Ho'.
        apply In_nth_error in Ho'. destruct Ho' as [i Hi].
        destruct (held_rel_child R (PList l) (PList l') i o'
                    (rel_plist R l l' Hll) Hi) as (o & _ & Hoo).
        now apply (HR o).
    + constructor. constructor.
Qed.

Lemma walked_height st0 st :
  (forall o o', R o o' -> height o' <= height o) ->
  height (mkXMLBuilder c ps' st) <= height (mkXMLBuilder c ps0 st0).
Proof.
  intros HR.
  assert (Hs : exists m, height (mkXMLBuilder c ps0 st0) = S m)
    by (cbn [height]; eauto).
  destruct Hs as [m Hm]. rewrite Hm. apply height_bound.
  intros k v' i o' Hin Hat.
  destruct (walked_child k v' i o' Hin Hat) as (v & o & Hv & Ho & Hoo).
  pose proof (height_child c ps0 st0 k v i o Hv Ho) as Hlt.
  specialize (HR o o' Hoo). lia.
Qed.

Lemma walked_linked st :
  (forall o o', R o o' ->
                _parent_xpath (_xmlstate o') = abs_xpath st /\ linked o') ->
  linked (mkXMLBuilder c ps' st).
Proof.
  intros HR. constructor. apply Forall_forall. intros [k v'] Hin. cbn [snd].
  destruct v' as [x|o'|l']; constructor.
  - destruct (walked_child k (PObj o') 0 o' Hin eq_refl) as (v & o & _ & _ & Hoo).
    now apply (HR o).
  - destruct (walked_child k (PObj o') 0 o' Hin eq_refl) as (v & o & _ & _ & Hoo).
    now apply (HR o).
  - apply Forall_forall. intros o' Ho'. apply In_nth_error in Ho'.
    destruct Ho' as [i Hi].
    destruct (walked_child k (PList l') i o' Hin Hi) as (v & o & _ & _ & Hoo).
    now apply (HR o).
  - apply Forall_forall. intros o' Ho'. apply In_nth_error in Ho'.
    destruct Ho' as [i Hi].
    destruct (walked_child k (PList l') i o' Hin Hi) as (v & o & _ & _ & Hoo).
    now apply (HR o).
Qed.

Lemma walked_everywhere (P : XMLBuilder -> Prop) st :
  (forall o o', R o o' -> everywhere P o') ->
  P (mkXMLBuilder c ps' st) ->
  everywhere P (mkXMLBuilder c ps' st).
Proof.
  intros HR HP. constructor; [exact HP|].
  apply Forall_forall. intros [k v'] Hin. cbn [snd].
  destruct v' as [x|o'|l']; constructor.
  - destruct (walked_child k (PObj o') 0 o' Hin eq_refl) as (v & o & _ & _ & Hoo).
    now apply (HR o).
  - apply Forall_forall. intros o' Ho'. apply In_nth_error in Ho'.
    destruct Ho' as [i Hi].
    destruct (walked_child k (PList l') i o' Hin Hi) as (v & o & _ & _ & Hoo).
    now apply (HR o).
Qed.

End Walked.

(** *** [_set_xpaths] *)

Lemma set_xpaths_spec depth :
  forall parent rel b (h : list doc),
    wf_builder b -> typed b -> height b <= depth ->
    exists b',
      _set_xpaths depth parent rel (b, h) = ((b', h), inr tt)
      /\ repositioned parent rel b b'.
Proof.
  induction depth as [|depth IH]; intros parent rel b h Hwf Hty Hd.
  { destruct b; cbn [height] in Hd; lia. }
  destruct b as [c ps st].
  set (st1 := moved st parent rel).
  set (call := _set_xpaths (doc:=doc) depth (Some (abs_xpath st1)) Unchanged).
  set (F := fun self : XMLBuilder =>
              _set_xpaths (doc:=doc) depth
                          (Some (abs_xpath (_xmlstate self))) Unchanged).
  assert (Hprefix :
            _set_xpaths (S depth) parent rel (mkXMLBuilder c ps st, h)
            = for_each (_all_child_props (class_of c))
                (fun cp =>
                   objs <- getattr_children cp ;;
                   for_each (seq 0 (List.length objs))
                     (fun i => self <- get_self ;;
                               with_child (child_propname cp) i (F self)))
                (mkXMLBuilder c ps st1, h))
    by (destruct rel; reflexivity).
  inversion Hwf as [c0 ps0 st0 Hnd Hwfall]; subst.
  inversion Hty as [c0 ps0 st0 Hok Hkinds Htyall]; subst.
  destruct (walk_loop c st1 h call F (fun _ => eq_refl)
              (fun o => wf_builder o /\ typed o /\ height o <= depth)
              (repositioned (Some (abs_xpath st1)) Unchanged))
    with (ps0 := ps) as (ps' & Hrun & Hchild & Hother & Hwf').
  - intros o (Ho1 & Ho2 & Ho3). now apply IH.
  - exact Hok.
  - now apply Forall_forall.
  - intros k v i o Hget Hat. apply In_of_get in Hget.
    pose proof (height_child c ps st k v i o Hget Hat) as Hlt.
    rewrite Forall_forall in Hwfall, Htyall.
    split; [|split; [|lia]].
    + eapply wf_child; [apply (Hwfall _ Hget) | exact Hat].
    + eapply child_at_typed; [apply (Htyall _ Hget) | exact Hat].
  - exists (mkXMLBuilder c ps' st1). split; [now rewrite Hprefix|].
    specialize (Hwf' Hnd).
    split; [reflexivity|]. split; [reflexivity|]. split; [|split; [|split]].
    + eapply walked_wf; try eassumption. intros o o' Hoo. apply Hoo.
    + eapply walked_typed; try eassumption. intros o o' Hoo. apply Hoo.
    + eapply walked_height; try eassumption. intros o o' Hoo. apply Hoo.
    + eapply walked_linked; try eassumption.
      intros o o' (_ & Hst & _ & _ & _ & Hl). split; [|exact Hl].
      rewrite Hst. reflexivity.
Qed.

(** *** [_parse_with_children] *)

Lemma linked_child st (v : propval XMLBuilder) i o :
  linked_val st v -> child_at v i = Some o ->
  _parent_xpath (_xmlstate o) = abs_xpath st /\ linked o.
Proof.
  intros Hv. destruct Hv as [st x|st o1 Hp Hl|st l Hp Hl]; cbn.
  - discriminate.
  - destruct i; [|discriminate]. intros [= <-]. auto.
  - intros Hi. apply nth_error_In in Hi. rewrite Forall_forall in Hp, Hl. auto.
Qed.

Lemma linked_intro c ps st :
  (forall k v i o, In (k, v) ps -> child_at v i = Some o ->
                   _parent_xpath (_xmlstate o) = abs_xpath st /\ linked o) ->
  linked (mkXMLBuilder c ps st).
Proof.
  intros Hch. constructor. apply Forall_forall. intros [k v] Hin. cbn [snd].
  destruct v as [x|o|l]; constructor.
  - now apply (Hch k (PObj o) 0 o).
  - now apply (Hch k (PObj o) 0 o).
  - apply Forall_forall. intros o Ho. apply In_nth_error in Ho.
    destruct Ho as [i Hi]. now apply (Hch k (PList l) i o).
  - apply Forall_forall. intros o Ho. apply In_nth_error in Ho.
    destruct Ho as [i Hi]. now apply (Hch k (PList l) i o).
Qed.

(** The walk of [_parse_with_children], from the state [st1] that
    [_XMLState.parse] has left. *)
Lemma parse_walk depth
    (IH : forall pst b (h : list doc),
        wf_builder b -> typed b -> height b <= depth ->
        exists b',
          _parse_with_children depth None (Some pst) (b, h) = ((b', h), inr tt)
          /\ rehomed pst b b')
    c ps st st1 (h : list doc) :
  wf_builder (mkXMLBuilder c ps st) -> typed (mkXMLBuilder c ps st) ->
  height (mkXMLBuilder c ps st) <= S depth ->
  abs_xpath st1 = abs_xpath st ->
  exists ps',
    for_each (_all_child_props (class_of c))
      (fun cp =>
         objs <- getattr_children cp ;;
         for_each (seq 0 (List.length objs))
           (fun i =>
              self <- get_self ;;
              with_child (child_propname cp) i
                (_parse_with_children depth None (Some (_xmlstate self)))))
      (mkXMLBuilder c ps st1, h)
    = ((mkXMLBuilder c ps' st1, h), inr tt)
    /\ wf_builder (mkXMLBuilder c ps' st1) /\ typed (mkXMLBuilder c ps' st1)
    /\ height (mkXMLBuilder c ps' st1) <= height (mkXMLBuilder c ps st)
    /\ everywhere (fun x => xmlapi (_xmlstate x) = xmlapi st1)
                  (mkXMLBuilder c ps' st1)
    /\ (linked (mkXMLBuilder c ps st) -> linked (mkXMLBuilder c ps' st1)).
Proof.
  intros Hwf Hty Hd Habs.
  inversion Hwf as [c0 ps0 st0 Hnd Hwfall]; subst.
  inversion Hty as [c0 ps0 st0 Hok Hkinds Htyall]; subst.
  destruct (walk_loop c st1 h
              (_parse_with_children depth None (Some st1))
              (fun self => _parse_with_children depth None
                             (Some (_xmlstate self)))
              (fun _ => eq_refl)
              (fun o => wf_builder o /\ typed o /\ height o <= depth)
              (rehomed st1))
    with (ps0 := ps) as (ps' & Hrun & Hchild & Hother & Hwf').
  - intros o (Ho1 & Ho2 & Ho3). now apply IH.
  - exact Hok.
  - now apply Forall_forall.
  - intros k v i o Hget Hat. apply In_of_get in Hget.
    pose proof (height_child c ps st k v i o Hget Hat) as Hlt.
    rewrite Forall_forall in Hwfall, Htyall.
    split; [|split; [|lia]].
    + eapply wf_child; [apply (Hwfall _ Hget) | exact Hat].
    + eapply child_at_typed; [apply (Htyall _ Hget) | exact Hat].
  - exists ps'. split; [exact Hrun|]. specialize (Hwf' Hnd).
    split; [|split; [|split; [|split]]].
    + eapply walked_wf; try eassumption. intros o o' Hoo. apply Hoo.
    + eapply walked_typed; try eassumption. intros o o' Hoo. apply Hoo.
    + eapply walked_height; try eassumption. intros o o' Hoo. apply Hoo.
    + eapply walked_everywhere; try eassumption; [|reflexivity].
      intros o o' Hoo. apply Hoo.
    + intros Hl. inversion Hl as [c0 ps0 st0 Hlall]; subst.
      rewrite Forall_forall in Hlall.
      apply linked_intro. intros k v' i o' Hin Hat.
      destruct (walked_child c ps ps' _ Hchild Hother Hwf' Htyall k v' i o' Hin Hat)
        as (v & o & Hv & Ho & Hoo).
      destruct (linked_child st v i o (Hlall _ Hv) Ho) as [Hp Hlo].
      destruct Hoo as (_ & Hst & _ & _ & _ & _ & Hlink).
      split; [|now apply Hlink]. rewrite Hst, Habs. exact Hp.
Qed.

Lemma parse_children_spec depth :
  forall pst b (h : list doc),
    wf_builder b -> typed b -> height b <= depth ->
    exists b',
      _parse_with_children depth None (Some pst) (b, h) = ((b', h), inr tt)
      /\ rehomed pst b b'.
Proof.
  induction depth as [|depth IH]; intros pst b h Hwf Hty Hd.
  { destruct b; cbn [height] in Hd; lia. }
  destruct b as [c ps st].
  set (st1 := set_xmlapi (set_is_build st (is_build pst || is_build st))
                         (xmlapi pst)).
  destruct (parse_walk depth IH c ps st st1 h Hwf Hty Hd eq_refl)
    as (ps' & Hrun & Hwf' & Hty' & Hh' & Hev & Hl).
  exists (mkXMLBuilder c ps' st1). split.
  - cbn [_parse_with_children]. unfold bind at 1.
    rewrite XMLState_parse_child. exact Hrun.
  - split; [reflexivity|]. split; [reflexivity|]. auto 10.
Qed.

(** The same for an instance that is given a text of its own: it gets a
    new document, made of the text, and keeps its mode. *)
Lemma parse_root_spec depth (xml : option string) b (h : list doc) (d : doc) :
  wf_builder b -> typed b -> height b <= depth ->
  XMLAPI__init__ (initial_text (_xmlstate b) xml) = inr d ->
  exists b',
    _parse_with_children depth xml None (b, h)
    = ((b', (h ++ [d])%list), inr tt)
    /\ cls b' = cls b
    /\ _xmlstate b' = set_xmlapi (_xmlstate b) (List.length h)
    /\ wf_builder b' /\ typed b' /\ height b' <= height b
    /\ everywhere (fun x => xmlapi (_xmlstate x) = List.length h) b'
    /\ (linked b -> linked b').
Proof.
  intros Hwf Hty Hd Hparse.
  destruct depth as [|depth]; [destruct b; cbn [height] in Hd; lia|].
  destruct b as [c ps st]. cbn [_xmlstate] in Hparse.
  set (st1 := set_xmlapi st (List.length h)).
  destruct (parse_walk depth (parse_children_spec depth) c ps st st1
              (h ++ [d])%list Hwf Hty Hd eq_refl)
    as (ps' & Hrun & Hwf' & Hty' & Hh' & Hev & Hl).
  exists (mkXMLBuilder c ps' st1). split.
  - cbn [_parse_with_children]. unfold bind at 1.
    rewrite XMLState_parse_root. cbn [_xmlstate]. rewrite Hparse. exact Hrun.
  - split; [reflexivity|]. split; [reflexivity|]. auto 10.
Qed.

(** *** [_set_child_xpaths] *)

Lemma count_get_incr (k : string) (tc : list (string * nat)) :
  count_get k (count_incr k tc) = S (count_get k tc).
Proof.
  induction tc as [|[k' n] tc IH]; cbn.
  - now rewrite String.eqb_refl.
  - destruct (String.eqb k k') eqn:E; cbn; rewrite E; [reflexivity | exact IH].
Qed.

Lemma count_get_incr_ne (k k' : string) (tc : list (string * nat)) :
  k' <> k -> count_get k' (count_incr k tc) = count_get k' tc.
Proof.
  intros Hne. induction tc as [|[k0 n] tc IH]; cbn.
  - apply String.eqb_neq in Hne. now rewrite Hne.
  - destruct (String.eqb_spec k k0) as [->|Hk]; cbn.
    + apply String.eqb_neq in Hne. now rewrite Hne.
    + destruct (String.eqb k' k0); [reflexivity | exact IH].
Qed.

Section Numbering.
Variables (depth : nat) (c : string) (st : XMLState) (h : list doc).

Let state ps : world (doc:=doc) := (mkXMLBuilder c ps st, h).

Let fit (o : XMLBuilder) : Prop :=
  wf_builder o /\ typed o /\ height o <= depth.

(** One round of the loop over the objects of a child descriptor. *)
Let number_body (cp : XMLChildProperty) (typecount : list (string * nat))
    (io : nat * XMLBuilder) : M (world (doc:=doc)) (list (string * nat)) :=
  let class_type := cls (snd io) in
  let typecount :=
    if is_single cp then typecount else count_incr class_type typecount in
  let idx :=
    if is_single cp then EmptyString
    else idxstr (count_get class_type typecount) in
  let prop_path := get_prop_xpath cp class_type in
  self <- get_self ;;
  with_child (child_propname cp) (fst io)
    (_set_xpaths depth (Some (abs_xpath (_xmlstate self)))
                 (Rel (Some (prop_path ++ idx)))) ;;
  ret typecount.

Let number_cp (typecount : list (string * nat)) (cp : XMLChildProperty)
  : M (world (doc:=doc)) (list (string * nat)) :=
  objs <- getattr_children cp ;;
  fold_m (combine (seq 0 (List.length objs)) objs) typecount (number_body cp).

Lemma set_child_xpaths_unfold ps :
  _set_child_xpaths depth (state ps)
  = (fold_m (_all_child_props (class_of c)) [] number_cp ;; ret tt) (state ps).
Proof. reflexivity. Qed.

Lemma number_rest cp ps tc (rest : list XMLBuilder) :
  is_single cp = false ->
  Forall (fun o => fit o /\ cls o = child_class cp) rest ->
  forall seen tc0,
    count_get (child_class cp) tc0 = count_get (child_class cp) tc
                                     + List.length seen ->
    (forall k, k <> child_class cp -> count_get k tc0 = count_get k tc) ->
    exists rest' tc',
      fold_m (combine (seq (List.length seen) (List.length rest)) rest) tc0
             (number_body cp)
             (state (OD.set (child_propname cp) (PList (seen ++ rest)) ps))
      = (state (OD.set (child_propname cp) (PList (seen ++ rest')) ps), inr tc')
      /\ List.length rest' = List.length rest
      /\ (forall k, k <> child_class cp -> count_get k tc' = count_get k tc)
      /\ (forall j o o',
             nth_error rest j = Some o -> nth_error rest' j = Some o' ->
             repositioned
               (Some (abs_xpath st))
               (Rel (Some (get_prop_xpath cp (child_class cp)
                           ++ idxstr (count_get (child_class cp) tc
                                      + List.length seen + j + 1)))) o o').
Proof.
  intros Hplural. induction 1 as [|o rest [Ho Hc] Hrest IH]; intros seen tc0 Hk Hne.
  - exists [], tc0. split; [reflexivity|]. split; [reflexivity|].
    split; [exact Hne|]. intros [|j]; discriminate.
  - destruct Ho as (Ho1 & Ho2 & Ho3).
    set (idx := idxstr (count_get (child_class cp)
                                  (count_incr (child_class cp) tc0))).
    destruct (set_xpaths_spec depth (Some (abs_xpath st))
                (Rel (Some (get_prop_xpath cp (child_class cp) ++ idx)))
                o h Ho1 Ho2 Ho3) as (o' & Hrun & Hoo).
    destruct (IH (seen ++ [o'])%list (count_incr (child_class cp) tc0))
      as (rest' & tc' & Hloop & Hlen & Hne' & Hrel).
    { rewrite count_get_incr, Hk, length_app. cbn. lia. }
    { intros k Hkne. rewrite count_get_incr_ne by assumption. now apply Hne. }
    exists (o' :: rest'), tc'. split; [|split; [cbn; lia|split; [exact Hne'|]]].
    + cbn [List.length seq combine fold_m]. unfold bind at 1.
      unfold number_body at 1. cbn [fst snd]. rewrite Hc, Hplural. fold idx.
      unfold bind at 1. unfold bind at 1. unfold get_self at 1, gets at 1.
      unfold state in *. cbn [fst snd _xmlstate].
      rewrite (with_child_step _ (List.length seen) _ c _ st h
                 (PList (seen ++ o :: rest)) o o' h (inr tt));
        [|apply ODFacts.get_set_eq
         |cbn [child_at]; rewrite nth_error_app2, Nat.sub_diag by lia; reflexivity
         |exact Hrun].
      unfold ret at 1. cbn [put_child]. rewrite list_set_middle, set_set.
      rewrite length_app, Nat.add_1_r, <- !app_assoc in Hloop.
      cbn [app] in Hloop. exact Hloop.
    + intros [|j] o1 o1' H1 H1'; cbn in H1, H1'.
      * injection H1 as <-. injection H1' as <-.
        unfold idx in Hoo. rewrite count_get_incr, Hk in Hoo.
        replace (count_get (child_class cp) tc + List.length seen + 0 + 1)
          with (S (count_get (child_class cp) tc + List.length seen)) by lia.
        exact Hoo.
      * specialize (Hrel j o1 o1' H1 H1'). rewrite length_app in Hrel.
        cbn [List.length] in Hrel.
        replace (count_get (child_class cp) tc + List.length seen + S j + 1)
          with (count_get (child_class cp) tc + (List.length seen + 1) + j + 1)
          by lia.
        exact Hrel.
Qed.

Lemma number_cp_step cp ps tc :
  kind_ok cp (OD.get (child_propname cp) ps) ->
  (forall v i o, OD.get (child_propname cp) ps = Some v ->
                 child_at v i = Some o -> fit o) ->
  (forall l, OD.get (child_propname cp) ps = Some (PList l) ->
             Forall (fun o => cls o = child_class cp) l) ->
  count_get (child_class cp) tc = 0 ->
  exists ps' tc',
    number_cp tc cp (state ps) = (state ps', inr tc')
    /\ numbered st cp (OD.get (child_propname cp) ps)
                (OD.get (child_propname cp) ps')
    /\ (forall k, k <> child_propname cp -> OD.get k ps' = OD.get k ps)
    /\ (OD.wf ps -> OD.wf ps')
    /\ (forall k, k <> child_class cp -> count_get k tc' = count_get k tc).
Proof.
  intros Hkind Hfit Hhom Hzero. unfold number_cp.
  assert (Hobjs : forall objs,
             getattr_children cp (state ps) = (state ps, inr objs) ->
             (objs <- getattr_children cp ;;
              fold_m (combine (seq 0 (List.length objs)) objs) tc
                     (number_body cp)) (state ps)
             = fold_m (combine (seq 0 (List.length objs)) objs) tc
                      (number_body cp) (state ps)).
  { intros objs Hobjs. unfold bind at 1. now rewrite Hobjs. }
  destruct (OD.get (child_propname cp) ps) as [[x|o|l]|] eqn:Hget;
    cbn in Hkind; try contradiction.
  - (* the object of a singular descriptor *)
    rewrite (Hobjs [o]);
      [|unfold getattr_children, XMLChildProperty_get, state; run;
        cbn [_propstore]; now rewrite Hget, Hkind].
    destruct (Hfit (PObj o) 0 o eq_refl eq_refl) as (Ho1 & Ho2 & Ho3).
    destruct (set_xpaths_spec depth (Some (abs_xpath st))
                (Rel (Some (get_prop_xpath cp (cls o)))) o h Ho1 Ho2 Ho3)
      as (o' & Hrun & Hoo).
    exists (OD.set (child_propname cp) (PObj o') ps), tc.
    split; [|split; [|split; [|split]]].
    + cbn [List.length seq combine fold_m]. unfold bind at 1.
      unfold number_body at 1. cbn [fst snd]. rewrite Hkind, append_empty_r.
      unfold bind at 1. unfold bind at 1. unfold get_self at 1, gets at 1.
      unfold state. cbn [fst snd _xmlstate].
      rewrite (with_child_step _ 0 _ c _ st h (PObj o) o o' h (inr tt)
                 Hget eq_refl Hrun).
      reflexivity.
    + rewrite ODFacts.get_set_eq. exact Hoo.
    + intros k Hk. now apply ODFacts.get_set_ne.
    + apply wf_set.
    + reflexivity.
  - (* the list of a plural descriptor *)
    rewrite (Hobjs l);
      [|unfold getattr_children, XMLChildProperty_get, state; run;
        cbn [_propstore]; now rewrite Hget, Hkind].
    assert (Hall : Forall (fun o => fit o /\ cls o = child_class cp) l).
    { specialize (Hhom l eq_refl). rewrite Forall_forall in *.
      intros o Ho. split; [|now apply Hhom].
      apply In_nth_error in Ho. destruct Ho as [i Hi].
      now apply (Hfit (PList l) i o). }
    destruct (number_rest cp ps tc l Hkind Hall [] tc) as
      (l' & tc' & Hloop & Hlen & Hne & Hrel); [cbn; lia | reflexivity |].
    cbn [List.length app] in Hloop.
    rewrite (ODFacts.set_same _ _ _ Hget) in Hloop.
    exists (OD.set (child_propname cp) (PList l') ps), tc'.
    split; [exact Hloop|]. rewrite ODFacts.get_set_eq.
    split; [|split; [|split; [apply wf_set | exact Hne]]].
    + split; [exact Hlen|]. intros j o o' Hj Hj'.
      specialize (Hrel j o o' Hj Hj'). rewrite Hzero in Hrel.
      cbn [List.length Nat.add] in Hrel. exact Hrel.
    + intros k Hk. now apply ODFacts.get_set_ne.
  - (* a plural descriptor that was never read *)
    exists (OD.set (child_propname cp) (PList []) ps), tc.
    split; [unfold getattr_children, XMLChildProperty_get, state; run;
            cbn [_propstore]; now rewrite Hget, Hkind|].
    rewrite ODFacts.get_set_eq.
    split; [exact I|]. split; [|split; [apply wf_set | reflexivity]].
    intros k Hk. now apply ODFacts.get_set_ne.
Qed.

Lemma number_loop (Hclass : class_ok (class_of c) = true) ps0 :
  NoDup (map child_class (_all_child_props (class_of c))) ->
  (forall cp, In cp (_all_child_props (class_of c)) ->
              kind_ok cp (OD.get (child_propname cp) ps0)) ->
  (forall k v i o, OD.get k ps0 = Some v -> child_at v i = Some o -> fit o) ->
  (forall cp l, In cp (_all_child_props (class_of c)) ->
                OD.get (child_propname cp) ps0 = Some (PList l) ->
                Forall (fun o => cls o = child_class cp) l) ->
  exists ps' tc',
    fold_m (_all_child_props (class_of c)) [] number_cp (state ps0)
    = (state ps', inr tc')
    /\ (forall cp, In cp (_all_child_props (class_of c)) ->
                   numbered st cp (OD.get (child_propname cp) ps0)
                            (OD.get (child_propname cp) ps'))
    /\ (forall k, in_childprops (class_of c) k = false ->
                  OD.get k ps' = OD.get k ps0)
    /\ (OD.wf ps0 -> OD.wf ps').
Proof.
  intros Hclasses Hkinds Hfit Hhom.
  assert (Hnd : NoDup (map child_propname (_all_child_props (class_of c)))).
  { unfold class_ok in Hclass. apply andb_true_iff in Hclass.
    now apply distinct_names_NoDup. }
  assert (Hloop : forall rest done ps tc,
             _all_child_props (class_of c) = (done ++ rest)%list ->
             (forall cp, In cp done ->
                         numbered st cp (OD.get (child_propname cp) ps0)
                                  (OD.get (child_propname cp) ps)) ->
             (forall k, ~ In k (map child_propname done) ->
                        OD.get k ps = OD.get k ps0) ->
             (OD.wf ps0 -> OD.wf ps) ->
             (forall k, ~ In k (map child_class done) -> count_get k tc = 0) ->
             exists ps' tc',
               fold_m rest tc number_cp (state ps) = (state ps', inr tc')
               /\ (forall cp, In cp (_all_child_props (class_of c)) ->
                              numbered st cp (OD.get (child_propname cp) ps0)
                                       (OD.get (child_propname cp) ps'))
               /\ (forall k, ~ In k (map child_propname
                                         (_all_child_props (class_of c))) ->
                             OD.get k ps' = OD.get k ps0)
               /\ (OD.wf ps0 -> OD.wf ps')).
  { induction rest as [|cp rest IH]; intros done ps tc Hcps Hdone Hother Hwf Htc.
    - exists ps, tc. rewrite Hcps, app_nil_r. auto.
    - assert (Hcp : In cp (_all_child_props (class_of c))).
      { rewrite Hcps. apply in_or_app. right. now left. }
      assert (Hfresh : ~ In (child_propname cp) (map child_propname done)).
      { rewrite Hcps, map_app in Hnd. cbn [map] in Hnd.
        apply NoDup_remove_2 in Hnd. intros Hin. apply Hnd.
        apply in_or_app. now left. }
      assert (Hnew : ~ In (child_class cp) (map child_class done)).
      { rewrite Hcps, map_app in Hclasses. cbn [map] in Hclasses.
        apply NoDup_remove_2 in Hclasses. intros Hin. apply Hclasses.
        apply in_or_app. now left. }
      destruct (number_cp_step cp ps tc)
        as (ps1 & tc1 & Hrun & Hkey & Hne & Hwf1 & Htc1).
      + rewrite (Hother _ Hfresh). now apply Hkinds.
      + intros v i o Hget. rewrite (Hother _ Hfresh) in Hget.
        now apply (Hfit (child_propname cp) v i o).
      + intros l Hget. rewrite (Hother _ Hfresh) in Hget. now apply Hhom.
      + now apply Htc.
      + cbn [fold_m]. unfold bind at 1. rewrite Hrun.
        apply (IH (done ++ [cp])%list); [now rewrite <- app_assoc | | |auto|].
        * intros cp' Hcp'. apply in_app_or in Hcp'.
          destruct Hcp' as [Hcp'|[<-|[]]].
          -- rewrite Hne; [now apply Hdone|]. intros E. apply Hfresh.
             rewrite <- E. now apply in_map.
          -- rewrite <- (Hother _ Hfresh). exact Hkey.
        * intros k Hk. rewrite map_app in Hk.
          rewrite Hne; [apply Hother|].
          -- intros Hin. apply Hk. apply in_or_app. now left.
          -- intros ->. apply Hk. apply in_or_app. right. now left.
        * intros k Hk. rewrite map_app in Hk. rewrite Htc1.
          -- apply Htc. intros Hin. apply Hk. apply in_or_app. now left.
          -- intros ->. apply Hk. apply in_or_app. right. now left. }
  destruct (Hloop (_all_child_props (class_of c)) [] ps0 [] eq_refl)
    as (ps' & tc' & Hrun & Hkey & Hother & Hwf); auto.
  - intros cp [].
  - exists ps', tc'. split; [exact Hrun|]. split; [exact Hkey|].
    split; [|exact Hwf].
    intros k Hk. apply Hother. intros Hin.
    apply in_childprops_In in Hin. congruence.
Qed.

End Numbering.

Lemma Forall2_of_nth {A B} (R : A -> B -> Prop) (l : list A) (l' : list B) :
  List.length l' = List.length l ->
  (forall j a b, nth_error l j = Some a -> nth_error l' j = Some b -> R a b) ->
  Forall2 R l l'.
Proof.
  revert l'. induction l as [|a l IH]; intros [|b l'] Hlen Hnth;
    cbn in Hlen; try discriminate; constructor.
  - now apply (Hnth 0).
  - apply IH; [lia|]. intros j x y Hx Hy. now apply (Hnth (S j)).
Qed.

Lemma numbered_key_rel st cp before after :
  numbered st cp before after ->
  key_rel (fun o o' => exists rel,
               repositioned (Some (abs_xpath st)) (Rel (Some rel)) o o')
          before after.
Proof.
  unfold numbered, key_rel.
  destruct before as [[x|o|l]|]; destruct after as [[x'|o'|l']|];
    try contradiction.
  - intros Hoo. constructor. eauto.
  - intros [Hlen Hnth]. constructor. apply Forall2_of_nth; [exact Hlen|].
    intros j o o' Hj Hj'. eauto.
  - destruct l'; [reflexivity | contradiction].
Qed.

(** *** [_set_child_xpaths] *)

Lemma set_child_xpaths_spec depth b (h : list doc) :
  wf_builder b -> typed b -> homogeneous b ->
  NoDup (map child_class (_all_child_props (class_of (cls b)))) ->
  height b <= S depth ->
  exists b',
    _set_child_xpaths depth (b, h) = ((b', h), inr tt)
    /\ cls b' = cls b /\ _xmlstate b' = _xmlstate b
    /\ (forall cp, In cp (_all_child_props (class_of (cls b))) ->
                   numbered (_xmlstate b) cp
                            (OD.get (child_propname cp) (_propstore b))
                            (OD.get (child_propname cp) (_propstore b')))
    /\ (forall k, in_childprops (class_of (cls b)) k = false ->
                  OD.get k (_propstore b') = OD.get k (_propstore b))
    /\ wf_builder b' /\ typed b' /\ height b' <= height b /\ linked b'.
Proof.
  intros Hwf Hty Hhom Hclasses Hd. destruct b as [c ps st].
  cbn [cls _xmlstate _propstore] in *.
  inversion Hwf as [c0 ps0 st0 Hnd Hwfall]; subst.
  inversion Hty as [c0 ps0 st0 Hok Hkinds Htyall]; subst.
  destruct (number_loop depth c st h Hok ps Hclasses)
    as (ps' & tc' & Hrun & Hnum & Hother & Hwf').
  - now apply Forall_forall.
  - intros k v i o Hget Hat. apply In_of_get in Hget.
    pose proof (height_child c ps st k v i o Hget Hat) as Hlt.
    rewrite Forall_forall in Hwfall, Htyall.
    split; [|split; [|lia]].
    + eapply wf_child; [apply (Hwfall _ Hget) | exact Hat].
    + eapply child_at_typed; [apply (Htyall _ Hget) | exact Hat].
  - intros cp l Hcp Hget. now apply (Hhom cp l).
  - exists (mkXMLBuilder c ps' st). cbn [cls _xmlstate _propstore].
    split; [rewrite set_child_xpaths_unfold;
            exact (bind_returns _ _ _ _ _ Hrun)|].
    split; [reflexivity|]. split; [reflexivity|].
    split; [exact Hnum|]. split; [exact Hother|].
    specialize (Hwf' Hnd).
    assert (Hchild :
              forall k, in_childprops (class_of c) k = true ->
                        key_rel (fun o o' => exists rel,
                                     repositioned (Some (abs_xpath st))
                                                  (Rel (Some rel)) o o')
                                (OD.get k ps) (OD.get k ps')).
    { intros k Hk. apply in_childprops_In in Hk. apply in_map_iff in Hk.
      destruct Hk as (cp & <- & Hcp). apply (numbered_key_rel st cp).
      now apply Hnum. }
    split; [|split; [|split]].
    + eapply walked_wf; try eassumption. intros o o' [rel Hoo]. apply Hoo.
    + eapply walked_typed; try eassumption. intros o o' [rel Hoo]. apply Hoo.
    + eapply walked_height; try eassumption. intros o o' [rel Hoo]. apply Hoo.
    + eapply walked_linked; try eassumption.
      intros o o' (rel & _ & Hst & _ & _ & _ & Hl). split; [|exact Hl].
      rewrite Hst. reflexivity.
Qed.

End Visit.

(** ** [remove_child] *)

Lemma In_list_del {A} (l : list A) i x : In x (list_del l i) -> In x l.
Proof.
  revert i. induction l as [|a l IH]; intros [|i]; cbn; auto.
  intros [->|Hin]; [now left | right; now apply (IH i)].
Qed.

Lemma length_list_del {A} (l : list A) i x :
  nth_error l i = Some x -> S (List.length (list_del l i)) = List.length l.
Proof.
  revert i. induction l as [|a l IH]; intros [|i]; cbn; try discriminate.
  - reflexivity.
  - intros Hi. f_equal. now apply IH.
Qed.

Lemma In_set {V : Type} (k : string) (v : V) (d : OD.t V) kv :
  In kv (OD.set k v d) -> kv = (k, v) \/ In kv d.
Proof.
  induction d as [|[k' v'] d IH]; cbn.
  - intros [<-|[]]. now left.
  - destruct (String.eqb k k'); cbn.
    + intros [<-|Hin]; [now left | right; now right].
    + intros [<-|Hin]; [right; now left|].
      destruct (IH Hin) as [->|Hd]; [now left | right; now right].
Qed.

Lemma NoDup_map_inj {A B} (f : A -> B) (l : list A) x y :
  NoDup (map f l) -> In x l -> In y l -> f x = f y -> x = y.
Proof.
  induction l as [|a l IH]; cbn; [intros _ []|].
  intros Hnd Hx Hy Hf. inversion Hnd as [|? ? Hnot Hnd']; subst.
  destruct Hx as [<-|Hx]; destruct Hy as [<-|Hy]; auto.
  - exfalso. apply Hnot. rewrite Hf. now apply in_map.
  - exfalso. apply Hnot. rewrite <- Hf. now apply in_map.
Qed.

Section FindChildProp.
Context `{Env}.

(** With one child descriptor per child class, the descriptor found for
    a class is the plural one of that class. *)
Lemma find_child_prop_found (c : XMLBuilderClass) (cp : XMLChildProperty) :
  NoDup (map child_class (_all_child_props c)) ->
  In cp (_all_child_props c) -> is_single cp = false ->
  _find_child_prop c (child_class cp) = inr cp.
Proof.
  intros Hnd Hcp Hplural. unfold _find_child_prop.
  destruct (find _ (_all_child_props c)) as [cp'|] eqn:Hfind.
  - apply find_some in Hfind. destruct Hfind as [Hin Hp].
    apply andb_true_iff in Hp. destruct Hp as [_ Hcls].
    apply String.eqb_eq in Hcls. f_equal.
    now apply (NoDup_map_inj child_class (_all_child_props c)).
  - exfalso. pose proof (find_none _ _ Hfind cp Hcp) as Hp. cbn in Hp.
    now rewrite Hplural, String.eqb_refl in Hp.
Qed.

Lemma find_child_prop_sound (c : XMLBuilderClass) k (cp : XMLChildProperty) :
  _find_child_prop c k = inr cp ->
  In cp (_all_child_props c) /\ is_single cp = false /\ child_class cp = k.
Proof.
  unfold _find_child_prop.
  destruct (find _ (_all_child_props c)) as [cp'|] eqn:Hfind; [|discriminate].
  intros [= <-]. apply find_some in Hfind. destruct Hfind as [Hin Hp].
  apply andb_true_iff in Hp. destruct Hp as [Hs Hcls].
  apply String.eqb_eq in Hcls. apply negb_true_iff in Hs. auto.
Qed.

Lemma find_child_prop_missing (c : XMLBuilderClass) k :
  (forall cp, In cp (_all_child_props c) -> is_single cp = false ->
              child_class cp <> k) ->
  _find_child_prop c k
  = inl (RuntimeError
           "programming error: Didn't find child property for child_class").
Proof.
  intros Hnone. unfold _find_child_prop.
  destruct (find _ (_all_child_props c)) as [cp'|] eqn:Hfind; [|reflexivity].
  exfalso. apply find_some in Hfind. destruct Hfind as [Hin Hp].
  apply andb_true_iff in Hp. destruct Hp as [Hs Hcls].
  apply String.eqb_eq in Hcls. apply negb_true_iff in Hs.
  now apply (Hnone cp' Hin Hs).
Qed.

End FindChildProp.

Lemma initial_text_moved st parent rel xml :
  initial_text (moved st parent rel) xml = initial_text st xml.
Proof. destruct st, rel; reflexivity. Qed.

Section RemoveChild.
Context {doc : Type} `{XMLAPI doc} `{Env}.

Lemma on_object_returns {A} obj (call : M (world (doc:=doc)) A) b h obj' h' a :
  call (obj, h) = ((obj', h'), inr a) ->
  on_object obj call (b, h) = ((b, h'), inr (obj', a)).
Proof. intros Hcall. unfold on_object. cbn [fst snd]. now rewrite Hcall. Qed.

(** What [get_xml] returns for an object with nothing staged. *)
Lemma get_xml_quiet depth (b : XMLBuilder) (h : list doc) (d : doc) :
  wf_builder b -> typed b -> quiet b -> height b <= depth ->
  nth_error h (xmlapi (_xmlstate b)) = Some d ->
  get_xml depth (b, h)
  = ((b, h),
     inr (end_with_newline
            (api_get_xml (if is_build (_xmlstate b) then copy_api d else d)
                         (make_abs_xpath (_xmlstate b) ".")))).
Proof.
  intros Hwf Hty Hq Hd Hdoc. unfold get_xml. cbn [fst snd].
  destruct (is_build (_xmlstate b)).
  - rewrite Hdoc, add_parse_bits_quiet by assumption.
    rewrite nth_error_app2, Nat.sub_diag by apply Nat.le_refl. cbn [nth_error].
    rewrite firstn_app, Nat.sub_diag, firstn_all. cbn [firstn].
    now rewrite app_nil_r.
  - unfold bind at 1. rewrite add_parse_bits_quiet by assumption.
    unfold api_read. run. now rewrite Hdoc.
Qed.

(** The instance once an object is taken out of one of its lists. *)
Lemma shortened c ps st (cp : XMLChildProperty) l i :
  wf_builder (mkXMLBuilder c ps st) -> typed (mkXMLBuilder c ps st) ->
  homogeneous (mkXMLBuilder c ps st) ->
  In cp (_all_child_props (class_of c)) ->
  OD.get (child_propname cp) ps = Some (PList l) ->
  let b1 := mkXMLBuilder c (OD.set (child_propname cp) (PList (list_del l i)) ps)
                         st in
  wf_builder b1 /\ typed b1 /\ homogeneous b1
  /\ height b1 <= height (mkXMLBuilder c ps st).
Proof.
  intros Hwf Hty Hhom Hcp Hget b1. subst b1.
  inversion Hwf as [c0 ps0 st0 Hnd Hwfall]; subst.
  inversion Hty as [c0 ps0 st0 Hok Hkinds Htyall]; subst.
  pose proof (In_of_get _ _ _ Hget) as Hin.
  rewrite Forall_forall in Hwfall, Htyall, Hkinds.
  assert (Hk : in_childprops (class_of c) (child_propname cp) = true).
  { apply in_childprops_In. now apply in_map. }
  split; [|split; [|split]].
  - constructor; [now apply wf_set|]. apply Forall_forall.
    intros kv Hkv. apply In_set in Hkv. destruct Hkv as [->|Hkv]; [|auto].
    cbn [snd]. constructor. apply Forall_forall. intros o Ho.
    apply In_list_del in Ho. specialize (Hwfall _ Hin). cbn [snd] in Hwfall.
    inversion Hwfall as [| |l0 Hl]; subst. rewrite Forall_forall in Hl. auto.
  - constructor; [exact Hok| |].
    + apply Forall_forall. intros cp' Hcp'. specialize (Hkinds cp' Hcp').
      destruct (String.eqb_spec (child_propname cp') (child_propname cp))
        as [E|E].
      * rewrite E, ODFacts.get_set_eq. rewrite E, Hget in Hkinds. exact Hkinds.
      * now rewrite ODFacts.get_set_ne.
    + apply Forall_forall. intros kv Hkv. apply In_set in Hkv.
      destruct Hkv as [->|Hkv]; [|auto]. cbn [fst snd]. rewrite Hk.
      constructor. apply Forall_forall. intros o Ho.
      apply In_list_del in Ho. specialize (Htyall _ Hin). cbn [fst snd] in Htyall.
      rewrite Hk in Htyall.
      inversion Htyall as [| |l0 Hl]; subst. rewrite Forall_forall in Hl. auto.
  - intros cp' l' Hcp' Hget'. cbn [cls _propstore] in *.
    destruct (String.eqb_spec (child_propname cp') (child_propname cp))
      as [E|E].
    + rewrite E, ODFacts.get_set_eq in Hget'. injection Hget' as <-.
      rewrite <- E in Hget. specialize (Hhom cp' l Hcp' Hget).
      rewrite Forall_forall in *. intros o Ho. apply Hhom.
      now apply In_list_del in Ho.
    + rewrite ODFacts.get_set_ne in Hget' by exact E. now apply (Hhom cp' l').
  - assert (Hs : exists m, height (mkXMLBuilder c ps st) = S m)
      by (cbn [height]; eauto).
    destruct Hs as [m Hm]. rewrite Hm. apply height_bound.
    intros k v j o Hkv Hat. apply In_set in Hkv.
    destruct Hkv as [[= -> ->]|Hkv].
    + cbn [child_at] in Hat. apply nth_error_In, In_list_del in Hat.
      apply In_nth_error in Hat. destruct Hat as [j' Hj'].
      pose proof (height_child c ps st _ (PList l) j' o Hin Hj'). lia.
    + pose proof (height_child c ps st k v j o Hkv Hat). lia.
Qed.

Lemma remove_child_spec depth b (h : list doc) (cp : XMLChildProperty)
    l i obj (d_self d_obj d_new : doc) :
  wf_builder b -> typed b -> homogeneous b ->
  NoDup (map child_class (_all_child_props (class_of (cls b)))) ->
  height b <= S depth ->
  In cp (_all_child_props (class_of (cls b))) ->
  OD.get (child_propname cp) (_propstore b) = Some (PList l) ->
  nth_error l i = Some obj ->
  quiet obj ->
  nth_error h (xmlapi (_xmlstate b)) = Some d_self ->
  nth_error h (xmlapi (_xmlstate obj)) = Some d_obj ->
  XMLAPI__init__
    (initial_text (_xmlstate obj)
       (Some (end_with_newline
                (api_get_xml
                   (if is_build (_xmlstate obj) then copy_api d_obj else d_obj)
                   (make_abs_xpath (_xmlstate obj) ".")))))
  = inr d_new ->
  exists b' obj' l',
    remove_child depth (child_propname cp) i (b, h)
    = ((b', list_set (h ++ [d_new])%list (xmlapi (_xmlstate b))
              (node_force_remove d_self (abs_xpath (_xmlstate obj)))),
       inr obj')
    /\ cls b' = cls b /\ _xmlstate b' = _xmlstate b
    /\ OD.get (child_propname cp) (_propstore b') = Some (PList l')
    /\ numbered (_xmlstate b) cp (Some (PList (list_del l i))) (Some (PList l'))
    /\ (forall k, in_childprops (class_of (cls b)) k = false ->
                  OD.get k (_propstore b') = OD.get k (_propstore b))
    /\ cls obj' = cls obj
    /\ _xmlstate obj'
       = set_xmlapi (moved (_xmlstate obj) None (Rel None)) (List.length h)
    /\ everywhere (fun x => xmlapi (_xmlstate x) = List.length h) obj'.
Proof.
  intros Hwf Hty Hhom Hclasses Hd Hcp Hget Hi Hq Hself Hobj Hparse.
  destruct b as [c ps st]. cbn [cls _propstore _xmlstate] in *.
  (* the removed object *)
  pose proof (In_of_get _ _ _ Hget) as Hin.
  pose proof (height_child c ps st _ (PList l) i obj Hin Hi) as Hlt.
  assert (Hfit : wf_builder obj /\ typed obj).
  { inversion Hwf as [c0 ps0 st0 Hnd Hwfall]; subst.
    inversion Hty as [c0 ps0 st0 Hok Hkinds Htyall]; subst.
    rewrite Forall_forall in Hwfall, Htyall. split.
    - eapply wf_child; [apply (Hwfall _ Hin) | exact Hi].
    - eapply child_at_typed; [apply (Htyall _ Hin) | exact Hi]. }
  destruct Hfit as [Hwfo Htyo].
  assert (Hplural : is_single cp = false).
  { inversion Hty as [c0 ps0 st0 Hok Hkinds Htyall]; subst.
    rewrite Forall_forall in Hkinds. specialize (Hkinds cp Hcp).
    now rewrite Hget in Hkinds. }
  assert (Hcls : cls obj = child_class cp).
  { specialize (Hhom cp l Hcp Hget). rewrite Forall_forall in Hhom.
    apply Hhom. now apply nth_error_In in Hi. }
  pose proof (find_child_prop_found (class_of c) cp Hclasses Hcp Hplural)
    as Hfind.
  rewrite <- Hcls in Hfind.
  (* the calls on it *)
  pose proof (get_xml_quiet depth obj h d_obj Hwfo Htyo Hq ltac:(lia) Hobj)
    as Hxml.
  destruct (set_xpaths_spec depth None (Rel None) obj h Hwfo Htyo ltac:(lia))
    as (obj2 & Hmove & Hc2 & Hst2 & Hwf2 & Hty2 & Hh2 & _).
  destruct (parse_root_spec depth
              (Some (end_with_newline
                       (api_get_xml
                          (if is_build (_xmlstate obj) then copy_api d_obj
                           else d_obj)
                          (make_abs_xpath (_xmlstate obj) "."))))
              obj2 h d_new Hwf2 Hty2 ltac:(lia))
    as (obj3 & Hroot & Hc3 & Hst3 & _ & _ & _ & Hev3 & _).
  { now rewrite Hst2, initial_text_moved. }
  (* the instance without it *)
  destruct (shortened c ps st cp l i Hwf Hty Hhom Hcp Hget)
    as (Hwf1 & Hty1 & Hhom1 & Hh1).
  destruct (set_child_xpaths_spec depth
              (mkXMLBuilder c (OD.set (child_propname cp)
                                      (PList (list_del l i)) ps) st)
              (list_set (h ++ [d_new])%list (xmlapi st)
                 (node_force_remove d_self (abs_xpath (_xmlstate obj))))
              Hwf1 Hty1 Hhom1 Hclasses ltac:(lia))
    as (b' & Hnumber & Hcb & Hsb & Hnum & Hother & _).
  cbn [cls _propstore _xmlstate] in *.
  specialize (Hnum cp Hcp). rewrite ODFacts.get_set_eq in Hnum.
  destruct (OD.get (child_propname cp) (_propstore b')) as [[x|o'|l']|] eqn:Hget';
    try contradiction.
  exists b', obj3, l'.
  split; [|split; [exact Hcb|split; [exact Hsb|split; [exact Hget'|
           split; [exact Hnum|split; [|split; [now rewrite Hc3|split;
           [now rewrite Hst3, Hst2 | exact Hev3]]]]]]]].
  - unfold remove_child.
    rewrite (bind_returns get_self _ (mkXMLBuilder c ps st, h)
               (mkXMLBuilder c ps st, h) (mkXMLBuilder c ps st) eq_refl).
    cbn [_propstore cls]. rewrite Hget, Hi, Hfind.
    unfold bind at 1. unfold lift at 1.
    unfold bind at 1. unfold bind at 1.
    unfold XMLChildProperty_get at 1. unfold bind at 1.
    unfold get_self at 1, gets at 1. cbn [fst snd _propstore].
    rewrite Hget. unfold ret at 1. rewrite String.eqb_refl.
    unfold bind at 1. unfold get_self at 1, gets at 1.
    unfold set_self_propstore at 1, modify at 1.
    cbn [fst snd _propstore with_propstore cls _xmlstate].
    unfold bind at 1.
    rewrite (on_object_returns obj (get_xml depth) _ h obj h _ Hxml).
    cbn [fst snd]. unfold bind at 1.
    rewrite (on_object_returns obj _ _ h obj2 h tt Hmove).
    cbn [fst snd]. unfold bind at 1.
    rewrite (on_object_returns obj2 _ _ h obj3 _ tt Hroot).
    cbn [fst snd]. unfold bind at 1.
    unfold api_write at 1. unfold with_propstore.
    cbn [fst snd cls _propstore _xmlstate].
    rewrite nth_error_app1 by (apply nth_error_Some; congruence).
    rewrite Hself. unfold bind at 1. rewrite Hnumber. reflexivity.
  - intros k Hk. rewrite (Hother k Hk). apply ODFacts.get_set_ne.
    intros ->. apply Bool.not_true_iff_false in Hk. apply Hk.
    apply in_childprops_In. now apply in_map.
Qed.

End RemoveChild.

(** ** The walks, as a caller sees them *)

Lemma get_xml_idx_indexed (b : XMLBuilder) (rel : string) (n : nat) :
  _relative_object_xpath (_xmlstate b) = rel ++ idxstr n ->
  get_xml_idx b = inr (Z.of_nat n - 1)%Z.
Proof.
  intros Hrel. pose proof (abs_xpath_indexed _ _ _ Hrel) as Habs.
  unfold get_xml_idx. rewrite Habs.
  set (pre := _join_xpath _ rel).
  destruct (digits_of_nat n) as [Hds Hne]. cbv zeta in Hds, Hne.
  rewrite contains_app by apply contains_bracket. cbn [negb].
  rewrite list_ascii_app, idxstr_chars.
  rewrite after_last_app.
  - rewrite strip_char_digits by (try assumption; reflexivity).
    rewrite string_of_list_ascii_of_string, int_of_nat_text. reflexivity.
  - rewrite forallb_app. cbn. rewrite andb_true_r.
    apply forallb_forall. intros c Hc.
    rewrite forallb_forall in Hds. apply negb_true_iff.
    apply digit_not; [now apply Hds | reflexivity].
Qed.

Section TreeWalks.
Context {doc : Type} `{XMLAPI doc} `{Env}.

(** X18. [_set_xpaths] on a tree that is well formed, matches its
    classes and is within the depth returns and touches no document. The
    instance keeps its class and gets the parent path passed and, when one
    is passed, the relative path; below it every object has the position of
    its holder for parent path. *)
Theorem set_xpaths_links depth parent_xpath relative_object_xpath
    (b : XMLBuilder) (h : list doc) :
  wf_builder b -> typed b -> height b <= depth ->
  exists b',
    _set_xpaths depth parent_xpath relative_object_xpath (b, h)
    = ((b', h), inr tt)
    /\ cls b' = cls b
    /\ _xmlstate b' = moved (_xmlstate b) parent_xpath relative_object_xpath
    /\ linked b'.
Proof.
  intros Hwf Hty Hd.
  destruct (set_xpaths_spec depth parent_xpath relative_object_xpath b h
              Hwf Hty Hd) as (b' & Hrun & Hc & Hst & _ & _ & _ & Hl).
  eauto 6.
Qed.

(** X19. [_parse_with_children] with the state of a holder returns and
    touches no document: the instance keeps its class and position, is in
    build mode when the holder or itself was, and every object of its tree
    is on the document of the holder. *)
Theorem parse_with_children_shares depth (pst : XMLState)
    (b : XMLBuilder) (h : list doc) :
  wf_builder b -> typed b -> height b <= depth ->
  exists b',
    _parse_with_children depth None (Some pst) (b, h) = ((b', h), inr tt)
    /\ cls b' = cls b
    /\ _xmlstate b'
       = set_xmlapi (set_is_build (_xmlstate b)
                                  (is_build pst || is_build (_xmlstate b)))
                    (xmlapi pst)
    /\ everywhere (fun x => xmlapi (_xmlstate x) = xmlapi pst) b'.
Proof.
  intros Hwf Hty Hd.
  destruct (parse_children_spec depth pst b h Hwf Hty Hd)
    as (b' & Hrun & Hc & Hst & _ & _ & _ & Hev & _).
  eauto 6.
Qed.

(** X20. [_parse_with_children] with a text of its own and no holder,
    when the adapter accepts the text (the stub of the root for no text or
    an empty one): one document, made of the text, is added to the store,
    and the instance, which keeps its class, position and mode, and every
    object of its tree are on it. *)
Theorem parse_with_children_root depth (xml : option string)
    (b : XMLBuilder) (h : list doc) (d : doc) :
  wf_builder b -> typed b -> height b <= depth ->
  XMLAPI__init__ (initial_text (_xmlstate b) xml) = inr d ->
  exists b',
    _parse_with_children depth xml None (b, h)
    = ((b', (h ++ [d])%list), inr tt)
    /\ cls b' = cls b
    /\ _xmlstate b' = set_xmlapi (_xmlstate b) (List.length h)
    /\ everywhere (fun x => xmlapi (_xmlstate x) = List.length h) b'.
Proof.
  intros Hwf Hty Hd Hparse.
  destruct (parse_root_spec depth xml b h d Hwf Hty Hd Hparse)
    as (b' & Hrun & Hc & Hst & _ & _ & _ & Hev & _).
  eauto 6.
Qed.

(** X21. [_set_child_xpaths] on an instance whose lists hold objects of
    the class of their descriptor, no two child descriptors having the same
    class, returns and touches no document, the position of the instance
    or its scalars. The object of a singular descriptor is placed at the
    path of the descriptor, the objects of the list of a plural one at that
    path with the indices [1], [2], ... in the order of the list, all with
    the position of the instance for parent path. *)
Theorem set_child_xpaths_numbers depth (b : XMLBuilder) (h : list doc) :
  wf_builder b -> typed b -> homogeneous b ->
  NoDup (map child_class (_all_child_props (class_of (cls b)))) ->
  height b <= S depth ->
  exists b',
    _set_child_xpaths depth (b, h) = ((b', h), inr tt)
    /\ cls b' = cls b /\ _xmlstate b' = _xmlstate b
    /\ (forall cp, In cp (_all_child_props (class_of (cls b))) ->
                   numbered (_xmlstate b) cp
                            (OD.get (child_propname cp) (_propstore b))
                            (OD.get (child_propname cp) (_propstore b')))
    /\ (forall k, in_childprops (class_of (cls b)) k = false ->
                  OD.get k (_propstore b') = OD.get k (_propstore b)).
Proof.
  intros Hwf Hty Hhom Hclasses Hd.
  destruct (set_child_xpaths_spec depth b h Hwf Hty Hhom Hclasses Hd)
    as (b' & Hrun & Hc & Hst & Hnum & Hother & _).
  eauto 7.
Qed.

(** X22. After [_set_child_xpaths] the object at place [j] (from 0) of
    the list of a plural descriptor is at the path of the descriptor, made
    absolute from the instance, with the index [j + 1], and [get_xml_idx]
    of it is [j]: the place in the list. *)
Theorem set_child_xpaths_idx depth (b : XMLBuilder) (h : list doc)
    (cp : XMLChildProperty) l j o :
  wf_builder b -> typed b -> homogeneous b ->
  NoDup (map child_class (_all_child_props (class_of (cls b)))) ->
  height b <= S depth ->
  In cp (_all_child_props (class_of (cls b))) ->
  OD.get (child_propname cp) (_propstore b) = Some (PList l) ->
  nth_error l j = Some o ->
  exists b' l' o',
    _set_child_xpaths depth (b, h) = ((b', h), inr tt)
    /\ OD.get (child_propname cp) (_propstore b') = Some (PList l')
    /\ nth_error l' j = Some o'
    /\ cls o' = cls o
    /\ abs_xpath (_xmlstate o')
       = make_abs_xpath (_xmlstate b) (get_prop_xpath cp (child_class cp))
         ++ idxstr (j + 1)
    /\ get_xml_idx o' = inr (Z.of_nat j).
Proof.
  intros Hwf Hty Hhom Hclasses Hd Hcp Hget Hj.
  destruct (set_child_xpaths_spec depth b h Hwf Hty Hhom Hclasses Hd)
    as (b' & Hrun & _ & _ & Hnum & _).
  specialize (Hnum cp Hcp). rewrite Hget in Hnum. unfold numbered in Hnum.
  destruct (OD.get (child_propname cp) (_propstore b')) as [[x|o1|l']|]
    eqn:Hget'; try contradiction.
  destruct Hnum as [Hlen Hnth].
  destruct (nth_error l' j) as [o'|] eqn:Hj'.
  - destruct (Hnth j o o' Hj Hj') as (Hc & Hst & _).
    exists b', l', o'.
    assert (Hrel : _relative_object_xpath (_xmlstate o')
                   = get_prop_xpath cp (child_class cp) ++ idxstr (j + 1))
      by (rewrite Hst; reflexivity).
    split; [exact Hrun|]. split; [exact Hget'|]. split; [exact Hj'|].
    split; [exact Hc|]. split.
    + rewrite (abs_xpath_indexed _ _ _ Hrel), Hst. reflexivity.
    + rewrite (get_xml_idx_indexed _ _ _ Hrel). f_equal. lia.
  - exfalso. apply nth_error_None in Hj'.
    assert (j < List.length l) by (apply nth_error_Some; congruence). lia.
Qed.

(** X23. In a class with one child descriptor per child class,
    [_find_child_prop] returns a descriptor exactly when it is a plural
    child descriptor of the class for the class asked; when no plural
    descriptor has that class, a singular one or none, it raises the
    [RuntimeError]. *)
Theorem find_child_prop_spec (c : XMLBuilderClass) (k : string)
    (cp : XMLChildProperty) :
  NoDup (map child_class (_all_child_props c)) ->
  (_find_child_prop c k = inr cp
   <-> In cp (_all_child_props c) /\ is_single cp = false /\ child_class cp = k)
  /\ ((forall cp', In cp' (_all_child_props c) -> is_single cp' = false ->
                   child_class cp' <> k) ->
      _find_child_prop c k
      = inl (RuntimeError
               "programming error: Didn't find child property for child_class")).
Proof.
  intros Hnd. split; [split|].
  - apply find_child_prop_sound.
  - intros (Hcp & Hplural & <-). now apply find_child_prop_found.
  - apply find_child_prop_missing.
Qed.

(** X24. [remove_child] of the object at place [i] of a list, with
    nothing staged in the object, when the adapter accepts the text it
    renders for the object: the list loses the object and the ones left are
    numbered again from [1]; the node at the former position of the object
    is removed from the document of the instance; the object, which is
    returned, keeps its class, is at the root, and its tree is on a new
    document made of the text that [get_xml] gave for it. The position and
    the scalars of the instance do not change. *)
Theorem remove_child_detaches depth (b : XMLBuilder) (h : list doc)
    (cp : XMLChildProperty) l i obj (d_self d_obj d_new : doc) :
  wf_builder b -> typed b -> homogeneous b ->
  NoDup (map child_class (_all_child_props (class_of (cls b)))) ->
  height b <= S depth ->
  In cp (_all_child_props (class_of (cls b))) ->
  OD.get (child_propname cp) (_propstore b) = Some (PList l) ->
  nth_error l i = Some obj ->
  quiet obj ->
  nth_error h (xmlapi (_xmlstate b)) = Some d_self ->
  nth_error h (xmlapi (_xmlstate obj)) = Some d_obj ->
  XMLAPI__init__
    (initial_text (_xmlstate obj)
       (Some (end_with_newline
                (api_get_xml
                   (if is_build (_xmlstate obj) then copy_api d_obj else d_obj)
                   (make_abs_xpath (_xmlstate obj) ".")))))
  = inr d_new ->
  exists b' obj' l',
    remove_child depth (child_propname cp) i (b, h)
    = ((b', list_set (h ++ [d_new])%list (xmlapi (_xmlstate b))
              (node_force_remove d_self (abs_xpath (_xmlstate obj)))),
       inr obj')
    /\ cls b' = cls b /\ _xmlstate b' = _xmlstate b
    /\ OD.get (child_propname cp) (_propstore b') = Some (PList l')
    /\ numbered (_xmlstate b) cp (Some (PList (list_del l i))) (Some (PList l'))
    /\ (forall k, in_childprops (class_of (cls b)) k = false ->
                  OD.get k (_propstore b') = OD.get k (_propstore b))
    /\ cls obj' = cls obj
    /\ _xmlstate obj'
       = set_xmlapi (moved (_xmlstate obj) None (Rel None)) (List.length h)
    /\ everywhere (fun x => xmlapi (_xmlstate x) = List.length h) obj'.
Proof.
  intros Hwf Hty Hhom Hclasses Hd Hcp Hget Hi Hq Hself Hobj Hparse.
  exact (remove_child_spec depth b h cp l i obj d_self d_obj d_new
           Hwf Hty Hhom Hclasses Hd Hcp Hget Hi Hq Hself Hobj Hparse).
Qed.

End TreeWalks.

(** ** [add_child] *)

Lemma list_split_last {A} (l : list A) n :
  List.length l = S n ->
  exists l' x, l = (l' ++ [x])%list /\ List.length l' = n.
Proof.
  intros Hlen. destruct (exists_last (l:=l)) as (l' & x & ->).
  - intros ->. discriminate.
  - exists l', x. split; [reflexivity|].
    rewrite length_app in Hlen. cbn in Hlen. lia.
Qed.

Lemma nth_error_last {A} (l : list A) x :
  nth_error (l ++ [x]) (List.length l) = Some x.
Proof. rewrite nth_error_app2, Nat.sub_diag by apply Nat.le_refl. reflexivity. Qed.

Lemma is_build_moved st parent rel : is_build (moved st parent rel) = is_build st.
Proof. destruct rel; reflexivity. Qed.

Section Relisted.
Context `{Env}.

(** The instance once the list of a plural descriptor is replaced by a
    list of objects of the class of the descriptor. *)
Lemma relisted c ps st (cp : XMLChildProperty) l2 m :
  wf_builder (mkXMLBuilder c ps st) -> typed (mkXMLBuilder c ps st) ->
  homogeneous (mkXMLBuilder c ps st) ->
  height (mkXMLBuilder c ps st) <= S m ->
  In cp (_all_child_props (class_of c)) -> is_single cp = false ->
  Forall (fun o => wf_builder o /\ typed o /\ cls o = child_class cp
                   /\ height o <= m) l2 ->
  let b1 := mkXMLBuilder c (OD.set (child_propname cp) (PList l2) ps) st in
  wf_builder b1 /\ typed b1 /\ homogeneous b1 /\ height b1 <= S m.
Proof.
  intros Hwf Hty Hhom Hh Hcp Hplural Hl2 b1. subst b1.
  inversion Hwf as [c0 ps0 st0 Hnd Hwfall]; subst.
  inversion Hty as [c0 ps0 st0 Hok Hkinds Htyall]; subst.
  rewrite Forall_forall in Hwfall, Htyall, Hkinds, Hl2.
  assert (Hk : in_childprops (class_of c) (child_propname cp) = true).
  { apply in_childprops_In. now apply in_map. }
  assert (Hnames : NoDup (map child_propname (_all_child_props (class_of c)))).
  { unfold class_ok in Hok. apply andb_true_iff in Hok.
    now apply distinct_names_NoDup. }
  split; [|split; [|split]].
  - constructor; [now apply wf_set|]. apply Forall_forall.
    intros kv Hkv. apply In_set in Hkv. destruct Hkv as [->|Hkv]; [|auto].
    cbn [snd]. constructor. apply Forall_forall. intros o Ho.
    now apply Hl2.
  - constructor; [exact Hok| |].
    + apply Forall_forall. intros cp' Hcp'. specialize (Hkinds cp' Hcp').
      destruct (String.eqb_spec (child_propname cp') (child_propname cp))
        as [E|E].
      * rewrite E, ODFacts.get_set_eq. cbn [kind_ok].
        now rewrite (NoDup_map_inj child_propname _ cp' cp Hnames Hcp' Hcp E).
      * now rewrite ODFacts.get_set_ne.
    + apply Forall_forall. intros kv Hkv. apply In_set in Hkv.
      destruct Hkv as [->|Hkv]; [|auto]. cbn [fst snd]. rewrite Hk.
      constructor. apply Forall_forall. intros o Ho. now apply Hl2.
  - intros cp' l' Hcp' Hget'. cbn [cls _propstore] in *.
    destruct (String.eqb_spec (child_propname cp') (child_propname cp))
      as [E|E].
    + rewrite E, ODFacts.get_set_eq in Hget'. injection Hget' as <-.
      rewrite (NoDup_map_inj child_propname _ cp' cp Hnames Hcp' Hcp E).
      apply Forall_forall. intros o Ho. now apply Hl2.
    + rewrite ODFacts.get_set_ne in Hget' by exact E. now apply (Hhom cp' l').
  - apply height_bound.
    intros k v j o Hkv Hat. apply In_set in Hkv.
    destruct Hkv as [[= -> ->]|Hkv].
    + cbn [child_at] in Hat. apply nth_error_In in Hat. now apply Hl2.
    + pose proof (height_child c ps st k v j o Hkv Hat). lia.
Qed.

End Relisted.

Section Attached.
Context {doc : Type} `{XMLAPI doc} `{Env} `{Splice doc}.

Lemma append_returns (cp : XMLChildProperty) c ps st (h : list doc) l obj :
  is_single cp = false ->
  OD.get (child_propname cp) ps = Some (PList l)
  \/ (OD.get (child_propname cp) ps = None /\ l = []) ->
  XMLChildProperty_append cp obj (mkXMLBuilder c ps st, h)
  = ((mkXMLBuilder c (OD.set (child_propname cp) (PList (l ++ [obj])) ps) st,
      h), inr tt).
Proof.
  intros Hplural [Hget|[Hget ->]];
    unfold XMLChildProperty_append, XMLChildProperty_get; run;
    cbn [_propstore]; rewrite Hget; [|rewrite Hplural]; run;
    unfold with_propstore; cbn [cls _propstore _xmlstate].
  - reflexivity.
  - now rewrite set_set.
Qed.

Lemma add_child_spec depth b (h : list doc) (cp : XMLChildProperty)
    l obj xml (d : doc) :
  wf_builder b -> typed b -> homogeneous b ->
  NoDup (map child_class (_all_child_props (class_of (cls b)))) ->
  height b <= S depth ->
  In cp (_all_child_props (class_of (cls b))) ->
  OD.get (child_propname cp) (_propstore b) = Some (PList l)
  \/ (OD.get (child_propname cp) (_propstore b) = None /\ l = []) ->
  wf_builder obj -> typed obj -> height obj <= depth ->
  cls obj = child_class cp ->
  get_xml depth (obj, h) = ((obj, h), inr xml) ->
  is_build (_xmlstate obj) = true
  \/ nth_error h (xmlapi (_xmlstate b)) = Some d ->
  let rel := get_prop_xpath cp (child_class cp)
             ++ idxstr (List.length l + 1) in
  let p := make_abs_xpath (_xmlstate b) (get_prop_xpath cp (child_class cp))
           ++ idxstr (List.length l + 1) in
  exists b' l' obj',
    add_child depth obj (b, h)
    = ((b',
        if is_build (_xmlstate obj) then h
        else list_set h (xmlapi (_xmlstate b))
               (node_add_xml d
                  (xml_indent xml (2 * count_char "/"%char p))
                  (rsplit_head "/"%char p))),
       inr obj')
    /\ cls b' = cls b /\ _xmlstate b' = _xmlstate b
    /\ OD.get (child_propname cp) (_propstore b') = Some (PList (l' ++ [obj']))
    /\ numbered (_xmlstate b) cp (Some (PList l)) (Some (PList l'))
    /\ cls obj' = cls obj
    /\ _xmlstate obj'
       = set_xmlapi
           (set_is_build
              (moved (_xmlstate obj) (Some (abs_xpath (_xmlstate b)))
                     (Rel (Some rel)))
              (is_build (_xmlstate b) || is_build (_xmlstate obj)))
           (xmlapi (_xmlstate b))
    /\ everywhere (fun x => xmlapi (_xmlstate x) = xmlapi (_xmlstate b)) obj'
    /\ (forall k, in_childprops (class_of (cls b)) k = false ->
                  OD.get k (_propstore b') = OD.get k (_propstore b)).
Proof.
  intros Hwf Hty Hhom Hclasses Hd Hcp Hheld Hwfo Htyo Hho Hcls Hxml Hdoc rel p.
  destruct b as [c ps st]. cbn [cls _propstore _xmlstate] in *.
  assert (Hplural : is_single cp = false).
  { inversion Hty as [c0 ps0 st0 Hok Hkinds Htyall]; subst.
    rewrite Forall_forall in Hkinds. specialize (Hkinds cp Hcp).
    destruct Hheld as [Hget|[Hget _]]; now rewrite Hget in Hkinds. }
  pose proof (find_child_prop_found (class_of c) cp Hclasses Hcp Hplural)
    as Hfind.
  rewrite <- Hcls in Hfind.
  (* the instance with the object in its list *)
  assert (Hall : Forall (fun o => wf_builder o /\ typed o
                                  /\ cls o = child_class cp
                                  /\ height o <= depth) (l ++ [obj])).
  { apply Forall_app. split; [|now repeat constructor].
    destruct Hheld as [Hget|[_ ->]]; [|constructor].
    inversion Hwf as [c0 ps0 st0 Hnd Hwfall]; subst.
    inversion Hty as [c0 ps0 st0 Hok Hkinds Htyall]; subst.
    pose proof (In_of_get _ _ _ Hget) as Hin.
    rewrite Forall_forall in Hwfall, Htyall.
    specialize (Hhom cp l Hcp Hget). rewrite Forall_forall in Hhom.
    apply Forall_forall. intros o Ho. pose proof Ho as Hi.
    apply In_nth_error in Hi. destruct Hi as [i Hi].
    pose proof (height_child c ps st _ (PList l) i o Hin Hi).
    split; [|split; [|split; [now apply Hhom | lia]]].
    - eapply wf_child; [apply (Hwfall _ Hin) | exact Hi].
    - eapply child_at_typed; [apply (Htyall _ Hin) | exact Hi]. }
  destruct (relisted c ps st cp (l ++ [obj]) depth Hwf Hty Hhom Hd Hcp
              Hplural Hall) as (Hwf1 & Hty1 & Hhom1 & Hh1).
  destruct (set_child_xpaths_spec depth
              (mkXMLBuilder c (OD.set (child_propname cp)
                                      (PList (l ++ [obj])) ps) st)
              h Hwf1 Hty1 Hhom1 Hclasses Hh1)
    as (b2 & Hnumber & Hc2 & Hs2 & Hnum & Hother & _).
  destruct b2 as [c2 ps2 st2]. cbn [cls _propstore _xmlstate] in *. subst c2 st2.
  specialize (Hnum cp Hcp). rewrite ODFacts.get_set_eq in Hnum.
  destruct (OD.get (child_propname cp) ps2) as [[x|o2|l2]|] eqn:Hget2;
    try contradiction.
  pose proof Hnum as [Hlen Hnth].
  rewrite length_app in Hlen. cbn [List.length] in Hlen.
  destruct (list_split_last l2 (List.length l)) as (l' & obj1 & -> & Hlen');
    [lia|].
  (* the object, placed *)
  destruct (Hnth (List.length l) obj obj1) as (Hc1 & Hst1 & Hwfo1 & Htyo1 & Hh1o & _).
  { apply nth_error_last. }
  { rewrite <- Hlen'. apply nth_error_last. }
  assert (Hp : abs_xpath (_xmlstate obj1) = p).
  { assert (Hrel : _relative_object_xpath (_xmlstate obj1)
                   = get_prop_xpath cp (child_class cp)
                     ++ idxstr (List.length l + 1))
      by (rewrite Hst1; reflexivity).
    rewrite (abs_xpath_indexed _ _ _ Hrel), Hst1. reflexivity. }
  assert (Hb1 : is_build (_xmlstate obj1) = is_build (_xmlstate obj))
    by (rewrite Hst1; apply is_build_moved).
  set (h' := if is_build (_xmlstate obj) then h
             else list_set h (xmlapi st)
                    (node_add_xml d
                       (xml_indent xml (2 * count_char "/"%char p))
                       (rsplit_head "/"%char p))).
  destruct (parse_children_spec depth st obj1 h' Hwfo1 Htyo1 ltac:(lia))
    as (obj' & Hparse & Hre).
  destruct Hre as (Hc' & Hst' & _ & _ & _ & Hev' & _).
  exists (mkXMLBuilder c (OD.set (child_propname cp) (PList (l' ++ [obj'])) ps2)
                       st), l', obj'.
  cbn [cls _propstore _xmlstate].
  split; [|split; [reflexivity|split; [reflexivity|split;
           [apply ODFacts.get_set_eq|split; [|split; [congruence|split;
           [|split; [exact Hev'|]]]]]]]].
  - unfold add_child.
    rewrite (bind_returns get_self _ (mkXMLBuilder c ps st, h)
               (mkXMLBuilder c ps st, h) (mkXMLBuilder c ps st) eq_refl).
    cbn [cls]. rewrite Hfind.
    unfold bind at 1. unfold lift at 1.
    unfold bind at 1.
    rewrite (on_object_returns obj (get_xml depth) _ h obj h _ Hxml).
    cbn [fst snd]. unfold bind at 1.
    rewrite (append_returns cp c ps st h l obj Hplural Hheld).
    unfold bind at 1. rewrite Hnumber.
    unfold bind at 1. unfold get_self at 1, gets at 1.
    cbn [fst snd _propstore]. rewrite Hget2.
    rewrite length_app. cbn [List.length].
    replace (List.length l' + 1 - 1) with (List.length l') by lia.
    unfold bind at 1.
    rewrite (with_child_step (child_propname cp) (List.length l')
               (gets (fun s => _xmlstate (fst s))) c ps2 st h
               (PList (l' ++ [obj1])) obj1 obj1 h
               (inr (_xmlstate obj1)) Hget2 (nth_error_last l' obj1) eq_refl).
    rewrite put_child_same by apply nth_error_last.
    rewrite (ODFacts.set_same _ _ _ Hget2).
    rewrite Hb1, Hp. unfold bind at 1.
    assert (Hwrite :
              (if negb (is_build (_xmlstate obj))
               then api_write
                      (fun d0 => node_add_xml d0
                         (xml_indent xml (2 * count_char "/"%char p))
                         (rsplit_head "/"%char p))
               else ret tt) (mkXMLBuilder c ps2 st, h)
              = ((mkXMLBuilder c ps2 st, h'), inr tt)).
    { subst h'. destruct (is_build (_xmlstate obj)); cbn [negb];
        [reflexivity|].
      destruct Hdoc as [Hdoc|Hdoc]; [discriminate|].
      unfold api_write. cbn [fst snd _xmlstate]. now rewrite Hdoc. }
    rewrite Hwrite.
    unfold bind at 1. unfold get_self at 1, gets at 1.
    cbn [fst snd _xmlstate].
    rewrite (with_child_step (child_propname cp) (List.length l') _
               c ps2 st h' (PList (l' ++ [obj1])) obj1 obj' h' (inr obj')
               Hget2 (nth_error_last l' obj1)).
    + cbn [put_child]. now rewrite list_set_middle.
    + exact (bind_returns _ _ _ _ _ Hparse).
  - split; [lia|]. intros j o o' Hj Hj'. apply (Hnth j o o').
    + rewrite nth_error_app1; [exact Hj|]. apply nth_error_Some. congruence.
    + rewrite nth_error_app1; [exact Hj'|]. apply nth_error_Some. congruence.
  - rewrite Hst', Hst1, is_build_moved. reflexivity.
  - intros k Hk. assert (Hne : k <> child_propname cp).
    { intros ->. apply Bool.not_true_iff_false in Hk. apply Hk.
      apply in_childprops_In. now apply in_map. }
    rewrite ODFacts.get_set_ne by exact Hne. rewrite (Hother k Hk).
    now apply ODFacts.get_set_ne.
Qed.

End Attached.

(** ** The path at which an object is spliced in *)

Lemma count_char_app (c : ascii) (a b : string) :
  count_char c (a ++ b) = count_char c a + count_char c b.
Proof. unfold count_char. now rewrite list_ascii_app, filter_app, length_app. Qed.

Lemma count_char_idxstr (n : nat) : count_char "/"%char (idxstr n) = 0.
Proof.
  unfold count_char. rewrite idxstr_chars. cbn [filter Ascii.eqb Bool.eqb].
  rewrite filter_app. cbn [filter Ascii.eqb Bool.eqb app].
  rewrite app_nil_r. destruct (digits_of_nat n) as [Hds _]. cbv zeta in Hds.
  induction (list_ascii_of_string (NilZero.string_of_uint (Nat.to_uint n)))
    as [|c l IH]; [reflexivity|].
  cbn [forallb] in Hds. apply andb_true_iff in Hds. destruct Hds as [Hc Hl].
  cbn [filter]. rewrite Ascii.eqb_sym, (digit_not c "/"%char Hc eq_refl).
  now apply IH.
Qed.

Lemma before_last_none (sep : ascii) (l : list ascii) :
  List.length (filter (Ascii.eqb sep) l) = 0 -> before_last sep l = None.
Proof.
  induction l as [|c l IH]; [reflexivity|]. cbn [filter before_last].
  rewrite (Ascii.eqb_sym c sep).
  destruct (Ascii.eqb sep c); cbn [List.length]; [discriminate|].
  intros Hl. now rewrite IH.
Qed.

Lemma before_last_app (sep : ascii) (pre t : list ascii) :
  before_last sep t = None ->
  before_last sep (pre ++ sep :: t) = Some pre.
Proof.
  intros Ht. induction pre as [|c pre IH]; cbn [app before_last].
  - now rewrite Ht, Ascii.eqb_refl.
  - now rewrite IH.
Qed.

Lemma rsplit_head_app (a t : string) :
  count_char "/"%char t = 0 -> rsplit_head "/"%char (a ++ "/" ++ t) = a.
Proof.
  intros Ht. unfold rsplit_head. rewrite list_ascii_app.
  cbn [append list_ascii_of_string].
  rewrite before_last_app by now apply before_last_none.
  apply string_of_list_ascii_of_string.
Qed.

Lemma make_abs_xpath_app (st : XMLState) (rel t : string) :
  make_abs_xpath st (rel ++ "/" ++ t) = make_abs_xpath st rel ++ "/" ++ t.
Proof.
  unfold make_abs_xpath, _join_xpath. rewrite app_assoc_str. f_equal.
  destruct rel as [|c rel]; [reflexivity|].
  rewrite startswith_app, drop_app by discriminate.
  destruct (Py.startswith (String c rel) "."); reflexivity.
Qed.

Section SplicePath.
Context `{Env}.

(** The position of an object of a list, taken apart as [add_child]
    does. *)
Lemma splice_path (st : XMLState) (cp : XMLChildProperty) (n : nat) :
  count_char "/"%char (XML_NAME (class_of (child_class cp))) = 0 ->
  let p := make_abs_xpath st (get_prop_xpath cp (child_class cp)) ++ idxstr n in
  rsplit_head "/"%char p = make_abs_xpath st (relative_xpath cp)
  /\ count_char "/"%char p
     = count_char "/"%char (make_abs_xpath st (relative_xpath cp)) + 1.
Proof.
  intros Hname p. subst p. unfold get_prop_xpath.
  rewrite make_abs_xpath_app, !app_assoc_str.
  assert (Htail : count_char "/"%char
                    (XML_NAME (class_of (child_class cp)) ++ idxstr n) = 0)
    by now rewrite count_char_app, Hname, count_char_idxstr.
  split.
  - change (String "/" (XML_NAME (class_of (child_class cp)) ++ idxstr n))
      with ("/" ++ (XML_NAME (class_of (child_class cp)) ++ idxstr n)).
    now apply rsplit_head_app.
  - rewrite count_char_app.
    change (String "/" (XML_NAME (class_of (child_class cp)) ++ idxstr n))
      with ("/" ++ (XML_NAME (class_of (child_class cp)) ++ idxstr n)).
    rewrite count_char_app, Htail. reflexivity.
Qed.

End SplicePath.

(** ** [add_child], as a caller sees it *)

Section AddChild.
Context {doc : Type} `{XMLAPI doc} `{Env} `{Splice doc}.

(** In build mode [get_xml] hands the instance and the documents back as
    they were, whether it returns or raises. *)
Lemma get_xml_build_state depth (b : XMLBuilder) (h : list doc) :
  wf_builder b -> is_build (_xmlstate b) = true ->
  exists r, get_xml depth (b, h) = ((b, h), r)
            /\ (forall xml, r = inr xml -> exists d : doc, In d h).
Proof.
  intros Hwf Hbuild. unfold get_xml. cbn [fst snd]. rewrite Hbuild.
  destruct (nth_error h (xmlapi (_xmlstate b))) as [d|] eqn:Hdoc;
    [|eexists; split; [reflexivity | discriminate]].
  destruct (add_parse_bits_restores depth (List.length h) b
              (h ++ [copy_api d]) Hwf) as (h' & r & -> & Hfr).
  rewrite (frame_fresh _ _ _ Hfr). apply nth_error_In in Hdoc.
  destruct r as [e|u]; [eexists; split; [reflexivity | discriminate]|].
  destruct (nth_error h' (List.length h)); eexists; split;
    try reflexivity; eauto.
Qed.

(** An error of [get_xml] on the object ends [add_child] before anything
    is changed. *)
Lemma add_child_fails depth b (h : list doc) (cp : XMLChildProperty) obj e :
  NoDup (map child_class (_all_child_props (class_of (cls b)))) ->
  In cp (_all_child_props (class_of (cls b))) -> is_single cp = false ->
  cls obj = child_class cp ->
  get_xml depth (obj, h) = ((obj, h), inl e) ->
  add_child depth obj (b, h) = ((b, h), inl e).
Proof.
  intros Hclasses Hcp Hplural Hcls Hxml.
  pose proof (find_child_prop_found (class_of (cls b)) cp Hclasses Hcp Hplural)
    as Hfind.
  rewrite <- Hcls in Hfind. unfold add_child.
  rewrite (bind_returns get_self _ (b, h) (b, h) b eq_refl).
  rewrite Hfind. unfold bind at 1. unfold lift at 1.
  unfold bind at 1. unfold on_object. cbn [fst snd]. now rewrite Hxml.
Qed.

(** X25. [add_child] of an object that [get_xml] renders without
    changing it: the object goes last in the list of the plural descriptor
    of its class (a list never read counts as empty); the objects that were
    in the list keep their places and indices; the object gets the next
    index, the position of the instance for parent path, the document of
    the instance, and is in build mode when the instance or itself was. In
    build mode of the object no document changes; otherwise the document of
    the instance changes by one [node_add_xml], of the text of the object,
    indented by twice the number of slashes of its new position, at that
    position without its last step. Position and scalars of the instance do
    not change. *)
Theorem add_child_attaches depth (b : XMLBuilder) (h : list doc)
    (cp : XMLChildProperty) l obj xml (d : doc) :
  wf_builder b -> typed b -> homogeneous b ->
  NoDup (map child_class (_all_child_props (class_of (cls b)))) ->
  height b <= S depth ->
  In cp (_all_child_props (class_of (cls b))) ->
  OD.get (child_propname cp) (_propstore b) = Some (PList l)
  \/ (OD.get (child_propname cp) (_propstore b) = None /\ l = []) ->
  wf_builder obj -> typed obj -> height obj <= depth ->
  cls obj = child_class cp ->
  get_xml depth (obj, h) = ((obj, h), inr xml) ->
  is_build (_xmlstate obj) = true
  \/ nth_error h (xmlapi (_xmlstate b)) = Some d ->
  let rel := get_prop_xpath cp (child_class cp)
             ++ idxstr (List.length l + 1) in
  let p := make_abs_xpath (_xmlstate b) (get_prop_xpath cp (child_class cp))
           ++ idxstr (List.length l + 1) in
  exists b' l' obj',
    add_child depth obj (b, h)
    = ((b',
        if is_build (_xmlstate obj) then h
        else list_set h (xmlapi (_xmlstate b))
               (node_add_xml d
                  (xml_indent xml (2 * count_char "/"%char p))
                  (rsplit_head "/"%char p))),
       inr obj')
    /\ cls b' = cls b /\ _xmlstate b' = _xmlstate b
    /\ OD.get (child_propname cp) (_propstore b') = Some (PList (l' ++ [obj']))
    /\ numbered (_xmlstate b) cp (Some (PList l)) (Some (PList l'))
    /\ cls obj' = cls obj
    /\ _xmlstate obj'
       = set_xmlapi
           (set_is_build
              (moved (_xmlstate obj) (Some (abs_xpath (_xmlstate b)))
                     (Rel (Some rel)))
              (is_build (_xmlstate b) || is_build (_xmlstate obj)))
           (xmlapi (_xmlstate b))
    /\ everywhere (fun x => xmlapi (_xmlstate x) = xmlapi (_xmlstate b)) obj'
    /\ (forall k, in_childprops (class_of (cls b)) k = false ->
                  OD.get k (_propstore b') = OD.get k (_propstore b)).
Proof.
  intros Hwf Hty Hhom Hclasses Hd Hcp Hheld Hwfo Htyo Hho Hcls Hxml Hdoc.
  exact (add_child_spec depth b h cp l obj xml d Hwf Hty Hhom Hclasses Hd Hcp
           Hheld Hwfo Htyo Hho Hcls Hxml Hdoc).
Qed.

(** X26. For an object in parse mode of a class whose element name has
    no slash, the text is spliced in at the path of the container of the
    descriptor, [relative_xpath] made absolute from the instance, indented
    by twice one more than the number of slashes of that path; the object
    is then on the document of the instance and in its mode. *)
Theorem add_child_splices depth (b : XMLBuilder) (h : list doc)
    (cp : XMLChildProperty) l obj xml (d : doc) :
  wf_builder b -> typed b -> homogeneous b ->
  NoDup (map child_class (_all_child_props (class_of (cls b)))) ->
  height b <= S depth ->
  In cp (_all_child_props (class_of (cls b))) ->
  OD.get (child_propname cp) (_propstore b) = Some (PList l)
  \/ (OD.get (child_propname cp) (_propstore b) = None /\ l = []) ->
  wf_builder obj -> typed obj -> height obj <= depth ->
  cls obj = child_class cp ->
  get_xml depth (obj, h) = ((obj, h), inr xml) ->
  nth_error h (xmlapi (_xmlstate b)) = Some d ->
  is_build (_xmlstate obj) = false ->
  count_char "/"%char (XML_NAME (class_of (child_class cp))) = 0 ->
  let container := make_abs_xpath (_xmlstate b) (relative_xpath cp) in
  exists b' obj',
    add_child depth obj (b, h)
    = ((b', list_set h (xmlapi (_xmlstate b))
              (node_add_xml d
                 (xml_indent xml (2 * (count_char "/"%char container + 1)))
                 container)),
       inr obj')
    /\ is_build (_xmlstate obj') = is_build (_xmlstate b)
    /\ xmlapi (_xmlstate obj') = xmlapi (_xmlstate b).
Proof.
  intros Hwf Hty Hhom Hclasses Hd Hcp Hheld Hwfo Htyo Hho Hcls Hxml Hdoc
         Hparse Hname container.
  destruct (add_child_spec depth b h cp l obj xml d Hwf Hty Hhom Hclasses Hd
              Hcp Hheld Hwfo Htyo Hho Hcls Hxml (or_intror Hdoc))
    as (b' & l' & obj' & Hrun & _ & _ & _ & _ & _ & Hst & _).
  destruct (splice_path (_xmlstate b) cp (List.length l + 1) Hname)
    as [Hhead Hcount].
  rewrite Hparse, Hhead, Hcount in Hrun. exists b', obj'.
  split; [exact Hrun|]. rewrite Hst, Hparse, orb_false_r. split; reflexivity.
Qed.

Lemma add_child_build_spec depth (b : XMLBuilder) (h : list doc)
    (cp : XMLChildProperty) l obj :
  wf_builder b -> typed b -> homogeneous b ->
  NoDup (map child_class (_all_child_props (class_of (cls b)))) ->
  height b <= S depth ->
  In cp (_all_child_props (class_of (cls b))) ->
  OD.get (child_propname cp) (_propstore b) = Some (PList l)
  \/ (OD.get (child_propname cp) (_propstore b) = None /\ l = []) ->
  wf_builder obj -> typed obj -> height obj <= depth ->
  cls obj = child_class cp ->
  is_build (_xmlstate obj) = true ->
  exists r,
    get_xml depth (obj, h) = ((obj, h), r)
    /\ match r with
       | inl e => add_child depth obj (b, h) = ((b, h), inl e)
       | inr _ =>
           exists b' l' obj',
             add_child depth obj (b, h) = ((b', h), inr obj')
             /\ OD.get (child_propname cp) (_propstore b')
                = Some (PList (l' ++ [obj']))
             /\ List.length l' = List.length l
             /\ cls obj' = cls obj
             /\ is_build (_xmlstate obj') = true
             /\ xmlapi (_xmlstate obj') = xmlapi (_xmlstate b)
             /\ abs_xpath (_xmlstate obj')
                = make_abs_xpath (_xmlstate b)
                                 (get_prop_xpath cp (child_class cp))
                  ++ idxstr (List.length l + 1)
             /\ get_xml_idx obj' = inr (Z.of_nat (List.length l))
       end.
Proof.
  intros Hwf Hty Hhom Hclasses Hd Hcp Hheld Hwfo Htyo Hho Hcls Hbuild.
  destruct (get_xml_build_state depth obj h Hwfo Hbuild)
    as ([e|xml] & Hxml & Hsome).
  - exists (inl e). split; [exact Hxml|].
    assert (Hplural : is_single cp = false).
    { destruct b as [c ps st].
      inversion Hty as [c0 ps0 st0 Hok Hkinds Htyall]; subst.
      rewrite Forall_forall in Hkinds. specialize (Hkinds cp Hcp).
      cbn [_propstore] in Hheld.
      destruct Hheld as [Hget|[Hget _]]; now rewrite Hget in Hkinds. }
    now apply (add_child_fails depth b h cp obj e).
  - exists (inr xml). split; [exact Hxml|].
    destruct (Hsome xml eq_refl) as [d _].
    destruct (add_child_spec depth b h cp l obj xml d Hwf Hty Hhom Hclasses Hd
                Hcp Hheld Hwfo Htyo Hho Hcls Hxml (or_introl Hbuild))
      as (b' & l' & obj' & Hrun & _ & _ & Hget' & Hnum & Hc' & Hst & _).
    rewrite Hbuild in Hrun. exists b', l', obj'.
    assert (Hrel : _relative_object_xpath (_xmlstate obj')
                   = get_prop_xpath cp (child_class cp)
                     ++ idxstr (List.length l + 1))
      by (rewrite Hst; reflexivity).
    split; [exact Hrun|]. split; [exact Hget'|].
    split; [exact (proj1 Hnum)|]. split; [exact Hc'|].
    split; [rewrite Hst, Hbuild, orb_true_r; reflexivity|].
    split; [rewrite Hst; reflexivity|]. split.
    + rewrite (abs_xpath_indexed _ _ _ Hrel), Hst. reflexivity.
    + rewrite (get_xml_idx_indexed _ _ _ Hrel). f_equal. lia.
Qed.


(** X27. [add_child] of an object in build mode changes no document,
    and [get_xml] of the object, which leaves the object and the documents
    as they are, decides how it ends. When [get_xml] raises, [add_child]
    raises the same error and the instance is as it was. When [get_xml]
    returns, [add_child] returns: the object goes last in its list, stays
    in build mode whatever the mode of the instance, is on the document of
    the instance, at the path of the descriptor with the next index, and
    [get_xml_idx] of it is its place in the list. *)
Theorem add_child_build depth (b : XMLBuilder) (h : list doc)
    (cp : XMLChildProperty) l obj :
  wf_builder b -> typed b -> homogeneous b ->
  NoDup (map child_class (_all_child_props (class_of (cls b)))) ->
  height b <= S depth ->
  In cp (_all_child_props (class_of (cls b))) ->
  OD.get (child_propname cp) (_propstore b) = Some (PList l)
  \/ (OD.get (child_propname cp) (_propstore b) = None /\ l = []) ->
  wf_builder obj -> typed obj -> height obj <= depth ->
  cls obj = child_class cp ->
  is_build (_xmlstate obj) = true ->
  exists r,
    get_xml depth (obj, h) = ((obj, h), r)
    /\ match r with
       | inl e => add_child depth obj (b, h) = ((b, h), inl e)
       | inr _ =>
           exists b' l' obj',
             add_child depth obj (b, h) = ((b', h), inr obj')
             /\ OD.get (child_propname cp) (_propstore b')
                = Some (PList (l' ++ [obj']))
             /\ List.length l' = List.length l
             /\ cls obj' = cls obj
             /\ is_build (_xmlstate obj') = true
             /\ xmlapi (_xmlstate obj') = xmlapi (_xmlstate b)
             /\ abs_xpath (_xmlstate obj')
                = make_abs_xpath (_xmlstate b)
                                 (get_prop_xpath cp (child_class cp))
                  ++ idxstr (List.length l + 1)
             /\ get_xml_idx obj' = inr (Z.of_nat (List.length l))
       end.
Proof.
  intros Hwf Hty Hhom Hclasses Hd Hcp Hheld Hwfo Htyo Hho Hcls Hbuild.
  exact (add_child_build_spec depth b h cp l obj Hwf Hty Hhom Hclasses Hd Hcp
           Hheld Hwfo Htyo Hho Hcls Hbuild).
Qed.

End AddChild.

(** ** [add_new] *)

Section AddNew.
Context {doc : Type} `{XMLAPI doc} `{Env} `{Splice doc}
        `{Namespaces} `{Sanitize}.
Variable rank : string -> nat.
Hypothesis Hrank :
  forall c cp, In cp (_all_child_props (class_of c)) ->
               rank (child_class cp) < rank c.
Hypothesis Hok : forall c, class_ok (class_of c) = true.
Hypothesis Hvalid : forall c, _validate_xmlbuilder (class_of c) = inr tt.
Hypothesis Hns :
  forall c, exists ns, namespace_of (XML_NAME (class_of c)) = inr ns.
Hypothesis Hsan :
  forall c cp, In cp (_all_child_props (class_of c)) ->
               _XML_SANITIZE (child_class cp) = false.

(** A class that passes validation has one child descriptor per child
    class. *)
Lemma valid_classes (c : string) :
  NoDup (map child_class (_all_child_props (class_of c))).
Proof.
  specialize (Hvalid c). unfold _validate_xmlbuilder in Hvalid.
  destruct (find _ (_XML_PROP_ORDER (class_of c))); [discriminate|].
  destruct (first_duplicate _ []) eqn:E; [discriminate|].
  now apply first_duplicate_none in E.
Qed.

(** X28. [add_new] on the list of a plural child descriptor, in a
    program as for the constructor, when the adapter accepts the stub of the
    child class. The constructor returns a new object of the child class,
    a root in build mode, on a document made of the stub that goes last in
    the store; no other document changes. [get_xml] of the new object,
    which leaves it and the documents as they are, decides how [add_new]
    ends: when it raises, [add_new] raises the same error and the instance
    is as it was; when it returns, [add_new] returns, and the instance
    holds the new object last in the list, of the child class, in build
    mode, on the document of the instance, with the next index, which
    [get_xml_idx] reports. *)
Theorem add_new_appends depth (b : XMLBuilder) (h : list doc)
    (cp : XMLChildProperty) l (d : doc) ns :
  wf_builder b -> typed b -> homogeneous b ->
  height b <= S depth -> rank (cls b) <= depth ->
  In cp (_all_child_props (class_of (cls b))) ->
  OD.get (child_propname cp) (_propstore b) = Some (PList l)
  \/ (OD.get (child_propname cp) (_propstore b) = None /\ l = []) ->
  namespace_of (XML_NAME (class_of (child_class cp))) = inr ns ->
  XMLAPI__init__ ("<" ++ XML_NAME (class_of (child_class cp)) ++ ns ++ "/>")
  = inr d ->
  exists obj r,
    XMLChildList_new depth cp h = ((h ++ [d])%list, inr obj)
    /\ cls obj = child_class cp
    /\ _xmlstate obj
       = {| _root_name := XML_NAME (class_of (child_class cp));
            _namespace := ns;
            _relative_object_xpath := EmptyString;
            _parent_xpath := EmptyString;
            xmlapi := List.length h; is_build := true |}
    /\ get_xml depth (obj, (h ++ [d])%list) = ((obj, (h ++ [d])%list), r)
    /\ match r with
       | inl e =>
           XMLChildList_add_new depth cp (b, h)
           = ((b, (h ++ [d])%list), inl e)
       | inr _ =>
           exists b' l' obj',
             XMLChildList_add_new depth cp (b, h)
             = ((b', (h ++ [d])%list), inr obj')
             /\ OD.get (child_propname cp) (_propstore b')
                = Some (PList (l' ++ [obj']))
             /\ List.length l' = List.length l
             /\ cls obj' = child_class cp
             /\ is_build (_xmlstate obj') = true
             /\ xmlapi (_xmlstate obj') = xmlapi (_xmlstate b)
             /\ abs_xpath (_xmlstate obj')
                = make_abs_xpath (_xmlstate b)
                                 (get_prop_xpath cp (child_class cp))
                  ++ idxstr (List.length l + 1)
             /\ get_xml_idx obj' = inr (Z.of_nat (List.length l))
       end.
Proof.
  intros Hwf Hty Hhom Hd Hr Hcp Hheld Hnsc Hparse.
  pose proof (Hrank _ _ Hcp) as Hlt.
  destruct (init_root rank Hrank Hok Hvalid Hns Hsan depth (child_class cp)
              None None h d ns) as (ps & Hnew & Hbuilt);
    [lia | now rewrite (Hsan _ _ Hcp) | exact Hnsc | exact Hparse |].
  set (obj := mkXMLBuilder (child_class cp) ps _) in *.
  destruct (built_facts rank Hrank Hok (S (rank (child_class cp))) d obj
              (Nat.lt_succ_diag_r _) Hbuilt) as (Hwfo & Htyo & Hho & _).
  cbn [cls obj] in Hho.
  assert (Hstep : forall r,
             add_child depth obj (b, (h ++ [d])%list) = r ->
             XMLChildList_add_new depth cp (b, h) = r).
  { intros r <-. unfold XMLChildList_add_new, XMLChildList_new.
    unfold bind at 1. unfold in_store at 1. cbn [fst snd]. now rewrite Hnew. }
  destruct (add_child_build_spec depth b (h ++ [d])%list cp l obj Hwf Hty Hhom
              (valid_classes (cls b)) Hd Hcp Hheld Hwfo Htyo ltac:(lia)
              eq_refl eq_refl) as (r & Hxml & Hrun).
  exists obj, r. split; [exact Hnew|]. split; [reflexivity|].
  split; [reflexivity|]. split; [exact Hxml|].
  destruct r as [e|xml].
  - now apply Hstep.
  - destruct Hrun as (b' & l' & obj' & Hrun & Hrest).
    exists b', l', obj'. split; [now apply Hstep | exact Hrest].
Qed.

End AddNew.

(** ** [clear] of an instance without child descriptors *)

Section ClearLeaf.
Context {doc : Type} `{XMLAPI doc} `{Env}.

(** One call of [XMLProperty.clear], for a descriptor without set
    converter whose validation accepts [None]. *)
Lemma property_clear_step p c ps st (h : list doc) :
  _convert_value_for_setter_cb p = None ->
  (forall cb b, _validate_cb p = Some cb -> cb b VNone = None) ->
  XMLProperty_clear p (mkXMLBuilder c ps st, h)
  = ((mkXMLBuilder c
        (if OD.mem (_propname p) ps
         then OD.set (_propname p) (PVal VNone) (OD.del (_propname p) ps)
         else ps) st, h), inr tt).
Proof.
  intros Hcb Hok. unfold XMLProperty_clear.
  rewrite (bind_returns get_self _ (mkXMLBuilder c ps st, h)
             (mkXMLBuilder c ps st, h) (mkXMLBuilder c ps st) eq_refl).
  cbn [_propstore]. destruct (OD.mem (_propname p) ps); [|reflexivity].
  rewrite (setter_accepts p VNone VNone true (mkXMLBuilder c ps st) h).
  - reflexivity.
  - intros cb Hcbp. now apply Hok.
  - unfold _convert_set_value. rewrite none_is_no_sentinel, Hcb. cbn.
    now rewrite !andb_false_r.
Qed.

(** The loop of [clear] over the scalar descriptors: the keys of the
    store stay, and those that name one of the descriptors are bound to
    [None]. *)
Lemma property_clear_loop (props : list XMLProperty) c st (h : list doc) :
  (forall p, In p props -> _convert_value_for_setter_cb p = None) ->
  (forall p cb b, In p props -> _validate_cb p = Some cb ->
                  cb b VNone = None) ->
  forall ps,
  exists ps',
    for_each props XMLProperty_clear (mkXMLBuilder c ps st, h)
    = ((mkXMLBuilder c ps' st, h), inr tt)
    /\ (forall k, OD.mem k ps' = OD.mem k ps)
    /\ (forall k,
          OD.get k ps'
          = if OD.mem k ps
               && existsb (fun p => String.eqb k (_propname p)) props
            then Some (PVal VNone) else OD.get k ps).
Proof.
  intros Hcb Hok. induction props as [|p props IH]; intros ps.
  - exists ps. split; [reflexivity|]. split; [reflexivity|].
    intros k. cbn [existsb]. now rewrite andb_false_r.
  - destruct (IH (fun q Hq => Hcb q (or_intror Hq))
                 (fun q cb b Hq => Hok q cb b (or_intror Hq))
                 (if OD.mem (_propname p) ps
                  then OD.set (_propname p) (PVal VNone)
                              (OD.del (_propname p) ps)
                  else ps)) as (ps' & Hrun & Hmem & Hget).
    assert (Hmem1 : forall k,
               OD.mem k (if OD.mem (_propname p) ps
                         then OD.set (_propname p) (PVal VNone)
                                     (OD.del (_propname p) ps)
                         else ps) = OD.mem k ps).
    { intros k. destruct (OD.mem (_propname p) ps) eqn:Hp; [|reflexivity].
      rewrite ODFacts.mem_set, ODFacts.mem_del.
      destruct (String.eqb_spec k (_propname p)) as [->|Hne];
        [now rewrite Hp | reflexivity]. }
    exists ps'. split; [|split].
    + cbn [for_each].
      rewrite (bind_returns _ _ _ _ _
                 (property_clear_step p c ps st h (Hcb p (or_introl eq_refl))
                    (fun cb b => Hok p cb b (or_introl eq_refl)))).
      exact Hrun.
    + intros k. now rewrite Hmem, Hmem1.
    + intros k. rewrite Hget, Hmem1. cbn [existsb].
      destruct (OD.mem k ps) eqn:Hk; cbn [andb].
      * destruct (String.eqb_spec k (_propname p)) as [->|Hne]; cbn [orb].
        -- rewrite Hk, ODFacts.get_set_eq.
           now destruct (existsb _ props).
        -- destruct (existsb _ props); [reflexivity|].
           destruct (OD.mem (_propname p) ps); [|reflexivity].
           rewrite ODFacts.get_set_ne, ODFacts.get_del_ne by exact Hne.
           reflexivity.
      * destruct (OD.mem (_propname p) ps) eqn:Hp; [|reflexivity].
        assert (Hne : k <> _propname p) by congruence.
        rewrite ODFacts.get_set_ne, ODFacts.get_del_ne by exact Hne.
        reflexivity.
Qed.

(** X29. [clear] of an instance of a class without child descriptors,
    whose scalar descriptors have no set converter and a validation that
    accepts [None]: it returns; the store keeps its keys, those that name a
    scalar descriptor bound to [None] and the others as they were; and the
    one change to the documents is the final call on the document of the
    instance at its position, [node_clear] when the position ends with an
    index or [leave_stub] is set and [node_force_remove] otherwise. *)
Theorem clear_leaf depth (leave_stub : bool) (b : XMLBuilder)
    (h : list doc) (d : doc) :
  _all_child_props (class_of (cls b)) = [] ->
  (forall p, In p (_all_xml_props (class_of (cls b))) ->
             _convert_value_for_setter_cb p = None) ->
  (forall p cb b', In p (_all_xml_props (class_of (cls b))) ->
                   _validate_cb p = Some cb -> cb b' VNone = None) ->
  nth_error h (xmlapi (_xmlstate b)) = Some d ->
  let xpath := abs_xpath (_xmlstate b) in
  exists b',
    clear (S depth) leave_stub (b, h)
    = ((b', list_set h (xmlapi (_xmlstate b))
              (if is_child_xpath xpath || leave_stub
               then node_clear d xpath
               else node_force_remove d xpath)),
       inr tt)
    /\ cls b' = cls b /\ _xmlstate b' = _xmlstate b
    /\ (forall k, OD.mem k (_propstore b') = OD.mem k (_propstore b))
    /\ (forall k,
          OD.get k (_propstore b')
          = if OD.mem k (_propstore b) && in_xmlprops (class_of (cls b)) k
            then Some (PVal VNone) else OD.get k (_propstore b)).
Proof.
  intros Hleaf Hcb Hok Hdoc xpath. destruct b as [c ps st].
  cbn [cls _propstore _xmlstate] in *.
  destruct (property_clear_loop (_all_xml_props (class_of c)) c st h Hcb Hok ps)
    as (ps' & Hrun & Hmem & Hget).
  exists (mkXMLBuilder c ps' st). cbn [cls _propstore _xmlstate].
  split; [|auto].
  cbn [clear]. unfold clear_props at 1.
  unfold bind at 1.
  rewrite (bind_returns get_self _ (mkXMLBuilder c ps st, h)
             (mkXMLBuilder c ps st, h) (mkXMLBuilder c ps st) eq_refl).
  cbn [cls]. rewrite Hleaf. cbn [for_each].
  unfold bind at 1. rewrite Hrun. unfold ret at 1.
  unfold clear_node, api_write.
  rewrite (bind_returns get_self _ (mkXMLBuilder c ps' st, h)
             (mkXMLBuilder c ps' st, h) (mkXMLBuilder c ps' st) eq_refl).
  cbn [_xmlstate]. fold xpath.
  destruct (is_child_xpath xpath || leave_stub); cbn [fst snd _xmlstate];
    now rewrite Hdoc.
Qed.

End ClearLeaf.

(** ** The documents after an emission *)

Lemma bind_inr {S A B} (c : M S A) (k : A -> M S B) s s' (y : B) :
  (x <- c ;; k x) s = (s', inr y) ->
  exists s1 x, c s = (s1, inr x) /\ k x s1 = (s', inr y).
Proof.
  unfold bind. destruct (c s) as [s1 [e|x]]; [discriminate|]. eauto.
Qed.

Lemma In_del {V : Type} (k : string) (d : OD.t V) kv :
  In kv (OD.del k d) -> In kv d.
Proof.
  induction d as [|[k' v'] d IH]; cbn; [auto|].
  destruct (String.eqb k k'); cbn; intuition.
Qed.

Lemma wf_del {V : Type} (k : string) (d : OD.t V) :
  OD.wf d -> OD.wf (OD.del k d).
Proof.
  unfold OD.wf. rewrite ODFacts.keys_del. apply NoDup_filter.
Qed.

Lemma nth_list_set {A} (l : list A) i x y :
  nth_error l i = Some y -> nth_error (list_set l i x) i = Some x.
Proof.
  revert i. induction l as [|z l IH]; intros [|i]; cbn; try discriminate.
  - reflexivity.
  - apply IH.
Qed.

Section Defaults.
Context {doc : Type} `{XMLAPI doc} `{Env}.

(** Staging a default reads and writes no document. *)
Lemma set_default_docs p b (h h2 : list doc) :
  _set_default p (b, h2)
  = ((fst (fst (_set_default p (b, h))), h2), snd (_set_default p (b, h))).
Proof.
  unfold _set_default, _default_get_value, setter, _nonxml_fset.
  crunch; reflexivity.
Qed.

Lemma defaults_docs (props : list XMLProperty) b (h h2 : list doc) :
  for_each props _set_default (b, h2)
  = ((fst (fst (for_each props _set_default (b, h))), h2),
     snd (for_each props _set_default (b, h))).
Proof.
  revert b. induction props as [|p props IH]; intros b; [reflexivity|].
  cbn [for_each]. unfold bind.
  rewrite (set_default_docs p b h h2).
  destruct (_set_default p (b, h)) as [[b1 h1] [e|[]]] eqn:E; cbn [fst snd].
  - reflexivity.
  - destruct (set_default_effect p b h) as (b' & r & Hrun & _).
    rewrite Hrun in E. injection E as -> <- _. apply IH.
Qed.

Lemma set_default_wf p b (h : list doc) :
  wf_builder b -> wf_builder (fst (fst (_set_default p (b, h)))).
Proof.
  intros Hwf.
  destruct (set_default_effect p b h) as (b' & r & -> & Hc & Hst & [->|[v Hps]]);
    cbn [fst]; [exact Hwf|].
  destruct b as [c ps st], b' as [c' ps' st']. cbn in Hps. subst ps'.
  inversion Hwf as [c0 ps0 st0 Hnd Hall]; subst.
  constructor.
  - apply wf_set. now apply wf_del.
  - rewrite Forall_forall in *. intros kv Hin. apply In_set in Hin.
    destruct Hin as [->|Hin]; [constructor|].
    apply Hall. now apply In_del in Hin.
Qed.

Lemma defaults_wf (props : list XMLProperty) b (h : list doc) :
  wf_builder b ->
  wf_builder (fst (fst (for_each props _set_default (b, h)))).
Proof.
  revert b. induction props as [|p props IH]; intros b Hwf; [exact Hwf|].
  cbn [for_each]. unfold bind.
  pose proof (set_default_wf p b h Hwf) as Hwf1.
  destruct (set_default_effect p b h) as (b' & r & Hrun & _).
  rewrite Hrun in *. cbn [fst] in Hwf1.
  destruct r as [e|[]]; [exact Hwf1|]. now apply IH.
Qed.

Lemma defaults_place (props : list XMLProperty) b (h : list doc) :
  cls (fst (fst (for_each props _set_default (b, h)))) = cls b
  /\ _xmlstate (fst (fst (for_each props _set_default (b, h)))) = _xmlstate b.
Proof.
  revert b. induction props as [|p props IH]; intros b; [split; reflexivity|].
  cbn [for_each]. unfold bind.
  destruct (set_default_effect p b h) as (b' & r & Hrun & Hc & Hst & _).
  rewrite Hrun. destruct r as [e|[]]; cbn [fst]; [split; assumption|].
  destruct (IH b') as [Hc' Hst']. split; congruence.
Qed.

End Defaults.

Lemma list_set_twice {A} (l : list A) i x y :
  list_set (list_set l i x) i y = list_set l i y.
Proof.
  revert i. induction l as [|z l IH]; intros [|i]; cbn; try reflexivity.
  now rewrite IH.
Qed.

Lemma child_at_held (v : propval XMLBuilder) i :
  child_at v i = nth_error (held_objects (Some v)) i.
Proof.
  destruct v as [x|o|l]; cbn; [now destruct i | | reflexivity].
  destruct i as [|i]; [reflexivity | now destruct i].
Qed.

Section Emission.
Context {doc : Type} `{XMLAPI doc} `{Env}.
Variables (api : nat) (flush : nat -> M (world (doc:=doc)) unit)
          (W : XMLBuilder -> list (string * pyval)).
Hypothesis Hflush :
  forall o h d o' h',
    wf_builder o -> nth_error h api = Some d ->
    flush api (o, h) = ((o', h'), inr tt) ->
    o' = o /\ h' = list_set h api (apply_writes d (W o)).
Variables (c : string) (st : XMLState) (ps1 : OD.t (propval XMLBuilder)).
Hypothesis Hapi : xmlapi st = api.
Hypothesis Hwf1 : wf_builder (mkXMLBuilder c ps1 st).

Let state ps (h : list doc) : world (doc:=doc) := (mkXMLBuilder c ps st, h).

(** What the loop may have made of the store: a list that was never read
    is there, empty. *)
Let inv (ps : OD.t (propval XMLBuilder)) : Prop :=
  forall k, OD.get k ps = OD.get k ps1
            \/ (OD.get k ps1 = None /\ OD.get k ps = Some (PList [])).

Let seg (key : string) : list (string * pyval) :=
  key_writes W (mkXMLBuilder c ps1 st) key.

Lemma apply_writes_app (d : doc) ws1 ws2 :
  apply_writes d (ws1 ++ ws2) = apply_writes (apply_writes d ws1) ws2.
Proof. unfold apply_writes. apply fold_left_app. Qed.

Lemma held_wf k i o :
  nth_error (held_objects (OD.get k ps1)) i = Some o -> wf_builder o.
Proof.
  inversion Hwf1 as [c0 ps0 st0 Hnd Hall]; subst. intros Hi.
  destruct (OD.get k ps1) as [v|] eqn:Hget; [|destruct i; discriminate].
  rewrite <- child_at_held in Hi. apply In_of_get in Hget.
  rewrite Forall_forall in Hall.
  eapply wf_child; [apply (Hall _ Hget) | exact Hi].
Qed.

Lemma held_inv ps k :
  inv ps -> held_objects (OD.get k ps) = held_objects (OD.get k ps1).
Proof. intros Hinv. destruct (Hinv k) as [->|[-> ->]]; reflexivity. Qed.

(** A staged scalar is written. *)
Lemma emit_scalar key p ps (h : list doc) d s' :
  inv ps -> find_xmlprop (class_of c) key = Some p ->
  nth_error h api = Some d ->
  emit_key (class_of c) flush key (state ps h) = (s', inr tt) ->
  s' = state ps (list_set h api (apply_writes d (seg key))).
Proof.
  intros Hinv Hfind Hd. unfold emit_key, seg, key_writes, state.
  cbn [cls _propstore _xmlstate]. rewrite Hfind.
  unfold bind at 1. unfold get_self at 1, gets at 1. cbn [fst snd _propstore].
  destruct (OD.get key ps) as [[v|o|l]|] eqn:Hget;
    try (unfold _set_xml; run; discriminate); try (run; discriminate).
  assert (Hget1 : OD.get key ps1 = Some (PVal v)).
  { destruct (Hinv key) as [E|[_ E]]; congruence. }
  rewrite Hget1. unfold _set_xml, api_write. run. cbn [_xmlstate].
  rewrite Hapi, Hd. intros [= <-]. reflexivity.
Qed.

(** The objects under a key are flushed one after the other. *)
Lemma flush_object key i ps v o (h : list doc) d s' :
  OD.get key ps = Some v -> child_at v i = Some o -> wf_builder o ->
  nth_error h api = Some d ->
  (xmlbuilder <- get_self ;;
   with_child key i (flush (xmlapi (_xmlstate xmlbuilder)))) (state ps h)
  = (s', inr tt) ->
  s' = state ps (list_set h api (apply_writes d (W o))).
Proof.
  intros Hget Hat Hwfo Hd. unfold state.
  unfold bind at 1. unfold get_self at 1, gets at 1. cbn [fst snd _xmlstate].
  rewrite Hapi. unfold with_child. cbn [fst snd _propstore].
  rewrite Hget, Hat.
  destruct (flush api (o, h)) as [[o' h'] r] eqn:Hrun.
  intros [= <- ->].
  destruct (Hflush o h d o' h' Hwfo Hd Hrun) as [-> ->].
  rewrite put_child_same by exact Hat.
  unfold with_propstore. cbn [cls _propstore _xmlstate].
  now rewrite (ODFacts.set_same _ _ _ Hget).
Qed.

Lemma flush_objects key ps v :
  OD.get key ps = Some v ->
  (forall i o, child_at v i = Some o -> wf_builder o) ->
  forall n a (h : list doc) d s',
    a + n = List.length (held_objects (Some v)) ->
    nth_error h api = Some d ->
    for_each (seq a n)
      (fun i => xmlbuilder <- get_self ;;
                with_child key i (flush (xmlapi (_xmlstate xmlbuilder))))
      (state ps h) = (s', inr tt) ->
    s' = state ps
           (list_set h api
              (apply_writes d
                 (flat_map W (skipn a (held_objects (Some v)))))).
Proof.
  intros Hget Hwfv. induction n as [|n IH]; intros a h d s' Hlen Hd Hrun.
  - cbn [seq for_each] in Hrun. injection Hrun as <-.
    rewrite skipn_all2 by lia. cbn [flat_map].
    unfold apply_writes. cbn [fold_left]. now rewrite list_set_same.
  - cbn [seq for_each] in Hrun. apply bind_inr in Hrun.
    destruct Hrun as (s1 & [] & Hone & Hrest).
    destruct (nth_error (held_objects (Some v)) a) as [o|] eqn:Ha;
      [|apply nth_error_None in Ha; lia].
    assert (Hat : child_at v a = Some o) by now rewrite child_at_held.
    rewrite (flush_object key a ps v o h d s1 Hget Hat (Hwfv a o Hat) Hd Hone)
      in Hrest.
    eapply IH in Hrest; [|lia|now apply (nth_list_set _ _ _ d)].
    rewrite Hrest, list_set_twice. do 2 f_equal.
    rewrite <- apply_writes_app. f_equal.
    assert (Hskip : skipn a (held_objects (Some v))
                    = o :: skipn (S a) (held_objects (Some v))).
    { clear -Ha. revert a Ha.
      induction (held_objects (Some v)) as [|x l IHl]; intros [|a] Ha;
        cbn in *; try discriminate.
      - now injection Ha as ->.
      - now apply IHl. }
    rewrite Hskip. reflexivity.
Qed.

(** What the loop over the objects of a child property starts from. *)
Lemma getattr_children_inr cp ps (h : list doc) s1 objs :
  getattr_children cp (state ps h) = (s1, inr objs) ->
  exists ps',
    s1 = state ps' h
    /\ objs = held_objects (OD.get (child_propname cp) ps')
    /\ (ps' = ps
        \/ (OD.get (child_propname cp) ps = None
            /\ ps' = OD.set (child_propname cp) (PList []) ps)).
Proof.
  unfold getattr_children, XMLChildProperty_get, state. run.
  cbn [_propstore].
  destruct (OD.get (child_propname cp) ps) as [v|] eqn:Hget.
  - run. intros Hrun. exists ps. rewrite Hget.
    destruct (is_single cp); destruct v as [[| | |[|]]|o|l];
      cbn in Hrun; try discriminate; injection Hrun as <- <-;
      (split; [reflexivity|]; split; [reflexivity | now left]).
  - destruct (is_single cp); run; [discriminate|].
    unfold with_propstore. cbn [cls _propstore _xmlstate].
    intros [= <- <-]. exists (OD.set (child_propname cp) (PList []) ps).
    rewrite ODFacts.get_set_eq.
    split; [reflexivity|]. split; [reflexivity | now right].
Qed.

Lemma emit_child key cp ps (h : list doc) d s' :
  inv ps -> find_xmlprop (class_of c) key = None ->
  find_childprop (class_of c) key = Some cp ->
  nth_error h api = Some d ->
  emit_key (class_of c) flush key (state ps h) = (s', inr tt) ->
  exists ps',
    s' = state ps' (list_set h api (apply_writes d (seg key))) /\ inv ps'.
Proof.
  intros Hinv Hnone Hfind Hd. unfold emit_key, seg, key_writes.
  cbn [cls _propstore _xmlstate]. rewrite Hnone, Hfind.
  assert (Hname : child_propname cp = key).
  { unfold find_childprop in Hfind. apply find_some in Hfind.
    destruct Hfind as [_ E]. apply String.eqb_eq in E. now symmetry. }
  intros Hrun. apply bind_inr in Hrun. destruct Hrun as (s1 & objs & Hget & Hloop).
  apply getattr_children_inr in Hget.
  destruct Hget as (ps' & -> & -> & Hps'). rewrite Hname in *.
  assert (Hinv' : inv ps').
  { destruct Hps' as [->|[Hnone' ->]]; [exact Hinv|].
    intros k. destruct (String.eqb_spec k key) as [->|Hne].
    - right. rewrite ODFacts.get_set_eq. split; [|reflexivity].
      destruct (Hinv key) as [E|[_ E]]; congruence.
    - rewrite ODFacts.get_set_ne by exact Hne. apply Hinv. }
  exists ps'. split; [|exact Hinv'].
  rewrite <- (held_inv ps' key Hinv').
  destruct (OD.get key ps') as [v|] eqn:Hv.
  - pose proof (flush_objects key ps' v Hv) as Hall.
    specialize (Hall (fun i o Hat =>
                        held_wf key i o
                          ltac:(rewrite <- (held_inv ps' key Hinv'), Hv,
                                  <- child_at_held; exact Hat))).
    specialize (Hall (List.length (held_objects (Some v))) 0 h d s'
                     eq_refl Hd Hloop).
    exact Hall.
  - cbn [held_objects List.length seq for_each] in *. injection Hloop as <-.
    cbn [flat_map]. unfold apply_writes. cbn [fold_left].
    now rewrite list_set_same.
Qed.

(** The loop over [do_order]. *)
Lemma emit_keys (keys : list string) :
  forall ps (h : list doc) d s',
    inv ps -> nth_error h api = Some d ->
    for_each keys (emit_key (class_of c) flush) (state ps h) = (s', inr tt) ->
    exists ps',
      s' = state ps' (list_set h api (apply_writes d (flat_map seg keys)))
      /\ inv ps'.
Proof.
  induction keys as [|key keys IH]; intros ps h d s' Hinv Hd Hrun.
  - cbn [for_each] in Hrun. injection Hrun as <-. exists ps.
    split; [|exact Hinv]. cbn [flat_map]. unfold apply_writes. cbn [fold_left].
    now rewrite list_set_same.
  - cbn [for_each] in Hrun. apply bind_inr in Hrun.
    destruct Hrun as (s1 & [] & Hone & Hrest).
    assert (Hstep : exists ps1',
               s1 = state ps1' (list_set h api (apply_writes d (seg key)))
               /\ inv ps1').
    { destruct (find_xmlprop (class_of c) key) as [p|] eqn:Hp.
      - exists ps. split; [|exact Hinv].
        now apply (emit_scalar key p ps h d s1).
      - destruct (find_childprop (class_of c) key) as [cp|] eqn:Hcp.
        + now apply (emit_child key cp ps h d s1).
        + exists ps. split; [|exact Hinv].
          unfold emit_key in Hone. rewrite Hp, Hcp in Hone.
          injection Hone as <-. unfold seg, key_writes.
          cbn [cls _propstore _xmlstate]. rewrite Hp, Hcp.
          unfold apply_writes. cbn [fold_left]. now rewrite list_set_same. }
    destruct Hstep as (ps1' & -> & Hinv1).
    eapply IH in Hrest; [|exact Hinv1|now apply (nth_list_set _ _ _ d)].
    destruct Hrest as (ps' & -> & Hinv'). exists ps'. split; [|exact Hinv'].
    rewrite list_set_twice. cbn [flat_map]. now rewrite apply_writes_app.
Qed.

End Emission.

Section Flush.
Context {doc : Type} `{XMLAPI doc} `{Env}.

Lemma wf_with_xmlstate b st : wf_builder b -> wf_builder (with_xmlstate b st).
Proof. intros Hwf. inversion Hwf; subst. now constructor. Qed.

(** The flush as a list of writes: when [_add_parse_bits] returns, the
    document at [api] is the one it found there with [writes] applied in
    order, every other document is as before, and so is the instance. *)
Lemma flush_writes depth :
  forall api b (h : list doc) d b' h',
    wf_builder b -> nth_error h api = Some d ->
    _add_parse_bits depth api (b, h) = ((b', h'), inr tt) ->
    b' = b
    /\ h' = list_set h api (apply_writes d (writes (doc:=doc) depth api b)).
Proof.
  induction depth as [|depth IH]; intros api b h d b' h' Hwf Hd Hrun;
    [discriminate|].
  destruct (add_parse_bits_restores (S depth) api b h Hwf) as (h2 & r & Hsame & _).
  pose proof Hrun as Hrun2. rewrite Hsame in Hrun2.
  injection Hrun2 as Eb Eh Er. subst b'. clear Hsame Eh Er h2 r.
  split; [reflexivity|]. revert Hrun.
  cbn [_add_parse_bits]. unfold try_finally, restore.
  unfold bind at 1. unfold get_self at 1, gets at 1. cbn [fst snd].
  unfold bind at 1. unfold set_self_xmlstate at 1, modify at 1. cbn [fst snd].
  set (b0 := with_xmlstate b (set_xmlapi (_xmlstate b) api)).
  destruct (_do_add_parse_bits (_add_parse_bits depth) (b0, h))
    as [[b2 h3] r2] eqn:Hbody.
  unfold modify. cbn [fst snd]. intros [= _ <- ->].
  unfold _do_add_parse_bits in Hbody.
  unfold bind at 1 in Hbody. unfold get_self at 1, gets at 1 in Hbody.
  cbn [fst snd] in Hbody.
  apply bind_inr in Hbody. destruct Hbody as (s1 & [] & Hdef & Hbody).
  assert (Hcls0 : cls b0 = cls b) by now destruct b.
  rewrite (defaults_docs _ b0 [] h) in Hdef.
  rewrite Hcls0 in Hdef, Hbody.
  change (fst (fst (for_each (_all_xml_props (class_of (cls b))) _set_default
                      (b0, ([] : list doc)))))
    with (at_emission (doc:=doc) api b) in Hdef.
  injection Hdef as <- _.
  unfold bind at 1 in Hbody. unfold get_self at 1, gets at 1 in Hbody.
  cbn [fst snd] in Hbody.
  pose proof (defaults_wf (_all_xml_props (class_of (cls b))) b0
                ([] : list doc) (wf_with_xmlstate b _ Hwf)) as Hwf1.
  destruct (defaults_place (_all_xml_props (class_of (cls b))) b0
              ([] : list doc)) as [Hc1 Hst1].
  change (fst (fst (for_each (_all_xml_props (class_of (cls b))) _set_default
                      (b0, ([] : list doc)))))
    with (at_emission (doc:=doc) api b) in Hwf1, Hc1, Hst1.
  rewrite Hcls0 in Hc1.
  assert (Hst0 : _xmlstate b0 = set_xmlapi (_xmlstate b) api) by now destruct b.
  rewrite Hst0 in Hst1.
  cbn [writes]. 
  destruct (at_emission (doc:=doc) api b) as [c1 ps1 st1] eqn:Hb1.
  cbn [cls _propstore _xmlstate] in *. subst c1 st1.
  assert (Hnd : NoDup (OD.keys ps1)) by now inversion Hwf1.
  rewrite (do_order_parts (class_of (cls b)) (OD.keys ps1) Hnd) in Hbody.
  fold (emission_keys (class_of (cls b)) (OD.keys ps1)) in Hbody.
  destruct (emit_keys api (_add_parse_bits depth) (writes (doc:=doc) depth api)
              (IH api) (cls b) (set_xmlapi (_xmlstate b) api) ps1
              ltac:(now destruct (_xmlstate b)) Hwf1
              (emission_keys (class_of (cls b)) (OD.keys ps1))
              ps1 h d (b2, h3) ltac:(intros k; now left) Hd Hbody)
    as (ps' & Hs' & _).
  injection Hs' as _ ->. reflexivity.
Qed.
End Flush.

Section EmissionOrder.
Context {doc : Type} `{XMLAPI doc} `{Env}.

(** C1 (amended). When [_add_parse_bits] returns, the instance is as it
    was and the document it was given is the one found there with a
    sequence of writes applied, every other document being as before. The
    sequence is in three parts, which are the three parts of [do_order]:
    first the names of the priority list [_XML_PROP_ORDER] that are staged
    scalars or child properties, in the order of that list; then the other
    staged scalars in the order of the property store; then the other child
    properties, sorted by name. For a scalar the write is that of the
    staged value at the path of its descriptor, for a child property the
    writes are those of the emissions of the objects it holds. The property
    store is the one the loop finds, with the defaults of the class staged;
    its order is that of the latest staging of each name: a setter that
    returns takes the name of its descriptor out of its place and puts it
    last. *)
Theorem emission_order depth api b (h : list doc) d b' h' :
  wf_builder b -> nth_error h api = Some d ->
  _add_parse_bits (S depth) api (b, h) = ((b', h'), inr tt) ->
  let c := class_of (cls b) in
  let self := at_emission (doc:=doc) api b in
  let keys := OD.keys (_propstore self) in
  let staged := filter (fun k => negb (in_childprops c k)) keys in
  let order := _XML_PROP_ORDER c in
  let children := sorted (map child_propname (_all_child_props c)) in
  let first := uniq (filter (fun k => mem_str k staged || in_childprops c k)
                            order) in
  let second := filter (fun k => negb (mem_str k order)) staged in
  let third := uniq (filter (fun k => negb (mem_str k order)) children) in
  let written := key_writes (writes (doc:=doc) depth api) self in
  do_order c keys = (first ++ second ++ third)%list
  /\ b' = b
  /\ h' = list_set h api
            (apply_writes d
               (flat_map written first ++ flat_map written second
                ++ flat_map written third))
  /\ StronglySorted str_le children
  /\ Permutation (map child_propname (_all_child_props c)) children
  /\ forall (p : XMLProperty) (val : pyval) (validate : bool)
            (o o' : XMLBuilder) (g g' : list doc),
       setter p val validate (o, g) = ((o', g'), inr tt) ->
       OD.keys (_propstore o')
       = (filter (fun k => negb (String.eqb (_propname p) k))
                 (OD.keys (_propstore o)) ++ [_propname p])%list.
Proof.
  intros Hwf Hd Hrun c self keys staged order children first second third
         written.
  assert (Hcls : cls self = cls b).
  { unfold self, at_emission.
    destruct (defaults_place (_all_xml_props (class_of (cls b)))
                (with_xmlstate b (set_xmlapi (_xmlstate b) api))
                ([] : list doc)) as [-> _]. now destruct b. }
  assert (Hnd : NoDup keys).
  { pose proof (defaults_wf (_all_xml_props (class_of (cls b)))
                  (with_xmlstate b (set_xmlapi (_xmlstate b) api))
                  ([] : list doc) (wf_with_xmlstate b _ Hwf)) as Hwf1.
    fold (at_emission (doc:=doc) api b) in Hwf1. fold self in Hwf1.
    unfold keys. now inversion Hwf1. }
  split; [exact (do_order_parts c keys Hnd)|].
  destruct (flush_writes (S depth) api b h d b' h' Hwf Hd Hrun) as [Hb Hh].
  split; [exact Hb|]. split.
  - rewrite Hh. cbn [writes]. fold self. rewrite Hcls. fold c. fold keys.
    unfold emission_keys. fold staged. fold order. fold children.
    fold first. fold second. fold third. fold written.
    now rewrite !flat_map_app.
  - split; [apply sorted_sorted|]. split; [apply sorted_sorted|].
    intros p val validate o o' g g' Hset.
    destruct (setter_effect p val validate o g) as (o1 & r & Hrun1 & _ & _ & Hr).
    rewrite Hrun1 in Hset. injection Hset as Ho Hg Hres. subst o1 r.
    destruct Hr as (v & _ & ->). apply ODFacts.keys_restage.
Qed.

End EmissionOrder.

Section IntWriteFacts.
Context {doc : Type} `{XMLAPI doc} `{Env}.

(** A name of the property store is a key of the emission. *)
Lemma In_emission_keys (c : XMLBuilderClass) (keys : list string) k :
  In k keys -> In k (emission_keys c keys).
Proof.
  intros Hin. unfold emission_keys. rewrite !in_app_iff.
  destruct (in_childprops c k) eqn:Hchild, (mem_str k (_XML_PROP_ORDER c)) eqn:Hord.
  - left. apply uniq_In. apply filter_In. split; [now apply mem_str_In|].
    rewrite Hchild. apply orb_true_r.
  - right. right. apply uniq_In. apply filter_In. split; [|now rewrite Hord].
    eapply Permutation_in; [apply sorted_perm|]. now apply in_childprops_In.
  - left. apply uniq_In. apply filter_In. split; [now apply mem_str_In|].
    apply orb_true_iff. left. apply mem_str_In. apply filter_In.
    split; [exact Hin | now rewrite Hchild].
  - right. left. apply filter_In. split; [|now rewrite Hord].
    apply filter_In. split; [exact Hin | now rewrite Hchild].
Qed.

(** Staging a default leaves what is staged as it is. *)
Lemma set_default_keeps p b (h : list doc) k v :
  OD.get k (_propstore b) = Some v ->
  OD.get k (_propstore (fst (fst (_set_default p (b, h))))) = Some v.
Proof.
  intros Hget. unfold _set_default, _default_get_value.
  unfold bind at 1. unfold bind at 1. unfold get_self at 1, gets at 1.
  cbn [fst snd].
  destruct (negb (is_build (_xmlstate b))); [exact Hget|].
  destruct (OD.mem (_propname p) (_propstore b)) eqn:Hmem; [exact Hget|].
  assert (Hne : k <> _propname p).
  { intros ->. apply ODFacts.mem_false_get in Hmem. congruence. }
  assert (Hset : forall val,
             OD.get k (_propstore (fst (fst (setter p val false (b, h)))))
             = Some v).
  { intros val.
    destruct (setter_effect p val false b h) as (b' & r & -> & _ & _ & Hr).
    cbn [fst]. destruct r as [e|u]; [now subst b'|].
    destruct Hr as (w & _ & ->).
    now rewrite ODFacts.get_set_ne, ODFacts.get_del_ne. }
  destruct (_default_cb p) as [cb|]; [|exact Hget].
  destruct (Py.truthy (_default_name p)); [apply Hset|].
  unfold bind, lift, ret. destruct (cb b) as [e|w]; [exact Hget|].
  cbn [fst snd]. apply Hset.
Qed.

Lemma defaults_keep (props : list XMLProperty) b (h : list doc) k v :
  OD.get k (_propstore b) = Some v ->
  OD.get k (_propstore (fst (fst (for_each props _set_default (b, h)))))
  = Some v.
Proof.
  revert b. induction props as [|p props IH]; intros b Hget; [exact Hget|].
  cbn [for_each]. unfold bind.
  pose proof (set_default_keeps p b h k v Hget) as Hone.
  destruct (set_default_effect p b h) as (b' & r & Hrun & _).
  rewrite Hrun in *. cbn [fst] in Hone.
  destruct r as [e|[]]; [exact Hone|]. now apply IH.
Qed.

Lemma setter_wf p val validate b (h : list doc) :
  wf_builder b -> wf_builder (fst (fst (setter p val validate (b, h)))).
Proof.
  intros Hwf.
  destruct (setter_effect p val validate b h) as (b' & r & -> & Hc & Hst & Hr).
  cbn [fst]. destruct r as [e|u]; [now subst b'|].
  destruct Hr as (v & _ & Hps).
  destruct b as [c ps st], b' as [c' ps' st']. cbn in Hps. subst ps'.
  inversion Hwf as [c0 ps0 st0 Hnd Hall]; subst.
  constructor.
  - apply wf_set. now apply wf_del.
  - rewrite Forall_forall in *. intros kv Hin. apply In_set in Hin.
    destruct Hin as [->|Hin]; [constructor|].
    apply Hall. now apply In_del in Hin.
Qed.

(** A staged scalar of the class is among the writes of the emission. *)
Lemma staged_is_written depth api b k p v :
  find_xmlprop (class_of (cls b)) k = Some p ->
  OD.get k (_propstore b) = Some (PVal v) ->
  exists before after,
    writes (doc:=doc) (S depth) api b
    = (before
       ++ (make_abs_xpath (set_xmlapi (_xmlstate b) api) (_xpath p), v)
       :: after)%list.
Proof.
  intros Hfind Hget. cbn [writes].
  set (self := at_emission (doc:=doc) api b).
  destruct (defaults_place (_all_xml_props (class_of (cls b)))
              (with_xmlstate b (set_xmlapi (_xmlstate b) api))
              ([] : list doc)) as [Hc Hst].
  fold (at_emission (doc:=doc) api b) in Hc, Hst. fold self in Hc, Hst.
  assert (Hc' : cls self = cls b) by (rewrite Hc; now destruct b).
  assert (Hst' : _xmlstate self = set_xmlapi (_xmlstate b) api)
    by (rewrite Hst; now destruct b).
  assert (Hget' : OD.get k (_propstore self) = Some (PVal v)).
  { unfold self, at_emission. apply defaults_keep. now destruct b. }
  assert (Hin : In k (emission_keys (class_of (cls self))
                        (OD.keys (_propstore self)))).
  { apply In_emission_keys. apply ODFacts.mem_keys. apply ODFacts.mem_get.
    eauto. }
  assert (Hk : key_writes (writes (doc:=doc) depth api) self k
               = [(make_abs_xpath (set_xmlapi (_xmlstate b) api) (_xpath p),
                   v)]).
  { unfold key_writes. now rewrite Hc', Hfind, Hget', Hst'. }
  apply in_split in Hin. destruct Hin as (l1 & l2 & ->).
  rewrite flat_map_app. cbn [flat_map]. rewrite Hk.
  exists (flat_map (key_writes (writes (doc:=doc) depth api) self) l1),
         (flat_map (key_writes (writes (doc:=doc) depth api) self) l2).
  reflexivity.
Qed.

(** C6 (amended). For a descriptor made with [is_int=True], without
    [set_converter] and without [do_abspath], and a text that reads as the
    integer [z], in base 16 because it contains [0x] or in base 10
    otherwise, neither the text nor [z] being the sentinel of the
    descriptor: the text is converted to [z] on read; writing [z], or the
    text itself, stages the integer [z]; and when the emission that follows
    returns, the document has received the write of the integer [z] at the
    path of the descriptor. Which of the two bases the text was in is not
    kept. *)
Theorem int_write_stages_integer
    propname xpath validate_cb is_bool is_yesno is_onoff
    default_cb default_name p (text : string) (z : Z) :
  XMLProperty__init__ propname xpath None validate_cb
    is_bool true is_yesno is_onoff default_cb default_name false = inr p ->
  is_default_name p (VStr text) = false ->
  is_default_name p (VInt z) = false ->
  Py.int_of_text (if Py.contains "0x" text then 16%Z else 10%Z) text = Some z ->
  _convert_get_value p (VStr text) = inr (VInt z) /\
  (forall b, _convert_set_value p b (VInt z) = inr (VInt z)) /\
  (forall b, _convert_set_value p b (VStr text) = inr (VInt z)) /\
  (forall depth api val validate b (h : list doc) d b1 h1 b2 h2,
      val = VInt z \/ val = VStr text ->
      wf_builder b ->
      find_xmlprop (class_of (cls b)) propname = Some p ->
      nth_error h api = Some d ->
      setter p val validate (b, h) = ((b1, h1), inr tt) ->
      _add_parse_bits depth api (b1, h1) = ((b2, h2), inr tt) ->
      OD.get propname (_propstore b1) = Some (PVal (VInt z))
      /\ h1 = h /\ b2 = b1
      /\ exists before after,
           h2 = list_set h api
                  (apply_writes d
                     (before
                      ++ (make_abs_xpath (set_xmlapi (_xmlstate b) api) xpath,
                          VInt z)
                      :: after))).
Proof.
  intros Hinit Hname Hname' Hparse.
  apply XMLProperty_init_inv in Hinit. destruct Hinit as [Hp Hone].
  apply only_int in Hone. destruct Hone as (-> & -> & ->).
  assert (Fbool : _is_bool p = false) by now rewrite Hp.
  assert (Fint : _is_int p = true) by now rewrite Hp.
  assert (Fyesno : _is_yesno p = false) by now rewrite Hp.
  assert (Fonoff : _is_onoff p = false) by now rewrite Hp.
  assert (Fabs : _do_abspath p = false) by now rewrite Hp.
  assert (Fconv : _convert_value_for_setter_cb p = None) by now rewrite Hp.
  assert (Fxpath : _xpath p = xpath) by now rewrite Hp.
  assert (Fpropname : _propname p = propname) by now rewrite Hp.
  assert (Htext : Py.int_autobase (VStr text) = inr (VInt z)).
  { unfold Py.int_autobase. cbn [Py.str]. now rewrite Hparse. }
  assert (Hint : forall b, _convert_set_value p b (VInt z) = inr (VInt z)).
  { intros b. unfold _convert_set_value.
    rewrite Hname', Fabs, Fonoff, Fyesno, Fint, Fconv.
    cbn [andb negb Py.is_none]. now rewrite int_autobase_int. }
  assert (Hstr : forall b, _convert_set_value p b (VStr text) = inr (VInt z)).
  { intros b. unfold _convert_set_value.
    rewrite Hname, Fabs, Fonoff, Fyesno, Fint, Fconv.
    cbn [andb negb Py.is_none]. now rewrite Htext. }
  split; [|split; [exact Hint|split; [exact Hstr|]]].
  - unfold _convert_get_value. now rewrite Hname, Fbool, Fint.
  - intros depth api val validate b h d b1 h1 b2 h2 Hval Hwf Hfind Hd Hset Hrun.
    pose proof (setter_wf p val validate b h Hwf) as Hwf1.
    destruct (setter_effect p val validate b h) as (o & r & Hrun1 & Hc & Hst & Hr).
    rewrite Hrun1 in Hset, Hwf1. injection Hset as Ho Hh Hres. subst o h1 r.
    cbn [fst] in Hwf1. destruct Hr as (v & Hconv & Hps).
    assert (Hv : v = VInt z).
    { destruct Hval as [->| ->]; [rewrite Hint in Hconv|rewrite Hstr in Hconv];
        congruence. }
    subst v. rewrite Fpropname in Hps.
    assert (Hget : OD.get propname (_propstore b1) = Some (PVal (VInt z))).
    { rewrite Hps. apply ODFacts.get_set_eq. }
    split; [exact Hget|]. split; [reflexivity|].
    destruct depth as [|depth]; [discriminate|].
    destruct (flush_writes (S depth) api b1 h d b2 h2 Hwf1 Hd Hrun) as [Hb Hh].
    split; [exact Hb|].
    rewrite <- Hc in Hfind.
    destruct (staged_is_written depth api b1 propname p (VInt z) Hfind Hget)
      as (before & after & Hw).
    exists before, after. rewrite Hh, Hw, Hst, Fxpath. reflexivity.
Qed.

End IntWriteFacts.

(** ** The engine at work *)
Section Runs.
#[local] Existing Instance TreeDoc.api.
#[local] Existing Instance WriteLog.api.
#[local] Existing Instance Demo.env.

Ltac distinct := repeat constructor; simpl; intuition discriminate.

Lemma wf_staged_guest : wf_builder Demo.staged_guest.
Proof.
  constructor; [distinct|].
  repeat constructor. distinct.
Qed.

Example parsed_text_parses :
  TreeDoc.parse Demo.parsed_text = inr (Some Demo.parsed_root).
Proof. vm_compute. reflexivity. Qed.

Example int_hex : Py.int_autobase (VStr "0x10") = inr (VInt 16).
Proof. reflexivity. Qed.

Example int_dec : Py.int_autobase (VStr "10") = inr (VInt 10).
Proof. reflexivity. Qed.

Example int_upper_prefix :
  Py.int_autobase (VStr "0X10") = inl (ValueError "invalid literal for int()").
Proof. reflexivity. Qed.

Example int_padded : Py.int_autobase (VStr " -0x_1f ") = inr (VInt (-31)).
Proof. reflexivity. Qed.

Example str_int : Py.str (VInt 16) = "16".
Proof. reflexivity. Qed.

Example replace_all : Py.replace "<a" "<a x" "<a><ab/></a>" = "<a x><a xb/></a>".
Proof. reflexivity. Qed.

Lemma getter_int_autobase_witness :
  XMLProperty__init__ "port" "./address/@port" None None
    false true false false None VNone false = inr Demo.port /\
  _convert_get_value Demo.port (VStr "0x10") = inr (VInt 16) /\
  _convert_get_value Demo.port (VStr "10") = inr (VInt 10) /\
  getter Demo.port (Demo.parsed_disk 1, Demo.parsed_docs)
  = ((Demo.parsed_disk 1, Demo.parsed_docs), inr (VInt 16)).
Proof.
  split; [reflexivity|].
  destruct (getter_int_autobase (doc:=TreeDoc.doc)
              "port" "./address/@port" None None false false false None VNone
              false Demo.port "0x10" eq_refl)
    as (_ & Hhex & Hdec & Hgetter).
  split; [apply Hhex; reflexivity|]. split; [apply Hdec; reflexivity|].
  rewrite (Hgetter (Demo.parsed_disk 1) Demo.parsed_docs (Some Demo.parsed_root));
    reflexivity.
Defined.

(** C5, as stated, fails: a descriptor of the integer kind whose sentinel
    [default_name] is the text [10] reads [10] as that text, not as the
    integer 10. *)
Lemma int_sentinel_reads_as_text :
  exists p,
    XMLProperty__init__ "port" "./address/@port" None None
      false true false false (Some (fun _ => inr (VInt 0))) (VStr "10") false
    = inr p
    /\ _is_int p = true
    /\ _convert_get_value p (VStr "10") = inr (VStr "10")
    /\ _convert_get_value p (VStr "10") <> inr (VInt 10).
Proof.
  eexists. split; [reflexivity|]. split; [reflexivity|].
  split; [reflexivity | discriminate].
Qed.

Lemma setter_rejected_witness :
  _validate_cb Demo.name = Some Demo.validate_name /\
  Demo.validate_name Demo.new_guest (VStr EmptyString)
  = Some (ValueError "A name must be specified.") /\
  setter Demo.name (VStr EmptyString) true (Demo.new_guest, Demo.new_docs)
  = ((Demo.new_guest, Demo.new_docs),
     inl (ValueError "A name must be specified.")).
Proof.
  split; [reflexivity|]. split; [reflexivity|].
  apply (setter_rejected (doc:=TreeDoc.doc) Demo.name (VStr EmptyString)
           Demo.new_guest Demo.new_docs Demo.validate_name
           (ValueError "A name must be specified."));
    reflexivity.
Defined.

Lemma getter_default_witness :
  _default_cb Demo.type_ = Some (fun _ => inr (VStr "kvm")) /\
  OD.mem (_propname Demo.type_) (_propstore Demo.new_guest) = false /\
  _is_yesno Demo.type_ = false /\ _is_onoff Demo.type_ = false /\
  is_build (_xmlstate Demo.new_guest) = true /\
  getter Demo.type_ (Demo.new_guest, Demo.new_docs)
  = ((Demo.new_guest, Demo.new_docs), inr (VStr "kvm")).
Proof.
  do 5 (split; [reflexivity|]).
  destruct (getter_default (doc:=TreeDoc.doc) Demo.type_
              (fun _ => inr (VStr "kvm")) Demo.new_guest Demo.new_docs
              eq_refl eq_refl eq_refl eq_refl) as [Hbuild _].
  destruct (Hbuild eq_refl) as [-> _]. reflexivity.
Defined.

(** C4, as stated, fails: the descriptor [readonly], of the boolean kind,
    has a default callback that computes [None]; on a disk built from
    scratch with nothing staged its getter returns [False], the read
    conversion of that default, and not the computed default. *)
Lemma getter_default_is_converted :
  is_build (_xmlstate Demo.new_disk) = true /\
  OD.mem (_propname Demo.readonly) (_propstore Demo.new_disk) = false /\
  (exists cb, _default_cb Demo.readonly = Some cb /\
              cb Demo.new_disk = inr VNone) /\
  getter Demo.readonly (Demo.new_disk, Demo.new_disk_docs)
  = ((Demo.new_disk, Demo.new_disk_docs), inr (VBool false)) /\
  VBool false <> VNone.
Proof.
  split; [reflexivity|]. split; [reflexivity|].
  split; [eexists; split; reflexivity|].
  split; [reflexivity | discriminate].
Qed.

(** The same on a descriptor of the yes/no kind whose default callback
    computes [True]: the getter returns [False], while the emission writes
    [yes]. *)
Example getter_default_yesno :
  getter Demo.autostart (Demo.new_guest, Demo.new_docs)
  = ((Demo.new_guest, Demo.new_docs), inr (VBool false)) /\
  snd (get_xml 3 (Demo.new_guest, Demo.new_docs))
  = inr ("<domain type='kvm'><autostart enabled='yes'/></domain>"
           ++ String Py.newline EmptyString).
Proof. split; vm_compute; reflexivity. Qed.

(** The emission of the staged domain on an empty record of writes: the
    type and the name, then the model of the [cpu], which are the names of
    the priority list; then the description, the memory size and the
    default of [autostart], in the order of the property store; nothing
    for the disks, of which there are none. *)
Lemma emission_order_witness :
  wf_builder Demo.staged_guest /\
  nth_error ([[]] : list WriteLog.doc) 0 = Some [] /\
  _add_parse_bits 3 0 (Demo.staged_guest, [[]] : list WriteLog.doc)
  = ((Demo.staged_guest,
      [[("./@type", VStr "kvm"); ("./name", VStr "vm");
        ("./cpu/model", VStr "host"); ("./description", VStr "d");
        ("./memory", VInt 16); ("./autostart/@enabled", VStr "yes")]]),
     inr tt) /\
  do_order Demo.Guest
    ["cpu"; "description"; "name"; "memory"; "autostart"; "type"]
  = (["type"; "name"; "cpu"] ++ ["description"; "memory"; "autostart"]
     ++ ["disks"])%list /\
  [[("./@type", VStr "kvm"); ("./name", VStr "vm");
    ("./cpu/model", VStr "host"); ("./description", VStr "d");
    ("./memory", VInt 16); ("./autostart/@enabled", VStr "yes")]]
  = list_set ([[]] : list WriteLog.doc) 0
      (apply_writes []
         ([("./@type", VStr "kvm"); ("./name", VStr "vm");
           ("./cpu/model", VStr "host")]
          ++ [("./description", VStr "d"); ("./memory", VInt 16);
              ("./autostart/@enabled", VStr "yes")]
          ++ [])).
Proof.
  assert (Hrun : _add_parse_bits 3 0
                   (Demo.staged_guest, [[]] : list WriteLog.doc)
                 = ((Demo.staged_guest,
                     [[("./@type", VStr "kvm"); ("./name", VStr "vm");
                       ("./cpu/model", VStr "host");
                       ("./description", VStr "d");
                       ("./memory", VInt 16);
                       ("./autostart/@enabled", VStr "yes")]]),
                    inr tt)) by (vm_compute; reflexivity).
  split; [exact wf_staged_guest|]. split; [reflexivity|].
  split; [exact Hrun|].
  destruct (emission_order (doc:=WriteLog.doc) 2 0 Demo.staged_guest
              [[]] [] _ _ wf_staged_guest eq_refl Hrun)
    as (Hord & _ & Hdocs & _).
  split; [exact Hord | exact Hdocs].
Defined.

Lemma int_write_stages_integer_witness :
  XMLProperty__init__ "port" "./address/@port" None None
    false true false false None VNone false = inr Demo.port /\
  is_default_name Demo.port (VStr "0x10") = false /\
  is_default_name Demo.port (VInt 16) = false /\
  Py.int_of_text (if Py.contains "0x" "0x10" then 16%Z else 10%Z) "0x10"
  = Some 16%Z /\
  _convert_set_value Demo.port Demo.new_disk (VStr "0x10") = inr (VInt 16) /\
  _convert_set_value Demo.port Demo.new_disk (VInt 16) = inr (VInt 16) /\
  (setter Demo.port (VStr "0x10") true ;; _add_parse_bits 2 0)
    (Demo.new_disk, [[]] : list WriteLog.doc)
  = ((mkXMLBuilder "Disk" [("port", PVal (VInt 16))]
        (Demo.state_at "disk" EmptyString EmptyString 0 true),
      [[("./address/@port", VInt 16); ("./target/@bus", VStr "virtio");
        ("./readonly", VNone)]]),
     inr tt) /\
  exists before after,
    [[("./address/@port", VInt 16); ("./target/@bus", VStr "virtio");
      ("./readonly", VNone)]]
    = list_set ([[]] : list WriteLog.doc) 0
        (apply_writes [] (before ++ ("./address/@port", VInt 16) :: after)).
Proof.
  do 4 (split; [reflexivity|]).
  destruct (int_write_stages_integer (doc:=WriteLog.doc)
              "port" "./address/@port" None false false false None VNone
              Demo.port "0x10" 16%Z eq_refl eq_refl eq_refl eq_refl)
    as (_ & Hint & Htext & Hflush).
  split; [apply Htext|]. split; [apply Hint|].
  split; [vm_compute; reflexivity|].
  destruct (Hflush 2 0 (VStr "0x10") true Demo.new_disk
              ([[]] : list WriteLog.doc) []
              (mkXMLBuilder "Disk" [("port", PVal (VInt 16))]
                 (Demo.state_at "disk" EmptyString EmptyString 0 true))
              [[]]
              (mkXMLBuilder "Disk" [("port", PVal (VInt 16))]
                 (Demo.state_at "disk" EmptyString EmptyString 0 true))
              [[("./address/@port", VInt 16); ("./target/@bus", VStr "virtio");
                ("./readonly", VNone)]]
              (or_intror eq_refl)
              ltac:(repeat constructor)
              eq_refl eq_refl
              ltac:(vm_compute; reflexivity)
              ltac:(vm_compute; reflexivity))
    as (_ & _ & _ & before & after & Hdocs).
  exists before, after. exact Hdocs.
Defined.

(** C6, as stated, fails: the first disk of the parsed domain holds its
    port as [0x10]. The getter reads it as 16, the value it reads from
    [16] as well; writing 16 back, the emission hands the integer 16 to the
    write of the document, and rendering leaves [16] in the document, not a
    text in base 16. *)
Lemma hex_not_rerendered :
  TreeDoc.read (Some Demo.parsed_root) "./devices/disk[1]/address/@port" false
  = VStr "0x10" /\
  with_child "disks" 0 (getter Demo.port) (Demo.parsed_guest, Demo.parsed_docs)
  = ((Demo.parsed_guest, Demo.parsed_docs), inr (VInt 16)) /\
  _convert_get_value Demo.port (VStr "0x10")
  = _convert_get_value Demo.port (VStr "16") /\
  snd (fst ((with_child "disks" 0 (setter Demo.port (VInt 16) true) ;;
             _add_parse_bits 3 0)
              (Demo.parsed_guest, [[]] : list WriteLog.doc)))
  = [[("./devices/disk[1]/address/@port", VInt 16)]] /\
  (exists s',
      (with_child "disks" 0 (setter Demo.port (VInt 16) true) ;;
       with_child "disks" 0 (get_xml 2)) (Demo.parsed_guest, Demo.parsed_docs)
      = (s', inr ("<disk><source file='/a.img'/><address port='16'/></disk>"
                    ++ String Py.newline EmptyString)) /\
      map (fun d => TreeDoc.read d "./devices/disk[1]/address/@port" false)
          (snd s')
      = [VStr "16"]) /\
  Py.contains "0x" "16" = false.
Proof.
  split; [reflexivity|]. split; [vm_compute; reflexivity|].
  split; [reflexivity|]. split; [vm_compute; reflexivity|].
  split; [|reflexivity].
  eexists. split; vm_compute; reflexivity.
Qed.

(** C1, as stated, fails: a description is staged, then a memory size, then
    the description again. Neither is in the priority list. The emission
    writes the memory size before the description, which was staged
    first. *)
Lemma emission_follows_latest_staging :
  snd (fst ((Demo.stage_twice ;; _add_parse_bits 3 0)
              (Demo.new_guest, [[]] : list WriteLog.doc)))
  = [[("./@type", VStr "kvm"); ("./memory", VInt 1);
      ("./description", VStr "second");
      ("./autostart/@enabled", VStr "yes")]] /\
  mem_str "description" (_XML_PROP_ORDER Demo.Guest) = false /\
  mem_str "memory" (_XML_PROP_ORDER Demo.Guest) = false.
Proof. repeat split; vm_compute; reflexivity. Qed.

Lemma get_xml_build_idempotent_witness :
  wf_builder Demo.staged_guest /\
  is_build (_xmlstate Demo.staged_guest) = true /\
  exists r,
    get_xml 3 (Demo.staged_guest, Demo.new_docs)
    = ((Demo.staged_guest, Demo.new_docs), r) /\
    (first <- get_xml 3 ;; second <- get_xml 3 ;; ret (first, second))
      (Demo.staged_guest, Demo.new_docs)
    = ((Demo.staged_guest, Demo.new_docs),
       match r with
       | inr text => inr (text, text)
       | inl e => inl e
       end).
Proof.
  split; [exact wf_staged_guest|]. split; [reflexivity|].
  destruct (get_xml_build_idempotent (doc:=TreeDoc.doc) 3 Demo.staged_guest
              Demo.new_docs wf_staged_guest eq_refl) as (r & Hone & Htwo & _).
  exists r. split; assumption.
Defined.

(** What that call returns. *)
Example get_xml_staged_guest :
  get_xml 3 (Demo.staged_guest, Demo.new_docs)
  = ((Demo.staged_guest, Demo.new_docs),
     inr ("<domain type='kvm'><name>vm</name><cpu><model>host</model></cpu><description>d</description><memory>16</memory><autostart enabled='yes'/></domain>"
            ++ String Py.newline EmptyString)).
Proof. vm_compute. reflexivity. Qed.

Lemma get_xml_trailing_newline_witness :
  get_xml 3 (Demo.staged_guest, Demo.new_docs)
  = ((Demo.staged_guest, Demo.new_docs),
     inr ("<domain type='kvm'><name>vm</name><cpu><model>host</model></cpu><description>d</description><memory>16</memory><autostart enabled='yes'/></domain>"
            ++ String Py.newline EmptyString)) /\
  Py.endswith_char
    ("<domain type='kvm'><name>vm</name><cpu><model>host</model></cpu><description>d</description><memory>16</memory><autostart enabled='yes'/></domain>"
       ++ String Py.newline EmptyString) Py.newline = true.
Proof.
  split; [exact get_xml_staged_guest|].
  destruct (get_xml_trailing_newline (doc:=TreeDoc.doc) 3 Demo.staged_guest
              Demo.new_docs _ _ get_xml_staged_guest) as (d & _ & _ & _ & Hend).
  apply Hend. discriminate.
Defined.

(** An instance whose rendering is empty: the text returned is empty. *)
Example get_xml_after_clear :
  snd ((clear 4 false ;; get_xml 3) (Demo.parsed_guest, Demo.parsed_docs))
  = inr EmptyString.
Proof. vm_compute. reflexivity. Qed.

(** The first disk of the parsed domain, whose position ends with an
    index, is cleared without [leave_stub]: its node is blanked in place,
    and the second disk stays the second. The parsed domain itself, at the
    root, is cleared without [leave_stub]: its node is removed. *)
Lemma clear_policy_witness :
  clear 1 false (Demo.parsed_disk 1, Demo.parsed_docs)
  = ((Demo.parsed_disk 1,
      [Some (TreeDoc.Node "domain" [("type", "kvm")] EmptyString
               [TreeDoc.Node "name" [] "vm1" [];
                TreeDoc.Node "devices" [] EmptyString
                  [TreeDoc.Node "disk" [] EmptyString [];
                   TreeDoc.Node "disk" [] EmptyString
                     [TreeDoc.Node "source" [("file", "/b.img")]
                                   EmptyString []]]])]),
     inr tt)
  /\ [Some (TreeDoc.Node "domain" [("type", "kvm")] EmptyString
              [TreeDoc.Node "name" [] "vm1" [];
               TreeDoc.Node "devices" [] EmptyString
                 [TreeDoc.Node "disk" [] EmptyString [];
                  TreeDoc.Node "disk" [] EmptyString
                    [TreeDoc.Node "source" [("file", "/b.img")]
                                  EmptyString []]]])]
     = list_set Demo.parsed_docs 0
         (node_clear (Some Demo.parsed_root) "./devices/disk[1]")
  /\ snd (fst (clear 4 false (Demo.parsed_guest, Demo.parsed_docs)))
     = list_set
         (snd (fst (clear_props 3 (clear 3 false)
                      (Demo.parsed_guest, Demo.parsed_docs))))
         0 (node_force_remove
              (Some (TreeDoc.Node "domain" [("type", "kvm")] EmptyString
                       [TreeDoc.Node "name" [] "vm1" [];
                        TreeDoc.Node "devices" [] EmptyString []]))
              ".").
Proof.
  assert (Hdisk : clear 1 false (Demo.parsed_disk 1, Demo.parsed_docs)
                  = ((Demo.parsed_disk 1,
                      snd (fst (clear 1 false
                                  (Demo.parsed_disk 1, Demo.parsed_docs)))),
                     inr tt))
    by (vm_compute; reflexivity).
  assert (Hroot : clear 4 false (Demo.parsed_guest, Demo.parsed_docs)
                  = ((fst (fst (clear 4 false
                                  (Demo.parsed_guest, Demo.parsed_docs))),
                      snd (fst (clear 4 false
                                  (Demo.parsed_guest, Demo.parsed_docs)))),
                     inr tt))
    by (vm_compute; reflexivity).
  destruct (clear_policy (doc:=TreeDoc.doc) 0 false (Demo.parsed_disk 1)
              Demo.parsed_docs _ _ Hdisk)
    as (h1 & d & Hprops & _ & _ & Hdoc & _ & Hindexed & _).
  destruct (clear_policy (doc:=TreeDoc.doc) 3 false Demo.parsed_guest
              Demo.parsed_docs _ _ Hroot)
    as (h1' & d' & Hprops' & _ & _ & Hdoc' & _ & _ & Hplain).
  vm_compute in Hprops. injection Hprops as <-.
  vm_compute in Hdoc. injection Hdoc as <-.
  specialize (Hindexed "./devices/disk" 1 eq_refl eq_refl eq_refl).
  specialize (Hplain "."%char [] eq_refl eq_refl eq_refl eq_refl).
  split; [|split].
  - vm_compute. reflexivity.
  - vm_compute. reflexivity.
  - rewrite Hplain. 
    assert (E : clear_props 3 (clear 3 false)
                  (Demo.parsed_guest, Demo.parsed_docs)
                = ((fst (fst (clear 4 false
                                (Demo.parsed_guest, Demo.parsed_docs))), h1'),
                   inr tt)) by exact Hprops'.
    rewrite E. cbn [fst snd]. f_equal.
    vm_compute in E. injection E as <-.
    vm_compute in Hdoc'. injection Hdoc' as <-. reflexivity.
Defined.

(** C9, as stated, fails: the parsed domain holds a staged name, and the
    validation of names rejects [None]. [clear] raises at that descriptor,
    with [leave_stub] and without: the node of the domain is neither
    blanked nor removed, and the document is as it was. *)
Lemma clear_raises_before_node :
  let b := fst (fst (setter Demo.name (VStr "vm2") true
                       (Demo.parsed_guest, Demo.parsed_docs))) in
  OD.get "name" (_propstore b) = Some (PVal (VStr "vm2"))
  /\ (exists b', clear 4 true (b, Demo.parsed_docs)
                 = ((b', Demo.parsed_docs),
                    inl (ValueError "A name must be specified.")))
  /\ (exists b', clear 4 false (b, Demo.parsed_docs)
                 = ((b', Demo.parsed_docs),
                    inl (ValueError "A name must be specified.")))
  /\ node_clear (Some Demo.parsed_root) "." <> Some Demo.parsed_root
  /\ node_force_remove (Some Demo.parsed_root) "." <> Some Demo.parsed_root.
Proof.
  cbv zeta. split; [vm_compute; reflexivity|].
  split; [eexists; vm_compute; reflexivity|].
  split; [eexists; vm_compute; reflexivity|].
  split; vm_compute; discriminate.
Qed.

(** Clearing the first disk of the parsed domain, whose position ends with
    an index, leaves a blank node in its place: the document still holds two
    disks and the second is where it was. Removing the node instead leaves
    one disk, and the path of the second addresses nothing. *)
Example clear_indexed_child :
  let cleared := snd (fst (with_child "disks" 0 (clear 2 false)
                             (Demo.parsed_guest, Demo.parsed_docs))) in
  let removed := [TreeDoc.remove_node (Some Demo.parsed_root) "./devices/disk[1]"] in
  is_child_xpath (abs_xpath (_xmlstate (Demo.parsed_disk 1))) = true /\
  map (fun d => TreeDoc.render_at d ".") cleared
  = ["<domain type='kvm'><name>vm1</name><devices><disk/><disk><source file='/b.img'/></disk></devices></domain>"] /\
  map (fun d => TreeDoc.count_nodes d "./devices/disk") cleared = [2] /\
  map (fun d => TreeDoc.read d "./devices/disk[2]/source/@file" false) cleared
  = [VStr "/b.img"] /\
  map (fun d => TreeDoc.count_nodes d "./devices/disk") removed = [1] /\
  map (fun d => TreeDoc.read d "./devices/disk[2]/source/@file" false) removed
  = [VNone].
Proof. cbv zeta. repeat split; vm_compute; reflexivity. Qed.

(** A memory size written as hexadecimal text on the parsed domain reads
    back as the integer. *)
Lemma setter_then_getter_witness :
  let after := fst (setter Demo.memory (VStr "0x10") true
                      (Demo.parsed_guest, Demo.parsed_docs)) in
  exists v,
    _convert_set_value Demo.memory Demo.parsed_guest (VStr "0x10") = inr v /\
    getter Demo.memory after = (after, _convert_get_value Demo.memory v).
Proof.
  cbv zeta.
  apply (setter_then_getter (doc:=TreeDoc.doc) Demo.memory (VStr "0x10") true
           Demo.parsed_guest Demo.parsed_docs).
  vm_compute. reflexivity.
Defined.

(** The [autostart] flag of the new domain, written as [True]. *)
Lemma flag_round_trip_witness :
  exists b1,
    setter Demo.autostart (VBool true) true (Demo.new_guest, Demo.new_docs)
    = ((b1, Demo.new_docs), inr tt) /\
    OD.get "autostart" (_propstore b1) = Some (PVal (VStr "yes")) /\
    getter Demo.autostart (b1, Demo.new_docs)
    = ((b1, Demo.new_docs), inr (VBool true)).
Proof.
  apply (flag_round_trip (doc:=TreeDoc.doc) "autostart" "./autostart/@enabled"
           None true false (Some (fun _ => inr (VBool true))) Demo.autostart
           (VBool true) Demo.new_guest Demo.new_docs).
  - reflexivity.
  - reflexivity.
  - discriminate.
  - discriminate.
Defined.

(** The port of a disk, written as the text [0x1f]. *)
Lemma int_round_trip_witness :
  exists b1,
    setter Demo.port (VStr "0x1f") true (Demo.new_disk, Demo.new_disk_docs)
    = ((b1, Demo.new_disk_docs), inr tt) /\
    OD.get "port" (_propstore b1) = Some (PVal (VInt 31)) /\
    getter Demo.port (b1, Demo.new_disk_docs)
    = ((b1, Demo.new_disk_docs), inr (VInt 31)).
Proof.
  apply (int_round_trip (doc:=TreeDoc.doc) "port" "./address/@port"
           None None Demo.port (VStr "0x1f") (VInt 31)
           Demo.new_disk Demo.new_disk_docs).
  - reflexivity.
  - reflexivity.
  - discriminate.
Defined.

(** The description of the parsed domain. *)
Lemma plain_round_trip_witness :
  exists b1,
    setter Demo.description (VStr "a guest") true
           (Demo.parsed_guest, Demo.parsed_docs)
    = ((b1, Demo.parsed_docs), inr tt) /\
    OD.get "description" (_propstore b1) = Some (PVal (VStr "a guest")) /\
    getter Demo.description (b1, Demo.parsed_docs)
    = ((b1, Demo.parsed_docs), inr (VStr "a guest")).
Proof.
  apply (plain_round_trip (doc:=TreeDoc.doc) "description" "./description"
           None None Demo.description (VStr "a guest")
           Demo.parsed_guest Demo.parsed_docs).
  - reflexivity.
  - discriminate.
Defined.

(** Clearing the staged memory size of the staged domain. *)
Lemma property_clear_reads_none_witness :
  exists b1,
    XMLProperty_clear Demo.memory (Demo.staged_guest, Demo.new_docs)
    = ((b1, Demo.new_docs), inr tt) /\
    OD.get "memory" (_propstore b1) = Some (PVal VNone) /\
    getter Demo.memory (b1, Demo.new_docs) = ((b1, Demo.new_docs), inr VNone).
Proof.
  apply (property_clear_reads_none (doc:=TreeDoc.doc) Demo.memory
           Demo.staged_guest Demo.new_docs).
  - reflexivity.
  - reflexivity.
  - discriminate.
Defined.

(** The new domain is at the root. *)
Lemma make_abs_xpath_root_witness :
  abs_xpath (_xmlstate Demo.new_guest) = "." /\
  make_abs_xpath (_xmlstate Demo.new_guest) "./name" = "./name".
Proof.
  apply (make_abs_xpath_root (_xmlstate Demo.new_guest) "/name");
    reflexivity.
Defined.

(** The file of the second disk of the parsed domain. *)
Lemma make_abs_xpath_nested_witness :
  abs_xpath (_xmlstate (Demo.parsed_disk 2))
  = make_abs_xpath (_xmlstate Demo.parsed_guest) "./devices/disk[2]" /\
  make_abs_xpath (_xmlstate (Demo.parsed_disk 2)) "./source/@file"
  = make_abs_xpath (_xmlstate Demo.parsed_guest)
                   "./devices/disk[2]/source/@file".
Proof.
  apply (make_abs_xpath_nested (_xmlstate Demo.parsed_guest)
           (_xmlstate (Demo.parsed_disk 2)) "/devices/disk[2]"
           "/source/@file").
  - reflexivity.
  - reflexivity.
  - discriminate.
  - reflexivity.
Defined.

(** The second disk of the parsed domain has index 1. *)
Lemma get_xml_idx_rank_witness :
  get_xml_id (Demo.parsed_disk 2) = "./devices/disk[2]" /\
  get_xml_idx (Demo.parsed_disk 2) = inr 1%Z.
Proof.
  apply (get_xml_idx_rank (Demo.parsed_disk 2) "./devices/disk" 2).
  reflexivity.
Defined.

(** Clearing the node of the first disk of the parsed domain. *)
Lemma clear_node_numbered_witness :
  is_child_xpath (abs_xpath (_xmlstate (Demo.parsed_disk 1))) = true /\
  clear_node false (Demo.parsed_disk 1, Demo.parsed_docs)
  = ((Demo.parsed_disk 1,
      list_set Demo.parsed_docs (xmlapi (_xmlstate (Demo.parsed_disk 1)))
        (node_clear (Some Demo.parsed_root)
                    (abs_xpath (_xmlstate (Demo.parsed_disk 1))))),
     inr tt).
Proof.
  apply (clear_node_numbered (doc:=TreeDoc.doc) false (Demo.parsed_disk 1)
           Demo.parsed_docs (Some Demo.parsed_root) "./devices/disk" 1);
    reflexivity.
Defined.

(** The emission of the staged domain. *)
Lemma do_order_complete_witness :
  NoDup (do_order Demo.Guest ["cpu"; "description"; "name"; "memory"]) /\
  forall k,
    In k (do_order Demo.Guest ["cpu"; "description"; "name"; "memory"])
    <-> (In k ["cpu"; "description"; "name"; "memory"]
         /\ in_childprops Demo.Guest k = false)
        \/ in_childprops Demo.Guest k = true.
Proof.
  apply (do_order_complete Demo.Guest ["cpu"; "description"; "name"; "memory"]).
  distinct.
Defined.

Lemma wf_parsed_guest : wf_builder Demo.parsed_guest.
Proof. distinct. Qed.

Lemma typed_parsed_guest : typed Demo.parsed_guest.
Proof.
  repeat (constructor; try reflexivity).
Qed.

Lemma quiet_parsed_guest : quiet Demo.parsed_guest.
Proof.
  repeat (constructor; try (left; reflexivity)).
Qed.

(** The parsed domain with a name staged. *)
Lemma get_xml_parse_keeps_staged_witness :
  let b := fst (fst (setter Demo.name (VStr "vm2") true
                       (Demo.parsed_guest, Demo.parsed_docs))) in
  exists h' r,
    get_xml 3 (b, Demo.parsed_docs) = ((b, h'), r) /\
    frame (xmlapi (_xmlstate b)) Demo.parsed_docs h'.
Proof.
  cbv zeta.
  apply (get_xml_parse_keeps_staged (doc:=TreeDoc.doc) 3).
  - vm_compute. distinct.
  - reflexivity.
Defined.

(** The parsed domain as it was parsed. *)
Lemma get_xml_unstaged_witness :
  get_xml 2 (Demo.parsed_guest, Demo.parsed_docs)
  = ((Demo.parsed_guest, Demo.parsed_docs),
     inr (end_with_newline
            (api_get_xml
               (if is_build (_xmlstate Demo.parsed_guest)
                then copy_api (Some Demo.parsed_root)
                else Some Demo.parsed_root)
               (make_abs_xpath (_xmlstate Demo.parsed_guest) ".")))).
Proof.
  apply (get_xml_unstaged (doc:=TreeDoc.doc) 2 Demo.parsed_guest
           Demo.parsed_docs (Some Demo.parsed_root)).
  - apply wf_parsed_guest.
  - apply typed_parsed_guest.
  - apply quiet_parsed_guest.
  - vm_compute. lia.
  - reflexivity.
Defined.

Example get_xml_parsed_guest :
  get_xml 2 (Demo.parsed_guest, Demo.parsed_docs)
  = ((Demo.parsed_guest, Demo.parsed_docs),
     inr (Demo.parsed_text ++ String Py.newline EmptyString)).
Proof. vm_compute. reflexivity. Qed.

#[local] Existing Instance DemoData.namespaces.
#[local] Existing Instance DemoData.sanitized.

(** The classes of the small program. *)
Lemma demo_classes (c : string) :
  (c = "Guest" /\ class_of c = Demo.Guest)
  \/ (c <> "Guest"
      /\ (class_of c = Demo.CPU \/ class_of c = Demo.Disk
          \/ class_of c = Demo.Other)).
Proof.
  unfold class_of, Demo.env.
  destruct (String.eqb_spec c "Guest") as [->|Hne]; [now left|].
  right. split; [exact Hne|].
  destruct (String.eqb c "CPU"); [now left|].
  destruct (String.eqb c "Disk"); auto.
Qed.

Lemma demo_rank (c : string) (cp : XMLChildProperty) :
  In cp (_all_child_props (class_of c)) ->
  DemoData.rank (child_class cp) < DemoData.rank c.
Proof.
  destruct (demo_classes c) as [[-> ->] | [Hne [-> | [-> | ->]]]]; cbn;
    try contradiction.
  intros [<- | [<- | []]]; cbn; lia.
Qed.

Lemma demo_class_ok (c : string) : class_ok (class_of c) = true.
Proof.
  destruct (demo_classes c) as [[-> ->] | [Hne [-> | [-> | ->]]]]; reflexivity.
Qed.

Lemma demo_valid (c : string) : _validate_xmlbuilder (class_of c) = inr tt.
Proof.
  destruct (demo_classes c) as [[-> ->] | [Hne [-> | [-> | ->]]]]; reflexivity.
Qed.

Lemma demo_namespace (c : string) :
  exists ns, namespace_of (XML_NAME (class_of c)) = inr ns.
Proof.
  destruct (demo_classes c) as [[-> ->] | [Hne [-> | [-> | ->]]]];
    exists EmptyString; reflexivity.
Qed.

Lemma demo_sanitize (c : string) (cp : XMLChildProperty) :
  In cp (_all_child_props (class_of c)) ->
  _XML_SANITIZE (child_class cp) = false.
Proof.
  destruct (demo_classes c) as [[-> ->] | [Hne [-> | [-> | ->]]]]; cbn;
    try contradiction.
  intros [<- | [<- | []]]; reflexivity.
Qed.

(** The domain is constructed from its text. *)
Lemma construction_returns_witness :
  let st := Demo.state_at "domain" EmptyString EmptyString 0 false in
  exists ps,
    XMLBuilder__init__ 2 "Guest" (Some Demo.parsed_text) None None []
    = (Demo.parsed_docs, inr (mkXMLBuilder "Guest" ps st))
    /\ built (Some Demo.parsed_root) (mkXMLBuilder "Guest" ps st).
Proof.
  apply (construction_returns (doc:=TreeDoc.doc) DemoData.rank
           demo_rank demo_class_ok demo_valid demo_namespace demo_sanitize
           2 "Guest" (Some Demo.parsed_text) (Some Demo.parsed_text) []
           (Some Demo.parsed_root) EmptyString).
  - cbn. lia.
  - reflexivity.
  - reflexivity.
  - vm_compute. reflexivity.
Defined.

Example construction_parsed_guest :
  XMLBuilder__init__ 2 "Guest" (Some Demo.parsed_text) None None []
  = (Demo.parsed_docs, inr Demo.parsed_guest).
Proof. vm_compute. reflexivity. Qed.

Example construction_new_guest :
  XMLBuilder__init__ 2 "Guest" None None None []
  = (Demo.new_docs, inr Demo.new_guest).
Proof. vm_compute. reflexivity. Qed.

(** The disks of the domain constructed from its text. *)
Lemma constructed_children_witness :
  let cp := {| child_propname := "disks"; child_class := "Disk";
               is_single := false; relative_xpath := "./devices" |} in
  exists b,
    XMLBuilder__init__ 2 "Guest" (Some Demo.parsed_text) None None []
    = (Demo.parsed_docs, inr b)
    /\ is_build (_xmlstate b) = false
    /\ match OD.get "disks" (_propstore b) with
       | Some (PList l) =>
           List.length l
           = count (Some Demo.parsed_root)
                   (make_abs_xpath (_xmlstate b) (get_prop_xpath cp "Disk"))
           /\ 0 < count (Some Demo.parsed_root)
                        (make_abs_xpath (_xmlstate b) (get_prop_xpath cp "Disk"))
           /\ forall i o, nth_error l i = Some o ->
                          placed (_xmlstate b) cp (idxstr (i + 1)) o
       | _ => False
       end.
Proof.
  cbv zeta.
  destruct (constructed_children (doc:=TreeDoc.doc) DemoData.rank
              demo_rank demo_class_ok demo_valid demo_namespace demo_sanitize
              2 "Guest" (Some Demo.parsed_text) (Some Demo.parsed_text) []
              (Some Demo.parsed_root) EmptyString
              {| child_propname := "disks"; child_class := "Disk";
                 is_single := false; relative_xpath := "./devices" |})
    as (b & Hrun & Hbuild & Hheld).
  - cbn. lia.
  - reflexivity.
  - reflexivity.
  - vm_compute. reflexivity.
  - left. reflexivity.
  - exists b. split; [exact Hrun|]. split; [exact Hbuild|].
    cbv zeta in Hheld. cbn [is_single child_propname child_class] in Hheld.
    rewrite Hbuild in Hheld.
    destruct (OD.get "disks" (_propstore b)) as [[x|o|l]|]; try contradiction.
    + exact Hheld.
    + exfalso. revert Hheld.
      assert (Hb : b = Demo.parsed_guest).
      { assert (E : XMLBuilder__init__ 2 "Guest" (Some Demo.parsed_text)
                      None None []
                    = (Demo.parsed_docs, inr Demo.parsed_guest))
          by (vm_compute; reflexivity).
        rewrite E in Hrun. now injection Hrun as <-. }
      rewrite Hb. vm_compute. discriminate.
Defined.

(** The text of the domain, read and written back. *)
Lemma parse_then_render_witness :
  exists b,
    XMLBuilder__init__ 2 "Guest" (Some Demo.parsed_text) None None []
    = (Demo.parsed_docs, inr b)
    /\ get_xml 2 (b, Demo.parsed_docs)
       = ((b, Demo.parsed_docs),
          inr (end_with_newline (api_get_xml (Some Demo.parsed_root) "."))).
Proof.
  apply (parse_then_render (doc:=TreeDoc.doc) DemoData.rank
           demo_rank demo_class_ok demo_valid demo_namespace demo_sanitize
           2 2 "Guest" (Some Demo.parsed_text) (Some Demo.parsed_text) []
           (Some Demo.parsed_root) EmptyString).
  - cbn. lia.
  - cbn. lia.
  - reflexivity.
  - reflexivity.
  - reflexivity.
  - vm_compute. reflexivity.
Defined.

(** The parsed domain holds disks under [disks], and no two child
    descriptors of a domain have the same class. *)
Lemma homogeneous_parsed_guest : homogeneous Demo.parsed_guest.
Proof.
  intros cp l [<-|[<-|[]]]; cbn; intros [= <-].
  repeat constructor.
Qed.

Lemma classes_parsed_guest :
  NoDup (map child_class (_all_child_props (class_of (cls Demo.parsed_guest)))).
Proof. distinct. Qed.

Lemma set_xpaths_links_witness :
  exists b',
    _set_xpaths 2 (Some "/top") (Rel (Some "./domain"))
                (Demo.parsed_guest, Demo.parsed_docs)
    = ((b', Demo.parsed_docs), inr tt)
    /\ cls b' = cls Demo.parsed_guest
    /\ _xmlstate b' = moved (_xmlstate Demo.parsed_guest) (Some "/top")
                            (Rel (Some "./domain"))
    /\ linked b'.
Proof.
  apply (set_xpaths_links (doc:=TreeDoc.doc) 2).
  - apply wf_parsed_guest.
  - apply typed_parsed_guest.
  - vm_compute. lia.
Defined.

Example set_xpaths_parsed_guest :
  let b' := fst (fst (_set_xpaths 2 (Some "/top") (Rel (Some "./domain"))
                                  (Demo.parsed_guest, Demo.parsed_docs))) in
  abs_xpath (_xmlstate b') = "/top/domain" /\
  match OD.get "disks" (_propstore b') with
  | Some (PList l) => map (fun o => abs_xpath (_xmlstate o)) l
  | _ => []
  end = ["/top/domain/devices/disk[1]"; "/top/domain/devices/disk[2]"].
Proof. vm_compute. split; reflexivity. Qed.

Lemma parse_with_children_shares_witness :
  exists b',
    _parse_with_children 2 None (Some (_xmlstate Demo.new_guest))
      (Demo.parsed_guest, (Demo.new_docs ++ Demo.parsed_docs)%list)
    = ((b', (Demo.new_docs ++ Demo.parsed_docs)%list), inr tt)
    /\ cls b' = cls Demo.parsed_guest
    /\ _xmlstate b'
       = set_xmlapi
           (set_is_build (_xmlstate Demo.parsed_guest)
              (is_build (_xmlstate Demo.new_guest)
               || is_build (_xmlstate Demo.parsed_guest)))
           (xmlapi (_xmlstate Demo.new_guest))
    /\ everywhere
         (fun x => xmlapi (_xmlstate x) = xmlapi (_xmlstate Demo.new_guest)) b'.
Proof.
  apply (parse_with_children_shares (doc:=TreeDoc.doc) 2).
  - apply wf_parsed_guest.
  - apply typed_parsed_guest.
  - vm_compute. lia.
Defined.

Lemma parse_with_children_root_witness :
  exists b',
    _parse_with_children 2 (Some Demo.parsed_text) None
      (Demo.parsed_guest, Demo.new_docs)
    = ((b', (Demo.new_docs ++ [Some Demo.parsed_root])%list), inr tt)
    /\ cls b' = cls Demo.parsed_guest
    /\ _xmlstate b'
       = set_xmlapi (_xmlstate Demo.parsed_guest) (List.length Demo.new_docs)
    /\ everywhere
         (fun x => xmlapi (_xmlstate x) = List.length Demo.new_docs) b'.
Proof.
  apply (parse_with_children_root (doc:=TreeDoc.doc) 2).
  - apply wf_parsed_guest.
  - apply typed_parsed_guest.
  - vm_compute. lia.
  - vm_compute. reflexivity.
Defined.

Lemma set_child_xpaths_numbers_witness :
  exists b',
    _set_child_xpaths 1 (Demo.parsed_guest, Demo.parsed_docs)
    = ((b', Demo.parsed_docs), inr tt)
    /\ cls b' = cls Demo.parsed_guest
    /\ _xmlstate b' = _xmlstate Demo.parsed_guest
    /\ (forall cp,
          In cp (_all_child_props (class_of (cls Demo.parsed_guest))) ->
          numbered (_xmlstate Demo.parsed_guest) cp
                   (OD.get (child_propname cp) (_propstore Demo.parsed_guest))
                   (OD.get (child_propname cp) (_propstore b')))
    /\ (forall k,
          in_childprops (class_of (cls Demo.parsed_guest)) k = false ->
          OD.get k (_propstore b') = OD.get k (_propstore Demo.parsed_guest)).
Proof.
  apply (set_child_xpaths_numbers (doc:=TreeDoc.doc) 1).
  - apply wf_parsed_guest.
  - apply typed_parsed_guest.
  - apply homogeneous_parsed_guest.
  - apply classes_parsed_guest.
  - vm_compute. lia.
Defined.

(** The second disk of the parsed domain. *)
Lemma set_child_xpaths_idx_witness :
  exists b' l' o',
    _set_child_xpaths 1 (Demo.parsed_guest, Demo.parsed_docs)
    = ((b', Demo.parsed_docs), inr tt)
    /\ OD.get "disks" (_propstore b') = Some (PList l')
    /\ nth_error l' 1 = Some o'
    /\ cls o' = "Disk"
    /\ abs_xpath (_xmlstate o')
       = make_abs_xpath (_xmlstate Demo.parsed_guest) "./devices/disk"
         ++ idxstr 2
    /\ get_xml_idx o' = inr 1%Z.
Proof.
  refine (set_child_xpaths_idx (doc:=TreeDoc.doc) 1 Demo.parsed_guest
            Demo.parsed_docs
            {| child_propname := "disks"; child_class := "Disk";
               is_single := false; relative_xpath := "./devices" |}
            [Demo.parsed_disk 1; Demo.parsed_disk 2] 1 (Demo.parsed_disk 2)
            _ _ _ _ _ _ _ _).
  - apply wf_parsed_guest.
  - apply typed_parsed_guest.
  - apply homogeneous_parsed_guest.
  - apply classes_parsed_guest.
  - vm_compute. lia.
  - left. reflexivity.
  - reflexivity.
  - reflexivity.
Defined.

Lemma find_child_prop_spec_witness :
  (_find_child_prop Demo.Guest "Disk"
   = inr {| child_propname := "disks"; child_class := "Disk";
            is_single := false; relative_xpath := "./devices" |}
   <-> In {| child_propname := "disks"; child_class := "Disk";
             is_single := false; relative_xpath := "./devices" |}
          (_all_child_props Demo.Guest)
       /\ false = false /\ "Disk" = "Disk")
  /\ ((forall cp', In cp' (_all_child_props Demo.Guest) ->
                   is_single cp' = false -> child_class cp' <> "Disk") ->
      _find_child_prop Demo.Guest "Disk"
      = inl (RuntimeError
               "programming error: Didn't find child property for child_class")).
Proof.
  refine (find_child_prop_spec Demo.Guest "Disk"
            {| child_propname := "disks"; child_class := "Disk";
               is_single := false; relative_xpath := "./devices" |} _).
  distinct.
Defined.

(** A singular descriptor is not found: no list holds objects of the
    class of the [cpu] of a domain. *)
Example find_child_prop_single :
  _find_child_prop Demo.Guest "CPU"
  = inl (RuntimeError
           "programming error: Didn't find child property for child_class").
Proof. reflexivity. Qed.

(** The first disk of the parsed domain is taken out. *)
Lemma remove_child_detaches_witness :
  exists b' obj' l',
    remove_child 1 "disks" 0 (Demo.parsed_guest, Demo.parsed_docs)
    = ((b', list_set
              (Demo.parsed_docs
               ++ [Some (TreeDoc.Node "disk" [] EmptyString
                           [TreeDoc.Node "source" [("file", "/a.img")]
                                         EmptyString [];
                            TreeDoc.Node "address" [("port", "0x10")]
                                         EmptyString []])])%list
              0
              (node_force_remove (Some Demo.parsed_root)
                                 "./devices/disk[1]")),
       inr obj')
    /\ cls b' = "Guest"
    /\ _xmlstate b' = _xmlstate Demo.parsed_guest
    /\ OD.get "disks" (_propstore b') = Some (PList l')
    /\ numbered (_xmlstate Demo.parsed_guest)
                {| child_propname := "disks"; child_class := "Disk";
                   is_single := false; relative_xpath := "./devices" |}
                (Some (PList [Demo.parsed_disk 2])) (Some (PList l'))
    /\ (forall k, in_childprops Demo.Guest k = false ->
                  OD.get k (_propstore b')
                  = OD.get k (_propstore Demo.parsed_guest))
    /\ cls obj' = "Disk"
    /\ _xmlstate obj'
       = set_xmlapi (moved (_xmlstate (Demo.parsed_disk 1)) None (Rel None)) 1
    /\ everywhere (fun x => xmlapi (_xmlstate x) = 1) obj'.
Proof.
  refine (remove_child_detaches (doc:=TreeDoc.doc) 1 Demo.parsed_guest
            Demo.parsed_docs
            {| child_propname := "disks"; child_class := "Disk";
               is_single := false; relative_xpath := "./devices" |}
            [Demo.parsed_disk 1; Demo.parsed_disk 2] 0 (Demo.parsed_disk 1)
            (Some Demo.parsed_root) (Some Demo.parsed_root) _
            _ _ _ _ _ _ _ _ _ _ _ _).
  - apply wf_parsed_guest.
  - apply typed_parsed_guest.
  - apply homogeneous_parsed_guest.
  - apply classes_parsed_guest.
  - vm_compute. lia.
  - left. reflexivity.
  - reflexivity.
  - reflexivity.
  - repeat (constructor; try (left; reflexivity)).
  - reflexivity.
  - reflexivity.
  - vm_compute. reflexivity.
Defined.

Example remove_child_parsed_guest :
  let s := remove_child 1 "disks" 0 (Demo.parsed_guest, Demo.parsed_docs) in
  OD.get "disks" (_propstore (fst (fst s)))
  = Some (PList [Demo.parsed_disk 1]) /\
  nth_error (snd (fst s)) 0
  = Some (Some (TreeDoc.Node "domain" [("type", "kvm")] EmptyString
                  [TreeDoc.Node "name" [] "vm1" [];
                   TreeDoc.Node "devices" [] EmptyString
                     [TreeDoc.Node "disk" [] EmptyString
                        [TreeDoc.Node "source" [("file", "/b.img")]
                                      EmptyString []]]])).
Proof. vm_compute. split; reflexivity. Qed.

#[local] Existing Instance DemoSplice.splice.

Example rsplit_head_path :
  rsplit_head "/" "./devices/disk[3]" = "./devices"
  /\ rsplit_head "/" "disk" = "disk"
  /\ count_char "/" "./devices/disk[3]" = 2.
Proof. repeat split; reflexivity. Qed.

Lemma wf_new_guest : wf_builder Demo.new_guest.
Proof. distinct. Qed.

Lemma typed_new_guest : typed Demo.new_guest.
Proof. repeat (constructor; try reflexivity). Qed.

Lemma homogeneous_new_guest : homogeneous Demo.new_guest.
Proof. intros cp l [<-|[<-|[]]]; cbn; discriminate. Qed.

(** A disk parsed from a text of its own is attached to the parsed
    domain: its text goes into the document of the domain, under
    [./devices]. *)
Lemma add_child_attaches_witness :
  exists b' l' obj',
    add_child 1 (DemoSplice.loose_disk 1 false)
      (Demo.parsed_guest, (Demo.parsed_docs ++ [DemoSplice.loose_disk_doc])%list)
    = ((b',
        [Some (TreeDoc.Node "domain" [("type", "kvm")] EmptyString
                 [TreeDoc.Node "name" [] "vm1" [];
                  TreeDoc.Node "devices" [] EmptyString
                    [TreeDoc.Node "disk" [] EmptyString
                       [TreeDoc.Node "source" [("file", "/a.img")]
                                     EmptyString [];
                        TreeDoc.Node "address" [("port", "0x10")]
                                     EmptyString []];
                     TreeDoc.Node "disk" [] EmptyString
                       [TreeDoc.Node "source" [("file", "/b.img")]
                                     EmptyString []];
                     TreeDoc.Node "disk" [] EmptyString
                       [TreeDoc.Node "source" [("file", "/c.img")]
                                     EmptyString []]]]);
         DemoSplice.loose_disk_doc]),
       inr obj')
    /\ OD.get "disks" (_propstore b') = Some (PList (l' ++ [obj']))
    /\ numbered (_xmlstate Demo.parsed_guest)
                {| child_propname := "disks"; child_class := "Disk";
                   is_single := false; relative_xpath := "./devices" |}
                (Some (PList [Demo.parsed_disk 1; Demo.parsed_disk 2]))
                (Some (PList l'))
    /\ _xmlstate obj'
       = Demo.state_at "disk" "." "./devices/disk[3]" 0 false.
Proof.
  destruct (add_child_attaches (doc:=TreeDoc.doc) 1 Demo.parsed_guest
              (Demo.parsed_docs ++ [DemoSplice.loose_disk_doc])%list
              {| child_propname := "disks"; child_class := "Disk";
                 is_single := false; relative_xpath := "./devices" |}
              [Demo.parsed_disk 1; Demo.parsed_disk 2]
              (DemoSplice.loose_disk 1 false)
              ("<disk><source file='/c.img'/></disk>"
               ++ String Py.newline EmptyString)
              (Some Demo.parsed_root))
    as (b' & l' & obj' & Hrun & _ & _ & Hget & Hnum & _ & Hst & _).
  - apply wf_parsed_guest.
  - apply typed_parsed_guest.
  - apply homogeneous_parsed_guest.
  - apply classes_parsed_guest.
  - vm_compute. lia.
  - left. reflexivity.
  - left. reflexivity.
  - distinct.
  - repeat (constructor; try reflexivity).
  - vm_compute. lia.
  - reflexivity.
  - vm_compute. reflexivity.
  - right. reflexivity.
  - exists b', l', obj'. split; [exact Hrun|]. split; [exact Hget|].
    split; [exact Hnum | exact Hst].
Defined.

Lemma add_child_splices_witness :
  exists b' obj',
    add_child 1 (DemoSplice.loose_disk 1 false)
      (Demo.parsed_guest, (Demo.parsed_docs ++ [DemoSplice.loose_disk_doc])%list)
    = ((b', list_set (Demo.parsed_docs ++ [DemoSplice.loose_disk_doc])%list 0
              (node_add_xml (Some Demo.parsed_root)
                 (xml_indent ("<disk><source file='/c.img'/></disk>"
                              ++ String Py.newline EmptyString)
                             (2 * (count_char "/" "./devices" + 1)))
                 "./devices")),
       inr obj')
    /\ is_build (_xmlstate obj') = false
    /\ xmlapi (_xmlstate obj') = 0.
Proof.
  refine (add_child_splices (doc:=TreeDoc.doc) 1 Demo.parsed_guest
            (Demo.parsed_docs ++ [DemoSplice.loose_disk_doc])%list
            {| child_propname := "disks"; child_class := "Disk";
               is_single := false; relative_xpath := "./devices" |}
            [Demo.parsed_disk 1; Demo.parsed_disk 2]
            (DemoSplice.loose_disk 1 false)
            ("<disk><source file='/c.img'/></disk>"
             ++ String Py.newline EmptyString)
            (Some Demo.parsed_root) _ _ _ _ _ _ _ _ _ _ _ _ _ _ _).
  - apply wf_parsed_guest.
  - apply typed_parsed_guest.
  - apply homogeneous_parsed_guest.
  - apply classes_parsed_guest.
  - vm_compute. lia.
  - left. reflexivity.
  - left. reflexivity.
  - distinct.
  - repeat (constructor; try reflexivity).
  - vm_compute. lia.
  - reflexivity.
  - vm_compute. reflexivity.
  - reflexivity.
  - reflexivity.
  - reflexivity.
Defined.

(** A disk built from scratch is attached to a domain built from
    scratch: [get_xml] of the disk returns its stub, and the disk is the
    first of the list. *)
Lemma add_child_build_witness :
  exists b' l' obj',
    add_child 1 (DemoSplice.loose_disk 1 true)
      (Demo.new_guest, (Demo.new_docs ++ Demo.new_disk_docs)%list)
    = ((b', (Demo.new_docs ++ Demo.new_disk_docs)%list), inr obj')
    /\ OD.get "disks" (_propstore b') = Some (PList (l' ++ [obj']))
    /\ List.length l' = 0
    /\ cls obj' = "Disk"
    /\ is_build (_xmlstate obj') = true
    /\ xmlapi (_xmlstate obj') = 0
    /\ abs_xpath (_xmlstate obj')
       = make_abs_xpath (_xmlstate Demo.new_guest) "./devices/disk"
         ++ idxstr 1
    /\ get_xml_idx obj' = inr 0%Z.
Proof.
  destruct (add_child_build (doc:=TreeDoc.doc) 1 Demo.new_guest
              (Demo.new_docs ++ Demo.new_disk_docs)%list
              {| child_propname := "disks"; child_class := "Disk";
                 is_single := false; relative_xpath := "./devices" |}
              [] (DemoSplice.loose_disk 1 true)) as (r & Hxml & Hrun).
  - apply wf_new_guest.
  - apply typed_new_guest.
  - apply homogeneous_new_guest.
  - distinct.
  - vm_compute. lia.
  - left. reflexivity.
  - right. split; reflexivity.
  - distinct.
  - repeat (constructor; try reflexivity).
  - vm_compute. lia.
  - reflexivity.
  - reflexivity.
  - vm_compute in Hxml. injection Hxml as <-. exact Hrun.
Defined.

Example add_child_new_disk :
  let s := add_child 1 (DemoSplice.loose_disk 1 true)
             (Demo.new_guest, (Demo.new_docs ++ Demo.new_disk_docs)%list) in
  snd (fst s) = (Demo.new_docs ++ Demo.new_disk_docs)%list
  /\ snd s = inr (mkXMLBuilder "Disk" []
                    (Demo.state_at "disk" "." "./devices/disk[1]" 0 true)).
Proof. vm_compute. split; reflexivity. Qed.

(** A new disk is asked of the list of disks of the parsed domain:
    [get_xml] of the new disk returns its stub, and the disk is the third
    of the list. *)
Lemma add_new_appends_witness :
  exists b' l' obj',
    XMLChildList_add_new 1
      {| child_propname := "disks"; child_class := "Disk";
         is_single := false; relative_xpath := "./devices" |}
      (Demo.parsed_guest, Demo.parsed_docs)
    = ((b', (Demo.parsed_docs ++ Demo.new_disk_docs)%list), inr obj')
    /\ OD.get "disks" (_propstore b') = Some (PList (l' ++ [obj']))
    /\ List.length l' = 2
    /\ cls obj' = "Disk"
    /\ is_build (_xmlstate obj') = true
    /\ xmlapi (_xmlstate obj') = 0
    /\ abs_xpath (_xmlstate obj')
       = make_abs_xpath (_xmlstate Demo.parsed_guest) "./devices/disk"
         ++ idxstr 3
    /\ get_xml_idx obj' = inr 2%Z.
Proof.
  destruct (add_new_appends (doc:=TreeDoc.doc) DemoData.rank
              demo_rank demo_class_ok demo_valid demo_namespace demo_sanitize
              1 Demo.parsed_guest Demo.parsed_docs
              {| child_propname := "disks"; child_class := "Disk";
                 is_single := false; relative_xpath := "./devices" |}
              [Demo.parsed_disk 1; Demo.parsed_disk 2]
              (Some (TreeDoc.Node "disk" [] EmptyString [])) EmptyString)
    as (obj & r & Hnew & _ & _ & Hxml & Hrun).
  - apply wf_parsed_guest.
  - apply typed_parsed_guest.
  - apply homogeneous_parsed_guest.
  - vm_compute. lia.
  - vm_compute. lia.
  - left. reflexivity.
  - left. reflexivity.
  - reflexivity.
  - vm_compute. reflexivity.
  - vm_compute in Hnew. injection Hnew as <-.
    vm_compute in Hxml. injection Hxml as <-. exact Hrun.
Defined.

Example add_new_parsed_guest :
  let s := XMLChildList_add_new 1
             {| child_propname := "disks"; child_class := "Disk";
                is_single := false; relative_xpath := "./devices" |}
             (Demo.parsed_guest, Demo.parsed_docs) in
  nth_error (snd (fst s)) 0 = Some (Some Demo.parsed_root)
  /\ snd s = inr (mkXMLBuilder "Disk" []
                    (Demo.state_at "disk" "." "./devices/disk[3]" 0 true)).
Proof. vm_compute. split; reflexivity. Qed.

(** The first disk of the parsed domain, with a path staged, is
    cleared. *)
Lemma clear_leaf_witness :
  let b := fst (fst (setter Demo.path (VStr "/x.img") true
                       (Demo.parsed_disk 1, Demo.parsed_docs))) in
  exists b',
    clear 1 false (b, Demo.parsed_docs)
    = ((b', list_set Demo.parsed_docs 0
              (node_clear (Some Demo.parsed_root) "./devices/disk[1]")),
       inr tt)
    /\ cls b' = "Disk" /\ _xmlstate b' = _xmlstate (Demo.parsed_disk 1)
    /\ (forall k, OD.mem k (_propstore b') = OD.mem k (_propstore b))
    /\ (forall k,
          OD.get k (_propstore b')
          = if OD.mem k (_propstore b) && in_xmlprops Demo.Disk k
            then Some (PVal VNone) else OD.get k (_propstore b)).
Proof.
  cbv zeta.
  refine (clear_leaf (doc:=TreeDoc.doc) 0 false _ Demo.parsed_docs
            (Some Demo.parsed_root) _ _ _ _).
  - reflexivity.
  - intros p [<-|[<-|[<-|[<-|[]]]]]; reflexivity.
  - intros p cb b' [<-|[<-|[<-|[<-|[]]]]]; discriminate.
  - reflexivity.
Defined.

Example clear_staged_disk :
  let b := fst (fst (setter Demo.path (VStr "/x.img") true
                       (Demo.parsed_disk 1, Demo.parsed_docs))) in
  let s := clear 1 false (b, Demo.parsed_docs) in
  _propstore (fst (fst s)) = [("path", PVal VNone)]
  /\ getter Demo.path (fst s) = (fst s, inr VNone)
  /\ snd (fst s)
     = [Some (TreeDoc.Node "domain" [("type", "kvm")] EmptyString
                [TreeDoc.Node "name" [] "vm1" [];
                 TreeDoc.Node "devices" [] EmptyString
                   [TreeDoc.Node "disk" [] EmptyString [];
                    TreeDoc.Node "disk" [] EmptyString
                      [TreeDoc.Node "source" [("file", "/b.img")]
                                    EmptyString []]]])].
Proof. vm_compute. repeat split; reflexivity. Qed.

End Runs.
